(** * The Next.js adapter of firebase-tools: backend decision and static output

    A shallow embedding of [src/frameworks/next/index.ts]: the classification
    pass [build], which decides whether a Cloud Function is needed, and the
    static materializer [ɵcodegenPublicDirectory], which copies prerendered
    artifacts into the Hosting directory.

    The functions imported from [./utils], [../utils], [./constants],
    [../constants] and from Node ([path], [RegExp], [fs]) are not part of the
    embedded file; they appear as the interfaces [NextUtils] and [NodeLib] and
    as the oracle fields of the environments. *)

From Stdlib Require Import String Ascii List Bool ZArith Lia DecimalString.
Import ListNotations.
Open Scope string_scope.

(** ** JavaScript values *)

Module Js.

(** [Set<string>]: a set that remembers the order of insertion. *)
Definition has (s : list string) (x : string) : bool := existsb (String.eqb x) s.

Definition add (s : list string) (x : string) : list string :=
  if has s x then s else (s ++ [x])%list.

Definition addAll (s xs : list string) : list string := fold_left add xs s.

Definition delete (s : list string) (x : string) : list string :=
  filter (fun y => negb (String.eqb x y)) s.

(** Plain objects with string keys, in the order [Object.entries] lists them
    (route paths are never integer-like keys). *)
Definition Obj (V : Type) : Type := list (string * V).

Definition keys {V} (o : Obj V) : list string := map fst o.

Fixpoint get {V} (o : Obj V) (k : string) : option V :=
  match o with
  | [] => None
  | (k', v) :: o' => if String.eqb k' k then Some v else get o' k
  end.

(** [o[k] = v]: an existing key keeps its position, a new one goes last. *)
Fixpoint set {V} (o : Obj V) (k : string) (v : V) : Obj V :=
  match o with
  | [] => [(k, v)]
  | (k', v') :: o' =>
      if String.eqb k' k then (k', v) :: o' else (k', v') :: set o' k v
  end.

(** [{...a, ...b}] *)
Definition spread {V} (a b : Obj V) : Obj V :=
  fold_left (fun o kv => set o (fst kv) (snd kv)) b a.

Definition fromEntries {V} (l : list (string * V)) : Obj V := spread [] l.

(** [s.split(sep)] for a one-character separator. *)
Fixpoint split (sep : ascii) (s : string) : list string :=
  match s with
  | EmptyString => [EmptyString]
  | String c rest =>
      if Ascii.eqb c sep then EmptyString :: split sep rest
      else match split sep rest with
           | [] => [String c EmptyString]
           | hd :: tl => String c hd :: tl
           end
  end.

Definition endsWith (s suffix : string) : bool :=
  (String.length suffix <=? String.length s)%nat &&
  String.eqb
    (substring (String.length s - String.length suffix) (String.length suffix) s)
    suffix.

(** Truthiness of a string: only the empty string is falsy. *)
Definition truthy (s : string) : bool := negb (String.eqb s "").

(** Truthiness of [string | null | undefined | false]. *)
Definition truthyOpt (o : option string) : bool :=
  match o with Some s => truthy s | None => false end.

(** [`${x}`] for [x : string | null]. *)
Definition template (o : option string) : string :=
  match o with Some s => s | None => "null" end.

Definition ofNat (n : nat) : string := NilEmpty.string_of_uint (Nat.to_uint n).

(** [a.slice(start)] and [a.slice(0, n)]. *)
Definition sliceFrom {A} (start : nat) (a : list A) : list A := skipn start a.
Definition sliceTo {A} (n : nat) (a : list A) : list A := firstn n a.

End Js.

(** ** Manifests *)

Definition RegExp : Type := string.

(** A header, redirect or rewrite rule of the routes manifest, as the JS object
    it is: fields a kind does not have are left empty. *)
Module Rule.
Record t : Type := mk {
  source : string;
  destination : string;
  regex : string;
  statusCode : Z;
  headers : list (string * string);
  has : option (list string);
  missing : option (list string);
  internal : bool
}.
End Rule.

Inductive Rewrites : Type :=
| RewritesArray (rules : list Rule.t)
| RewritesObject (beforeFiles afterFiles fallback : option (list Rule.t)).

Module DomainLocale.
Record t : Type := mk {
  domain : string;
  defaultLocale : string;
  locales : option (list string)
}.
End DomainLocale.

Module I18n.
Record t : Type := mk {
  locales : list string;
  defaultLocale : string;
  domains : option (list DomainLocale.t)
}.
End I18n.

Module RoutesManifest.
Record t : Type := mk {
  headers : option (list Rule.t);
  redirects : option (list Rule.t);
  rewrites : option Rewrites;
  i18n : option I18n.t
}.
End RoutesManifest.

(** [fallback: false | true | "blocking" | null | <path of the fallback page>] *)
Inductive Fallback : Type :=
| FallbackFalse
| FallbackTrue
| FallbackNull
| FallbackString (s : string).

Definition fallbackIsNotFalse (f : Fallback) : bool :=
  match f with FallbackFalse => false | _ => true end.

(** [initialRevalidateSeconds: number | false] *)
Inductive Revalidate : Type :=
| RevalidateFalse
| RevalidateSeconds (n : Z).

Definition revalidateTruthy (r : Revalidate) : bool :=
  match r with RevalidateFalse => false | RevalidateSeconds n => negb (n =? 0)%Z end.

Module PrerenderRoute.
Record t : Type := mk {
  srcRoute : option string;
  initialRevalidateSeconds : Revalidate;
  dataRoute : option string;
  experimentalPPR : bool;
  prefetchDataRoute : option string
}.
End PrerenderRoute.

Module PrerenderManifest.
Record t : Type := mk {
  routes : Js.Obj PrerenderRoute.t;
  (** [None]: the key is absent from the JSON ([build] guards one of its two
      uses with [|| {}]). *)
  dynamicRoutes : option (Js.Obj Fallback)
}.
End PrerenderManifest.

Definition PagesManifest : Type := Js.Obj string.
Definition AppPathsManifest : Type := Js.Obj string.
Definition AppPathRoutesManifest : Type := Js.Obj string.
Definition MiddlewareManifest : Type := list RegExp.

Module ActionManifest.
Record t : Type := mk {
  node : Js.Obj (list string);
  edge : Js.Obj (list string);
  encryptionKey : string
}.
End ActionManifest.

Module HostingHeader.
Record t : Type := mk { source : string; headers : list (string * string) }.
End HostingHeader.

Module HostingRedirect.
Record t : Type := mk { source : string; destination : string; type : Z }.
End HostingRedirect.

Module HostingRewrite.
Record t : Type := mk { source : string; destination : string }.
End HostingRewrite.

Module AppMetadata.
Record t : Type := mk {
  headers : list HostingHeader.t;
  pprRoutes : list string
}.
End AppMetadata.

Module BuildResult.
Record t : Type := mk {
  wantsBackend : bool;
  headers : list HostingHeader.t;
  redirects : list HostingRedirect.t;
  rewrites : list HostingRewrite.t;
  trailingSlash : bool;
  i18n : bool;
  baseUrl : string
}.
End BuildResult.

(** ** Imported functions *)

(** The pure helpers [index.ts] imports from [./utils] and the constant it
    imports from [../constants]. *)
Class NextUtils : Type := {
  cleanEscapedChars : string -> string;
  cleanI18n : Rule.t -> Rule.t;
  isHeaderSupportedByHosting : Rule.t -> bool;
  isRedirectSupportedByHosting : Rule.t -> bool;
  isRewriteSupportedByHosting : Rule.t -> bool;
  getNextjsRewritesToUse : Rewrites -> list Rule.t;
  getNonStaticRoutes : PagesManifest -> list string -> list string -> list string;
  getNonStaticServerComponents :
    AppPathsManifest -> AppPathRoutesManifest -> list string -> list string -> list string;
  getRoutesWithServerAction : ActionManifest.t -> AppPathRoutesManifest -> list string;
  getMiddlewareMatcherRegexes : MiddlewareManifest -> list RegExp;
  I18N_ROOT : string
}.

(** Node's [path.join], [path.basename], [path.dirname] and
    [String.prototype.match] with a regular expression. *)
Class NodeLib : Type := {
  join : list string -> string;
  basename : string -> string;
  dirname : string -> string;
  regexMatch : RegExp -> string -> bool;
  (** [path.join] answers ["."] rather than the empty string. *)
  join_truthy : forall segments, Js.truthy (join segments) = true
}.

(** ** Effects and errors *)

Inductive ManifestFile : Type :=
| MIDDLEWARE_MANIFEST
| PAGES_MANIFEST
| PRERENDER_MANIFEST
| ROUTES_MANIFEST
| APP_PATH_ROUTES_MANIFEST
| APP_PATHS_MANIFEST
| SERVER_REFERENCE_MANIFEST.

Inductive Error : Type :=
| FirebaseError (message : string)
| ManifestMissing (file : ManifestFile)
| ManifestMalformed (file : ManifestFile)
| TypeError (message : string)
(** An error of another class ([new Error(..)], an error of [fs]). *)
| OtherError (message : string).

Inductive Effect : Type :=
| Spawn (command : string) (args : list string)
| ReadJSON (file : ManifestFile)
| LogInfo (message : string)
| LogDebug (message : string)
| ConsoleError (message : string)
| Mkdir (path : string)
| Copy (src dest : string)
| CopyFile (src dest : string).

Inductive Outcome (A : Type) : Type :=
| Ok (a : A)
| Throw (e : Error).
Arguments Ok {A} a.
Arguments Throw {A} e.

(** An async function: the effects it performed, then its value or the error
    it rejected with. *)
Definition M (A : Type) : Type := (list Effect * Outcome A)%type.

Definition ret {A} (a : A) : M A := ([], Ok a).
Definition throw {A} (e : Error) : M A := ([], Throw e).
Definition emit (e : Effect) : M unit := ([e], Ok tt).
Definition emitAll (es : list Effect) : M unit := (es, Ok tt).

Definition bind {A B} (m : M A) (f : A -> M B) : M B :=
  match m with
  | (t, Ok a) => let '(t', r) := f a in ((t ++ t')%list, r)
  | (t, Throw e) => (t, Throw e)
  end.

Notation "x <- m ;; k" := (bind m (fun x => k))
  (at level 61, m at next level, right associativity).
Notation "m ;;; k" := (bind m (fun _ => k))
  (at level 61, right associativity).

Definition trace {A} (m : M A) : list Effect := fst m.
Definition outcome {A} (m : M A) : Outcome A := snd m.

(** What is on disk where a manifest is expected. *)
Inductive File (A : Type) : Type :=
| Present (content : A)
| Missing
| Malformed.
Arguments Present {A} content.
Arguments Missing {A}.
Arguments Malformed {A}.

(** Modelled from the spec: [readJSON] of [../utils], which [src/] does not
    contain; it "fails with ManifestMissing when absent" and "with
    ManifestMalformed when JSON parsing fails". The type argument is a cast:
    the shape of the parsed value is not checked. *)
Definition readJSON {A} (name : ManifestFile) (f : File A) : M A :=
  emit (ReadJSON name) ;;;
  match f with
  | Present a => ret a
  | Missing => throw (ManifestMissing name)
  | Malformed => throw (ManifestMalformed name)
  end.

Definition readError {A} (name : ManifestFile) (f : File A) : Error :=
  match f with
  | Malformed => ManifestMalformed name
  | Present _ | Missing => ManifestMissing name
  end.

(** [p.catch(() => d)] *)
Definition catch {A} (m : M A) (d : A) : M A :=
  match m with
  | (t, Ok a) => (t, Ok a)
  | (t, Throw _) => (t, Ok d)
  end.

(** [await f(..)] for an imported function [f]: the call rejects with the
    error the environment gives for it, or answers [value]. *)
Definition awaited {A} (rejection : option Error) (value : A) : M A :=
  match rejection with
  | Some e => throw e
  | None => ret value
  end.

(** How the spawned [next build] ends: the ["error"] event or the ["exit"]
    event, whichever settles the promise. *)
Inductive ProcessEnd : Type :=
| ProcessError (err : string)
| ProcessExit (code : option Z).

(** ** Environments *)

Module NextConfig.
Record t : Type := mk {
  distDir : string;
  trailingSlash : bool;
  basePath : string;
  i18n : option I18n.t
}.
End NextConfig.

(** What [build] awaits, the spawned process and the reads of the manifests
    apart: the calls before the spawn taken together ([warnIfCustomBuildScript]
    at line 122, [pathExists], [readFile] and [parseStrict] at lines 136-137,
    [getDeploymentDomain] at line 145), [getConfig] (line 175, with its
    [throw]s of lines 755, 766 and 770) and the helpers of [./utils] that look
    at the file system. *)
Inductive BuildCall : Type :=
| BeforeSpawn
| GetConfig
| IsUsingMiddleware
| IsUsingImageOptimization
| GetAppMetadataFromMetaFiles
| HasStaticAppNotFoundComponent.

(** Everything [build] obtains from outside: the spawned process, the loaded
    configuration, the manifests on disk and the answers of the helpers of
    [./utils] that look at the file system. [rejects] gives the error an
    awaited call rejects with, if it does; the fields named after the
    functions give what they answer otherwise. *)
Module BuildEnv.
Record t : Type := mk {
  cli : string;
  nextBuildOutput : list string;
  nextBuildEnd : ProcessEnd;
  rejects : BuildCall -> option Error;
  config : NextConfig.t;
  isUsingMiddleware : bool;
  isUsingImageOptimization : bool;
  prerenderManifest : File PrerenderManifest.t;
  pagesManifest : File PagesManifest;
  routesManifest : File RoutesManifest.t;
  appPathsManifest : File AppPathsManifest;
  appPathRoutesManifest : File AppPathRoutesManifest;
  serverReferenceManifest : File ActionManifest.t;
  getAppMetadataFromMetaFiles : AppPathRoutesManifest -> AppMetadata.t;
  hasStaticAppNotFoundComponent : bool;
  DEBUG : bool
}.
End BuildEnv.

(** The value [build] returns, next to the local [reasonsForBackend] it was
    computed from. *)
Module BuildLocals.
Record t : Type := mk {
  reasonsForBackend : list string;
  result : BuildResult.t
}.
End BuildLocals.

Definition DEFAULT_NUMBER_OF_REASONS_TO_LIST : nat := 5.

Definition orElse {A} (o : option A) (d : A) : A :=
  match o with Some a => a | None => d end.

Definition isSome {A} (o : option A) : bool :=
  match o with Some _ => true | None => false end.

(** [a?.length] as a condition. *)
Definition lengthTruthy {A} (o : option (list A)) : bool :=
  match o with Some (_ :: _) => true | _ => false end.

(** [readJSON(..).catch(() => undefined)] *)
Definition readJSONOrUndefined {A} (name : ManifestFile) (f : File A) : M (option A) :=
  catch (a <- readJSON name f ;; ret (Some a)) None.

(** ** [build] *)

Section Build.

Context {utils : NextUtils}.

(** Lines 161-172: the promise around the spawned [next build]. *)
Definition nextBuild (env : BuildEnv.t) : M (option Z) :=
  emit (Spawn (BuildEnv.cli env) ["build"]) ;;;
  emitAll (map LogInfo (BuildEnv.nextBuildOutput env)) ;;;
  match BuildEnv.nextBuildEnd env with
  | ProcessError err => throw (FirebaseError ("Unable to build your Next.js app: " ++ err))
  | ProcessExit code => ret code
  end.

(** Lines 177-183, with what the two helpers answer. *)
Definition addFeatureReasons (env : BuildEnv.t) (reasonsForBackend : list string) : list string :=
  let reasonsForBackend :=
    if BuildEnv.isUsingMiddleware env
    then Js.add reasonsForBackend "middleware" else reasonsForBackend in
  if BuildEnv.isUsingImageOptimization env
  then Js.add reasonsForBackend "Image Optimization" else reasonsForBackend.

Definition dynamicRoutesWithFallback (prerenderManifest : PrerenderManifest.t)
  : list (string * Fallback) :=
  filter (fun it => fallbackIsNotFalse (snd it))
         (orElse (PrerenderManifest.dynamicRoutes prerenderManifest) []).

Definition routesWithRevalidate (prerenderManifest : PrerenderManifest.t)
  : list (string * PrerenderRoute.t) :=
  filter (fun it => revalidateTruthy (PrerenderRoute.initialRevalidateSeconds (snd it)))
         (PrerenderManifest.routes prerenderManifest).

(** Lines 189-205. *)
Definition addPrerenderReasons (prerenderManifest : PrerenderManifest.t)
  (reasonsForBackend : list string) : list string :=
  let withFallback := dynamicRoutesWithFallback prerenderManifest in
  let reasonsForBackend :=
    if (0 <? List.length withFallback)%nat
    then Js.addAll reasonsForBackend
           (map (fun it => "use of fallback " ++ fst it) withFallback)
    else reasonsForBackend in
  let withRevalidate := routesWithRevalidate prerenderManifest in
  if (0 <? List.length withRevalidate)%nat
  then Js.addAll reasonsForBackend
         (map (fun it => "use of revalidate " ++ Js.template (PrerenderRoute.srcRoute (snd it)))
              withRevalidate)
  else reasonsForBackend.

(** Lines 213-217. *)
Definition addUnrenderedPages (pagesManifestJSON : PagesManifest)
  (prerenderedRoutes dynamicRoutes : list string) (reasonsForBackend : list string)
  : list string :=
  Js.addAll reasonsForBackend
    (map (fun key => "non-static route " ++ key)
         (getNonStaticRoutes pagesManifestJSON prerenderedRoutes dynamicRoutes)).

(** Lines 228-231. *)
Definition isEveryHeaderSupported (nextJsHeaders : list Rule.t) : bool :=
  forallb isHeaderSupportedByHosting (map cleanI18n nextJsHeaders).

Definition addAdvancedHeaders (nextJsHeaders : list Rule.t)
  (reasonsForBackend : list string) : list string :=
  if negb (isEveryHeaderSupported nextJsHeaders)
  then Js.add reasonsForBackend "advanced headers" else reasonsForBackend.

(** Lines 233-240. *)
Definition hostingHeaders (nextJsHeaders : list Rule.t) : list HostingHeader.t :=
  map (fun it => HostingHeader.mk (cleanEscapedChars (Rule.source it)) (Rule.headers it))
      (filter isHeaderSupportedByHosting (map cleanI18n nextJsHeaders)).

(** Lines 275-280. *)
Definition dropStaticNotFound (env : BuildEnv.t) (unrenderedServerComponents : list string)
  : list string :=
  match find (fun key => Js.has unrenderedServerComponents key)
             ["/_not-found"; "/_not-found/page"] with
  | Some notFoundPageKey =>
      if Js.truthy notFoundPageKey && BuildEnv.hasStaticAppNotFoundComponent env
      then Js.delete unrenderedServerComponents notFoundPageKey
      else unrenderedServerComponents
  | None => unrenderedServerComponents
  end.

(** Lines 263-265. *)
Definition addPprRoutes (pprRoutes : list string) (reasonsForBackend : list string)
  : list string :=
  Js.addAll reasonsForBackend (map (fun route => "route with PPR " ++ route) pprRoutes).

(** Lines 267-285. *)
Definition addUnrenderedServerComponents (env : BuildEnv.t)
  (appPathsManifest : option AppPathsManifest) (appPathRoutesManifest : AppPathRoutesManifest)
  (prerenderedRoutes dynamicRoutes : list string) (reasonsForBackend : list string)
  : list string :=
  match appPathsManifest with
  | Some appPathsManifest =>
      let unrenderedServerComponents :=
        dropStaticNotFound env
          (getNonStaticServerComponents appPathsManifest appPathRoutesManifest
             prerenderedRoutes dynamicRoutes) in
      Js.addAll reasonsForBackend
        (map (fun key => "non-static component " ++ key) unrenderedServerComponents)
  | None => reasonsForBackend
  end.

(** Lines 287-296. *)
Definition addServerActions (serverReferenceManifest : option ActionManifest.t)
  (appPathRoutesManifest : AppPathRoutesManifest) (reasonsForBackend : list string)
  : list string :=
  match serverReferenceManifest with
  | Some serverReferenceManifest =>
      Js.addAll reasonsForBackend
        (map (fun key => "route with server action " ++ key)
             (getRoutesWithServerAction serverReferenceManifest appPathRoutesManifest))
  | None => reasonsForBackend
  end.

(** Lines 254-297: the reasons of the block guarded by [if (appPathRoutesManifest)]. *)
Definition addAppReasons (env : BuildEnv.t)
  (appPathsManifest : option AppPathsManifest)
  (appPathRoutesManifest : option AppPathRoutesManifest)
  (serverReferenceManifest : option ActionManifest.t)
  (prerenderedRoutes dynamicRoutes : list string) (reasonsForBackend : list string)
  : list string :=
  match appPathRoutesManifest with
  | Some appPathRoutesManifest =>
      let meta := BuildEnv.getAppMetadataFromMetaFiles env appPathRoutesManifest in
      let reasonsForBackend := addPprRoutes (AppMetadata.pprRoutes meta) reasonsForBackend in
      let reasonsForBackend :=
        addUnrenderedServerComponents env appPathsManifest appPathRoutesManifest
          prerenderedRoutes dynamicRoutes reasonsForBackend in
      addServerActions serverReferenceManifest appPathRoutesManifest reasonsForBackend
  | None => reasonsForBackend
  end.

(** Line 261: [headers.push(...headersFromMetaFiles)]. *)
Definition pushMetaHeaders (env : BuildEnv.t)
  (appPathRoutesManifest : option AppPathRoutesManifest) (headers : list HostingHeader.t)
  : list HostingHeader.t :=
  match appPathRoutesManifest with
  | Some appPathRoutesManifest =>
      (headers ++
       AppMetadata.headers (BuildEnv.getAppMetadataFromMetaFiles env appPathRoutesManifest))%list
  | None => headers
  end.

(** Lines 299-304. *)
Definition isEveryRedirectSupported (nextJsRedirects : list Rule.t) : bool :=
  forallb isRedirectSupportedByHosting
          (filter (fun it => negb (Rule.internal it)) nextJsRedirects).

Definition addAdvancedRedirects (nextJsRedirects : list Rule.t)
  (reasonsForBackend : list string) : list string :=
  if negb (isEveryRedirectSupported nextJsRedirects)
  then Js.add reasonsForBackend "advanced redirects" else reasonsForBackend.

(** Lines 306-314. *)
Definition hostingRedirects (nextJsRedirects : list Rule.t) : list HostingRedirect.t :=
  map (fun it => HostingRedirect.mk (cleanEscapedChars (Rule.source it))
                                    (Rule.destination it) (Rule.statusCode it))
      (filter isRedirectSupportedByHosting (map cleanI18n nextJsRedirects)).

(** Lines 319-324: [rewrites.afterFiles] and [rewrites.fallback] are not
    supported by firebase.json. *)
Definition usesAfterFilesOrFallback (nextJsRewrites : Rewrites) : bool :=
  match nextJsRewrites with
  | RewritesArray _ => false
  | RewritesObject _ afterFiles fallback => lengthTruthy afterFiles || lengthTruthy fallback
  end.

(** Lines 326-329. *)
Definition isEveryRewriteSupported (nextJsRewrites : Rewrites) : bool :=
  forallb isRewriteSupportedByHosting (getNextjsRewritesToUse nextJsRewrites).

Definition addAdvancedRewrites (nextJsRewrites : Rewrites)
  (reasonsForBackend : list string) : list string :=
  let reasonsForBackend :=
    if usesAfterFilesOrFallback nextJsRewrites
    then Js.add reasonsForBackend "advanced rewrites" else reasonsForBackend in
  if negb (isEveryRewriteSupported nextJsRewrites)
  then Js.add reasonsForBackend "advanced rewrites" else reasonsForBackend.

(** Lines 331-338. *)
Definition hostingRewrites (nextJsRewrites : Rewrites) : list HostingRewrite.t :=
  map (fun it => HostingRewrite.mk (cleanEscapedChars (Rule.source it)) (Rule.destination it))
      (map cleanI18n (filter isRewriteSupportedByHosting (getNextjsRewritesToUse nextJsRewrites))).

(** Lines 254-297: the awaited calls of the block guarded by
    [if (appPathRoutesManifest)], which [addAppReasons] and [pushMetaHeaders]
    take the answers of. [hasStaticAppNotFoundComponent] is called only when
    one of the two not-found keys is among the non-static components. *)
Definition awaitAppCalls (env : BuildEnv.t)
  (appPathsManifest : option AppPathsManifest)
  (appPathRoutesManifest : option AppPathRoutesManifest)
  (prerenderedRoutes dynamicRoutes : list string) : M unit :=
  match appPathRoutesManifest with
  | Some appPathRoutesManifest =>
      _ <- awaited (BuildEnv.rejects env GetAppMetadataFromMetaFiles)
                   (BuildEnv.getAppMetadataFromMetaFiles env appPathRoutesManifest) ;;
      match appPathsManifest with
      | Some appPathsManifest =>
          let unrenderedServerComponents :=
            getNonStaticServerComponents appPathsManifest appPathRoutesManifest
              prerenderedRoutes dynamicRoutes in
          match find (fun key => Js.has unrenderedServerComponents key)
                     ["/_not-found"; "/_not-found/page"] with
          | Some notFoundPageKey =>
              if Js.truthy notFoundPageKey
              then _ <- awaited (BuildEnv.rejects env HasStaticAppNotFoundComponent)
                                (BuildEnv.hasStaticAppNotFoundComponent env) ;;
                   ret tt
              else ret tt
          | None => ret tt
          end
      | None => ret tt
      end
  | None => ret tt
  end.

(** Lines 342-361: what is printed about the reasons; [limit] is
    [DEFAULT_NUMBER_OF_REASONS_TO_LIST] in the source. *)
Definition logReasons (limit : nat) (debug : bool) (reasonsForBackend : list string) : M unit :=
  emit (LogInfo "Building a Cloud Function to run this application. This is needed due to:") ;;;
  emitAll (map (fun reason => LogInfo (" • " ++ reason)) (Js.sliceTo limit reasonsForBackend)) ;;;
  emitAll (map (fun reason => LogDebug (" • " ++ reason)) (Js.sliceFrom limit reasonsForBackend)) ;;;
  (if (limit <? List.length reasonsForBackend)%nat && negb debug
   then emit (LogInfo (" • and " ++ Js.ofNat (List.length reasonsForBackend - limit)
                         ++ " other reasons, use --debug to see more"))
   else ret tt) ;;;
  emit (LogInfo "").

(** Lines 117-374. Of the lines before the spawn, which prepare the
    environment variables of the child process, only whether they reject is
    kept. *)
Definition buildWith (limit : nat) (env : BuildEnv.t) : M BuildLocals.t :=
  _ <- awaited (BuildEnv.rejects env BeforeSpawn) tt ;;
  _ <- nextBuild env ;;
  let reasonsForBackend : list string := [] in
  config <- awaited (BuildEnv.rejects env GetConfig) (BuildEnv.config env) ;;
  usingMiddleware <-
    awaited (BuildEnv.rejects env IsUsingMiddleware) (BuildEnv.isUsingMiddleware env) ;;
  let reasonsForBackend :=
    if usingMiddleware then Js.add reasonsForBackend "middleware" else reasonsForBackend in
  usingImageOptimization <-
    awaited (BuildEnv.rejects env IsUsingImageOptimization)
            (BuildEnv.isUsingImageOptimization env) ;;
  let reasonsForBackend :=
    if usingImageOptimization
    then Js.add reasonsForBackend "Image Optimization" else reasonsForBackend in
  prerenderManifest <- readJSON PRERENDER_MANIFEST (BuildEnv.prerenderManifest env) ;;
  let reasonsForBackend := addPrerenderReasons prerenderManifest reasonsForBackend in
  pagesManifestJSON <- readJSON PAGES_MANIFEST (BuildEnv.pagesManifest env) ;;
  let prerenderedRoutes := Js.keys (PrerenderManifest.routes prerenderManifest) in
  dynamicRoutes <-
    match PrerenderManifest.dynamicRoutes prerenderManifest with
    | Some o => ret (Js.keys o)
    | None => throw (TypeError "Cannot convert undefined or null to object")
    end ;;
  let reasonsForBackend :=
    addUnrenderedPages pagesManifestJSON prerenderedRoutes dynamicRoutes reasonsForBackend in
  manifest <- readJSON ROUTES_MANIFEST (BuildEnv.routesManifest env) ;;
  let nextJsHeaders := orElse (RoutesManifest.headers manifest) [] in
  let nextJsRedirects := orElse (RoutesManifest.redirects manifest) [] in
  let nextJsRewrites := orElse (RoutesManifest.rewrites manifest) (RewritesArray []) in
  let nextjsI18n := RoutesManifest.i18n manifest in
  let reasonsForBackend := addAdvancedHeaders nextJsHeaders reasonsForBackend in
  let headers := hostingHeaders nextJsHeaders in
  appPathsManifest <-
    readJSONOrUndefined APP_PATHS_MANIFEST (BuildEnv.appPathsManifest env) ;;
  appPathRoutesManifest <-
    readJSONOrUndefined APP_PATH_ROUTES_MANIFEST (BuildEnv.appPathRoutesManifest env) ;;
  serverReferenceManifest <-
    readJSONOrUndefined SERVER_REFERENCE_MANIFEST (BuildEnv.serverReferenceManifest env) ;;
  awaitAppCalls env appPathsManifest appPathRoutesManifest prerenderedRoutes dynamicRoutes ;;;
  let headers := pushMetaHeaders env appPathRoutesManifest headers in
  let reasonsForBackend :=
    addAppReasons env appPathsManifest appPathRoutesManifest serverReferenceManifest
      prerenderedRoutes dynamicRoutes reasonsForBackend in
  let reasonsForBackend := addAdvancedRedirects nextJsRedirects reasonsForBackend in
  let redirects := hostingRedirects nextJsRedirects in
  let reasonsForBackend := addAdvancedRewrites nextJsRewrites reasonsForBackend in
  let rewrites := hostingRewrites nextJsRewrites in
  let wantsBackend := (0 <? List.length reasonsForBackend)%nat in
  (if wantsBackend
   then logReasons limit (BuildEnv.DEBUG env) reasonsForBackend
   else ret tt) ;;;
  let i18n := isSome nextjsI18n in
  ret {| BuildLocals.reasonsForBackend := reasonsForBackend;
         BuildLocals.result :=
           {| BuildResult.wantsBackend := wantsBackend;
              BuildResult.headers := headers;
              BuildResult.redirects := redirects;
              BuildResult.rewrites := rewrites;
              BuildResult.trailingSlash := NextConfig.trailingSlash config;
              BuildResult.i18n := i18n;
              BuildResult.baseUrl := NextConfig.basePath config |} |}.

Definition build (env : BuildEnv.t) : M BuildLocals.t :=
  buildWith DEFAULT_NUMBER_OF_REASONS_TO_LIST env.

End Build.

(** ** What [build] computes when its reads succeed *)

Definition optional {A} (f : File A) : option A :=
  match f with Present a => Some a | Missing | Malformed => None end.

Definition isPresent {A} (f : File A) : bool := isSome (optional f).

(** The same build with another end of the spawned process. *)
Definition withNextBuildEnd (nextBuildEnd : ProcessEnd) (env : BuildEnv.t) : BuildEnv.t :=
  {| BuildEnv.cli := BuildEnv.cli env;
     BuildEnv.nextBuildOutput := BuildEnv.nextBuildOutput env;
     BuildEnv.nextBuildEnd := nextBuildEnd;
     BuildEnv.rejects := BuildEnv.rejects env;
     BuildEnv.config := BuildEnv.config env;
     BuildEnv.isUsingMiddleware := BuildEnv.isUsingMiddleware env;
     BuildEnv.isUsingImageOptimization := BuildEnv.isUsingImageOptimization env;
     BuildEnv.prerenderManifest := BuildEnv.prerenderManifest env;
     BuildEnv.pagesManifest := BuildEnv.pagesManifest env;
     BuildEnv.routesManifest := BuildEnv.routesManifest env;
     BuildEnv.appPathsManifest := BuildEnv.appPathsManifest env;
     BuildEnv.appPathRoutesManifest := BuildEnv.appPathRoutesManifest env;
     BuildEnv.serverReferenceManifest := BuildEnv.serverReferenceManifest env;
     BuildEnv.getAppMetadataFromMetaFiles := BuildEnv.getAppMetadataFromMetaFiles env;
     BuildEnv.hasStaticAppNotFoundComponent := BuildEnv.hasStaticAppNotFoundComponent env;
     BuildEnv.DEBUG := BuildEnv.DEBUG env |}.

(** The same build with other rejections of the awaited calls. *)
Definition withRejects (rejects : BuildCall -> option Error) (env : BuildEnv.t) : BuildEnv.t :=
  {| BuildEnv.cli := BuildEnv.cli env;
     BuildEnv.nextBuildOutput := BuildEnv.nextBuildOutput env;
     BuildEnv.nextBuildEnd := BuildEnv.nextBuildEnd env;
     BuildEnv.rejects := rejects;
     BuildEnv.config := BuildEnv.config env;
     BuildEnv.isUsingMiddleware := BuildEnv.isUsingMiddleware env;
     BuildEnv.isUsingImageOptimization := BuildEnv.isUsingImageOptimization env;
     BuildEnv.prerenderManifest := BuildEnv.prerenderManifest env;
     BuildEnv.pagesManifest := BuildEnv.pagesManifest env;
     BuildEnv.routesManifest := BuildEnv.routesManifest env;
     BuildEnv.appPathsManifest := BuildEnv.appPathsManifest env;
     BuildEnv.appPathRoutesManifest := BuildEnv.appPathRoutesManifest env;
     BuildEnv.serverReferenceManifest := BuildEnv.serverReferenceManifest env;
     BuildEnv.getAppMetadataFromMetaFiles := BuildEnv.getAppMetadataFromMetaFiles env;
     BuildEnv.hasStaticAppNotFoundComponent := BuildEnv.hasStaticAppNotFoundComponent env;
     BuildEnv.DEBUG := BuildEnv.DEBUG env |}.

Section BuildValues.

Context {utils : NextUtils}.

(** The first of the three calls awaited before any manifest is read
    (lines 175, 177 and 181) that rejects, if one does. *)
Definition earlyRejection (env : BuildEnv.t) : option Error :=
  match BuildEnv.rejects env GetConfig with
  | Some e => Some e
  | None =>
      match BuildEnv.rejects env IsUsingMiddleware with
      | Some e => Some e
      | None => BuildEnv.rejects env IsUsingImageOptimization
      end
  end.

(** The error one of the awaited calls of lines 254-297 rejects with, if one
    does. *)
Definition appRejection (env : BuildEnv.t) (prerenderedRoutes dynamicRoutes : list string)
  : option Error :=
  match optional (BuildEnv.appPathRoutesManifest env) with
  | Some appPathRoutesManifest =>
      match BuildEnv.rejects env GetAppMetadataFromMetaFiles with
      | Some e => Some e
      | None =>
          match optional (BuildEnv.appPathsManifest env) with
          | Some appPathsManifest =>
              if existsb (Js.has (getNonStaticServerComponents appPathsManifest
                                    appPathRoutesManifest prerenderedRoutes dynamicRoutes))
                         ["/_not-found"; "/_not-found/page"]
              then BuildEnv.rejects env HasStaticAppNotFoundComponent
              else None
          | None => None
          end
      end
  | None => None
  end.

(** The value of [reasonsForBackend] at line 340. *)
Definition reasonsOf (env : BuildEnv.t) (prerenderManifest : PrerenderManifest.t)
  (pagesManifestJSON : PagesManifest) (dynamicRoutes : Js.Obj Fallback)
  (manifest : RoutesManifest.t) : list string :=
  let prerenderedRoutes := Js.keys (PrerenderManifest.routes prerenderManifest) in
  addAdvancedRewrites (orElse (RoutesManifest.rewrites manifest) (RewritesArray []))
    (addAdvancedRedirects (orElse (RoutesManifest.redirects manifest) [])
       (addAppReasons env
          (optional (BuildEnv.appPathsManifest env))
          (optional (BuildEnv.appPathRoutesManifest env))
          (optional (BuildEnv.serverReferenceManifest env))
          prerenderedRoutes (Js.keys dynamicRoutes)
          (addAdvancedHeaders (orElse (RoutesManifest.headers manifest) [])
             (addUnrenderedPages pagesManifestJSON prerenderedRoutes (Js.keys dynamicRoutes)
                (addPrerenderReasons prerenderManifest (addFeatureReasons env [])))))).

(** The object returned at lines 365-373. *)
Definition resultOf (env : BuildEnv.t) (manifest : RoutesManifest.t)
  (reasonsForBackend : list string) : BuildResult.t :=
  {| BuildResult.wantsBackend := (0 <? List.length reasonsForBackend)%nat;
     BuildResult.headers :=
       pushMetaHeaders env (optional (BuildEnv.appPathRoutesManifest env))
         (hostingHeaders (orElse (RoutesManifest.headers manifest) []));
     BuildResult.redirects := hostingRedirects (orElse (RoutesManifest.redirects manifest) []);
     BuildResult.rewrites :=
       hostingRewrites (orElse (RoutesManifest.rewrites manifest) (RewritesArray []));
     BuildResult.trailingSlash := NextConfig.trailingSlash (BuildEnv.config env);
     BuildResult.i18n := isSome (RoutesManifest.i18n manifest);
     BuildResult.baseUrl := NextConfig.basePath (BuildEnv.config env) |}.

Definition localsOf (env : BuildEnv.t) (prerenderManifest : PrerenderManifest.t)
  (pagesManifestJSON : PagesManifest) (dynamicRoutes : Js.Obj Fallback)
  (manifest : RoutesManifest.t) : BuildLocals.t :=
  let reasonsForBackend :=
    reasonsOf env prerenderManifest pagesManifestJSON dynamicRoutes manifest in
  {| BuildLocals.reasonsForBackend := reasonsForBackend;
     BuildLocals.result := resultOf env manifest reasonsForBackend |}.

End BuildValues.

Section Candidates.

Context {utils : NextUtils}.

Definition when (condition : bool) (reason : string) : list string :=
  if condition then [reason] else [].

(** The arguments of the [reasonsForBackend.add] calls of lines 254-297, in
    the order they are made. *)
Definition appCandidates (env : BuildEnv.t) (prerenderedRoutes dynamicRoutes : list string)
  : list string :=
  match optional (BuildEnv.appPathRoutesManifest env) with
  | Some appPathRoutesManifest =>
      (map (fun route => ("route with PPR " ++ route)%string)
           (AppMetadata.pprRoutes
              (BuildEnv.getAppMetadataFromMetaFiles env appPathRoutesManifest))
       ++ match optional (BuildEnv.appPathsManifest env) with
          | Some appPathsManifest =>
              map (fun key => ("non-static component " ++ key)%string)
                  (dropStaticNotFound env
                     (getNonStaticServerComponents appPathsManifest appPathRoutesManifest
                        prerenderedRoutes dynamicRoutes))
          | None => []
          end
       ++ match optional (BuildEnv.serverReferenceManifest env) with
          | Some serverReferenceManifest =>
              map (fun key => ("route with server action " ++ key)%string)
                  (getRoutesWithServerAction serverReferenceManifest appPathRoutesManifest)
          | None => []
          end)%list
  | None => []
  end.

(** The arguments of all the [reasonsForBackend.add] calls of a run whose
    reads succeed, in the order they are made. *)
Definition candidateReasons (env : BuildEnv.t) (prerenderManifest : PrerenderManifest.t)
  (pagesManifestJSON : PagesManifest) (dynamicRoutes : Js.Obj Fallback)
  (manifest : RoutesManifest.t) : list string :=
  let prerenderedRoutes := Js.keys (PrerenderManifest.routes prerenderManifest) in
  let nextJsRewrites := orElse (RoutesManifest.rewrites manifest) (RewritesArray []) in
  (when (BuildEnv.isUsingMiddleware env) "middleware"
   ++ when (BuildEnv.isUsingImageOptimization env) "Image Optimization"
   ++ map (fun it => ("use of fallback " ++ fst it)%string) (dynamicRoutesWithFallback prerenderManifest)
   ++ map (fun it => ("use of revalidate " ++ Js.template (PrerenderRoute.srcRoute (snd it)))%string)
          (routesWithRevalidate prerenderManifest)
   ++ map (fun key => ("non-static route " ++ key)%string)
          (getNonStaticRoutes pagesManifestJSON prerenderedRoutes (Js.keys dynamicRoutes))
   ++ when (negb (isEveryHeaderSupported (orElse (RoutesManifest.headers manifest) [])))
           "advanced headers"
   ++ appCandidates env prerenderedRoutes (Js.keys dynamicRoutes)
   ++ when (negb (isEveryRedirectSupported (orElse (RoutesManifest.redirects manifest) [])))
           "advanced redirects"
   ++ when (usesAfterFilesOrFallback nextJsRewrites) "advanced rewrites"
   ++ when (negb (isEveryRewriteSupported nextJsRewrites)) "advanced rewrites")%list.

End Candidates.

(** The reasons a run of [build] ended with, if it returned. *)
Definition reasonsOfRun (run : M BuildLocals.t) : option (list string) :=
  match outcome run with
  | Ok locals => Some (BuildLocals.reasonsForBackend locals)
  | Throw _ => None
  end.

Definition wantsBackendOfRun (run : M BuildLocals.t) : option bool :=
  match outcome run with
  | Ok locals => Some (BuildResult.wantsBackend (BuildLocals.result locals))
  | Throw _ => None
  end.

Definition readsOf {A} (run : M A) : list ManifestFile :=
  flat_map (fun e => match e with ReadJSON file => [file] | _ => [] end) (trace run).

(** ** [ɵcodegenPublicDirectory] *)

(** [a.includes(x)] on an array of strings. *)
Definition includes (a : list string) (x : string) : bool := existsb (String.eqb x) a.

(** [Promise.all([p, q])]: both run; it rejects if one of them does. *)
Definition both {A B} (p : M A) (q : M B) : M (A * B) :=
  ((trace p ++ trace q)%list,
   match outcome p, outcome q with
   | Ok a, Ok b => Ok (a, b)
   | Throw e, _ => Throw e
   | _, Throw e => Throw e
   end).

(** [Promise.all(promises)] on promises without a value: all of them run; it
    rejects if one of them does. Which rejection wins when several reject is
    a matter of timing; here it is the first in the order of the list. *)
Definition promiseAll (promises : list (M unit)) : M unit :=
  (flat_map trace promises,
   fold_right (fun promise rest =>
                 match outcome promise with
                 | Throw e => Throw e
                 | Ok _ => rest
                 end)
              (Ok tt) promises).

(** The error a file operation rejects with, given what the environment says
    of the calls of [mkdir], [copy] and [copyFile]; logging does not fail. *)
Definition failure (fails : Effect -> option Error) (e : Effect) : option Error :=
  match e with
  | Mkdir _ | Copy _ _ | CopyFile _ _ => fails e
  | _ => None
  end.

(** One awaited operation: the call is made, and rejects or not. *)
Definition perform (fails : Effect -> option Error) (e : Effect) : M unit :=
  match failure fails e with
  | Some err => ([e], Throw err)
  | None => emit e
  end.

(** Operations awaited one after the other: the first that rejects ends the
    sequence. *)
Fixpoint performAll (fails : Effect -> option Error) (es : list Effect) : M unit :=
  match es with
  | [] => ret tt
  | e :: es => perform fails e ;;; performAll fails es
  end.

(** What [ɵcodegenPublicDirectory] awaits, the reads of the manifests and the
    file operations apart: [getConfig] (line 404), [getAllSiteDomains] (line
    408) and [getAppMetadataFromMetaFiles] (line 495). *)
Module PublicCall.
Inductive t : Type :=
| GetConfig
| GetAllSiteDomains
| GetAppMetadataFromMetaFiles.
End PublicCall.

(** Everything [ɵcodegenPublicDirectory] obtains from outside. [rejects]
    gives the error an awaited call rejects with, if it does, and [fails] the
    error a call of [mkdir], [copy] or [copyFile] rejects with, if it does
    (copying a directory with [copyFile], say, or a file that is not there);
    the fields named after functions give what they answer otherwise. *)
Module PublicEnv.
Record t : Type := mk {
  sourceDir : string;
  destDir : string;
  rejects : PublicCall.t -> option Error;
  fails : Effect -> option Error;
  config : NextConfig.t;
  getAllSiteDomains : list string;
  publicPathExists : bool;
  middlewareManifest : File MiddlewareManifest;
  prerenderManifest : File PrerenderManifest.t;
  routesManifest : File RoutesManifest.t;
  pagesManifest : File PagesManifest;
  appPathRoutesManifest : File AppPathRoutesManifest;
  serverReferenceManifest : File ActionManifest.t;
  getAppMetadataFromMetaFiles : AppPathRoutesManifest -> AppMetadata.t;
  fileExistsSync : string -> bool;
  pathExistsSync : string -> bool
}.
End PublicEnv.

(** What the callback of lines 503-585 does with one route: one of its early
    returns, or the copies it performs. A destination is [Some p] exactly when
    the file is copied to [p]. *)
Inductive RouteOutcome : Type :=
| SkipRevalidate
| SkipUnsupported
| SkipServerAction
| SkipLocale
| SkipPpr
| CannotFind
| CopyRoute (sourcePath : string) (localizedDestPath defaultDestPath : option string)
            (data : option (string * string)).

(** The values the callback closes over. *)
Module Closure.
Record t : Type := mk {
  sourceDir : string;
  destDir : string;
  distDir : string;
  basePath : string;
  i18n : option I18n.t;
  matchingI18nDomain : option DomainLocale.t;
  singleLocaleDomain : bool;
  pathsUsingsFeaturesNotSupportedByHosting : list RegExp;
  staticRoutesUsingServerActions : list string;
  appPathRoutesEntries : list (string * string);
  pprRoutes : list string;
  fileExistsSync : string -> bool;
  pathExistsSync : string -> bool
}.
End Closure.

Section Public.

Context {utils : NextUtils} {node : NodeLib}.

(** Lines 406-410. *)
Definition matchingI18nDomain (i18n : option I18n.t) (siteDomains : list string)
  : option DomainLocale.t :=
  match i18n with
  | Some i18n =>
      match I18n.domains i18n with
      | Some domains => find (fun d => includes siteDomains (DomainLocale.domain d)) domains
      | None => None
      end
  | None => None
  end.

(** Line 411. *)
Definition singleLocaleDomain (i18n : option I18n.t) (matching : option DomainLocale.t) : bool :=
  match i18n with
  | None => true
  | Some i18n =>
      let locales :=
        match matching with
        | Some d => orElse (DomainLocale.locales d) []
        | None => I18n.locales i18n
        end in
      (List.length locales <=? 1)%nat
  end.

(** Lines 446-466. *)
Definition rewritesRegexesNotSupportedByHosting (rewrites : Rewrites) : list RegExp :=
  map Rule.regex
      (map cleanI18n
           (filter (fun rewrite => negb (isRewriteSupportedByHosting rewrite))
                   (getNextjsRewritesToUse rewrites))).

Definition redirectsRegexesNotSupportedByHosting (redirects : list Rule.t) : list RegExp :=
  map Rule.regex
      (map cleanI18n
           (filter (fun redirect => negb (isRedirectSupportedByHosting redirect))
                   (filter (fun it => negb (Rule.internal it)) redirects))).

Definition headersRegexesNotSupportedByHosting (headers : list Rule.t) : list RegExp :=
  map Rule.regex (filter (fun header => negb (isHeaderSupportedByHosting header)) headers).

Definition pathsUsingsFeaturesNotSupportedByHosting
  (middlewareManifest : MiddlewareManifest) (routesManifest : RoutesManifest.t) : list RegExp :=
  (getMiddlewareMatcherRegexes middlewareManifest
   ++ rewritesRegexesNotSupportedByHosting
        (orElse (RoutesManifest.rewrites routesManifest) (RewritesArray []))
   ++ redirectsRegexesNotSupportedByHosting (orElse (RoutesManifest.redirects routesManifest) [])
   ++ headersRegexesNotSupportedByHosting (orElse (RoutesManifest.headers routesManifest) []))%list.

(** Lines 479-485: the record given to a pages-manifest entry. *)
Definition pagesLikeRoute : PrerenderRoute.t :=
  {| PrerenderRoute.srcRoute := None;
     PrerenderRoute.initialRevalidateSeconds := RevalidateFalse;
     PrerenderRoute.dataRoute := Some "";
     PrerenderRoute.experimentalPPR := false;
     PrerenderRoute.prefetchDataRoute := Some "" |}.

(** Lines 473-488. *)
Definition pagesManifestLikePrerender (pagesManifest : PagesManifest)
  : Js.Obj PrerenderRoute.t :=
  Js.fromEntries
    (map (fun entry => (fst entry, pagesLikeRoute))
         (filter (fun entry => Js.endsWith (snd entry) ".html") pagesManifest)).

(** Lines 490-493. *)
Definition routesToCopy (prerenderManifest : PrerenderManifest.t) (pagesManifest : PagesManifest)
  : Js.Obj PrerenderRoute.t :=
  Js.spread (PrerenderManifest.routes prerenderManifest)
            (pagesManifestLikePrerender pagesManifest).

(** Whether the pages manifest maps [path] to a literal HTML file. *)
Definition isHtmlPage (pagesManifest : PagesManifest) (path : string) : bool :=
  existsb (fun entry => String.eqb (fst entry) path && Js.endsWith (snd entry) ".html")
          pagesManifest.

(** Lines 519-520. *)
Definition appPathRouteOf (c : Closure.t) (route : PrerenderRoute.t) : option string :=
  match PrerenderRoute.srcRoute route with
  | Some srcRoute =>
      if Js.truthy srcRoute
      then option_map fst
             (find (fun entry => String.eqb (snd entry) srcRoute) (Closure.appPathRoutesEntries c))
      else None
  | None => None
  end.

(** Line 521. *)
Definition contentDistOf (c : Closure.t) (route : PrerenderRoute.t) : string :=
  join [Closure.sourceDir c; Closure.distDir c; "server";
        if Js.truthyOpt (appPathRouteOf c route) then "app" else "pages"].

(** Line 523. *)
Definition sourcePartsOf (path : string) : list string :=
  filter Js.truthy (Js.split "/" path).

(** Line 524. *)
Definition localeOf (c : Closure.t) (path : string) : option string :=
  match Closure.i18n c, sourcePartsOf path with
  | Some i18n, first :: _ => if includes (I18n.locales i18n) first then Some first else None
  | _, _ => None
  end.

(** Lines 525-530. *)
Definition includeOnThisDomain (c : Closure.t) (locale : option string) : bool :=
  match locale with
  | None => true
  | Some locale =>
      negb (Js.truthy locale) ||
      match Closure.matchingI18nDomain c with
      | None => true
      | Some matching =>
          String.eqb (DomainLocale.defaultLocale matching) locale ||
          match DomainLocale.locales matching with
          | None => true
          | Some locales => includes locales locale
          end
      end
  end.

Definition orIndex (parts : list string) : list string :=
  match parts with [] => ["index"] | _ => parts end.

(** Line 538. *)
Definition destPartsOf (path : string) (locale : option string) : list string :=
  Js.sliceFrom (if Js.truthyOpt locale then 1 else 0) (sourcePartsOf path).

(** Line 540. *)
Definition isDefaultLocale (c : Closure.t) (locale : option string) : bool :=
  match locale with
  | None => true
  | Some locale =>
      negb (Js.truthy locale) ||
      match Closure.matchingI18nDomain c, Closure.i18n c with
      | Some matching, _ => String.eqb (DomainLocale.defaultLocale matching) locale
      | None, Some i18n => String.eqb (I18n.defaultLocale i18n) locale
      | None, None => false
      end
  end.

(** Line 542. *)
Definition sourcePathOf (c : Closure.t) (path : string) (route : PrerenderRoute.t) : string :=
  join (contentDistOf c route :: orIndex (sourcePartsOf path)).

(** Lines 543-546; [None] stands for the falsy values. *)
Definition localizedDestPathOf (c : Closure.t) (path : string) : option string :=
  if negb (Closure.singleLocaleDomain c)
  then match localeOf c path with
       | Some locale =>
           if Js.truthy locale
           then Some (join ([Closure.destDir c; I18N_ROOT; locale; Closure.basePath c]
                            ++ orIndex (destPartsOf path (Some locale))))
           else None
       | None => None
       end
  else None.

(** Line 547. *)
Definition defaultDestPathOf (c : Closure.t) (path : string) : option string :=
  if isDefaultLocale c (localeOf c path)
  then Some (join ([Closure.destDir c; Closure.basePath c]
                   ++ orIndex (destPartsOf path (localeOf c path))))
  else None.

(** [if (p) copy]: a falsy path is never a destination. *)
Definition keepDest (dest : option string) : option string :=
  match dest with
  | Some p => if Js.truthy p then Some p else None
  | None => None
  end.

(** [if (p) p += ext] *)
Definition extendDest (ext : string) (dest : option string) : option string :=
  match dest with
  | Some p => if Js.truthy p then Some (p ++ ext) else None
  | None => None
  end.

(** Lines 579-584. *)
Definition dataCopyOf (c : Closure.t) (path : string) (route : PrerenderRoute.t)
  : option (string * string) :=
  match PrerenderRoute.dataRoute route with
  | Some dataRoute =>
      if Js.truthy dataRoute && negb (Js.truthyOpt (appPathRouteOf c route))
      then Some (join [contentDistOf c route; join (orIndex (sourcePartsOf path)) ++ ".json"],
                 join [Closure.destDir c; Closure.basePath c; dataRoute])
      else None
  | None => None
  end.

(** Lines 503-585. *)
Definition routeOutcome (c : Closure.t) (path : string) (route : PrerenderRoute.t)
  : RouteOutcome :=
  if revalidateTruthy (PrerenderRoute.initialRevalidateSeconds route) then SkipRevalidate
  else if existsb (fun it => regexMatch it path)
                  (Closure.pathsUsingsFeaturesNotSupportedByHosting c) then SkipUnsupported
  else if existsb (fun it => String.eqb path it)
                  (Closure.staticRoutesUsingServerActions c) then SkipServerAction
  else
    let appPathRoute := appPathRouteOf c route in
    let locale := localeOf c path in
    if negb (includeOnThisDomain c locale) then SkipLocale
    else
      let sourcePath := sourcePathOf c path route in
      let localizedDestPath := localizedDestPathOf c path in
      let defaultDestPath := defaultDestPathOf c path in
      if negb (Closure.fileExistsSync c sourcePath)
         && Closure.fileExistsSync c (sourcePath ++ ".html")
      then
        if includes (Closure.pprRoutes c) path then SkipPpr
        else CopyRoute (sourcePath ++ ".html")
                       (extendDest ".html" localizedDestPath)
                       (extendDest ".html" defaultDestPath)
                       (dataCopyOf c path route)
      else if Js.truthyOpt appPathRoute
              && String.eqb (basename (orElse appPathRoute "")) "route"
              && Closure.fileExistsSync c (sourcePath ++ ".body")
      then CopyRoute (sourcePath ++ ".body")
                     (keepDest localizedDestPath) (keepDest defaultDestPath)
                     (dataCopyOf c path route)
      else if negb (Closure.pathExistsSync c sourcePath) then CannotFind
      else CopyRoute sourcePath
                     (keepDest localizedDestPath) (keepDest defaultDestPath)
                     (dataCopyOf c path route).

Definition copyTo (src : string) (dest : option string) : list Effect :=
  match dest with
  | Some p => [Mkdir (dirname p); CopyFile src p]
  | None => []
  end.

(** The logging and file operations of each way out of the callback. *)
Definition outcomeEffects (path : string) (o : RouteOutcome) : list Effect :=
  match o with
  | SkipRevalidate => [LogDebug ("skipping " ++ path ++ " due to revalidate")]
  | SkipUnsupported =>
      [LogDebug ("skipping " ++ path ++
                 " due to it matching an unsupported rewrite/redirect/header or middlware")]
  | SkipServerAction => [LogDebug ("skipping " ++ path ++ " due to server action")]
  | SkipLocale =>
      [LogDebug ("skipping " ++ path ++ " since it is for a locale not deployed on this domain")]
  | SkipPpr => [LogDebug ("skipping " ++ path ++ " due to ppr")]
  | CannotFind =>
      [ConsoleError ("Cannot find " ++ path ++ " in your compiled Next.js application.")]
  | CopyRoute sourcePath localizedDestPath defaultDestPath data =>
      (copyTo sourcePath localizedDestPath
       ++ copyTo sourcePath defaultDestPath
       ++ match data with
          | Some (dataSourcePath, dataDestPath) =>
              [Mkdir (dirname dataDestPath); CopyFile dataSourcePath dataDestPath]
          | None => []
          end)%list
  end.

Definition copyRoute (c : Closure.t) (entry : string * PrerenderRoute.t) : list Effect :=
  outcomeEffects (fst entry) (routeOutcome c (fst entry) (snd entry)).

(** The closure built by lines 404-500 once the manifests are read. *)
Definition closureOf (env : PublicEnv.t)
  (middlewareManifest : MiddlewareManifest) (routesManifest : RoutesManifest.t)
  (appPathRoutesManifest : AppPathRoutesManifest) (serverReferenceManifest : ActionManifest.t)
  : Closure.t :=
  let config := PublicEnv.config env in
  let i18n := NextConfig.i18n config in
  let matching := matchingI18nDomain i18n (PublicEnv.getAllSiteDomains env) in
  {| Closure.sourceDir := PublicEnv.sourceDir env;
     Closure.destDir := PublicEnv.destDir env;
     Closure.distDir := NextConfig.distDir config;
     Closure.basePath := NextConfig.basePath config;
     Closure.i18n := i18n;
     Closure.matchingI18nDomain := matching;
     Closure.singleLocaleDomain := singleLocaleDomain i18n matching;
     Closure.pathsUsingsFeaturesNotSupportedByHosting :=
       pathsUsingsFeaturesNotSupportedByHosting middlewareManifest routesManifest;
     Closure.staticRoutesUsingServerActions :=
       getRoutesWithServerAction serverReferenceManifest appPathRoutesManifest;
     Closure.appPathRoutesEntries := appPathRoutesManifest;
     Closure.pprRoutes :=
       AppMetadata.pprRoutes (PublicEnv.getAppMetadataFromMetaFiles env appPathRoutesManifest);
     Closure.fileExistsSync := PublicEnv.fileExistsSync env;
     Closure.pathExistsSync := PublicEnv.pathExistsSync env |}.

(** [i18n?.domains] as a condition (line 407). *)
Definition hasDomains (i18n : option I18n.t) : bool :=
  match i18n with
  | Some i18n => isSome (I18n.domains i18n)
  | None => false
  end.

(** Lines 413-418. *)
Definition prepareOutput (env : PublicEnv.t) (config : NextConfig.t) : M unit :=
  let fails := PublicEnv.fails env in
  let sourceDir := PublicEnv.sourceDir env in
  let destDir := PublicEnv.destDir env in
  let distDir := NextConfig.distDir config in
  let basePath := NextConfig.basePath config in
  let publicPath := join [sourceDir; "public"] in
  perform fails (Mkdir (join [destDir; basePath; "_next"; "static"])) ;;;
  (if PublicEnv.publicPathExists env
   then perform fails (Copy publicPath (join [destDir; basePath])) else ret tt) ;;;
  perform fails
    (Copy (join [sourceDir; distDir; "static"]) (join [destDir; basePath; "_next"; "static"])).

(** Lines 420-438. *)
Definition readManifests (env : PublicEnv.t)
  : M (MiddlewareManifest * (PrerenderManifest.t * (RoutesManifest.t * (PagesManifest *
        (AppPathRoutesManifest * ActionManifest.t))))) :=
  both (readJSON MIDDLEWARE_MANIFEST (PublicEnv.middlewareManifest env))
 (both (readJSON PRERENDER_MANIFEST (PublicEnv.prerenderManifest env))
 (both (readJSON ROUTES_MANIFEST (PublicEnv.routesManifest env))
 (both (readJSON PAGES_MANIFEST (PublicEnv.pagesManifest env))
 (both (catch (readJSON APP_PATH_ROUTES_MANIFEST (PublicEnv.appPathRoutesManifest env)) [])
       (catch (readJSON SERVER_REFERENCE_MANIFEST (PublicEnv.serverReferenceManifest env))
              (ActionManifest.mk [] [] "")))))).

(** Lines 502-586: the callback on every entry. The callbacks run together;
    their effects are listed here route by route, in the order of
    [Object.entries(routesToCopy)]. *)
Definition copyRoutes (env : PublicEnv.t) (c : Closure.t)
  (routesToCopy : Js.Obj PrerenderRoute.t) : M unit :=
  promiseAll (map (fun entry => performAll (PublicEnv.fails env) (copyRoute c entry))
                  routesToCopy).

(** Lines 398-587. A [CopyFile] in the trace is a call of [copyFile] that was
    made; whether it rejected is told by [PublicEnv.fails]. *)
Definition codegenPublicDirectory (env : PublicEnv.t) : M unit :=
  config <- awaited (PublicEnv.rejects env PublicCall.GetConfig) (PublicEnv.config env) ;;
  (if hasDomains (NextConfig.i18n config)
   then awaited (PublicEnv.rejects env PublicCall.GetAllSiteDomains) tt
   else ret tt) ;;;
  prepareOutput env config ;;;
  manifests <- readManifests env ;;
  let '(middlewareManifest, (prerenderManifest, (routesManifest, (pagesManifest,
        (appPathRoutesManifest, serverReferenceManifest))))) := manifests in
  awaited (PublicEnv.rejects env PublicCall.GetAppMetadataFromMetaFiles) tt ;;;
  let c := closureOf env middlewareManifest routesManifest
             appPathRoutesManifest serverReferenceManifest in
  copyRoutes env c (routesToCopy prerenderManifest pagesManifest).

(** The first rejection of lines 404-418, before any manifest is read. *)
Definition failureBeforeReads (env : PublicEnv.t) : option Error :=
  let config := PublicEnv.config env in
  let sourceDir := PublicEnv.sourceDir env in
  let destDir := PublicEnv.destDir env in
  let distDir := NextConfig.distDir config in
  let basePath := NextConfig.basePath config in
  let orElseOf (first : option Error) (next : option Error) :=
    match first with Some e => Some e | None => next end in
  orElseOf (PublicEnv.rejects env PublicCall.GetConfig)
 (orElseOf (if hasDomains (NextConfig.i18n config)
            then PublicEnv.rejects env PublicCall.GetAllSiteDomains else None)
 (orElseOf (PublicEnv.fails env (Mkdir (join [destDir; basePath; "_next"; "static"])))
 (orElseOf (if PublicEnv.publicPathExists env
            then PublicEnv.fails env (Copy (join [sourceDir; "public"]) (join [destDir; basePath]))
            else None)
           (PublicEnv.fails env
              (Copy (join [sourceDir; distDir; "static"])
                    (join [destDir; basePath; "_next"; "static"])))))).

(** The sources and destinations of the [copyFile] calls in a list of
    effects. *)
Definition copiedFiles (effects : list Effect) : list (string * string) :=
  flat_map (fun e => match e with CopyFile src dest => [(src, dest)] | _ => [] end) effects.

End Public.

(** ** A concrete instance of the imported functions

    Used to run [build] and [ɵcodegenPublicDirectory] on concrete manifests. *)

Module Plain.

(** [path.join] on POSIX for segments without [.] and [..]. *)
Definition join (segments : list string) : string :=
  let parts := filter Js.truthy (flat_map (Js.split "/") segments) in
  let absolute :=
    match filter Js.truthy segments with
    | first :: _ => String.prefix "/" first
    | [] => false
    end in
  let body := String.concat "/" parts in
  if absolute then "/" ++ body
  else if String.eqb body "" then "." else body.

Definition basename (path : string) : string :=
  List.last (filter Js.truthy (Js.split "/" path)) "".

Definition dirname (path : string) : string :=
  let parts := filter Js.truthy (Js.split "/" path) in
  let body := String.concat "/" (List.removelast parts) in
  if String.prefix "/" path then "/" ++ body
  else if String.eqb body "" then "." else body.

(** A regular expression without metacharacters matches the strings that
    contain it. *)
Fixpoint regexMatch (re : RegExp) (s : string) : bool :=
  String.prefix re s ||
  match s with
  | String _ rest => regexMatch re rest
  | EmptyString => false
  end.

(** Modelled from the spec: the compatibility predicates of [./utils], which
    [src/] does not contain. Of the constructs the spec lists, the ["has"] and
    ["missing"] request-matching conditions are fields of the rule; the tests
    on the pattern syntax are not described further and are left out, so the
    sample rules below use plain paths only. *)
Definition hasConditions (rule : Rule.t) : bool :=
  isSome (Rule.has rule) || isSome (Rule.missing rule).

Definition isHeaderSupportedByHosting (rule : Rule.t) : bool := negb (hasConditions rule).
Definition isRedirectSupportedByHosting (rule : Rule.t) : bool := negb (hasConditions rule).
Definition isRewriteSupportedByHosting (rule : Rule.t) : bool := negb (hasConditions rule).

(** Modelled from the spec: [getNextjsRewritesToUse] of [./utils]; firebase.json
    has no counterpart of [afterFiles] and [fallback], which leaves the array
    form and [beforeFiles]. *)
Definition getNextjsRewritesToUse (rewrites : Rewrites) : list Rule.t :=
  match rewrites with
  | RewritesArray rules => rules
  | RewritesObject beforeFiles _ _ => orElse beforeFiles []
  end.

(** Modelled from the spec: [getNonStaticRoutes] of [./utils], "any route
    present in PagesManifest but absent from both prerenderedRoutes and
    dynamicRoutes". *)
Definition getNonStaticRoutes (pagesManifest : PagesManifest)
  (prerenderedRoutes dynamicRoutes : list string) : list string :=
  filter (fun key => negb (includes prerenderedRoutes key || includes dynamicRoutes key))
         (Js.keys pagesManifest).

Definition routesOf (appPathRoutesManifest : AppPathRoutesManifest) (modules : list string)
  : list string :=
  flat_map (fun key => match Js.get appPathRoutesManifest key with
                       | Some route => [route]
                       | None => []
                       end) modules.

(** Modelled from the spec: [getNonStaticServerComponents] of [./utils], "a
    server component is non-static if it is not found in the prerendered set
    and not a dynamic route". *)
Definition getNonStaticServerComponents (appPathsManifest : AppPathsManifest)
  (appPathRoutesManifest : AppPathRoutesManifest)
  (prerenderedRoutes dynamicRoutes : list string) : list string :=
  Js.addAll []
    (filter (fun route => negb (includes prerenderedRoutes route || includes dynamicRoutes route))
            (routesOf appPathRoutesManifest (Js.keys appPathsManifest))).

(** Modelled from the spec: [getRoutesWithServerAction] of [./utils], the
    routes of the modules the two maps of the action manifest name. *)
Definition getRoutesWithServerAction (manifest : ActionManifest.t)
  (appPathRoutesManifest : AppPathRoutesManifest) : list string :=
  Js.addAll []
    (routesOf appPathRoutesManifest
       (flat_map snd (ActionManifest.node manifest ++ ActionManifest.edge manifest)%list)).

End Plain.

#[export] Instance plainNode : NodeLib.
Proof.
  refine {| join := Plain.join;
            basename := Plain.basename;
            dirname := Plain.dirname;
            regexMatch := Plain.regexMatch;
            join_truthy := _ |}.
  intros segments. unfold Plain.join; cbv zeta.
  destruct (match filter Js.truthy segments with
            | first :: _ => String.prefix "/" first
            | [] => false
            end).
  - reflexivity.
  - destruct (String.eqb _ "") eqn:E; cbv iota.
    + reflexivity.
    + unfold Js.truthy in *. rewrite E. reflexivity.
Defined.

(** The sample rules carry no locale group and no escaped character, so the
    two clean-up functions have nothing to remove from them. *)
#[export] Instance plainUtils : NextUtils := {|
  cleanEscapedChars := fun path => path;
  cleanI18n := fun rule => rule;
  isHeaderSupportedByHosting := Plain.isHeaderSupportedByHosting;
  isRedirectSupportedByHosting := Plain.isRedirectSupportedByHosting;
  isRewriteSupportedByHosting := Plain.isRewriteSupportedByHosting;
  getNextjsRewritesToUse := Plain.getNextjsRewritesToUse;
  getNonStaticRoutes := Plain.getNonStaticRoutes;
  getNonStaticServerComponents := Plain.getNonStaticServerComponents;
  getRoutesWithServerAction := Plain.getRoutesWithServerAction;
  getMiddlewareMatcherRegexes := fun manifest => manifest;
  I18N_ROOT := "I18N_ROOT"
|}.

(** ** Sample builds *)

Module Sample.

Definition config (i18n : option I18n.t) : NextConfig.t :=
  {| NextConfig.distDir := ".next";
     NextConfig.trailingSlash := false;
     NextConfig.basePath := "/";
     NextConfig.i18n := i18n |}.

Definition plainRule (source destination : string) : Rule.t :=
  {| Rule.source := source; Rule.destination := destination; Rule.regex := source;
     Rule.statusCode := 308; Rule.headers := [("x-frame-options", "DENY")];
     Rule.has := None; Rule.missing := None; Rule.internal := false |}.

Definition conditionalRule (source destination : string) : Rule.t :=
  {| Rule.source := source; Rule.destination := destination; Rule.regex := source;
     Rule.statusCode := 308; Rule.headers := [("x-frame-options", "DENY")];
     Rule.has := Some ["cookie"]; Rule.missing := None; Rule.internal := false |}.

Definition route (srcRoute : option string) (revalidate : Revalidate) (dataRoute : option string)
  : PrerenderRoute.t :=
  {| PrerenderRoute.srcRoute := srcRoute;
     PrerenderRoute.initialRevalidateSeconds := revalidate;
     PrerenderRoute.dataRoute := dataRoute;
     PrerenderRoute.experimentalPPR := false;
     PrerenderRoute.prefetchDataRoute := None |}.

Definition noRules : RoutesManifest.t :=
  {| RoutesManifest.headers := Some []; RoutesManifest.redirects := Some [];
     RoutesManifest.rewrites := Some (RewritesArray []); RoutesManifest.i18n := None |}.

Definition noMetadata : AppPathRoutesManifest -> AppMetadata.t :=
  fun _ => {| AppMetadata.headers := []; AppMetadata.pprRoutes := [] |}.

(** A build that differs from the plainest one in the listed parts only. *)
Definition buildEnv (nextBuildEnd : ProcessEnd) (middleware imageOptimization : bool)
  (prerenderManifest : File PrerenderManifest.t) (pagesManifest : File PagesManifest)
  (routesManifest : File RoutesManifest.t)
  (appPathsManifest : File AppPathsManifest)
  (appPathRoutesManifest : File AppPathRoutesManifest)
  (serverReferenceManifest : File ActionManifest.t)
  (metadata : AppPathRoutesManifest -> AppMetadata.t) : BuildEnv.t :=
  {| BuildEnv.cli := "node_modules/.bin/next";
     BuildEnv.nextBuildOutput := [];
     BuildEnv.nextBuildEnd := nextBuildEnd;
     BuildEnv.rejects := fun _ => None;
     BuildEnv.config := config None;
     BuildEnv.isUsingMiddleware := middleware;
     BuildEnv.isUsingImageOptimization := imageOptimization;
     BuildEnv.prerenderManifest := prerenderManifest;
     BuildEnv.pagesManifest := pagesManifest;
     BuildEnv.routesManifest := routesManifest;
     BuildEnv.appPathsManifest := appPathsManifest;
     BuildEnv.appPathRoutesManifest := appPathRoutesManifest;
     BuildEnv.serverReferenceManifest := serverReferenceManifest;
     BuildEnv.getAppMetadataFromMetaFiles := metadata;
     BuildEnv.hasStaticAppNotFoundComponent := false;
     BuildEnv.DEBUG := false |}.

Definition aboutOnly : PrerenderManifest.t :=
  {| PrerenderManifest.routes :=
       [("/about", route None RevalidateFalse (Some "/_next/data/build/about.json"))];
     PrerenderManifest.dynamicRoutes := Some [] |}.

(** The end-to-end scenario of the spec: one static route, nothing else. *)
Definition staticSite : BuildEnv.t :=
  buildEnv (ProcessExit (Some 0%Z)) false false (Present aboutOnly)
           (Present [("/about", "pages/about.html")]) (Present noRules)
           Missing Missing Missing noMetadata.

Definition busyManifest : PrerenderManifest.t :=
  {| PrerenderManifest.routes :=
       [("/about", route None RevalidateFalse (Some "/_next/data/build/about.json"));
        ("/news", route None (RevalidateSeconds 60) (Some "/_next/data/build/news.json"));
        ("/blog/a", route (Some "/blog/[slug]") (RevalidateSeconds 10)
                          (Some "/_next/data/build/blog/a.json"))];
     PrerenderManifest.dynamicRoutes :=
       Some [("/blog/[slug]", FallbackTrue); ("/docs/[id]", FallbackNull);
             ("/shop/[sku]", FallbackFalse)] |}.

Definition busyRules : RoutesManifest.t :=
  {| RoutesManifest.headers :=
       Some [plainRule "/a" ""; conditionalRule "/b" ""; conditionalRule "/c" ""];
     RoutesManifest.redirects := Some [plainRule "/old" "/new"];
     RoutesManifest.rewrites := Some (RewritesArray [conditionalRule "/x" "/y"]);
     RoutesManifest.i18n := None |}.

(** A build with more reasons than are listed. *)
Definition busySite : BuildEnv.t :=
  buildEnv (ProcessExit (Some 0%Z)) true true (Present busyManifest)
           (Present [("/about", "pages/about.html"); ("/blog/[slug]", "pages/blog/[slug].js")])
           (Present busyRules) Missing Missing Missing noMetadata.

(** The process ends with exit code 1; the manifests of an earlier build are
    still on disk. *)
Definition failedBuild : BuildEnv.t :=
  buildEnv (ProcessExit (Some 1%Z)) false false (Present aboutOnly)
           (Present [("/about", "pages/about.html")]) (Present noRules)
           Missing Missing Missing noMetadata.

(** [next.config.js] cannot be loaded by a Next.js before 12: line 766. *)
Definition brokenConfig : BuildEnv.t :=
  withRejects (fun call =>
                 match call with
                 | GetConfig => Some (OtherError "Unable to load next.config.js.")
                 | _ => None
                 end)
              failedBuild.

Definition spawnFailure : BuildEnv.t :=
  buildEnv (ProcessError "Error: spawn node_modules/.bin/next ENOENT") false false
           (Present aboutOnly) (Present [("/about", "pages/about.html")]) (Present noRules)
           Missing Missing Missing noMetadata.

(** The app-paths manifest cannot be parsed. *)
Definition brokenAppPaths : BuildEnv.t :=
  buildEnv (ProcessExit (Some 0%Z)) false false (Present aboutOnly)
           (Present [("/about", "pages/about.html")]) (Present noRules)
           Malformed (Present [("/dash/page", "/dash")]) Missing noMetadata.

Definition brokenRoutesManifest : BuildEnv.t :=
  buildEnv (ProcessExit (Some 0%Z)) false false (Present aboutOnly)
           (Present [("/about", "pages/about.html")]) Malformed
           Missing Missing Missing noMetadata.

(** Object-form rewrites whose only rule, in [afterFiles], is supported. *)
Definition afterFilesRules : RoutesManifest.t :=
  {| RoutesManifest.headers := Some []; RoutesManifest.redirects := Some [];
     RoutesManifest.rewrites :=
       Some (RewritesObject (Some []) (Some [plainRule "/a" "/b"]) None);
     RoutesManifest.i18n := None |}.

Definition afterFilesSite : BuildEnv.t :=
  buildEnv (ProcessExit (Some 0%Z)) false false (Present aboutOnly)
           (Present [("/about", "pages/about.html")]) (Present afterFilesRules)
           Missing Missing Missing noMetadata.

Definition fallbackManifest : PrerenderManifest.t :=
  {| PrerenderManifest.routes := [];
     PrerenderManifest.dynamicRoutes := Some [("/blog/[slug]", FallbackTrue)] |}.

Definition fallbackSite (pagesManifest : PagesManifest) : BuildEnv.t :=
  buildEnv (ProcessExit (Some 0%Z)) false false (Present fallbackManifest)
           (Present pagesManifest) (Present noRules) Missing Missing Missing noMetadata.

Definition newsManifest : PrerenderManifest.t :=
  {| PrerenderManifest.routes :=
       [("/news", route None (RevalidateSeconds 60) (Some "/_next/data/build/news.json"))];
     PrerenderManifest.dynamicRoutes := Some [] |}.

Definition newsSite (pagesManifest : PagesManifest) : BuildEnv.t :=
  buildEnv (ProcessExit (Some 0%Z)) false false (Present newsManifest)
           (Present pagesManifest) (Present noRules) Missing Missing Missing noMetadata.

Definition pprManifest : PrerenderManifest.t :=
  {| PrerenderManifest.routes := [("/foo", route (Some "/foo") RevalidateFalse None)];
     PrerenderManifest.dynamicRoutes := Some [] |}.

Definition pprMetadata : AppPathRoutesManifest -> AppMetadata.t :=
  fun _ => {| AppMetadata.headers := []; AppMetadata.pprRoutes := ["/foo"] |}.

Definition pprSite : BuildEnv.t :=
  buildEnv (ProcessExit (Some 0%Z)) false false (Present pprManifest)
           (Present []) (Present noRules)
           Missing (Present [("/foo/page", "/foo")]) Missing pprMetadata.

(** ** Sample materializations *)

(** The files of the build tree are given as the list of their paths;
    [copyFile] rejects on a source that is not one of them. *)
Definition publicEnv (i18n : option I18n.t) (siteDomains : list string)
  (prerenderManifest : PrerenderManifest.t) (pagesManifest : PagesManifest)
  (appPathRoutesManifest : File AppPathRoutesManifest)
  (metadata : AppPathRoutesManifest -> AppMetadata.t) (files : list string) : PublicEnv.t :=
  {| PublicEnv.sourceDir := "/app";
     PublicEnv.destDir := "/out";
     PublicEnv.rejects := fun _ => None;
     PublicEnv.fails :=
       fun e =>
         match e with
         | CopyFile src _ =>
             if includes files src then None
             else Some (OtherError "ENOENT: no such file or directory, copyfile")
         | _ => None
         end;
     PublicEnv.config := config i18n;
     PublicEnv.getAllSiteDomains := siteDomains;
     PublicEnv.publicPathExists := false;
     PublicEnv.middlewareManifest := Present [];
     PublicEnv.prerenderManifest := Present prerenderManifest;
     PublicEnv.routesManifest := Present noRules;
     PublicEnv.pagesManifest := Present pagesManifest;
     PublicEnv.appPathRoutesManifest := appPathRoutesManifest;
     PublicEnv.serverReferenceManifest := Missing;
     PublicEnv.getAppMetadataFromMetaFiles := metadata;
     PublicEnv.fileExistsSync := includes files;
     PublicEnv.pathExistsSync := includes files |}.

Definition closure (env : PublicEnv.t) : Closure.t :=
  closureOf env [] noRules (orElse (optional (PublicEnv.appPathRoutesManifest env)) [])
            (ActionManifest.mk [] [] "").

Definition fallbackOutput (pagesManifest : PagesManifest) : PublicEnv.t :=
  publicEnv None [] fallbackManifest pagesManifest Missing noMetadata
            ["/app/.next/server/pages/blog/[slug].html"].

Definition newsOutput (pagesManifest : PagesManifest) : PublicEnv.t :=
  publicEnv None [] newsManifest pagesManifest Missing noMetadata
            ["/app/.next/server/pages/news.html"; "/app/.next/server/pages/news.json"].

Definition pprOutput (files : list string) : PublicEnv.t :=
  publicEnv None [] pprManifest [] (Present [("/foo/page", "/foo")]) pprMetadata files.

(** The same route served by a route handler, with its [.body] artifact. *)
Definition pprHandlerOutput : PublicEnv.t :=
  publicEnv None [] pprManifest [] (Present [("/foo/route", "/foo")]) pprMetadata
            ["/app/.next/server/app/foo.body"].

(** Three locales; the domain of the deploy site serves its default locale
    [en] and lists [locales] as the others. *)
Definition threeLocales (locales : list string) : I18n.t :=
  {| I18n.locales := ["en"; "fr"; "de"];
     I18n.defaultLocale := "en";
     I18n.domains :=
       Some [ {| DomainLocale.domain := "a.com";
                 DomainLocale.defaultLocale := "en";
                 DomainLocale.locales := Some locales |} ] |}.

Definition localizedManifest : PrerenderManifest.t :=
  {| PrerenderManifest.routes :=
       [("/en/about", route None RevalidateFalse None);
        ("/fr/about", route None RevalidateFalse None);
        ("/de/about", route None RevalidateFalse None)];
     PrerenderManifest.dynamicRoutes := Some [] |}.

Definition localizedOutput (locales : list string) : PublicEnv.t :=
  publicEnv (Some (threeLocales locales)) ["a.com"] localizedManifest [] Missing noMetadata
            ["/app/.next/server/pages/en/about.html";
             "/app/.next/server/pages/fr/about.html";
             "/app/.next/server/pages/de/about.html"].

Definition blogAsScript : PagesManifest := [("/blog/[slug]", "pages/blog/[slug].js")].
Definition blogAsHtml : PagesManifest := [("/blog/[slug]", "pages/blog/[slug].html")].
Definition newsAsScript : PagesManifest := [("/news", "pages/news.js")].
Definition newsAsHtml : PagesManifest := [("/news", "pages/news.html")].

End Sample.

(** ** What a run prints *)

(** The messages a list of effects sends to [logger.info] and to
    [logger.debug]. *)
Definition infoMessages (effects : list Effect) : list string :=
  flat_map (fun e => match e with LogInfo message => [message] | _ => [] end) effects.

Definition debugMessages (effects : list Effect) : list string :=
  flat_map (fun e => match e with LogDebug message => [message] | _ => [] end) effects.

(** ** The environment of the spawned build, [getConfig] and [discover] *)

(** semver's [gte]. *)
Class Semver : Type := {
  gte : string -> string -> bool
}.

Module FrameworkContext.
Record t : Type := mk {
  projectId : option string;
  site : option string;
  hostingChannel : option string
}.
End FrameworkContext.

(** A value that is used only when truthy. *)
Definition whenTruthy (o : option string) : option string :=
  match o with
  | Some s => if Js.truthy s then Some s else None
  | None => None
  end.

(** What lines 124-157 of [build] obtain from outside. *)
Module SpawnInputs.
Record t : Type := mk {
  dir : string;
  processEnv : Js.Obj string;
  (** [findDependency("react-dom", ..)?.version] *)
  reactVersion : option string;
  context : option FrameworkContext.t;
  (** The text of the file at a path, if the path exists. *)
  readFile : string -> option string;
  (** [parseStrict] of [../../functions/env] on that text. *)
  parseStrict : string -> Outcome (Js.Obj string);
  getDeploymentDomain : string -> string -> option string -> option string
}.
End SpawnInputs.

Section SpawnEnvironment.

Context {node : NodeLib} {semver : Semver}.

(** Lines 124-128: [process.env] after the React 18 flag is set. *)
Definition processEnvForBuild (inputs : SpawnInputs.t) : Js.Obj string :=
  match whenTruthy (SpawnInputs.reactVersion inputs) with
  | Some reactVersion =>
      if gte reactVersion "18.0.0"
      then Js.set (SpawnInputs.processEnv inputs) "__NEXT_REACT_ROOT" "true"
      else SpawnInputs.processEnv inputs
  | None => SpawnInputs.processEnv inputs
  end.

Definition projectIdOf (inputs : SpawnInputs.t) : option string :=
  match SpawnInputs.context inputs with
  | Some context => whenTruthy (FrameworkContext.projectId context)
  | None => None
  end.

Definition siteOf (inputs : SpawnInputs.t) : option string :=
  match SpawnInputs.context inputs with
  | Some context => whenTruthy (FrameworkContext.site context)
  | None => None
  end.

(** Lines 144-157. *)
Definition deploymentDomainOf (inputs : SpawnInputs.t) : option string :=
  match SpawnInputs.context inputs, projectIdOf inputs, siteOf inputs with
  | Some context, Some projectId, Some site =>
      whenTruthy (SpawnInputs.getDeploymentDomain inputs projectId site
                    (FrameworkContext.hostingChannel context))
  | _, _, _ => None
  end.

(** Lines 130-157: the [env] handed to [spawn]. *)
Definition spawnEnvironment (inputs : SpawnInputs.t) : Outcome (Js.Obj string) :=
  let env := Js.spread [] (processEnvForBuild inputs) in
  let merged :=
    match projectIdOf inputs with
    | Some projectId =>
        let projectEnvPath := join [SpawnInputs.dir inputs; ".env." ++ projectId] in
        match SpawnInputs.readFile inputs projectEnvPath with
        | Some text =>
            match SpawnInputs.parseStrict inputs text with
            | Ok projectEnvVars => Ok (Js.spread (Js.spread [] projectEnvVars) env)
            | Throw e => Throw e
            end
        | None => Ok env
        end
    | None => Ok env
    end in
  match merged with
  | Ok env =>
      match deploymentDomainOf inputs with
      | Some deploymentDomain => Ok (Js.set env "VERCEL_URL" deploymentDomain)
      | None => Ok env
      end
  | Throw e => Throw e
  end.

End SpawnEnvironment.

(** A configuration as [next.config.js] gives it: any key may be absent. *)
Module PartialNextConfig.
Record t : Type := mk {
  distDir : option string;
  trailingSlash : option bool;
  basePath : option string;
  i18n : option I18n.t
}.
Definition empty : t := mk None None None None.
End PartialNextConfig.

(** An error raised with [new Error(..)], or one an imported function threw. *)
Inductive ConfigFailure : Type :=
| PlainError (message : string)
| Rethrown (e : Error).

Inductive Settled (A : Type) : Type :=
| Resolved (a : A)
| Rejected (failure : ConfigFailure).
Arguments Resolved {A} a.
Arguments Rejected {A} failure.

Module ConfigInputs.
Record t : Type := mk {
  whichNextConfigFile : option string;
  getNextVersion : option string;
  (** [loadConfig(PHASE_PRODUCTION_BUILD, dir)] of [next/dist/server/config]. *)
  loadConfig : Outcome PartialNextConfig.t;
  (** The dynamic [import] of the configuration file; [None] when it throws. *)
  importConfig : option PartialNextConfig.t;
  (** [validateLocales] of [../utils]: the error it throws, if it does. *)
  validateLocales : option (list string) -> option Error
}.
End ConfigInputs.

Section GetConfig.

Context {semver : Semver}.

(** Lines 751-769. *)
Definition loadNextConfig (inputs : ConfigInputs.t) : Settled PartialNextConfig.t :=
  match whenTruthy (ConfigInputs.whichNextConfigFile inputs) with
  | Some configFile =>
      match whenTruthy (ConfigInputs.getNextVersion inputs) with
      | None => Rejected (PlainError "Unable to find the next dep, try NPM installing?")
      | Some version =>
          if gte version "12.0.0"
          then match ConfigInputs.loadConfig inputs with
               | Ok config => Resolved config
               | Throw e => Rejected (Rethrown e)
               end
          else match ConfigInputs.importConfig inputs with
               | Some config => Resolved config
               | None => Rejected (PlainError ("Unable to load " ++ configFile ++ "."))
               end
      end
  | None => Resolved PartialNextConfig.empty
  end.

(** Lines 748-778. *)
Definition getConfig (inputs : ConfigInputs.t) : Settled NextConfig.t :=
  match loadNextConfig inputs with
  | Resolved config =>
      match ConfigInputs.validateLocales inputs
              (option_map I18n.locales (PartialNextConfig.i18n config)) with
      | Some e => Rejected (Rethrown e)
      | None =>
          Resolved
            {| NextConfig.distDir := orElse (PartialNextConfig.distDir config) ".next";
               NextConfig.trailingSlash := orElse (PartialNextConfig.trailingSlash config) false;
               NextConfig.basePath := orElse (PartialNextConfig.basePath config) "/";
               NextConfig.i18n := PartialNextConfig.i18n config |}
      end
  | Rejected failure => Rejected failure
  end.

End GetConfig.

Module Discovery.
Record t : Type := mk {
  mayWantBackend : bool;
  publicDirectory : string;
  version : option string
}.
End Discovery.

Definition PUBLIC_DIR : string := "public".

(** Lines 106-112; [pathExists] tells whether a path exists. *)
Definition discover {node : NodeLib} (pathExists : string -> bool)
  (getNextVersion whichNextConfigFile : option string) (dir : string) : option Discovery.t :=
  if negb (pathExists (join [dir; "package.json"])) then None
  else
    let version := getNextVersion in
    if negb (Js.truthyOpt whichNextConfigFile) && negb (Js.truthyOpt version) then None
    else Some {| Discovery.mayWantBackend := true;
                 Discovery.publicDirectory := join [dir; PUBLIC_DIR];
                 Discovery.version := version |}.

(** ** [ɵcodegenFunctionsDirectory] and [getDevModeHandle] *)

Module CustomBuildOptions.
Record t : Type := mk {
  entryPoints : list string;
  outfile : string;
  bundle : bool;
  platform : string;
  target : string;
  logLevel : string;
  external : list string;
  format : option string
}.
End CustomBuildOptions.

(** [package.json]: its [dependencies], and the text of its other keys. *)
Module PackageJson.
Record t : Type := mk {
  dependencies : option (Js.Obj string);
  others : Js.Obj string
}.
End PackageJson.

(** What is thrown: a [FirebaseError], a [TypeError], or the error of an
    imported function; each with its message. *)
Inductive Thrown : Type :=
| ThrownFirebaseError (message : string)
| ThrownTypeError (message : string)
| ThrownError (message : string).

Definition messageOf (e : Thrown) : string :=
  match e with
  | ThrownFirebaseError message | ThrownTypeError message | ThrownError message => message
  end.

Inductive Stage : Type := BeforeInstall | AfterInstall.

Module Host.

Inductive Action : Type :=
| ReadJSON (path : string)
| ConsoleWarn (message : string)
(** [console.error(e.message || e)] *)
| ConsoleError (value : string + Thrown)
| InstallEsbuild (version : string)
| Require (path : string)
| NpmLs (cwd : string)
| EsbuildBuild (options : CustomBuildOptions.t)
| Mkdir (path : string)
| Mkdirp (path : string)
| Copy (src dest : string)
| IsUsingMiddleware (dir : string) (dev : bool)
| RelativeRequire (dir name : string)
(** [next({ dev: true, dir, hostname, port })] with its [getRequestHandler()] *)
| CreateNextApp (dir : string) (hostname : option string) (port : option Z)
| Prepare.

Definition M (A : Type) : Type := (list Action * (A + Thrown))%type.

Definition ret {A} (a : A) : M A := ([], inl a).
Definition raise {A} (e : Thrown) : M A := ([], inr e).
Definition act (a : Action) : M unit := ([a], inl tt).
Definition lift {A} (r : A + Thrown) : M A := ([], r).

Definition bind {A B} (m : M A) (f : A -> M B) : M B :=
  match m with
  | (t, inl a) => let '(t', r) := f a in ((t ++ t')%list, r)
  | (t, inr e) => (t, inr e)
  end.

(** [try { m } catch (e) { handler(e) }] *)
Definition tryCatch {A} (m : M A) (handler : Thrown -> M A) : M A :=
  match m with
  | (t, inl a) => (t, inl a)
  | (t, inr e) => let '(t', r) := handler e in ((t ++ t')%list, r)
  end.

Definition trace {A} (m : M A) : list Action := fst m.
Definition outcome {A} (m : M A) : A + Thrown := snd m.

(** [await f(..)] for an imported function that leaves nothing in the trace:
    the call rejects with the error the environment gives for it, or answers
    [value]. *)
Definition awaited {A} (rejection : option Thrown) (value : A) : M A :=
  match rejection with
  | Some e => raise e
  | None => ret value
  end.

(** A call that is made and may reject: [fails] gives the error. *)
Definition perform (fails : Action -> option Thrown) (a : Action) : M unit :=
  match fails a with
  | Some e => ([a], inr e)
  | None => act a
  end.

(** [Promise.all(actions)]: all the calls are made; it rejects if one of them
    does. Which rejection wins when several reject is a matter of timing; here
    it is the first in the order of the list. *)
Definition performTogether (fails : Action -> option Thrown) (actions : list Action) : M unit :=
  (actions,
   fold_right (fun a rest => match fails a with Some e => inr e | None => rest end)
              (inl tt) actions).

End Host.

Notation "x <-- m ;; k" := (Host.bind m (fun x => k))
  (at level 61, m at next level, right associativity).
Notation "m ;;;; k" := (Host.bind m (fun _ => k))
  (at level 61, right associativity).

(** [allDependencyNames] of [./utils], the tree of [npm ls] it walks and the
    constants of [./constants] and [../constants]. *)
Class BundlerUtils : Type := {
  NpmLsDependency : Type;
  allDependencyNames : NpmLsDependency -> list string;
  ESBUILD_VERSION : string;
  NODE_VERSION : string;
  SHARP_VERSION : string
}.

Module FunctionsResult.
Record t : Type := mk {
  packageJson : PackageJson.t;
  frameworksEntry : string;
  dotEnv : Js.Obj string
}.
End FunctionsResult.

(** The imported functions [ɵcodegenFunctionsDirectory] awaits that leave
    nothing in the trace: [getConfig] (line 598), [whichNextConfigFile] (line
    604), [isUsingImageOptimization] (line 680), [getDeploymentDomain] (line
    686) and [getProductionDistDirFiles] (line 701). *)
Module FunctionsCall.
Inductive t : Type :=
| GetConfig
| WhichNextConfigFile
| IsUsingImageOptimization
| GetDeploymentDomain
| GetProductionDistDirFiles.
End FunctionsCall.

Section Functions.

Context {node : NodeLib} {bundler : BundlerUtils}.

(** Everything [ɵcodegenFunctionsDirectory] obtains from outside. [rejects]
    gives the error an awaited call rejects with, if it does, and [fails] the
    error a call of [mkdir], [mkdirp] or [copy] rejects with, if it does; the
    fields named after the functions give what they answer otherwise, and
    [distDir] is the one [getConfig] answers. *)
Record FunctionsEnv : Type := {
  sourceDir : string;
  destDir : string;
  rejects : FunctionsCall.t -> option Thrown;
  fails : Host.Action -> option Thrown;
  distDir : string;
  (** [readJSON(join(sourceDir, "package.json"))]: the parsed file, or what
      the read throws. *)
  packageJsonFile : PackageJson.t + Thrown;
  whichNextConfigFile : option string;
  findEsbuildPath : Stage -> option string;
  pathExistsSync : Stage -> string -> bool;
  (** The error [installEsbuild] throws, if it does. *)
  installEsbuild : option Thrown;
  (** [require(path)]: whether the module is truthy, or what it throws. *)
  requireEsbuild : string -> bool + Thrown;
  (** The top-level [dependencies] entries [npm ls] streams. *)
  npmLs : list (string * NpmLsDependency);
  (** [esbuild.build(options)]: the [errors] of the bundle, or what it
      rejects with. *)
  esbuildBuild : CustomBuildOptions.t -> option (list string) + Thrown;
  publicExists : bool;
  isUsingImageOptimization : bool;
  context : option FrameworkContext.t;
  getDeploymentDomain : string -> string -> option string -> option string;
  getProductionDistDirFiles : list string
}.

(** Lines 608-616. *)
Definition locateEsbuild (env : FunctionsEnv) : Host.M string :=
  let missing (stage : Stage) :=
    match whenTruthy (findEsbuildPath env stage) with
    | Some esbuildPath => negb (pathExistsSync env stage esbuildPath)
    | None => true
    end in
  if missing BeforeInstall
  then
    Host.act (Host.ConsoleWarn "esbuild not found, installing...") ;;;;
    Host.act (Host.InstallEsbuild ESBUILD_VERSION) ;;;;
    match installEsbuild env with Some e => Host.raise e | None => Host.ret tt end ;;;;
    if missing AfterInstall
    then Host.raise (ThrownFirebaseError "Failed to locate esbuild after installation.")
    else Host.ret (orElse (findEsbuildPath env AfterInstall) "")
  else Host.ret (orElse (findEsbuildPath env BeforeInstall) "").

(** Lines 624-643: [[...new Set(dependencies)]]. *)
Definition productionDeps (env : FunctionsEnv) : list string :=
  Js.addAll [] (flat_map (fun entry => fst entry :: allDependencyNames (snd entry)) (npmLs env)).

(** Lines 647-659. *)
Definition esbuildArgs (env : FunctionsEnv) (configFile : string) : CustomBuildOptions.t :=
  {| CustomBuildOptions.entryPoints := [join [sourceDir env; configFile]];
     CustomBuildOptions.outfile := join [destDir env; configFile];
     CustomBuildOptions.bundle := true;
     CustomBuildOptions.platform := "node";
     CustomBuildOptions.target := "node" ++ NODE_VERSION;
     CustomBuildOptions.logLevel := "error";
     CustomBuildOptions.external := productionDeps env;
     CustomBuildOptions.format :=
       if String.eqb configFile "next.config.mjs" then Some "esm" else None |}.

(** Lines 607-665: the body of the [try]. *)
Definition bundleConfig (env : FunctionsEnv) (configFile : string) : Host.M unit :=
  esbuildPath <-- locateEsbuild env ;;
  Host.act (Host.Require esbuildPath) ;;;;
  esbuild <-- Host.lift (requireEsbuild env esbuildPath) ;;
  (if negb esbuild
   then Host.raise (ThrownFirebaseError ("Failed to load esbuild from path: " ++ esbuildPath))
   else Host.ret tt) ;;;;
  Host.act (Host.NpmLs (sourceDir env)) ;;;;
  Host.act (Host.EsbuildBuild (esbuildArgs env configFile)) ;;;;
  bundle <-- Host.lift (esbuildBuild env (esbuildArgs env configFile)) ;;
  match bundle with
  | Some (error :: errors) => Host.raise (ThrownFirebaseError (String.concat "," (error :: errors)))
  | _ => Host.ret tt
  end.

(** Lines 666-672: the [catch]. *)
Definition copyRawConfig (env : FunctionsEnv) (configFile : string) (e : Thrown) : Host.M unit :=
  Host.act (Host.ConsoleWarn
              ("Unable to bundle " ++ configFile ++
               " for use in Cloud Functions, proceeding with deploy but problems may be encountered."))
  ;;;;
  Host.act (Host.ConsoleError
              (if Js.truthy (messageOf e) then inl (messageOf e) else inr e)) ;;;;
  Host.perform (fails env)
    (Host.Copy (join [sourceDir env; configFile]) (join [destDir env; configFile])).

(** Lines 679-682. *)
Definition addSharp (env : FunctionsEnv) (packageJson : PackageJson.t) : Host.M PackageJson.t :=
  if isUsingImageOptimization env
  then match PackageJson.dependencies packageJson with
       | Some dependencies =>
           Host.ret {| PackageJson.dependencies := Some (Js.set dependencies "sharp" SHARP_VERSION);
                       PackageJson.others := PackageJson.others packageJson |}
       | None =>
           Host.raise (ThrownTypeError "Cannot set properties of undefined (setting 'sharp')")
       end
  else Host.ret packageJson.

(** Lines 684-698. *)
Definition dotEnvOf (env : FunctionsEnv) : Js.Obj string :=
  match context env with
  | Some context =>
      match whenTruthy (FrameworkContext.projectId context),
            whenTruthy (FrameworkContext.site context) with
      | Some projectId, Some site =>
          match whenTruthy (getDeploymentDomain env projectId site
                              (FrameworkContext.hostingChannel context)) with
          | Some deploymentDomain => Js.set [] "VERCEL_URL" deploymentDomain
          | None => []
          end
      | _, _ => []
      end
  | None => []
  end.

(** Line 685: whether [getDeploymentDomain] is called. *)
Definition namesProjectAndSite (env : FunctionsEnv) : bool :=
  match context env with
  | Some context =>
      isSome (whenTruthy (FrameworkContext.projectId context))
      && isSome (whenTruthy (FrameworkContext.site context))
  | None => false
  end.

(** Lines 592-714. In the [Promise.all] of line 700 both calls are made;
    [mkdirp] is listed first. *)
Definition codegenFunctionsDirectory (env : FunctionsEnv) : Host.M FunctionsResult.t :=
  Host.awaited (rejects env FunctionsCall.GetConfig) tt ;;;;
  Host.act (Host.ReadJSON (join [sourceDir env; "package.json"])) ;;;;
  packageJson <-- Host.lift (packageJsonFile env) ;;
  configFile <--
    Host.awaited (rejects env FunctionsCall.WhichNextConfigFile) (whichNextConfigFile env) ;;
  match whenTruthy configFile with
  | Some configFile =>
      Host.tryCatch (bundleConfig env configFile) (copyRawConfig env configFile)
  | None => Host.ret tt
  end ;;;;
  (if publicExists env
   then Host.perform (fails env) (Host.Mkdir (join [destDir env; "public"])) ;;;;
        Host.perform (fails env)
          (Host.Copy (join [sourceDir env; "public"]) (join [destDir env; "public"]))
   else Host.ret tt) ;;;;
  Host.awaited (rejects env FunctionsCall.IsUsingImageOptimization) tt ;;;;
  packageJson <-- addSharp env packageJson ;;
  (if namesProjectAndSite env
   then Host.awaited (rejects env FunctionsCall.GetDeploymentDomain) tt
   else Host.ret tt) ;;;;
  let dotEnv := dotEnvOf env in
  Host.perform (fails env) (Host.Mkdirp (join [destDir env; distDir env])) ;;;;
  productionDistDirfiles <--
    Host.awaited (rejects env FunctionsCall.GetProductionDistDirFiles)
                 (getProductionDistDirFiles env) ;;
  Host.performTogether (fails env)
    (map (fun file => Host.Copy (join [sourceDir env; distDir env; file])
                                (join [destDir env; distDir env; file]))
         productionDistDirfiles) ;;;;
  Host.ret {| FunctionsResult.packageJson := packageJson;
              FunctionsResult.frameworksEntry := "next.js";
              FunctionsResult.dotEnv := dotEnv |}.

(** Lines 719-746: [hostingEmulatorInfo] is the host and port of the
    emulator; the answer is the Next.js application the proxy hands requests
    to. [fails] gives the error a call rejects or throws with, if it does. *)
Definition getDevModeHandle (bold : string -> string) (fails : Host.Action -> option Thrown)
  (isUsingMiddleware : bool)
  (dir : string) (hostingEmulatorInfo : option (string * Z)) : Host.M unit :=
  match hostingEmulatorInfo with
  | None =>
      Host.perform fails (Host.IsUsingMiddleware dir true) ;;;;
      if isUsingMiddleware
      then Host.raise
             (ThrownFirebaseError
                (bold "firebase serve" ++ " does not support Next.js Middleware. Please use "
                 ++ bold "firebase emulators:start" ++ " instead."))
      else Host.ret tt
  | Some _ => Host.ret tt
  end ;;;;
  Host.perform fails (Host.RelativeRequire dir "next") ;;;;
  Host.perform fails (Host.CreateNextApp dir (option_map fst hostingEmulatorInfo)
                                         (option_map snd hostingEmulatorInfo)) ;;;;
  Host.perform fails Host.Prepare.

End Functions.

(** * [src/frameworks/angular/utils.ts] *)

Module JsString.

(** [s.lastIndexOf(c)] for a one-character [c]: [-1] when [c] does not
    occur in [s]. *)
Fixpoint lastIndexOf (c : ascii) (s : string) : Z :=
  match s with
  | EmptyString => (-1)%Z
  | String first rest =>
      let index := lastIndexOf c rest in
      if (0 <=? index)%Z then (index + 1)%Z
      else if Ascii.eqb first c then 0%Z else (-1)%Z
  end.

Fixpoint drop (n : nat) (s : string) : string :=
  match n, s with
  | O, _ => s
  | S n', String _ rest => drop n' rest
  | S _, EmptyString => EmptyString
  end.

(** [s.slice(start)] for [start >= 0]. *)
Definition slice (s : string) (start : Z) : string := drop (Z.to_nat start) s.

Definition doubleQuote : string := String "034" EmptyString.
Definition newline : string := String "010" EmptyString.

End JsString.

#[local] Unset Elimination Schemes.

(** A JSON value; [JNull] also stands for [undefined]. *)
Inductive Json : Type :=
| JNull
| JBool (b : bool)
| JNumber (z : Z)
| JString (s : string)
| JArray (items : list Json)
| JObject (fields : list (string * Json)).

#[local] Set Elimination Schemes.

Module JsonValue.

Definition truthy (v : Json) : bool :=
  match v with
  | JNull => false
  | JBool b => b
  | JNumber z => negb (z =? 0)%Z
  | JString s => Js.truthy s
  | JArray _ | JObject _ => true
  end.

(** [o.k] on a [JsonObject], and on [o?.k]. *)
Definition field (o : Js.Obj Json) (k : string) : Json :=
  match Js.get o k with Some v => v | None => JNull end.

Definition optField (o : option (Js.Obj Json)) (k : string) : Json :=
  match o with Some o => field o k | None => JNull end.

End JsonValue.

Module Angular.

(** Lines 69-78. *)
Inductive BuilderType : Type :=
| DEPLOY
| DEV_SERVER
| SSR_DEV_SERVER
| SERVER
| BROWSER
| BROWSER_ESBUILD
| APPLICATION
| PRERENDER.

Definition value (t : BuilderType) : string :=
  match t with
  | DEPLOY => "deploy"
  | DEV_SERVER => "dev-server"
  | SSR_DEV_SERVER => "ssr-dev-server"
  | SERVER => "server"
  | BROWSER => "browser"
  | BROWSER_ESBUILD => "browser-esbuild"
  | APPLICATION => "application"
  | PRERENDER => "prerender"
  end.

(** [Object.values(BuilderType)] *)
Definition values : list BuilderType :=
  [DEPLOY; DEV_SERVER; SSR_DEV_SERVER; SERVER; BROWSER; BROWSER_ESBUILD; APPLICATION; PRERENDER].

(** [===] on the members of the enumeration, which are their strings. *)
Definition same (a b : BuilderType) : bool := String.eqb (value a) (value b).

Definition includes (types : list BuilderType) (t : BuilderType) : bool :=
  existsb (same t) types.

(** Line 80. *)
Definition DEV_SERVER_TARGETS : list BuilderType := [DEV_SERVER; SSR_DEV_SERVER].

(** Lines 82-91. *)
Definition getValidBuilderTypes (purpose : string) : list BuilderType :=
  ([APPLICATION; BROWSER_ESBUILD; DEPLOY; BROWSER; PRERENDER]
   ++ (if String.eqb purpose "deploy" then [] else DEV_SERVER_TARGETS))%list.

(** Lines 596-603. *)
Definition getBuilderType (builder : string) : option BuilderType :=
  let colonIndex := JsString.lastIndexOf ":" builder in
  let builderType :=
    if (0 <=? colonIndex)%Z then Some (JsString.slice builder (colonIndex + 1)) else None in
  match whenTruthy builderType with
  | Some name => find (fun t => String.eqb (value t) name) values
  | None => None
  end.

(** [Target] of [@angular-devkit/architect]. *)
Module Target.
Record t : Type := mk {
  project : string;
  target : string;
  configuration : option string
}.
End Target.

(** [TargetDefinition] of [@angular-devkit/core]; of [configurations] its
    keys. *)
Module TargetDefinition.
Record t : Type := mk {
  builder : string;
  defaultConfiguration : option string;
  options : option (Js.Obj Json);
  configurations : option (list string)
}.
End TargetDefinition.

(** [i18n.sourceLocale]: a locale code, or an object with [code] and
    [baseHref]. *)
Inductive SourceLocale : Type :=
| SourceLocaleCode (code : string)
| SourceLocaleObject (code : string) (baseHref : option string).

(** [AngularI18nConfig]; of each entry of [locales] its [baseHref]. *)
Module AngularI18nConfig.
Record t : Type := mk {
  sourceLocale : SourceLocale;
  locales : list (string * option string)
}.
End AngularI18nConfig.

(** [ProjectDefinition]: [extensions.projectType], [extensions.i18n] (absent
    when falsy) and the [targets] map in the order of its keys. *)
Module ProjectDefinition.
Record t : Type := mk {
  projectType : option string;
  i18n : option AngularI18nConfig.t;
  targets : list (string * TargetDefinition.t)
}.
End ProjectDefinition.

(** [targetStringFromTarget] and [targetFromTargetString] of
    [@angular-devkit/architect], the second with what it throws on a string
    that is no target; and the error [assertIsString] of [../../utils] throws
    on a value that is no string. *)
Class ArchitectLib : Type := {
  targetStringFromTarget : Target.t -> string;
  targetFromTargetString : string -> Target.t + Thrown;
  assertionError : Json -> Thrown
}.

(** What [localesForTarget] obtains from outside: the options the architect
    host answers for the target ([None] for [null]) or what it rejects with,
    and [validateLocales] of [../utils] with the error it throws, if it
    does. *)
Module LocaleInputs.
Record t : Type := mk {
  getOptionsForTarget : Target.t -> option (Js.Obj Json) + Thrown;
  validateLocales : option (list string) -> option Thrown
}.
End LocaleInputs.

Section Targets.

Context {architect : ArchitectLib}.

(** Lines 93-120, from the workspace [readWorkspace] answered. *)
Definition getAllTargets (purpose : string) (projects : list (string * ProjectDefinition.t))
  : list string :=
  let validBuilderTypes := getValidBuilderTypes purpose in
  flat_map
    (fun '(project, projectDefinition) =>
       if negb (match ProjectDefinition.projectType projectDefinition with
                | Some projectType => String.eqb projectType "application"
                | None => false
                end)
       then []
       else
         flat_map
           (fun '(target, targetDefinition) =>
              let builderType := getBuilderType (TargetDefinition.builder targetDefinition) in
              if match builderType with
                 | Some builderType => negb (includes validBuilderTypes builderType)
                 | None => false
                 end
              then []
              else
                let configurations := orElse (TargetDefinition.configurations targetDefinition) [] in
                let configurations :=
                  if negb (Js.has configurations "production")
                  then (configurations ++ ["production"])%list else configurations in
                let configurations :=
                  if negb (Js.has configurations "development")
                  then (configurations ++ ["development"])%list else configurations in
                map (fun configuration =>
                       targetStringFromTarget
                         {| Target.project := project; Target.target := target;
                            Target.configuration := Some configuration |})
                    configurations)
           (ProjectDefinition.targets projectDefinition))
    projects.

(** Lines 50-56: the loop over [Object.entries(i18n.locales)]. *)
Fixpoint pushLocales (entries : list (string * option string)) (locales : list string)
  : list string + Thrown :=
  match entries with
  | [] => inl locales
  | (locale, baseHref) :: rest =>
      if negb (match baseHref with Some href => String.eqb href "" | None => false end)
      then inr (ThrownFirebaseError
                  ("All your i18n locales must have a baseHref of "
                   ++ JsString.doubleQuote ++ JsString.doubleQuote
                   ++ " on Firebase, errored on " ++ locale ++ "."))
      else pushLocales rest (locales ++ [locale])%list
  end.

(** Lines 59-62: the loop over the array [targetOptions.localize]. *)
Fixpoint pushStrings (items : list Json) (locales : list string) : list string :=
  match items with
  | [] => locales
  | JString locale :: rest => pushStrings rest (locales ++ [locale])%list
  | _ :: rest => pushStrings rest locales
  end.

(** Lines 28-64: [locales] and [defaultLocale] before the validation. *)
Definition localesOfOptions (targetOptions : Js.Obj Json)
  (workspaceProject : ProjectDefinition.t) : (option (list string) * option string) + Thrown :=
  let localize := JsonValue.field targetOptions "localize" in
  if JsonValue.truthy localize
  then
    match ProjectDefinition.i18n workspaceProject with
    | None => inr (ThrownFirebaseError "No i18n config on project.")
    | Some i18n =>
        match AngularI18nConfig.sourceLocale i18n with
        | SourceLocaleCode code =>
            inr (ThrownFirebaseError
                   ("All your i18n locales must have a baseHref of "
                    ++ JsString.doubleQuote ++ JsString.doubleQuote
                    ++ " on Firebase, use an object for sourceLocale in your angular.json:"
                    ++ JsString.newline
                    ++ "  " ++ JsString.doubleQuote ++ "i18n" ++ JsString.doubleQuote ++ ": {"
                    ++ JsString.newline
                    ++ "    " ++ JsString.doubleQuote ++ "sourceLocale" ++ JsString.doubleQuote
                    ++ ": {" ++ JsString.newline
                    ++ "      " ++ JsString.doubleQuote ++ "code" ++ JsString.doubleQuote ++ ": "
                    ++ JsString.doubleQuote ++ code ++ JsString.doubleQuote ++ ","
                    ++ JsString.newline
                    ++ "      " ++ JsString.doubleQuote ++ "baseHref" ++ JsString.doubleQuote
                    ++ ": " ++ JsString.doubleQuote ++ JsString.doubleQuote ++ JsString.newline
                    ++ "    }," ++ JsString.newline
                    ++ "    ..." ++ JsString.newline
                    ++ "  }"))
        | SourceLocaleObject code baseHref =>
            if negb (match baseHref with Some href => String.eqb href "" | None => false end)
            then inr (ThrownFirebaseError
                        ("All your i18n locales must have a baseHref of "
                         ++ JsString.doubleQuote ++ JsString.doubleQuote
                         ++ " on Firebase, errored on sourceLocale."))
            else
              let defaultLocale := code in
              match localize with
              | JBool true =>
                  match pushLocales (AngularI18nConfig.locales i18n) [defaultLocale] with
                  | inl locales => inl (Some locales, Some defaultLocale)
                  | inr e => inr e
                  end
              | JArray items => inl (Some (pushStrings items [defaultLocale]), Some defaultLocale)
              | _ => inl (None, Some defaultLocale)
              end
        end
    end
  else inl (None, None).

(** Lines 15-67. *)
Definition localesForTarget (inputs : LocaleInputs.t) (target : Target.t)
  (workspaceProject : ProjectDefinition.t) : (option (list string) * option string) + Thrown :=
  match LocaleInputs.getOptionsForTarget inputs target with
  | inr e => inr e
  | inl None =>
      let targetString := targetStringFromTarget target in
      inr (ThrownFirebaseError ("Couldn't find options for " ++ targetString ++ "."))
  | inl (Some targetOptions) =>
      match localesOfOptions targetOptions workspaceProject with
      | inr e => inr e
      | inl (locales, defaultLocale) =>
          match LocaleInputs.validateLocales inputs locales with
          | Some e => inr e
          | None => inl (locales, defaultLocale)
          end
      end
  end.

End Targets.

(** What [getContext] obtains from outside, once the packages are loaded
    and the workspace is read: its second argument; the [defaultProject] of
    [angular.json], or what reading the file rejects with; the projects of
    the workspace in the order of their keys; and the options the architect
    host answers for a target ([None] for [null]), or what it rejects
    with. *)
Module ContextEnv.
Record t : Type := mk {
  targetOrConfiguration : option string;
  defaultProject : option string + Thrown;
  projects : list (string * ProjectDefinition.t);
  getOptionsForTarget : Target.t -> option (Js.Obj Json) + Thrown
}.
End ContextEnv.

(** The target variables of [getContext] and [serveOptimizedImages]. *)
Module Slots.
Record t : Type := mk {
  deployTarget : option Target.t;
  buildTarget : option Target.t;
  browserTarget : option Target.t;
  serverTarget : option Target.t;
  prerenderTarget : option Target.t;
  serveTarget : option Target.t;
  serveOptimizedImages : bool
}.
Definition empty : t := mk None None None None None None false.
End Slots.

(** What [getContext] returns, without the architect, its host and the
    workspace host. *)
Module Context.
Record t : Type := mk {
  baseHref : string;
  buildTarget : option Target.t;
  browserTarget : option Target.t;
  prerenderTarget : option Target.t;
  serverTarget : option Target.t;
  serveTarget : option Target.t;
  workspaceProject : ProjectDefinition.t;
  serveOptimizedImages : bool;
  ssr : bool
}.
End Context.

(** The variable a target is held in. Each variable holds an object of its
    own ([targetFromTargetString] builds a new one at each call), so that
    [target === deployTarget] and the like tell the variable the loop of
    lines 331-365 is at. *)
Inductive Role : Type :=
| DeployRole
| BuildRole
| PrerenderRole
| ServerRole
| BrowserRole
| ServeRole.

(** Lines 584-589. *)
Definition cannotDetermineTarget : Thrown :=
  ThrownFirebaseError
    "Unable to determine the application to deploy, specify a target via the FIREBASE_FRAMEWORKS_BUILD_TARGET environment variable.".

Section GetContext.

Context {architect : ArchitectLib}.

(** Lines 577-582. *)
Definition tryToGetOptionsForTarget (env : ContextEnv.t) (target : Target.t)
  : Host.M (option (Js.Obj Json)) :=
  match ContextEnv.getOptionsForTarget env target with
  | inl options => Host.ret options
  | inr _ => Host.raise cannotDetermineTarget
  end.

(** Lines 153-162: [overrideTarget], [configuration] and [project]. *)
Definition readOverride (env : ContextEnv.t)
  : option Target.t * option string * option string :=
  match whenTruthy (ContextEnv.targetOrConfiguration env) with
  | Some targetOrConfiguration =>
      match targetFromTargetString targetOrConfiguration with
      | inl overrideTarget =>
          (Some overrideTarget, Target.configuration overrideTarget,
           Some (Target.project overrideTarget))
      | inr _ => (None, Some targetOrConfiguration, None)
      end
  | None => (None, None, None)
  end.

(** Lines 164-179. *)
Definition resolveProject (env : ContextEnv.t) (project : option string) : Host.M string :=
  project <--
    match whenTruthy project with
    | Some project => Host.ret (Some project)
    | None => Host.lift (ContextEnv.defaultProject env)
    end ;;
  let project :=
    match whenTruthy project with
    | Some project => Some project
    | None =>
        let apps :=
          map fst
            (filter (fun entry =>
                       match ProjectDefinition.projectType (snd entry) with
                       | Some projectType => String.eqb projectType "application"
                       | None => false
                       end)
                    (ContextEnv.projects env)) in
        match apps with
        | [app] => Some app
        | _ => project
        end
    end in
  match whenTruthy project with
  | Some project => Host.ret project
  | None => Host.raise cannotDetermineTarget
  end.

(** [const { defaultConfiguration = fallback } = definition] and
    [{ project, target, configuration: configuration || defaultConfiguration }]. *)
Definition defaultTarget (project target : string) (configuration : option string)
  (definition : TargetDefinition.t) (fallback : string) : Target.t :=
  let defaultConfiguration := orElse (TargetDefinition.defaultConfiguration definition) fallback in
  {| Target.project := project;
     Target.target := target;
     Target.configuration :=
       Some (match whenTruthy configuration with
             | Some configuration => configuration
             | None => defaultConfiguration
             end) |}.

(** Lines 184-218. *)
Definition initialTargets (project : string) (workspaceProject : ProjectDefinition.t)
  (overrideTarget : option Target.t) (configuration : option string) : Host.M Slots.t :=
  let targets := ProjectDefinition.targets workspaceProject in
  match overrideTarget with
  | Some overrideTarget =>
      match Js.get targets (Target.target overrideTarget) with
      | None =>
          Host.raise (ThrownTypeError "Cannot read properties of undefined (reading 'builder')")
      | Some target =>
          match getBuilderType (TargetDefinition.builder target) with
          | Some DEPLOY =>
              Host.ret (Slots.mk (Some overrideTarget) None None None None None false)
          | Some APPLICATION =>
              Host.ret (Slots.mk None (Some overrideTarget) None None None None false)
          | Some BROWSER | Some BROWSER_ESBUILD =>
              Host.ret (Slots.mk None None (Some overrideTarget) None None None false)
          | Some PRERENDER =>
              Host.ret (Slots.mk None None None None (Some overrideTarget) None false)
          | Some DEV_SERVER | Some SSR_DEV_SERVER =>
              Host.ret (Slots.mk None None None None None (Some overrideTarget) false)
          | Some SERVER => Host.raise (ThrownFirebaseError "builder type server not known.")
          | None => Host.raise (ThrownFirebaseError "builder type null not known.")
          end
      end
  | None =>
      match Js.get targets "deploy" with
      | Some definition =>
          match getBuilderType (TargetDefinition.builder definition) with
          | Some DEPLOY =>
              Host.ret (Slots.mk (Some (defaultTarget project "deploy" configuration
                                                      definition "production"))
                                 None None None None None false)
          | _ => Host.ret Slots.empty
          end
      | None => Host.ret Slots.empty
      end
  end.

(** [if (options.k) { assertIsString(options.k); slot = targetFromTargetString(options.k); }] *)
Definition optionalTarget (slot : option Target.t) (value : Json) : Host.M (option Target.t) :=
  if JsonValue.truthy value
  then match value with
       | JString targetString =>
           target <-- Host.lift (targetFromTargetString targetString) ;;
           Host.ret (Some target)
       | _ => Host.raise (assertionError value)
       end
  else Host.ret slot.

(** [assertIsString(options?.k); slot = targetFromTargetString(options.k);] *)
Definition requiredTarget (value : Json) : Host.M (option Target.t) :=
  match value with
  | JString targetString =>
      target <-- Host.lift (targetFromTargetString targetString) ;;
      Host.ret (Some target)
  | _ => Host.raise (assertionError value)
  end.

(** [targetString !== value] *)
Definition differs (targetString : string) (value : Json) : bool :=
  match value with
  | JString s => negb (String.eqb targetString s)
  | _ => true
  end.

(** Lines 220-273: the targets the deploy target names. *)
Definition deployTargets (env : ContextEnv.t) (workspaceProject : ProjectDefinition.t)
  (slots : Slots.t) (deployTarget : Target.t) : Host.M Slots.t :=
  let options :=
    match ContextEnv.getOptionsForTarget env deployTarget with
    | inl options => options
    | inr _ =>
        match Js.get (ProjectDefinition.targets workspaceProject) (Target.target deployTarget) with
        | Some definition => TargetDefinition.options definition
        | None => None
        end
    end in
  match options with
  | None => Host.raise (ThrownFirebaseError "Unable to get options for ng-deploy.")
  | Some options =>
      buildTarget <--
        optionalTarget (Slots.buildTarget slots) (JsonValue.field options "buildTarget") ;;
      prerenderTarget <--
        optionalTarget (Slots.prerenderTarget slots) (JsonValue.field options "prerenderTarget") ;;
      browserTarget <--
        optionalTarget (Slots.browserTarget slots) (JsonValue.field options "browserTarget") ;;
      serverTarget <--
        optionalTarget (Slots.serverTarget slots) (JsonValue.field options "serverTarget") ;;
      serveTarget <--
        optionalTarget (Slots.serveTarget slots) (JsonValue.field options "serveTarget") ;;
      let serveOptimizedImages :=
        if JsonValue.truthy (JsonValue.field options "serveOptimizedImages")
        then true else Slots.serveOptimizedImages slots in
      match prerenderTarget with
      | Some prerender =>
          prerenderOptions <-- Host.lift (ContextEnv.getOptionsForTarget env prerender) ;;
          match browserTarget with
          | None =>
              Host.raise
                (ThrownFirebaseError "ng-deploy with prerenderTarget requires a browserTarget")
          | Some browser =>
              if differs (targetStringFromTarget browser)
                         (JsonValue.optField prerenderOptions "browserTarget")
              then Host.raise
                     (ThrownFirebaseError
                        "ng-deploy's browserTarget and prerender's browserTarget do not match. Please check your angular.json")
              else
                match serverTarget with
                | Some server =>
                    if differs (targetStringFromTarget server)
                               (JsonValue.optField prerenderOptions "serverTarget")
                    then Host.raise
                           (ThrownFirebaseError
                              "ng-deploy's serverTarget and prerender's serverTarget do not match. Please check your angular.json")
                    else Host.ret tt
                | None =>
                    Host.act
                      (Host.ConsoleWarn
                         "Treating the application as fully rendered. Add a serverTarget to your deploy target in angular.json to utilize server-side rendering.")
                end
          end
      | None => Host.ret tt
      end ;;;;
      match buildTarget, browserTarget with
      | None, None =>
          Host.raise
            (ThrownFirebaseError
               "ng-deploy is missing a build target. Plase check your angular.json.")
      | _, _ =>
          Host.ret (Slots.mk (Slots.deployTarget slots) buildTarget browserTarget serverTarget
                             prerenderTarget serveTarget serveOptimizedImages)
      end
  end.

(** Lines 274-311: the targets found by their names. *)
Definition namedTargets (env : ContextEnv.t) (project : string)
  (workspaceProject : ProjectDefinition.t) (configuration : option string) (slots : Slots.t)
  : Host.M Slots.t :=
  let targets := ProjectDefinition.targets workspaceProject in
  slots <--
    match Js.get targets "prerender" with
    | Some definition =>
        let prerenderTarget :=
          defaultTarget project "prerender" configuration definition "production" in
        options <-- Host.lift (ContextEnv.getOptionsForTarget env prerenderTarget) ;;
        browserTarget <-- requiredTarget (JsonValue.optField options "browserTarget") ;;
        serverTarget <-- requiredTarget (JsonValue.optField options "serverTarget") ;;
        Host.ret (Slots.mk (Slots.deployTarget slots) (Slots.buildTarget slots) browserTarget
                           serverTarget (Some prerenderTarget) (Slots.serveTarget slots)
                           (Slots.serveOptimizedImages slots))
    | None => Host.ret slots
    end ;;
  let slots :=
    match Slots.buildTarget slots, Slots.browserTarget slots, Js.get targets "build" with
    | None, None, Some definition =>
        let builderType := getBuilderType (TargetDefinition.builder definition) in
        let target := defaultTarget project "build" configuration definition "production" in
        match builderType with
        | Some BROWSER | Some BROWSER_ESBUILD =>
            Slots.mk (Slots.deployTarget slots) (Slots.buildTarget slots) (Some target)
                     (Slots.serverTarget slots) (Slots.prerenderTarget slots)
                     (Slots.serveTarget slots) (Slots.serveOptimizedImages slots)
        | _ =>
            Slots.mk (Slots.deployTarget slots) (Some target) (Slots.browserTarget slots)
                     (Slots.serverTarget slots) (Slots.prerenderTarget slots)
                     (Slots.serveTarget slots) (Slots.serveOptimizedImages slots)
        end
    | _, _, _ => slots
    end in
  let slots :=
    match Slots.serverTarget slots, Js.get targets "server" with
    | None, Some definition =>
        Slots.mk (Slots.deployTarget slots) (Slots.buildTarget slots) (Slots.browserTarget slots)
                 (Some (defaultTarget project "server" configuration definition "production"))
                 (Slots.prerenderTarget slots) (Slots.serveTarget slots)
                 (Slots.serveOptimizedImages slots)
    | _, _ => slots
    end in
  Host.ret slots.

(** Lines 313-329. *)
Definition withServeTarget (project : string) (workspaceProject : ProjectDefinition.t)
  (configuration : option string) (slots : Slots.t) : Slots.t :=
  let targets := ProjectDefinition.targets workspaceProject in
  let serve (target : Target.t) :=
    Slots.mk (Slots.deployTarget slots) (Slots.buildTarget slots) (Slots.browserTarget slots)
             (Slots.serverTarget slots) (Slots.prerenderTarget slots) (Some target)
             (Slots.serveOptimizedImages slots) in
  match Slots.serveTarget slots with
  | Some _ => slots
  | None =>
      match Slots.serverTarget slots, Js.get targets "serve-ssr" with
      | Some _, Some definition =>
          serve (defaultTarget project "serve-ssr" configuration definition "development")
      | _, _ =>
          match Js.get targets "serve" with
          | Some definition =>
              serve (defaultTarget project "serve" configuration definition "development")
          | None => slots
          end
      end
  end.

(** Lines 349-360: the builder types that let the loop go on. *)
Definition recognized (role : Role) (builderType : option BuilderType) : bool :=
  match role, builderType with
  | DeployRole, Some DEPLOY => true
  | BuildRole, Some APPLICATION => true
  | BuildRole, Some BROWSER => true
  | BrowserRole, Some BROWSER_ESBUILD => true
  | BrowserRole, Some BROWSER => true
  | BrowserRole, Some APPLICATION => true
  | PrerenderRole, Some PRERENDER => true
  | ServerRole, Some SERVER => true
  | ServeRole, Some SSR_DEV_SERVER => true
  | ServeRole, Some DEV_SERVER => true
  | ServeRole, Some SERVER => true
  | _, _ => false
  end.

(** Lines 339-364: the body of the loop for a target that is defined. *)
Definition checkTarget (project : string) (workspaceProject : ProjectDefinition.t)
  (role : Role) (target : Target.t) : Host.M unit :=
  let targetString := targetStringFromTarget target in
  if negb (String.eqb (Target.project target) project)
  then Host.raise
         (ThrownFirebaseError
            (targetString ++ " is not in project " ++ project
             ++ ". Please check your angular.json"))
  else
    match Js.get (ProjectDefinition.targets workspaceProject) (Target.target target) with
    | None =>
        Host.raise
          (ThrownFirebaseError "[object Object] could not be found in your angular.json")
    | Some definition =>
        if recognized role (getBuilderType (TargetDefinition.builder definition))
        then Host.ret tt
        else Host.raise
               (ThrownFirebaseError
                  (TargetDefinition.builder definition ++ " (" ++ targetString
                   ++ ") is not a recognized builder. Please check your angular.json"))
    end.

(** Lines 331-365. *)
Fixpoint checkTargets (project : string) (workspaceProject : ProjectDefinition.t)
  (targets : list (Role * option Target.t)) : Host.M unit :=
  match targets with
  | [] => Host.ret tt
  | (role, Some target) :: rest =>
      checkTarget project workspaceProject role target ;;;;
      checkTargets project workspaceProject rest
  | (_, None) :: rest => checkTargets project workspaceProject rest
  end.

Definition targetsOf (slots : Slots.t) : list (Role * option Target.t) :=
  [(DeployRole, Slots.deployTarget slots);
   (BuildRole, Slots.buildTarget slots);
   (PrerenderRole, Slots.prerenderTarget slots);
   (ServerRole, Slots.serverTarget slots);
   (BrowserRole, Slots.browserTarget slots);
   (ServeRole, Slots.serveTarget slots)].

(** Lines 153-329: the project and the targets. *)
Definition selectTargets (env : ContextEnv.t) : Host.M (string * ProjectDefinition.t * Slots.t) :=
  let '(overrideTarget, configuration, project) := readOverride env in
  project <-- resolveProject env project ;;
  match Js.get (ContextEnv.projects env) project with
  | None => Host.raise (ThrownFirebaseError ("No project " ++ project ++ " found."))
  | Some workspaceProject =>
      slots <-- initialTargets project workspaceProject overrideTarget configuration ;;
      slots <--
        match Slots.deployTarget slots, overrideTarget with
        | Some deployTarget, _ => deployTargets env workspaceProject slots deployTarget
        | None, None => namedTargets env project workspaceProject configuration slots
        | None, Some _ => Host.ret slots
        end ;;
      Host.ret (project, workspaceProject,
                withServeTarget project workspaceProject configuration slots)
  end.

(** Lines 123-399. *)
Definition getContext (env : ContextEnv.t) : Host.M Context.t :=
  selected <-- selectTargets env ;;
  let '(project, workspaceProject, slots) := selected in
  checkTargets project workspaceProject (targetsOf slots) ;;;;
  match (match Slots.buildTarget slots with
         | Some target => Some target
         | None => Slots.browserTarget slots
         end) with
  | None => Host.raise (ThrownFirebaseError ("No build target on " ++ project))
  | Some buildOrBrowserTarget =>
      browserTargetOptions <-- tryToGetOptionsForTarget env buildOrBrowserTarget ;;
      match browserTargetOptions with
      | None =>
          let targetString := targetStringFromTarget buildOrBrowserTarget in
          Host.raise (ThrownFirebaseError ("Couldn't find options for " ++ targetString ++ "."))
      | Some browserTargetOptions =>
          let baseHref :=
            if JsonValue.truthy (JsonValue.field browserTargetOptions "baseHref")
            then JsonValue.field browserTargetOptions "baseHref" else JString "/" in
          baseHref <--
            match baseHref with
            | JString baseHref => Host.ret baseHref
            | _ => Host.raise (assertionError baseHref)
            end ;;
          ssr <--
            match Slots.buildTarget slots with
            | Some buildTarget =>
                buildTargetOptions <-- tryToGetOptionsForTarget env buildTarget ;;
                Host.ret (JsonValue.truthy (JsonValue.optField buildTargetOptions "ssr"))
            | None => Host.ret (isSome (Slots.serverTarget slots))
            end ;;
          Host.ret
            {| Context.baseHref := baseHref;
               Context.buildTarget := Slots.buildTarget slots;
               Context.browserTarget := Slots.browserTarget slots;
               Context.prerenderTarget := Slots.prerenderTarget slots;
               Context.serverTarget := Slots.serverTarget slots;
               Context.serveTarget := Slots.serveTarget slots;
               Context.workspaceProject := workspaceProject;
               Context.serveOptimizedImages := Slots.serveOptimizedImages slots;
               Context.ssr := ssr |}
      end
  end.

End GetContext.

(** What [getBuildConfig] returns. *)
Module BuildConfig.
Record t : Type := mk {
  targets : list string;
  baseHref : string;
  locales : option (list string) * option string;
  serveOptimizedImages : bool;
  ssr : bool
}.
End BuildConfig.

Section GetBuildConfig.

Context {architect : ArchitectLib}.

(** Lines 521-558; the architect host of [localesForTarget] is the one of
    [getContext]. *)
Definition getBuildConfig (env : ContextEnv.t)
  (validateLocales : option (list string) -> option Thrown) : Host.M BuildConfig.t :=
  context <-- getContext env ;;
  let targets :=
    map targetStringFromTarget
        match Context.buildTarget context with
        | Some buildTarget => [buildTarget]
        | None =>
            match Context.prerenderTarget context with
            | Some prerenderTarget => [prerenderTarget]
            | None =>
                flat_map (fun it : option Target.t =>
                            match it with Some target => [target] | None => [] end)
                         [Context.browserTarget context; Context.serverTarget context]
            end
        end in
  let buildOrBrowserTarget :=
    match Context.buildTarget context with
    | Some target => Some target
    | None => Context.browserTarget context
    end in
  match buildOrBrowserTarget with
  | None => Host.raise (ThrownError "expected build or browser target defined")
  | Some buildOrBrowserTarget =>
      locales <--
        Host.lift
          (localesForTarget
             {| LocaleInputs.getOptionsForTarget := ContextEnv.getOptionsForTarget env;
                LocaleInputs.validateLocales := validateLocales |}
             buildOrBrowserTarget (Context.workspaceProject context)) ;;
      Host.ret {| BuildConfig.targets := targets;
                  BuildConfig.baseHref := Context.baseHref context;
                  BuildConfig.locales := locales;
                  BuildConfig.serveOptimizedImages := Context.serveOptimizedImages context;
                  BuildConfig.ssr := Context.ssr context |}
  end.

End GetBuildConfig.

(** What [getServerConfig] returns. *)
Module ServerConfig.
Record t : Type := mk {
  packageJson : Json;
  browserOutputPath : string;
  serverOutputPath : option string;
  baseHref : string;
  bundleDependencies : Json;
  externalDependencies : Json;
  serverLocales : option (list string);
  browserLocales : option (list string);
  defaultLocale : option string;
  serveOptimizedImages : bool;
  serverEntry : option string
}.
End ServerConfig.

Section GetServerConfig.

Context {architect : ArchitectLib} {node : NodeLib}.

(** [typeof options?.outputPath === "string" ? options.outputPath
    : join("dist", target.project)] *)
Definition outputPathOf (options : option (Js.Obj Json)) (target : Target.t) : string :=
  match JsonValue.optField options "outputPath" with
  | JString outputPath => outputPath
  | _ => join ["dist"; Target.project target]
  end.

(** [path.split(sep).join(posix.sep)] *)
Definition toPosix (sep : ascii) (path : string) : string :=
  String.concat "/" (Js.split sep path).

(** Lines 426-519; [sep] is the separator of the platform and [packageJson]
    what [JSON.parse(await host.readFile(join(sourceDir, "package.json")))]
    gives or throws. *)
Definition getServerConfig (env : ContextEnv.t)
  (validateLocales : option (list string) -> option Thrown) (sep : ascii)
  (packageJson : Json + Thrown) : Host.M ServerConfig.t :=
  let inputs :=
    {| LocaleInputs.getOptionsForTarget := ContextEnv.getOptionsForTarget env;
       LocaleInputs.validateLocales := validateLocales |} in
  context <-- getContext env ;;
  let buildTarget := Context.buildTarget context in
  let serverTarget := Context.serverTarget context in
  let workspaceProject := Context.workspaceProject context in
  match (match buildTarget with
         | Some target => Some target
         | None => Context.browserTarget context
         end) with
  | None => Host.raise (ThrownError "expected build or browser target to be defined")
  | Some buildOrBrowserTarget =>
      browserTargetOptions <--
        Host.lift (ContextEnv.getOptionsForTarget env buildOrBrowserTarget) ;;
      let buildOutputPath := outputPathOf browserTargetOptions buildOrBrowserTarget in
      let browserOutputPath :=
        toPosix sep (join [buildOutputPath; if isSome buildTarget then "browser" else ""]) in
      packageJson <-- Host.lift packageJson ;;
      if negb (Context.ssr context)
      then
        Host.ret {| ServerConfig.packageJson := packageJson;
                    ServerConfig.browserOutputPath := browserOutputPath;
                    ServerConfig.serverOutputPath := None;
                    ServerConfig.baseHref := Context.baseHref context;
                    ServerConfig.bundleDependencies := JBool false;
                    ServerConfig.externalDependencies := JArray [];
                    ServerConfig.serverLocales := Some [];
                    ServerConfig.browserLocales := None;
                    ServerConfig.defaultLocale := None;
                    ServerConfig.serveOptimizedImages := Context.serveOptimizedImages context;
                    ServerConfig.serverEntry := None |}
      else
        match (match buildTarget with
               | Some target => Some target
               | None => serverTarget
               end) with
        | None => Host.raise (ThrownError "expected build or server target to be defined")
        | Some buildOrServerTarget =>
            server <--
              Host.lift (localesForTarget inputs buildOrServerTarget workspaceProject) ;;
            let '(serverLocales, defaultLocale) := server in
            serverTargetOptions <--
              Host.lift (ContextEnv.getOptionsForTarget env buildOrServerTarget) ;;
            match serverTargetOptions with
            | None =>
                Host.raise
                  (ThrownError
                     ("expected " ++ JsString.doubleQuote ++ "JsonObject" ++ JsString.doubleQuote
                      ++ " but got " ++ JsString.doubleQuote ++ "object"
                      ++ JsString.doubleQuote))
            | Some serverTargetOptions =>
                let serverTargetOutputPath :=
                  outputPathOf (Some serverTargetOptions) buildOrServerTarget in
                let serverOutputPath :=
                  toPosix sep (join [serverTargetOutputPath;
                                     if isSome buildTarget then "server" else ""]) in
                if isSome serverLocales && negb (Js.truthyOpt defaultLocale)
                then Host.raise
                       (ThrownFirebaseError
                          "It's required that your source locale to be one of the localize options")
                else
                  let serverEntry :=
                    match buildTarget, serverTarget with
                    | Some _, _ => Some "server.mjs"
                    | None, Some _ => Some "main.js"
                    | None, None => None
                    end in
                  let externalDependencies :=
                    if JsonValue.truthy (JsonValue.field serverTargetOptions "externalDependencies")
                    then JsonValue.field serverTargetOptions "externalDependencies"
                    else JArray [] in
                  let bundleDependencies :=
                    match JsonValue.field serverTargetOptions "bundleDependencies" with
                    | JNull => JBool true
                    | value => value
                    end in
                  browser <--
                    Host.lift (localesForTarget inputs buildOrBrowserTarget workspaceProject) ;;
                  Host.ret
                    {| ServerConfig.packageJson := packageJson;
                       ServerConfig.browserOutputPath := browserOutputPath;
                       ServerConfig.serverOutputPath := Some serverOutputPath;
                       ServerConfig.baseHref := Context.baseHref context;
                       ServerConfig.bundleDependencies := bundleDependencies;
                       ServerConfig.externalDependencies := externalDependencies;
                       ServerConfig.serverLocales := serverLocales;
                       ServerConfig.browserLocales := fst browser;
                       ServerConfig.defaultLocale := defaultLocale;
                       ServerConfig.serveOptimizedImages :=
                         Context.serveOptimizedImages context;
                       ServerConfig.serverEntry := serverEntry |}
            end
        end
  end.

End GetServerConfig.

End Angular.

(** ** Further sample inputs *)

Module PlainSemver.

Definition numberOf (s : string) : nat :=
  match NilEmpty.uint_of_string s with
  | Some digits => Nat.of_uint digits
  | None => 0
  end.

Fixpoint notBelow (a b : list nat) : bool :=
  match a, b with
  | x :: a', y :: b' =>
      if (y <? x)%nat then true else if (x <? y)%nat then false else notBelow a' b'
  | [], _ :: _ => false
  | _, [] => true
  end.

(** [gte] on versions of the form [major.minor.patch]. *)
Definition gte (a b : string) : bool :=
  notBelow (map numberOf (Js.split "." a)) (map numberOf (Js.split "." b)).

End PlainSemver.

#[export] Instance plainSemver : Semver := {| gte := PlainSemver.gte |}.

(** A dependency of [npm ls] is given by the names below it. *)
#[export] Instance plainBundler : BundlerUtils := {|
  NpmLsDependency := list string;
  allDependencyNames := fun names => names;
  ESBUILD_VERSION := "0.19.2";
  NODE_VERSION := "20";
  SHARP_VERSION := "^0.32.1"
|}.

Module PlainArchitect.

(** [project:target] and [project:target:configuration]. *)
Definition targetStringFromTarget (target : Angular.Target.t) : string :=
  Angular.Target.project target ++ ":" ++ Angular.Target.target target
  ++ match Angular.Target.configuration target with
     | Some configuration => ":" ++ configuration
     | None => ""
     end.

Definition targetFromTargetString (targetString : string) : Angular.Target.t + Thrown :=
  match Js.split ":" targetString with
  | [project; target] => inl (Angular.Target.mk project target None)
  | [project; target; configuration] =>
      inl (Angular.Target.mk project target (Some configuration))
  | _ => inr (ThrownError ("Invalid target string " ++ targetString))
  end.

End PlainArchitect.

#[export] Instance plainArchitect : Angular.ArchitectLib := {|
  Angular.targetStringFromTarget := PlainArchitect.targetStringFromTarget;
  Angular.targetFromTargetString := PlainArchitect.targetFromTargetString;
  Angular.assertionError := fun _ => ThrownError "expected a string"
|}.

Module SpawnSample.

(** A project [demo] with its site on the channel [live]; the process
    defines [PATH] and [API_URL], the file [.env.demo] defines [API_URL] and
    [API_KEY]. *)
Definition inputs (reactVersion : option string) (parsed : Outcome (Js.Obj string))
  : SpawnInputs.t :=
  {| SpawnInputs.dir := "/app";
     SpawnInputs.processEnv := [("PATH", "/usr/bin"); ("API_URL", "http://localhost")];
     SpawnInputs.reactVersion := reactVersion;
     SpawnInputs.context :=
       Some {| FrameworkContext.projectId := Some "demo";
               FrameworkContext.site := Some "demo-site";
               FrameworkContext.hostingChannel := Some "live" |};
     SpawnInputs.readFile :=
       fun path => if String.eqb path "/app/.env.demo" then Some "API_URL=..." else None;
     SpawnInputs.parseStrict := fun _ => parsed;
     SpawnInputs.getDeploymentDomain := fun _ _ _ => Some "demo-site.web.app" |}.

Definition projectFile : Js.Obj string :=
  [("API_URL", "https://example.com"); ("API_KEY", "secret")].

End SpawnSample.

Module FunctionsSample.

(** An application with a [next.config.js] and the production dependencies
    [next] (over [react]) and [react]; esbuild is found at once. What
    [require] and [esbuild.build] answer is given. *)
Definition env (required : bool + Thrown) (built : option (list string) + Thrown)
  (imageOptimization : bool) : FunctionsEnv :=
  {| sourceDir := "/app";
     destDir := "/functions";
     rejects := fun _ => None;
     fails := fun _ => None;
     distDir := ".next";
     packageJsonFile :=
       inl {| PackageJson.dependencies := Some [("next", "14.0.0"); ("react", "18.2.0")];
              PackageJson.others := [("name", "demo")] |};
     whichNextConfigFile := Some "next.config.js";
     findEsbuildPath := fun _ => Some "/usr/lib/node_modules/esbuild";
     pathExistsSync := fun _ _ => true;
     installEsbuild := None;
     requireEsbuild := fun _ => required;
     npmLs := [("next", ["react"; "scheduler"]); ("react", ["scheduler"])];
     esbuildBuild := fun _ => built;
     publicExists := true;
     isUsingImageOptimization := imageOptimization;
     context :=
       Some {| FrameworkContext.projectId := Some "demo";
               FrameworkContext.site := Some "demo-site";
               FrameworkContext.hostingChannel := None |};
     getDeploymentDomain := fun _ _ _ => Some "demo-site.web.app";
     getProductionDistDirFiles := ["server"; "BUILD_ID"] |}.


(** The calls of [getDevModeHandle] when Next.js cannot be loaded. *)
Definition nextNotInstalled (action : Host.Action) : option Thrown :=
  match action with
  | Host.RelativeRequire _ _ => Some (ThrownError "Cannot find module 'next'")
  | _ => None
  end.

End FunctionsSample.

Module AngularSample.

Definition definition (builder : string) (options : Js.Obj Json) : Angular.TargetDefinition.t :=
  {| Angular.TargetDefinition.builder := builder;
     Angular.TargetDefinition.defaultConfiguration := None;
     Angular.TargetDefinition.options := Some options;
     Angular.TargetDefinition.configurations := Some ["production"; "staging"] |}.

Definition i18n (locales : list (string * option string)) : Angular.AngularI18nConfig.t :=
  {| Angular.AngularI18nConfig.sourceLocale := Angular.SourceLocaleObject "en" (Some "");
     Angular.AngularI18nConfig.locales := locales |}.

(** An application with a build target of the application builder and a
    development server. *)
Definition shop (locales : list (string * option string)) : Angular.ProjectDefinition.t :=
  {| Angular.ProjectDefinition.projectType := Some "application";
     Angular.ProjectDefinition.i18n := Some (i18n locales);
     Angular.ProjectDefinition.targets :=
       [("build", definition "@angular-devkit/build-angular:application"
                             [("localize", JBool true); ("ssr", JBool true)]);
        ("serve", definition "@angular-devkit/build-angular:dev-server" []);
        ("prerender", definition "@angular-devkit/build-angular:prerender" [])] |}.

Definition library : Angular.ProjectDefinition.t :=
  {| Angular.ProjectDefinition.projectType := Some "library";
     Angular.ProjectDefinition.i18n := None;
     Angular.ProjectDefinition.targets :=
       [("build", definition "@angular-devkit/build-angular:ng-packagr" [])] |}.

Definition projects (locales : list (string * option string))
  : list (string * Angular.ProjectDefinition.t) :=
  [("shop", shop locales); ("ui", library)].

(** The architect host answers the options of the definition of a target. *)
Definition getOptionsForTarget (locales : list (string * option string))
  (target : Angular.Target.t) : option (Js.Obj Json) + Thrown :=
  match Js.get (projects locales) (Angular.Target.project target) with
  | Some project =>
      match Js.get (Angular.ProjectDefinition.targets project) (Angular.Target.target target) with
      | Some definition => inl (Angular.TargetDefinition.options definition)
      | None => inr (ThrownError "Target does not exist.")
      end
  | None => inr (ThrownError "Project does not exist.")
  end.

Definition localeInputs (locales : list (string * option string)) : Angular.LocaleInputs.t :=
  {| Angular.LocaleInputs.getOptionsForTarget := getOptionsForTarget locales;
     Angular.LocaleInputs.validateLocales := fun _ => None |}.

Definition buildTarget : Angular.Target.t :=
  {| Angular.Target.project := "shop"; Angular.Target.target := "build";
     Angular.Target.configuration := Some "production" |}.

Definition contextEnv (targetOrConfiguration : option string) : Angular.ContextEnv.t :=
  {| Angular.ContextEnv.targetOrConfiguration := targetOrConfiguration;
     Angular.ContextEnv.defaultProject := inl None;
     Angular.ContextEnv.projects := projects [("fr", Some "")];
     Angular.ContextEnv.getOptionsForTarget := getOptionsForTarget [("fr", Some "")] |}.

End AngularSample.

Module MoreSamples.

(** The output of [Sample.fallbackOutput] without its pages manifest. *)
Definition withoutPagesManifest : PublicEnv.t :=
  {| PublicEnv.sourceDir := "/app";
     PublicEnv.destDir := "/out";
     PublicEnv.rejects := fun _ => None;
     PublicEnv.fails := fun _ => None;
     PublicEnv.config := Sample.config None;
     PublicEnv.getAllSiteDomains := [];
     PublicEnv.publicPathExists := false;
     PublicEnv.middlewareManifest := Present [];
     PublicEnv.prerenderManifest := Present Sample.fallbackManifest;
     PublicEnv.routesManifest := Present Sample.noRules;
     PublicEnv.pagesManifest := Missing;
     PublicEnv.appPathRoutesManifest := Missing;
     PublicEnv.serverReferenceManifest := Missing;
     PublicEnv.getAppMetadataFromMetaFiles := Sample.noMetadata;
     PublicEnv.fileExistsSync := includes ["/app/.next/server/pages/blog/[slug].html"];
     PublicEnv.pathExistsSync := includes ["/app/.next/server/pages/blog/[slug].html"] |}.




(** The build tree holds a directory where the page of [/about] is expected:
    [pathExistsSync] accepts it, and [copyFile] rejects. *)
Definition directoryAsPage : PublicEnv.t :=
  {| PublicEnv.sourceDir := "/app";
     PublicEnv.destDir := "/out";
     PublicEnv.rejects := fun _ => None;
     PublicEnv.fails :=
       fun e =>
         match e with
         | CopyFile src _ =>
             if String.eqb src "/app/.next/server/pages/about"
             then Some (OtherError "EISDIR: illegal operation on a directory, copyfile")
             else None
         | _ => None
         end;
     PublicEnv.config := Sample.config None;
     PublicEnv.getAllSiteDomains := [];
     PublicEnv.publicPathExists := false;
     PublicEnv.middlewareManifest := Present [];
     PublicEnv.prerenderManifest := Present Sample.aboutOnly;
     PublicEnv.routesManifest := Present Sample.noRules;
     PublicEnv.pagesManifest := Present [("/about", "pages/about.js")];
     PublicEnv.appPathRoutesManifest := Missing;
     PublicEnv.serverReferenceManifest := Missing;
     PublicEnv.getAppMetadataFromMetaFiles := Sample.noMetadata;
     PublicEnv.fileExistsSync := includes [];
     PublicEnv.pathExistsSync := includes ["/app/.next/server/pages/about"] |}.

(** Three locales and no domain mapping for the deploy site. *)
Definition withoutDomain : PublicEnv.t :=
  Sample.publicEnv (Some (Sample.threeLocales [])) [] Sample.localizedManifest [] Missing
                   Sample.noMetadata ["/app/.next/server/pages/fr/about.html"].

(** A project without configuration file. *)
Definition noConfigFile : ConfigInputs.t :=
  {| ConfigInputs.whichNextConfigFile := None;
     ConfigInputs.getNextVersion := Some "14.0.0";
     ConfigInputs.loadConfig := Ok PartialNextConfig.empty;
     ConfigInputs.importConfig := None;
     ConfigInputs.validateLocales := fun _ => None |}.

(** What [getContext] answers for the target [shop:build:staging]. *)
Definition stagingContext : Angular.Context.t :=
  {| Angular.Context.baseHref := "/";
     Angular.Context.buildTarget := Some (Angular.Target.mk "shop" "build" (Some "staging"));
     Angular.Context.browserTarget := None;
     Angular.Context.prerenderTarget := None;
     Angular.Context.serverTarget := None;
     Angular.Context.serveTarget := Some (Angular.Target.mk "shop" "serve" (Some "staging"));
     Angular.Context.workspaceProject := AngularSample.shop [("fr", Some "")];
     Angular.Context.serveOptimizedImages := false;
     Angular.Context.ssr := true |}.

End MoreSamples.

(** * Properties *)

(** ** Sets and objects *)

Lemma has_true (s : list string) (x : string) : Js.has s x = true <-> In x s.
Proof.
  unfold Js.has. rewrite existsb_exists. split.
  - intros [y [Hy E]]. apply String.eqb_eq in E. now subst.
  - intros H. exists x. split; [assumption | apply String.eqb_refl].
Qed.

Lemma In_add (s : list string) (x y : string) : In y (Js.add s x) <-> In y s \/ y = x.
Proof.
  unfold Js.add. destruct (Js.has s x) eqn:E.
  - apply has_true in E. split; [tauto | intros [H | ->]; assumption].
  - rewrite in_app_iff. simpl. intuition congruence.
Qed.

Lemma In_addAll (xs s : list string) (y : string) :
  In y (Js.addAll s xs) <-> In y s \/ In y xs.
Proof.
  unfold Js.addAll. revert s. induction xs as [| x xs IH]; intros s; simpl.
  - tauto.
  - rewrite IH, In_add. intuition congruence.
Qed.

Lemma NoDup_add (s : list string) (x : string) : NoDup s -> NoDup (Js.add s x).
Proof.
  intros H. unfold Js.add. destruct (Js.has s x) eqn:E; [assumption |].
  assert (~ In x s) as Hx by (rewrite <- has_true; congruence).
  apply NoDup_app; [assumption | repeat constructor; simpl; tauto |].
  intros a Ha [<- | []]. contradiction.
Qed.

Lemma NoDup_addAll (xs s : list string) : NoDup s -> NoDup (Js.addAll s xs).
Proof.
  unfold Js.addAll. revert s. induction xs as [| x xs IH]; intros s H; simpl.
  - assumption.
  - apply IH, NoDup_add, H.
Qed.

Lemma addAll_addAll (s xs ys : list string) :
  Js.addAll (Js.addAll s xs) ys = Js.addAll s (xs ++ ys).
Proof. unfold Js.addAll. now rewrite fold_left_app. Qed.

Lemma add_when (condition : bool) (s : list string) (x : string) :
  (if condition then Js.add s x else s) = Js.addAll s (when condition x).
Proof. now destruct condition. Qed.

Lemma addAll_guarded {A} (f : A -> string) (l : list A) (s : list string) :
  (if (0 <? List.length l)%nat then Js.addAll s (map f l) else s) = Js.addAll s (map f l).
Proof. now destruct l. Qed.

(** ** The monad *)

Lemma outcome_bind {A B} (m : M A) (f : A -> M B) :
  outcome (bind m f) =
  match outcome m with
  | Ok a => outcome (f a)
  | Throw e => Throw e
  end.
Proof.
  destruct m as [t [a | e]]; simpl; [| reflexivity].
  now destruct (f a).
Qed.

Lemma trace_bind {A B} (m : M A) (f : A -> M B) :
  trace (bind m f) =
  match outcome m with
  | Ok a => (trace m ++ trace (f a))%list
  | Throw e => trace m
  end.
Proof.
  destruct m as [t [a | e]]; simpl; [| reflexivity].
  now destruct (f a).
Qed.

Lemma outcome_readJSON {A} (name : ManifestFile) (f : File A) :
  outcome (readJSON name f) =
  match optional f with Some a => Ok a | None => Throw (readError name f) end.
Proof. now destruct f. Qed.

Lemma outcome_readJSONOrUndefined {A} (name : ManifestFile) (f : File A) :
  outcome (readJSONOrUndefined name f) = Ok (optional f).
Proof. now destruct f. Qed.

Lemma trace_readJSON {A} (name : ManifestFile) (f : File A) :
  trace (readJSON name f) = [ReadJSON name].
Proof. now destruct f. Qed.

Lemma trace_readJSONOrUndefined {A} (name : ManifestFile) (f : File A) :
  trace (readJSONOrUndefined name f) = [ReadJSON name].
Proof. now destruct f. Qed.

Ltac run_outcome :=
  cbv beta iota zeta;
  rewrite ?outcome_bind, ?outcome_readJSON, ?outcome_readJSONOrUndefined;
  cbv beta iota zeta.

(** ** [build]: what a run returns *)

Section BuildFacts.

Context {utils : NextUtils}.

Lemma reasonsOf_candidates env pm pages dyn rm :
  reasonsOf env pm pages dyn rm = Js.addAll [] (candidateReasons env pm pages dyn rm).
Proof.
  unfold reasonsOf, candidateReasons; cbv zeta.
  unfold addAdvancedRewrites, addAdvancedRedirects, addAdvancedHeaders, addUnrenderedPages,
    addPrerenderReasons, addFeatureReasons; cbv zeta.
  rewrite !add_when, !addAll_guarded.
  set (app := addAppReasons _ _ _ _ _ _).
  assert (forall s, app s = Js.addAll s (appCandidates env
            (Js.keys (PrerenderManifest.routes pm)) (Js.keys dyn))) as Happ.
  { intros s. unfold app, addAppReasons, appCandidates, addServerActions,
      addUnrenderedServerComponents, addPprRoutes.
    destruct (optional (BuildEnv.appPathRoutesManifest env)) as [aprm |]; [| reflexivity].
    destruct (optional (BuildEnv.appPathsManifest env)),
             (optional (BuildEnv.serverReferenceManifest env));
      cbv zeta; rewrite ?addAll_addAll, ?app_nil_r; reflexivity. }
  rewrite Happ, !addAll_addAll, <- ?app_assoc. reflexivity.
Qed.

End BuildFacts.

Section BuildRuns.

Context {utils : NextUtils}.

Lemma outcome_logReasons limit debug reasons :
  outcome (logReasons limit debug reasons) = Ok tt.
Proof.
  unfold logReasons. rewrite !outcome_bind. simpl.
  now destruct ((limit <? List.length reasons)%nat && negb debug).
Qed.

Lemma outcome_awaited {A} (rejection : option Error) (value : A) :
  outcome (awaited rejection value) =
  match rejection with Some e => Throw e | None => Ok value end.
Proof. now destruct rejection. Qed.

Lemma trace_awaited {A} (rejection : option Error) (value : A) :
  trace (awaited rejection value) = [].
Proof. now destruct rejection. Qed.

Lemma outcome_awaitAppCalls env prerenderedRoutes dynamicRoutes :
  outcome (awaitAppCalls env (optional (BuildEnv.appPathsManifest env))
             (optional (BuildEnv.appPathRoutesManifest env)) prerenderedRoutes dynamicRoutes) =
  match appRejection env prerenderedRoutes dynamicRoutes with
  | Some e => Throw e
  | None => Ok tt
  end.
Proof.
  unfold awaitAppCalls, appRejection.
  destruct (optional (BuildEnv.appPathRoutesManifest env)) as [aprm |]; [| reflexivity].
  rewrite outcome_bind, outcome_awaited.
  destruct (BuildEnv.rejects env GetAppMetadataFromMetaFiles); [reflexivity |].
  destruct (optional (BuildEnv.appPathsManifest env)) as [apm |]; [| reflexivity].
  cbv zeta. simpl find. simpl existsb.
  destruct (Js.has _ "/_not-found"); simpl.
  - rewrite outcome_bind, outcome_awaited.
    now destruct (BuildEnv.rejects env HasStaticAppNotFoundComponent).
  - destruct (Js.has _ "/_not-found/page"); simpl; [| reflexivity].
    rewrite outcome_bind, outcome_awaited.
    now destruct (BuildEnv.rejects env HasStaticAppNotFoundComponent).
Qed.

Lemma trace_awaitAppCalls env appPathsManifest appPathRoutesManifest
  prerenderedRoutes dynamicRoutes :
  trace (awaitAppCalls env appPathsManifest appPathRoutesManifest
           prerenderedRoutes dynamicRoutes) = [].
Proof.
  unfold awaitAppCalls.
  destruct appPathRoutesManifest as [aprm |]; [| reflexivity].
  rewrite trace_bind, outcome_awaited, trace_awaited.
  destruct (BuildEnv.rejects env GetAppMetadataFromMetaFiles); [reflexivity |].
  destruct appPathsManifest as [apm |]; [| reflexivity].
  cbv zeta. destruct (find _ _) as [key |]; [| reflexivity].
  destruct (Js.truthy key); [| reflexivity].
  rewrite trace_bind, outcome_awaited, trace_awaited.
  now destruct (BuildEnv.rejects env HasStaticAppNotFoundComponent).
Qed.

(** A run returns exactly when the process exits, the awaited calls answer
    and the three mandatory manifests are read, and then it returns
    [localsOf]. *)
Lemma outcome_buildWith limit env :
  outcome (buildWith limit env) =
  match BuildEnv.rejects env BeforeSpawn with
  | Some e => Throw e
  | None =>
  match BuildEnv.nextBuildEnd env with
  | ProcessError err => Throw (FirebaseError ("Unable to build your Next.js app: " ++ err))
  | ProcessExit _ =>
      match BuildEnv.rejects env GetConfig with
      | Some e => Throw e
      | None =>
      match BuildEnv.rejects env IsUsingMiddleware with
      | Some e => Throw e
      | None =>
      match BuildEnv.rejects env IsUsingImageOptimization with
      | Some e => Throw e
      | None =>
      match optional (BuildEnv.prerenderManifest env) with
      | None => Throw (readError PRERENDER_MANIFEST (BuildEnv.prerenderManifest env))
      | Some pm =>
          match optional (BuildEnv.pagesManifest env) with
          | None => Throw (readError PAGES_MANIFEST (BuildEnv.pagesManifest env))
          | Some pages =>
              match PrerenderManifest.dynamicRoutes pm with
              | None => Throw (TypeError "Cannot convert undefined or null to object")
              | Some dyn =>
                  match optional (BuildEnv.routesManifest env) with
                  | None => Throw (readError ROUTES_MANIFEST (BuildEnv.routesManifest env))
                  | Some rm =>
                      match appRejection env (Js.keys (PrerenderManifest.routes pm))
                                         (Js.keys dyn) with
                      | Some e => Throw e
                      | None => Ok (localsOf env pm pages dyn rm)
                      end
                  end
              end
          end
      end
      end
      end
      end
  end
  end.
Proof.
  unfold buildWith, nextBuild. run_outcome. rewrite outcome_awaited.
  destruct (BuildEnv.rejects env BeforeSpawn); [reflexivity |]. run_outcome.
  simpl (outcome (emit _)). simpl (outcome (emitAll _)). run_outcome.
  destruct (BuildEnv.nextBuildEnd env) as [err | code]; [reflexivity |].
  simpl (outcome (ret code)). run_outcome.
  rewrite outcome_awaited.
  destruct (BuildEnv.rejects env GetConfig); [reflexivity |]. run_outcome.
  rewrite outcome_awaited.
  destruct (BuildEnv.rejects env IsUsingMiddleware); [reflexivity |]. run_outcome.
  rewrite outcome_awaited.
  destruct (BuildEnv.rejects env IsUsingImageOptimization); [reflexivity |]. run_outcome.
  destruct (optional (BuildEnv.prerenderManifest env)) as [pm |]; [| reflexivity].
  run_outcome.
  destruct (optional (BuildEnv.pagesManifest env)) as [pages |]; [| reflexivity].
  run_outcome.
  destruct (PrerenderManifest.dynamicRoutes pm) as [dyn |] eqn:Hdyn; [| reflexivity].
  simpl (outcome (ret _)). run_outcome.
  destruct (optional (BuildEnv.routesManifest env)) as [rm |]; [| reflexivity].
  repeat run_outcome.
  rewrite outcome_awaitAppCalls.
  destruct (appRejection env _ _); [reflexivity |]. repeat run_outcome.
  match goal with
  | |- context [outcome (if ?c then ?l else ret tt)] =>
      replace (outcome (if c then l else ret tt)) with (@Ok unit tt)
  end.
  - reflexivity.
  - destruct (0 <? _)%nat; [now rewrite outcome_logReasons | reflexivity].
Qed.

Lemma buildWith_returns limit env locals :
  outcome (buildWith limit env) = Ok locals ->
  exists code pm pages dyn rm,
    BuildEnv.nextBuildEnd env = ProcessExit code /\
    BuildEnv.prerenderManifest env = Present pm /\
    BuildEnv.pagesManifest env = Present pages /\
    PrerenderManifest.dynamicRoutes pm = Some dyn /\
    BuildEnv.routesManifest env = Present rm /\
    locals = localsOf env pm pages dyn rm.
Proof.
  rewrite outcome_buildWith. intros H.
  destruct (BuildEnv.rejects env BeforeSpawn); [discriminate |].
  destruct (BuildEnv.nextBuildEnd env) as [err | code]; [discriminate |].
  destruct (BuildEnv.rejects env GetConfig); [discriminate |].
  destruct (BuildEnv.rejects env IsUsingMiddleware); [discriminate |].
  destruct (BuildEnv.rejects env IsUsingImageOptimization); [discriminate |].
  destruct (BuildEnv.prerenderManifest env) as [pm | |]; try discriminate.
  destruct (BuildEnv.pagesManifest env) as [pages | |]; try discriminate.
  simpl in H.
  destruct (PrerenderManifest.dynamicRoutes pm) as [dyn |] eqn:Hdyn; [| discriminate].
  destruct (BuildEnv.routesManifest env) as [rm | |]; try discriminate.
  simpl in H. destruct (appRejection env _ _); [discriminate |].
  injection H as <-.
  exists code, pm, pages, dyn, rm. repeat split; assumption.
Qed.

End BuildRuns.

(** ** The reasons of a run *)

Section Reasons.

Context {utils : NextUtils}.

Lemma In_when (condition : bool) (x r : string) :
  In r (when condition x) <-> condition = true /\ r = x.
Proof.
  destruct condition; simpl; intuition congruence.
Qed.

Lemma In_appCandidates (r : string) env prerenderedRoutes dynamicRoutes :
  In r (appCandidates env prerenderedRoutes dynamicRoutes) <->
  exists appPathRoutesManifest,
    optional (BuildEnv.appPathRoutesManifest env) = Some appPathRoutesManifest /\
    ((exists route,
         In route (AppMetadata.pprRoutes
                     (BuildEnv.getAppMetadataFromMetaFiles env appPathRoutesManifest)) /\
         r = "route with PPR " ++ route) \/
     (exists appPathsManifest key,
         optional (BuildEnv.appPathsManifest env) = Some appPathsManifest /\
         In key (dropStaticNotFound env
                   (getNonStaticServerComponents appPathsManifest appPathRoutesManifest
                      prerenderedRoutes dynamicRoutes)) /\
         r = "non-static component " ++ key) \/
     (exists serverReferenceManifest key,
         optional (BuildEnv.serverReferenceManifest env) = Some serverReferenceManifest /\
         In key (getRoutesWithServerAction serverReferenceManifest appPathRoutesManifest) /\
         r = "route with server action " ++ key)).
Proof.
  unfold appCandidates.
  destruct (optional (BuildEnv.appPathRoutesManifest env)) as [aprm |].
  - rewrite !in_app_iff, in_map_iff. split.
    + intros [[route [<- H]] | [H | H]].
      * exists aprm. split; [reflexivity |]. left. now exists route.
      * destruct (optional (BuildEnv.appPathsManifest env)) as [apm |]; [| destruct H].
        apply in_map_iff in H as [key [<- H]].
        exists aprm. split; [reflexivity |]. right; left. now exists apm, key.
      * destruct (optional (BuildEnv.serverReferenceManifest env)) as [srm |]; [| destruct H].
        apply in_map_iff in H as [key [<- H]].
        exists aprm. split; [reflexivity |]. right; right. now exists srm, key.
    + intros [aprm' [E [[route [H ->]] | [[apm [key [Ea [H ->]]]] | [srm [key [Es [H ->]]]]]]]];
        injection E as <-.
      * left. now exists route.
      * right; left. rewrite Ea. apply in_map_iff. now exists key.
      * right; right. rewrite Es. apply in_map_iff. now exists key.
  - split; [intros [] | intros [aprm [E _]]; discriminate].
Qed.

Lemma In_candidateReasons (r : string) env pm pages dyn rm :
  In r (candidateReasons env pm pages dyn rm) <->
  (BuildEnv.isUsingMiddleware env = true /\ r = "middleware") \/
  (BuildEnv.isUsingImageOptimization env = true /\ r = "Image Optimization") \/
  (exists it, In it (dynamicRoutesWithFallback pm) /\ r = "use of fallback " ++ fst it) \/
  (exists it, In it (routesWithRevalidate pm) /\
              r = "use of revalidate " ++ Js.template (PrerenderRoute.srcRoute (snd it))) \/
  (exists key, In key (getNonStaticRoutes pages (Js.keys (PrerenderManifest.routes pm))
                                          (Js.keys dyn)) /\
               r = "non-static route " ++ key) \/
  (isEveryHeaderSupported (orElse (RoutesManifest.headers rm) []) = false /\
   r = "advanced headers") \/
  In r (appCandidates env (Js.keys (PrerenderManifest.routes pm)) (Js.keys dyn)) \/
  (isEveryRedirectSupported (orElse (RoutesManifest.redirects rm) []) = false /\
   r = "advanced redirects") \/
  ((usesAfterFilesOrFallback (orElse (RoutesManifest.rewrites rm) (RewritesArray [])) = true \/
    isEveryRewriteSupported (orElse (RoutesManifest.rewrites rm) (RewritesArray [])) = false) /\
   r = "advanced rewrites").
Proof.
  unfold candidateReasons; cbv zeta.
  rewrite !in_app_iff, !In_when, !in_map_iff, !negb_true_iff.
  split.
  - intros [H | [H | [[it [<- H]] | [[it [<- H]] | [[key [<- H]] | [H | [H | [H | [H | H]]]]]]]]];
      try tauto.
    + right; right; left. now exists it.
    + right; right; right; left. now exists it.
    + right; right; right; right; left. now exists key.
  - intros [H | [H | [[it [H ->]] | [[it [H ->]] | [[key [H ->]] | [H | [H | [H | H]]]]]]]];
      try tauto.
    + right; right; left. now exists it.
    + right; right; right; left. now exists it.
    + right; right; right; right; left. now exists key.
Qed.

(** What a returned run says about its reasons. *)
Lemma reasons_of_run limit env locals :
  outcome (buildWith limit env) = Ok locals ->
  exists pm pages dyn rm,
    BuildEnv.prerenderManifest env = Present pm /\
    BuildEnv.pagesManifest env = Present pages /\
    PrerenderManifest.dynamicRoutes pm = Some dyn /\
    BuildEnv.routesManifest env = Present rm /\
    NoDup (BuildLocals.reasonsForBackend locals) /\
    (forall r, In r (BuildLocals.reasonsForBackend locals) <->
               In r (candidateReasons env pm pages dyn rm)) /\
    BuildResult.wantsBackend (BuildLocals.result locals) =
      (0 <? List.length (BuildLocals.reasonsForBackend locals))%nat.
Proof.
  intros H. apply buildWith_returns in H as [code [pm [pages [dyn [rm H]]]]].
  destruct H as [_ [Hpm [Hpages [Hdyn [Hrm ->]]]]].
  exists pm, pages, dyn, rm. repeat split; try assumption; simpl.
  - rewrite reasonsOf_candidates. apply NoDup_addAll. constructor.
  - rewrite reasonsOf_candidates, In_addAll. simpl. tauto.
  - rewrite reasonsOf_candidates, In_addAll. simpl. tauto.
Qed.

Lemma wantsBackend_of_reason limit env locals r :
  outcome (buildWith limit env) = Ok locals ->
  In r (BuildLocals.reasonsForBackend locals) ->
  BuildResult.wantsBackend (BuildLocals.result locals) = true.
Proof.
  intros H Hr. apply reasons_of_run in H as [pm [pages [dyn [rm H]]]].
  destruct H as [_ [_ [_ [_ [_ [_ ->]]]]]].
  destruct (BuildLocals.reasonsForBackend locals); [destruct Hr | reflexivity].
Qed.

End Reasons.

(** ** Objects *)

Section Objects.

Context {V : Type}.

Lemma keys_set (o : Js.Obj V) (k' : string) (v : V) (k : string) :
  In k (Js.keys (Js.set o k' v)) <-> In k (Js.keys o) \/ k = k'.
Proof.
  unfold Js.keys. induction o as [| [k0 v0] o IH]; simpl.
  - intuition congruence.
  - destruct (String.eqb k0 k') eqn:E; simpl.
    + apply String.eqb_eq in E. subst. intuition congruence.
    + rewrite IH. tauto.
Qed.

Lemma keys_spread (b a : Js.Obj V) (k : string) :
  In k (Js.keys (Js.spread a b)) <-> In k (Js.keys a) \/ In k (Js.keys b).
Proof.
  unfold Js.spread. revert a. induction b as [| [k0 v0] b IH]; intros a; simpl.
  - tauto.
  - rewrite IH, keys_set. simpl. intuition congruence.
Qed.

Lemma In_set_other (o : Js.Obj V) (k' : string) (v' : V) (k : string) (v : V) :
  k <> k' -> In (k, v) (Js.set o k' v') <-> In (k, v) o.
Proof.
  intros Hne. induction o as [| [k0 v0] o IH]; simpl.
  - split; [intros [E | []]; congruence | tauto].
  - destruct (String.eqb k0 k') eqn:E; simpl.
    + apply String.eqb_eq in E. subst. split; intros [H | H]; try tauto; congruence.
    + rewrite IH. tauto.
Qed.

Lemma In_spread_other (b a : Js.Obj V) (k : string) (v : V) :
  ~ In k (Js.keys b) -> In (k, v) (Js.spread a b) <-> In (k, v) a.
Proof.
  unfold Js.spread. revert a. induction b as [| [k0 v0] b IH]; intros a Hk; simpl.
  - tauto.
  - simpl in Hk. rewrite IH by tauto. apply In_set_other. intros ->. tauto.
Qed.

Lemma get_set_same (o : Js.Obj V) (k : string) (v : V) : Js.get (Js.set o k v) k = Some v.
Proof.
  induction o as [| [k0 v0] o IH]; simpl.
  - now rewrite String.eqb_refl.
  - destruct (String.eqb k0 k) eqn:E; simpl; rewrite E; [reflexivity | assumption].
Qed.

Lemma get_set_other (o : Js.Obj V) (k' : string) (v' : V) (k : string) :
  k <> k' -> Js.get (Js.set o k' v') k = Js.get o k.
Proof.
  intros Hne. induction o as [| [k0 v0] o IH]; simpl.
  - destruct (String.eqb k' k) eqn:E; [| reflexivity].
    apply String.eqb_eq in E. congruence.
  - destruct (String.eqb k0 k') eqn:E; simpl.
    + apply String.eqb_eq in E. subst.
      destruct (String.eqb k' k) eqn:E'; [| reflexivity].
      apply String.eqb_eq in E'. congruence.
    + now rewrite IH.
Qed.



Lemma NoDup_keys_set (o : Js.Obj V) (k : string) (v : V) :
  NoDup (Js.keys o) -> NoDup (Js.keys (Js.set o k v)).
Proof.
  unfold Js.keys. induction o as [| [k0 v0] o IH]; simpl; intros H.
  - repeat constructor. tauto.
  - inversion H as [| ? ? Hnot Hrest]; subst.
    destruct (String.eqb k0 k) eqn:E; simpl.
    + now constructor.
    + constructor; [| now apply IH].
      intros Hin. apply (keys_set o k v k0) in Hin as [Hin | ->]; [contradiction |].
      now rewrite String.eqb_refl in E.
Qed.

Lemma NoDup_keys_spread (b a : Js.Obj V) :
  NoDup (Js.keys a) -> NoDup (Js.keys (Js.spread a b)).
Proof.
  unfold Js.spread. revert a. induction b as [| [k0 v0] b IH]; intros a H; simpl.
  - assumption.
  - apply IH, NoDup_keys_set, H.
Qed.


End Objects.

Lemma keys_pagesManifestLikePrerender (pagesManifest : PagesManifest) (path : string) :
  In path (Js.keys (pagesManifestLikePrerender pagesManifest)) <->
  isHtmlPage pagesManifest path = true.
Proof.
  unfold pagesManifestLikePrerender, Js.fromEntries, isHtmlPage.
  rewrite keys_spread, existsb_exists. simpl. unfold Js.keys. rewrite map_map. simpl.
  rewrite in_map_iff. split.
  - intros [[] | [entry [<- H]]]. apply filter_In in H as [Hin Hhtml].
    exists entry. now rewrite String.eqb_refl.
  - intros [entry [Hin H]]. apply andb_true_iff in H as [E Hhtml].
    apply String.eqb_eq in E. right. exists entry. split; [assumption |].
    apply filter_In. now split.
Qed.

Lemma keys_routesToCopy pm pagesManifest (path : string) :
  In path (Js.keys (routesToCopy pm pagesManifest)) <->
  In path (Js.keys (PrerenderManifest.routes pm)) \/ isHtmlPage pagesManifest path = true.
Proof.
  unfold routesToCopy. now rewrite keys_spread, keys_pagesManifestLikePrerender.
Qed.


Section SpreadEntries.

Context {V : Type}.



End SpreadEntries.

(** ** The claims about [build] *)

Section BuildClaims.

Context {utils : NextUtils}.

(** C1. When [build] returns, [wantsBackend] is true exactly when the set of
    reasons accumulated during the pass is not empty; and listing another
    number of reasons than the first 5 leaves the returned value, flag and all
    other fields, and the set of reasons as they are. *)
Theorem build_wantsBackend_iff_reasons (env : BuildEnv.t) (limit : nat)
  (locals : BuildLocals.t) :
  outcome (build env) = Ok locals ->
  outcome (buildWith limit env) = Ok locals /\
  (BuildResult.wantsBackend (BuildLocals.result locals) = true <->
   BuildLocals.reasonsForBackend locals <> []).
Proof.
  unfold build. intros H. split.
  - rewrite outcome_buildWith in *. exact H.
  - apply reasons_of_run in H as [pm [pages [dyn [rm H]]]].
    destruct H as [_ [_ [_ [_ [_ [_ ->]]]]]].
    destruct (BuildLocals.reasonsForBackend locals); simpl.
    + split; [discriminate | congruence].
    + split; [discriminate | reflexivity].
Qed.

Lemma count_occ_reason (reasons : list string) (r : string) (present : bool) :
  NoDup reasons ->
  (In r reasons <-> present = true) ->
  count_occ string_dec reasons r = if present then 1 else 0.
Proof.
  intros Hnd Hin. destruct present.
  - apply NoDup_count_occ'; [assumption | now apply Hin].
  - apply count_occ_not_In. intros H. apply Hin in H. discriminate.
Qed.

Ltac other_reason :=
  match goal with
  | H : _ /\ _ |- _ => destruct H
  | H : exists _, _ |- _ => destruct H
  | H : _ \/ _ |- _ => destruct H
  | H : In _ (appCandidates _ _ _) |- _ => apply In_appCandidates in H
  | H : @eq string _ _ |- _ => cbn in H; discriminate H
  | H : optional _ = Some _ |- _ => congruence
  end.

(** C2, as the code has it. In a run that returns, ["advanced headers"] is
    in the set of reasons once if some header rule, after [cleanI18n], is
    unsupported, and absent if all are supported; ["advanced redirects"]
    likewise for the redirect rules that are not internal; and
    ["advanced rewrites"] is in the set once if the rewrites are in object
    form with a non-empty [afterFiles] or [fallback], or if some rule chosen
    by [getNextjsRewritesToUse] is unsupported, and absent otherwise. The
    number of rules and of unsupported rules does not matter. *)
Theorem build_rule_category_reasons (env : BuildEnv.t) (locals : BuildLocals.t)
  (manifest : RoutesManifest.t) :
  outcome (build env) = Ok locals ->
  BuildEnv.routesManifest env = Present manifest ->
  let reasons := BuildLocals.reasonsForBackend locals in
  let nextJsHeaders := orElse (RoutesManifest.headers manifest) [] in
  let nextJsRedirects := orElse (RoutesManifest.redirects manifest) [] in
  let nextJsRewrites := orElse (RoutesManifest.rewrites manifest) (RewritesArray []) in
  count_occ string_dec reasons "advanced headers" =
    (if forallb isHeaderSupportedByHosting (map cleanI18n nextJsHeaders) then 0 else 1) /\
  count_occ string_dec reasons "advanced redirects" =
    (if forallb isRedirectSupportedByHosting
          (filter (fun it => negb (Rule.internal it)) nextJsRedirects) then 0 else 1) /\
  count_occ string_dec reasons "advanced rewrites" =
    (if usesAfterFilesOrFallback nextJsRewrites
        || negb (forallb isRewriteSupportedByHosting (getNextjsRewritesToUse nextJsRewrites))
     then 1 else 0).
Proof.
  intros H Hrm. cbv zeta.
  apply reasons_of_run in H as [pm [pages [dyn [rm H]]]].
  destruct H as [_ [_ [_ [Hrm' [Hnd [Hin _]]]]]].
  rewrite Hrm in Hrm'. injection Hrm' as <-.
  fold (isEveryHeaderSupported (orElse (RoutesManifest.headers manifest) [])).
  fold (isEveryRedirectSupported (orElse (RoutesManifest.redirects manifest) [])).
  fold (isEveryRewriteSupported (orElse (RoutesManifest.rewrites manifest) (RewritesArray []))).
  repeat split.
  - rewrite (count_occ_reason _ _
      (negb (isEveryHeaderSupported (orElse (RoutesManifest.headers manifest) []))) Hnd).
    + now destruct (isEveryHeaderSupported _).
    + rewrite Hin, In_candidateReasons, negb_true_iff. split.
      * intros H. repeat other_reason; assumption.
      * intros H. do 5 right. left. now split.
  - rewrite (count_occ_reason _ _
      (negb (isEveryRedirectSupported (orElse (RoutesManifest.redirects manifest) []))) Hnd).
    + now destruct (isEveryRedirectSupported _).
    + rewrite Hin, In_candidateReasons, negb_true_iff. split.
      * intros H. repeat other_reason; assumption.
      * intros H. do 7 right. left. now split.
  - apply (count_occ_reason _ _ _ Hnd).
    rewrite Hin, In_candidateReasons, orb_true_iff, negb_true_iff. split.
    + intros H. repeat other_reason; tauto.
    + intros H. do 8 right. now split.
Qed.

Lemma readsOf_app {A B} (p : M A) (q : M B) :
  flat_map (fun e => match e with ReadJSON file => [file] | _ => [] end)
           (trace p ++ trace q) = (readsOf p ++ readsOf q)%list.
Proof. unfold readsOf. apply flat_map_app. Qed.

Lemma reads_of_logs (messages : list string) :
  flat_map (fun e => match e with ReadJSON file => [file] | _ => [] end)
           (map LogInfo messages) = [].
Proof. induction messages; simpl; [reflexivity | assumption]. Qed.

(** C7, as the code has it. If a call awaited before the spawn rejects,
    [build] rejects with that error and spawns nothing. Otherwise, when the
    spawned [next build] emits an error, [build] rejects with the single error
    ["Unable to build your Next.js app: <err>"] and reads no manifest. When
    the process exits, whatever the exit code, [build] goes on: it awaits
    [getConfig], [isUsingMiddleware] and [isUsingImageOptimization]; if one of
    them rejects, [build] rejects with that error and reads no manifest,
    otherwise it reads the prerender manifest. What it returns or rejects with
    is the same for every exit code. *)
Theorem build_after_next_build (env : BuildEnv.t) :
  match BuildEnv.rejects env BeforeSpawn, BuildEnv.nextBuildEnd env with
  | Some e, _ => outcome (build env) = Throw e /\ trace (build env) = []
  | None, ProcessError err =>
      outcome (build env) =
        Throw (FirebaseError ("Unable to build your Next.js app: " ++ err)) /\
      readsOf (build env) = []
  | None, ProcessExit code =>
      match earlyRejection env with
      | Some e => outcome (build env) = Throw e /\ readsOf (build env) = []
      | None => In PRERENDER_MANIFEST (readsOf (build env))
      end /\
      forall code',
        outcome (build (withNextBuildEnd (ProcessExit code') env)) = outcome (build env)
  end.
Proof.
  destruct (BuildEnv.rejects env BeforeSpawn) as [e0 |] eqn:E0.
  { split; [unfold build; now rewrite outcome_buildWith, E0 |].
    unfold build, buildWith. now rewrite trace_bind, outcome_awaited, trace_awaited, E0. }
  destruct (BuildEnv.nextBuildEnd env) as [err | code] eqn:E.
  - split.
    + unfold build. now rewrite outcome_buildWith, E0, E.
    + unfold build, buildWith, nextBuild, readsOf. rewrite E0, E. simpl.
      rewrite app_nil_r. apply reads_of_logs.
  - assert (outcome (nextBuild env) = Ok code) as Hnext.
    { unfold nextBuild. rewrite !outcome_bind. simpl. now rewrite E. }
    assert (readsOf (nextBuild env) = []) as Hreads.
    { unfold nextBuild, readsOf. rewrite E. simpl. rewrite app_nil_r.
      apply reads_of_logs. }
    split.
    + unfold earlyRejection.
      destruct (BuildEnv.rejects env GetConfig) as [e |] eqn:E1.
      { split; [unfold build; now rewrite outcome_buildWith, E0, E, E1 |].
        unfold readsOf in *. unfold build, buildWith.
        rewrite trace_bind, outcome_awaited, trace_awaited, E0. cbv beta iota zeta.
        cbn [app].
        rewrite trace_bind, Hnext, flat_map_app, Hreads.
        cbv beta zeta. now rewrite trace_bind, outcome_awaited, trace_awaited, E1. }
      destruct (BuildEnv.rejects env IsUsingMiddleware) as [e |] eqn:E2.
      { split; [unfold build; now rewrite outcome_buildWith, E0, E, E1, E2 |].
        unfold readsOf in *. unfold build, buildWith.
        rewrite trace_bind, outcome_awaited, trace_awaited, E0. cbv beta iota zeta.
        cbn [app].
        rewrite trace_bind, Hnext, flat_map_app, Hreads.
        cbv beta zeta. rewrite trace_bind, outcome_awaited, trace_awaited, E1.
        cbv beta iota zeta. now rewrite trace_bind, outcome_awaited, trace_awaited, E2. }
      destruct (BuildEnv.rejects env IsUsingImageOptimization) as [e |] eqn:E3.
      { split; [unfold build; now rewrite outcome_buildWith, E0, E, E1, E2, E3 |].
        unfold readsOf in *. unfold build, buildWith.
        rewrite trace_bind, outcome_awaited, trace_awaited, E0. cbv beta iota zeta.
        cbn [app].
        rewrite trace_bind, Hnext, flat_map_app, Hreads.
        cbv beta zeta. rewrite trace_bind, outcome_awaited, trace_awaited, E1.
        cbv beta iota zeta. rewrite trace_bind, outcome_awaited, trace_awaited, E2.
        cbv beta iota zeta. now rewrite trace_bind, outcome_awaited, trace_awaited, E3. }
      unfold readsOf. unfold build, buildWith.
      rewrite trace_bind, outcome_awaited, trace_awaited, E0. cbv beta iota zeta.
        cbn [app].
      rewrite trace_bind, Hnext.
      rewrite flat_map_app. apply in_or_app. right.
      cbv beta zeta. rewrite trace_bind, outcome_awaited, trace_awaited, E1.
      cbv beta iota zeta. rewrite trace_bind, outcome_awaited, trace_awaited, E2.
      cbv beta iota zeta. rewrite trace_bind, outcome_awaited, trace_awaited, E3.
      cbv beta iota zeta. rewrite trace_bind, trace_readJSON.
      destruct (outcome (readJSON _ _)); simpl; tauto.
    + intros code'. unfold build. rewrite !outcome_buildWith. simpl. now rewrite E0, E.
Qed.

(** C8, as the code has it. A prerender, pages or routes manifest that is
    missing or cannot be parsed makes [build] reject. The app-paths,
    app-path-routes and server-reference manifests never do: whether missing
    or unparseable they are taken as absent, and a run whose process exits,
    whose awaited calls ([getConfig], [isUsingMiddleware],
    [isUsingImageOptimization], [getAppMetadataFromMetaFiles],
    [hasStaticAppNotFoundComponent], those before the spawn) all answer and
    whose three mandatory
    manifests are read (the prerender manifest having its [dynamicRoutes])
    returns. An absent app-path-routes manifest leaves the set without any
    "route with PPR", "non-static component" or "route with server action"
    reason, an absent app-paths manifest without any "non-static component"
    reason, an absent server-reference manifest without any "route with
    server action" reason. *)
Theorem build_manifest_failures (env : BuildEnv.t) :
  (isPresent (BuildEnv.prerenderManifest env)
   && isPresent (BuildEnv.pagesManifest env)
   && isPresent (BuildEnv.routesManifest env) = false ->
   exists e, outcome (build env) = Throw e) /\
  (forall code pm pages dyn rm,
     BuildEnv.nextBuildEnd env = ProcessExit code ->
     (forall call, BuildEnv.rejects env call = None) ->
     BuildEnv.prerenderManifest env = Present pm ->
     BuildEnv.pagesManifest env = Present pages ->
     PrerenderManifest.dynamicRoutes pm = Some dyn ->
     BuildEnv.routesManifest env = Present rm ->
     exists locals, outcome (build env) = Ok locals) /\
  (forall locals r key,
     outcome (build env) = Ok locals ->
     In r (BuildLocals.reasonsForBackend locals) ->
     (isPresent (BuildEnv.appPathRoutesManifest env) = false ->
      r <> "route with PPR " ++ key /\
      r <> "non-static component " ++ key /\
      r <> "route with server action " ++ key) /\
     (isPresent (BuildEnv.appPathsManifest env) = false ->
      r <> "non-static component " ++ key) /\
     (isPresent (BuildEnv.serverReferenceManifest env) = false ->
      r <> "route with server action " ++ key)).
Proof.
  unfold build, isPresent. split; [| split].
  - intros H. rewrite outcome_buildWith.
    destruct (BuildEnv.rejects env BeforeSpawn); [eauto |].
    destruct (BuildEnv.nextBuildEnd env); [eauto |].
    destruct (BuildEnv.rejects env GetConfig); [eauto |].
    destruct (BuildEnv.rejects env IsUsingMiddleware); [eauto |].
    destruct (BuildEnv.rejects env IsUsingImageOptimization); [eauto |].
    destruct (optional (BuildEnv.prerenderManifest env)) as [pm |]; [| eauto].
    destruct (optional (BuildEnv.pagesManifest env)) as [pages |]; [| eauto].
    destruct (PrerenderManifest.dynamicRoutes pm); [| eauto].
    destruct (optional (BuildEnv.routesManifest env)); [discriminate | eauto].
  - intros code pm pages dyn rm He Hcalls Hpm Hpages Hdyn Hrm.
    rewrite outcome_buildWith, (Hcalls BeforeSpawn), He, !Hcalls, Hpm, Hpages. simpl. rewrite Hdyn, Hrm. simpl.
    unfold appRejection. rewrite !Hcalls.
    destruct (optional (BuildEnv.appPathRoutesManifest env)); [| eauto].
    destruct (optional (BuildEnv.appPathsManifest env)); [| eauto].
    destruct (existsb _ _); eauto.
  - intros locals r key H Hr.
    apply reasons_of_run in H as [pm [pages [dyn [rm H]]]].
    destruct H as [_ [_ [_ [_ [_ [Hin _]]]]]].
    apply Hin, In_candidateReasons in Hr. clear Hin.
    split; [| split]; intros Habsent.
    + destruct (optional (BuildEnv.appPathRoutesManifest env)) eqn:E; [discriminate |].
      repeat split; intros ->; repeat other_reason.
    + destruct (optional (BuildEnv.appPathsManifest env)) eqn:E; [discriminate |].
      intros ->; repeat other_reason.
    + destruct (optional (BuildEnv.serverReferenceManifest env)) eqn:E; [discriminate |].
      intros ->; repeat other_reason.
Qed.

End BuildClaims.

(** ** The materializer: one route *)

Section RouteFacts.

Context {utils : NextUtils} {node : NodeLib}.

Lemma copiedFiles_app (xs ys : list Effect) :
  copiedFiles (xs ++ ys) = (copiedFiles xs ++ copiedFiles ys)%list.
Proof. apply flat_map_app. Qed.

Lemma copiedFiles_copyTo (src : string) (dest : option string) :
  copiedFiles (copyTo src dest) =
  match dest with Some p => [(src, p)] | None => [] end.
Proof. now destruct dest. Qed.

(** A route is copied only on the last way out of the callback. *)
Lemma copiedFiles_outcome (path : string) (o : RouteOutcome) :
  copiedFiles (outcomeEffects path o) =
  match o with
  | CopyRoute src localized default data =>
      (match localized with Some p => [(src, p)] | None => [] end
       ++ match default with Some p => [(src, p)] | None => [] end
       ++ match data with Some entry => [entry] | None => [] end)%list
  | _ => []
  end.
Proof.
  destruct o as [| | | | | | src localized default [[dataSrc dataDest] |]]; try reflexivity.
  - cbn [outcomeEffects]. rewrite !copiedFiles_app, !copiedFiles_copyTo. reflexivity.
  - cbn [outcomeEffects]. rewrite !copiedFiles_app, !copiedFiles_copyTo. reflexivity.
Qed.

Lemma routeOutcome_revalidate (c : Closure.t) (path : string) (route : PrerenderRoute.t) :
  revalidateTruthy (PrerenderRoute.initialRevalidateSeconds route) = true ->
  routeOutcome c path route = SkipRevalidate.
Proof. intros H. unfold routeOutcome. now rewrite H. Qed.

Lemma localeOf_truthy (c : Closure.t) (path locale : string) :
  localeOf c path = Some locale -> Js.truthy locale = true.
Proof.
  unfold localeOf, sourcePartsOf.
  destruct (Closure.i18n c) as [i18n |]; [| discriminate].
  destruct (filter Js.truthy (Js.split "/" path)) as [| first rest] eqn:E; [discriminate |].
  destruct (includes (I18n.locales i18n) first); [| discriminate].
  intros H. injection H as <-.
  assert (In first (filter Js.truthy (Js.split "/" path))) as Hin by (rewrite E; now left).
  now apply filter_In in Hin.
Qed.

(** Lines 525-535: a locale that is neither the default of the matching
    domain nor in its list is left out. *)
Lemma routeOutcome_other_locale (c : Closure.t) (path : string) (route : PrerenderRoute.t)
  (matching : DomainLocale.t) (locale : string) (locales : list string) :
  Closure.matchingI18nDomain c = Some matching ->
  localeOf c path = Some locale ->
  locale <> DomainLocale.defaultLocale matching ->
  DomainLocale.locales matching = Some locales ->
  includes locales locale = false ->
  copiedFiles (copyRoute c (path, route)) = [].
Proof.
  intros Hm Hl Hne Hls Hout.
  unfold copyRoute. rewrite copiedFiles_outcome. simpl fst; simpl snd.
  unfold routeOutcome.
  destruct (revalidateTruthy _); [reflexivity |].
  destruct (existsb _ (Closure.pathsUsingsFeaturesNotSupportedByHosting c)); [reflexivity |].
  destruct (existsb _ (Closure.staticRoutesUsingServerActions c)); [reflexivity |].
  cbv zeta.
  assert (includeOnThisDomain c (localeOf c path) = false) as ->; [| reflexivity].
  rewrite Hl. unfold includeOnThisDomain. rewrite Hm, Hls, Hout.
  rewrite (localeOf_truthy c path locale Hl). simpl.
  destruct (String.eqb (DomainLocale.defaultLocale matching) locale) eqn:E; [| reflexivity].
  apply String.eqb_eq in E. congruence.
Qed.

Lemma append_empty (s : string) : s ++ "" = s.
Proof. induction s as [| a s IH]; simpl; [reflexivity | now rewrite IH]. Qed.

(** Lines 537-557 and 569-577: where the page of a route with a locale goes. *)
Lemma routeOutcome_placement (c : Closure.t) (path : string) (route : PrerenderRoute.t)
  (matching : DomainLocale.t) (locale : string)
  (src : string) (localized default : option string) (data : option (string * string)) :
  Closure.matchingI18nDomain c = Some matching ->
  localeOf c path = Some locale ->
  routeOutcome c path route = CopyRoute src localized default data ->
  exists ext,
    (ext = ".html" \/ ext = "") /\
    localized =
      (if Closure.singleLocaleDomain c then None
       else Some (join ([Closure.destDir c; I18N_ROOT; locale; Closure.basePath c]
                        ++ orIndex (destPartsOf path (Some locale))) ++ ext)) /\
    default =
      (if String.eqb (DomainLocale.defaultLocale matching) locale
       then Some (join ([Closure.destDir c; Closure.basePath c]
                        ++ orIndex (destPartsOf path (Some locale))) ++ ext)
       else None).
Proof.
  intros Hm Hl. pose proof (localeOf_truthy c path locale Hl) as Ht.
  assert (localizedDestPathOf c path =
          if Closure.singleLocaleDomain c then None
          else Some (join ([Closure.destDir c; I18N_ROOT; locale; Closure.basePath c]
                           ++ orIndex (destPartsOf path (Some locale))))) as Hloc.
  { unfold localizedDestPathOf. rewrite Hl, Ht. now destruct (Closure.singleLocaleDomain c). }
  assert (defaultDestPathOf c path =
          if String.eqb (DomainLocale.defaultLocale matching) locale
          then Some (join ([Closure.destDir c; Closure.basePath c]
                           ++ orIndex (destPartsOf path (Some locale))))
          else None) as Hdef.
  { unfold defaultDestPathOf, isDefaultLocale. rewrite Hl, Hm, Ht. reflexivity. }
  unfold routeOutcome.
  destruct (revalidateTruthy _); [discriminate |].
  destruct (existsb _ (Closure.pathsUsingsFeaturesNotSupportedByHosting c)); [discriminate |].
  destruct (existsb _ (Closure.staticRoutesUsingServerActions c)); [discriminate |].
  cbv zeta. destruct (negb (includeOnThisDomain c (localeOf c path))); [discriminate |].
  rewrite Hloc, Hdef.
  destruct (negb (Closure.fileExistsSync c (sourcePathOf c path route))
            && Closure.fileExistsSync c (sourcePathOf c path route ++ ".html")).
  - destruct (includes (Closure.pprRoutes c) path); [discriminate |].
    intros H. injection H as _ <- <- _. exists ".html". split; [now left |].
    destruct (Closure.singleLocaleDomain c), (String.eqb _ locale);
      simpl; rewrite ?join_truthy; now split.
  - destruct (Js.truthyOpt (appPathRouteOf c route) && _ && _).
    + intros H. injection H as _ <- <- _. exists "". split; [now right |].
      destruct (Closure.singleLocaleDomain c), (String.eqb _ locale);
        simpl; rewrite ?join_truthy, ?append_empty; now split.
    + destruct (negb (Closure.pathExistsSync c (sourcePathOf c path route))); [discriminate |].
      intros H. injection H as _ <- <- _. exists "". split; [now right |].
      destruct (Closure.singleLocaleDomain c), (String.eqb _ locale);
        simpl; rewrite ?join_truthy, ?append_empty; now split.
Qed.

End RouteFacts.


(** ** The materializer: the whole function *)

Section PublicFacts.

Context {utils : NextUtils} {node : NodeLib}.

Lemma trace_perform fails e : trace (perform fails e) = [e].
Proof. unfold perform. now destruct (failure fails e). Qed.

Lemma outcome_perform fails e :
  outcome (perform fails e) =
  match failure fails e with Some err => Throw err | None => Ok tt end.
Proof. unfold perform. now destruct (failure fails e). Qed.

Lemma trace_performAll_incl fails es : incl (trace (performAll fails es)) es.
Proof.
  induction es as [| e es IH]; simpl; [intros x [] |].
  rewrite trace_bind, trace_perform, outcome_perform.
  destruct (failure fails e).
  - intros x [<- | []]. now left.
  - intros x [<- | Hx]; [now left | right; now apply IH].
Qed.

Lemma performAll_ok fails es :
  (forall e, In e es -> failure fails e = None) -> performAll fails es = (es, Ok tt).
Proof.
  induction es as [| e es IH]; intros H; [reflexivity |].
  simpl. unfold perform. rewrite (H e (or_introl eq_refl)).
  rewrite IH by (intros e' He'; apply H; now right). reflexivity.
Qed.

Lemma outcome_performAll fails es :
  outcome (performAll fails es) = Ok tt <-> forall e, In e es -> failure fails e = None.
Proof.
  split.
  - induction es as [| e es IH]; [intros _ e [] |].
    simpl. rewrite outcome_bind, outcome_perform.
    destruct (failure fails e) eqn:E; [discriminate |].
    intros H e' [<- | He']; [assumption | now apply IH].
  - intros H. now rewrite performAll_ok.
Qed.

Lemma outcome_promiseAll (promises : list (M unit)) :
  outcome (promiseAll promises) = Ok tt <-> forall p, In p promises -> outcome p = Ok tt.
Proof.
  unfold promiseAll. simpl. induction promises as [| p ps IH]; simpl.
  - split; [intros _ p [] | reflexivity].
  - destruct (outcome p) as [[] | e] eqn:E.
    + rewrite IH. split.
      * intros H q [<- | Hq]; [assumption | now apply H].
      * intros H q Hq. apply H. now right.
    + split; [discriminate |]. intros H. specialize (H p (or_introl eq_refl)). congruence.
Qed.

Lemma promiseAll_throws (promises : list (M unit)) :
  outcome (promiseAll promises) = Ok tt \/ exists e, outcome (promiseAll promises) = Throw e.
Proof. destruct (outcome (promiseAll promises)) as [[] | e]; eauto. Qed.

Lemma copiedFiles_trace_performAll fails es :
  incl (copiedFiles (trace (performAll fails es))) (copiedFiles es).
Proof.
  intros x Hx. unfold copiedFiles in *. apply in_flat_map in Hx as [e [He Hx]].
  apply in_flat_map. exists e. split; [| assumption]. now apply trace_performAll_incl in He.
Qed.

Lemma outcome_prepareOutput (env : PublicEnv.t) :
  match PublicEnv.rejects env PublicCall.GetConfig with
  | Some e => Some e
  | None =>
      match (if hasDomains (NextConfig.i18n (PublicEnv.config env))
             then PublicEnv.rejects env PublicCall.GetAllSiteDomains else None) with
      | Some e => Some e
      | None =>
          match outcome (prepareOutput env (PublicEnv.config env)) with
          | Throw e => Some e
          | Ok _ => None
          end
      end
  end = failureBeforeReads env.
Proof.
  unfold failureBeforeReads, prepareOutput. cbv zeta.
  destruct (PublicEnv.rejects env PublicCall.GetConfig); [reflexivity |].
  destruct (if hasDomains _ then _ else _); [reflexivity |].
  rewrite !outcome_bind, !outcome_perform. cbn [failure].
  destruct (PublicEnv.fails env (Mkdir _)); [reflexivity |].
  destruct (PublicEnv.publicPathExists env).
  - rewrite outcome_perform. cbn [failure].
    destruct (PublicEnv.fails env (Copy _ _)); [reflexivity |].
    now destruct (PublicEnv.fails env (Copy _ _)).
  - simpl (outcome (ret tt)). cbv iota beta.
    now destruct (PublicEnv.fails env (Copy _ _)).
Qed.

Lemma trace_prepareOutput (env : PublicEnv.t) (config : NextConfig.t) :
  forall e, In e (trace (prepareOutput env config)) ->
            match e with Mkdir _ | Copy _ _ => True | _ => False end.
Proof.
  unfold prepareOutput. cbv zeta. intros e.
  rewrite ?trace_bind, ?outcome_bind, ?outcome_perform, ?trace_perform. cbn [failure].
  destruct (PublicEnv.fails env (Mkdir _)).
  { intros [<- | []]. exact I. }
  destruct (PublicEnv.publicPathExists env).
  - rewrite outcome_perform, trace_perform. cbn [failure].
    destruct (PublicEnv.fails env (Copy _ _)).
    + intros [<- | [<- | []]]; exact I.
    + intros [<- | [<- | [<- | []]]]; exact I.
  - simpl. intros [<- | [<- | []]]; exact I.
Qed.

Lemma prepareOutput_fills_static (env : PublicEnv.t) (config : NextConfig.t) :
  outcome (prepareOutput env config) = Ok tt ->
  In (Copy (join [PublicEnv.sourceDir env; NextConfig.distDir config; "static"])
           (join [PublicEnv.destDir env; NextConfig.basePath config; "_next"; "static"]))
     (trace (prepareOutput env config)).
Proof.
  unfold prepareOutput. cbv zeta.
  rewrite ?trace_bind, ?outcome_bind, ?outcome_perform, ?trace_perform. cbn [failure].
  destruct (PublicEnv.fails env (Mkdir _)); [discriminate |].
  destruct (PublicEnv.publicPathExists env).
  - rewrite outcome_perform, trace_perform. cbn [failure].
    destruct (PublicEnv.fails env (Copy _ _)); [discriminate |].
    intros _. simpl. tauto.
  - intros _. simpl. tauto.
Qed.

Lemma copiedFiles_prepareOutput env config :
  copiedFiles (trace (prepareOutput env config)) = [].
Proof.
  pose proof (trace_prepareOutput env config) as H.
  induction (trace (prepareOutput env config)) as [| e t IH]; [reflexivity |].
  simpl. rewrite IH by (intros e' He'; apply H; now right).
  specialize (H e (or_introl eq_refl)). now destruct e.
Qed.

Lemma reads_of_prepareOutput env config :
  flat_map (fun e => match e with ReadJSON file => [file] | _ => [] end)
           (trace (prepareOutput env config)) = [].
Proof.
  pose proof (trace_prepareOutput env config) as H.
  induction (trace (prepareOutput env config)) as [| e t IH]; [reflexivity |].
  simpl. rewrite IH by (intros e' He'; apply H; now right).
  specialize (H e (or_introl eq_refl)). now destruct e.
Qed.

Lemma trace_readManifests env :
  trace (readManifests env) =
  map ReadJSON [MIDDLEWARE_MANIFEST; PRERENDER_MANIFEST; ROUTES_MANIFEST; PAGES_MANIFEST;
                APP_PATH_ROUTES_MANIFEST; SERVER_REFERENCE_MANIFEST].
Proof.
  unfold readManifests.
  destruct (PublicEnv.middlewareManifest env), (PublicEnv.prerenderManifest env),
    (PublicEnv.routesManifest env), (PublicEnv.pagesManifest env),
    (PublicEnv.appPathRoutesManifest env), (PublicEnv.serverReferenceManifest env);
    reflexivity.
Qed.

Lemma outcome_readManifests env :
  outcome (readManifests env) =
  match optional (PublicEnv.middlewareManifest env) with
  | None => Throw (readError MIDDLEWARE_MANIFEST (PublicEnv.middlewareManifest env))
  | Some mw =>
      match optional (PublicEnv.prerenderManifest env) with
      | None => Throw (readError PRERENDER_MANIFEST (PublicEnv.prerenderManifest env))
      | Some pm =>
          match optional (PublicEnv.routesManifest env) with
          | None => Throw (readError ROUTES_MANIFEST (PublicEnv.routesManifest env))
          | Some rm =>
              match optional (PublicEnv.pagesManifest env) with
              | None => Throw (readError PAGES_MANIFEST (PublicEnv.pagesManifest env))
              | Some pages =>
                  Ok (mw, (pm, (rm, (pages,
                       (orElse (optional (PublicEnv.appPathRoutesManifest env)) [],
                        orElse (optional (PublicEnv.serverReferenceManifest env))
                               (ActionManifest.mk [] [] ""))))))
              end
          end
      end
  end.
Proof.
  unfold readManifests.
  destruct (PublicEnv.middlewareManifest env), (PublicEnv.prerenderManifest env),
    (PublicEnv.routesManifest env), (PublicEnv.pagesManifest env),
    (PublicEnv.appPathRoutesManifest env), (PublicEnv.serverReferenceManifest env);
    reflexivity.
Qed.

Lemma copiedFiles_copyRoutes_incl env c entries :
  incl (copiedFiles (trace (copyRoutes env c entries)))
       (flat_map (fun entry => copiedFiles (copyRoute c entry)) entries).
Proof.
  unfold copyRoutes, promiseAll. simpl trace.
  induction entries as [| entry entries IH]; [intros x [] |].
  simpl. rewrite copiedFiles_app. intros x Hx. apply in_app_iff in Hx as [Hx | Hx].
  - apply in_or_app. left. now apply copiedFiles_trace_performAll in Hx.
  - apply in_or_app. right. now apply IH.
Qed.

Lemma copyRoutes_ok env c entries :
  (forall entry e, In entry entries -> In e (copyRoute c entry) ->
                   failure (PublicEnv.fails env) e = None) ->
  copyRoutes env c entries = (flat_map (copyRoute c) entries, Ok tt).
Proof.
  unfold copyRoutes, promiseAll. induction entries as [| entry entries IH]; intros H.
  - reflexivity.
  - simpl. rewrite (performAll_ok _ (copyRoute c entry)) by (intros e He; eapply H; [now left | exact He]).
    simpl. specialize (IH (fun entry' e H1 H2 => H entry' e (or_intror H1) H2)).
    injection IH as -> ->. reflexivity.
Qed.

Lemma outcome_copyRoutes env c entries :
  outcome (copyRoutes env c entries) = Ok tt <->
  forall entry e, In entry entries -> In e (copyRoute c entry) ->
                  failure (PublicEnv.fails env) e = None.
Proof.
  unfold copyRoutes. rewrite outcome_promiseAll. split.
  - intros H entry e Hentry He.
    specialize (H _ (in_map _ _ _ Hentry)). cbv beta in H.
    exact (proj1 (outcome_performAll _ _) H e He).
  - intros H p Hp. apply in_map_iff in Hp as [entry [<- Hentry]].
    apply outcome_performAll. intros e He. exact (H entry e Hentry He).
Qed.

Lemma reads_of_copyRoutes env c entries :
  flat_map (fun e => match e with ReadJSON file => [file] | _ => [] end)
           (trace (copyRoutes env c entries)) = [].
Proof.
  assert (forall e, In e (trace (copyRoutes env c entries)) ->
                    match e with ReadJSON _ => False | _ => True end) as H.
  { unfold copyRoutes, promiseAll. simpl trace. intros e He.
    apply in_flat_map in He as [p [Hp He]].
    apply in_map_iff in Hp as [entry [<- Hentry]].
    apply trace_performAll_incl in He. unfold copyRoute in He.
    destruct (routeOutcome c (fst entry) (snd entry))
      as [| | | | | | src [l |] [d |] [[ds dd] |]]; simpl in He;
      repeat (destruct He as [<- | He]; [exact I |]); destruct He. }
  induction (trace (copyRoutes env c entries)) as [| e t IH]; [reflexivity |].
  simpl. rewrite IH by (intros e' He'; apply H; now right).
  specialize (H e (or_introl eq_refl)). now destruct e.
Qed.

(** What the function does once lines 404-418 have gone through. *)
Lemma codegenPublicDirectory_after_preparation (env : PublicEnv.t) :
  failureBeforeReads env = None ->
  codegenPublicDirectory env =
  ((trace (prepareOutput env (PublicEnv.config env))
    ++ trace (readManifests env)
    ++ match outcome (readManifests env) with
       | Ok (mw, (pm, (rm, (pages, (aprm, srm))))) =>
           match PublicEnv.rejects env PublicCall.GetAppMetadataFromMetaFiles with
           | Some _ => []
           | None => trace (copyRoutes env (closureOf env mw rm aprm srm) (routesToCopy pm pages))
           end
       | Throw _ => []
       end)%list,
   match outcome (readManifests env) with
   | Ok (mw, (pm, (rm, (pages, (aprm, srm))))) =>
       match PublicEnv.rejects env PublicCall.GetAppMetadataFromMetaFiles with
       | Some e => Throw e
       | None => outcome (copyRoutes env (closureOf env mw rm aprm srm) (routesToCopy pm pages))
       end
   | Throw e => Throw e
   end).
Proof.
  intros H. rewrite <- outcome_prepareOutput in H. unfold codegenPublicDirectory.
  destruct (PublicEnv.rejects env PublicCall.GetConfig); [discriminate |].
  cbn [awaited]. unfold bind at 1. cbn [ret].
  destruct (hasDomains _).
  - destruct (PublicEnv.rejects env PublicCall.GetAllSiteDomains); [discriminate |].
    cbn [awaited]. unfold bind at 1. cbn [ret].
    destruct (prepareOutput env (PublicEnv.config env)) as [t [[] | e]]; [| discriminate].
    unfold bind at 1.
    destruct (readManifests env) as [t' [[mw [pm [rm [pages [aprm srm]]]]] | e]];
      cbn [trace outcome fst snd bind app]; [| now rewrite app_nil_r].
    destruct (PublicEnv.rejects env PublicCall.GetAppMetadataFromMetaFiles);
      cbn [awaited throw ret bind app]; [now rewrite !app_nil_r |].
    now destruct (copyRoutes env _ _).
  - unfold bind at 1. cbn [ret].
    destruct (prepareOutput env (PublicEnv.config env)) as [t [[] | e]]; [| discriminate].
    unfold bind at 1.
    destruct (readManifests env) as [t' [[mw [pm [rm [pages [aprm srm]]]]] | e]];
      cbn [trace outcome fst snd bind app]; [| now rewrite app_nil_r].
    destruct (PublicEnv.rejects env PublicCall.GetAppMetadataFromMetaFiles);
      cbn [awaited throw ret bind app]; [now rewrite !app_nil_r |].
    now destruct (copyRoutes env _ _).
Qed.

Lemma bind_ret {A B} (a : A) (f : A -> M B) : bind (ret a) f = f a.
Proof. unfold bind, ret. now destruct (f a). Qed.

Lemma bind_throw {A B} (e : Error) (f : A -> M B) : bind (throw e) f = throw e.
Proof. reflexivity. Qed.

(** What the function does when one of lines 404-418 rejects. *)
Lemma codegenPublicDirectory_unprepared (env : PublicEnv.t) (e : Error) :
  failureBeforeReads env = Some e ->
  outcome (codegenPublicDirectory env) = Throw e /\
  forall effect, In effect (trace (codegenPublicDirectory env)) ->
                 match effect with Mkdir _ | Copy _ _ => True | _ => False end.
Proof.
  intros H. rewrite <- outcome_prepareOutput in H. unfold codegenPublicDirectory.
  destruct (PublicEnv.rejects env PublicCall.GetConfig) as [e0 |].
  { injection H as ->. split; [reflexivity | intros effect []]. }
  cbn [awaited]. rewrite bind_ret.
  pose proof (trace_prepareOutput env (PublicEnv.config env)) as Ht.
  assert (forall k : M unit,
             outcome (prepareOutput env (PublicEnv.config env)) = Throw e ->
             outcome (prepareOutput env (PublicEnv.config env) ;;; k) = Throw e /\
             forall effect,
               In effect (trace (prepareOutput env (PublicEnv.config env) ;;; k)) ->
               match effect with Mkdir _ | Copy _ _ => True | _ => False end) as Hstop.
  { intros k Hk. rewrite outcome_bind, trace_bind, Hk. split; [reflexivity | exact Ht]. }
  destruct (hasDomains _).
  - destruct (PublicEnv.rejects env PublicCall.GetAllSiteDomains) as [e0 |].
    { injection H as ->. split; [reflexivity | intros effect []]. }
    cbn [awaited]. rewrite bind_ret. apply Hstop.
    destruct (outcome (prepareOutput env (PublicEnv.config env))); congruence.
  - rewrite bind_ret. apply Hstop.
    destruct (outcome (prepareOutput env (PublicEnv.config env))); congruence.
Qed.

Lemma no_copyFile_among (t : list Effect) :
  (forall effect, In effect t -> match effect with Mkdir _ | Copy _ _ => True | _ => False end) ->
  copiedFiles t = [] /\
  flat_map (fun e => match e with ReadJSON file => [file] | _ => [] end) t = [].
Proof.
  induction t as [| e t IH]; intros H; [now split |].
  destruct IH as [IH1 IH2]; [intros e' He'; apply H; now right |].
  specialize (H e (or_introl eq_refl)).
  destruct e; try contradiction; simpl; now rewrite ?IH1, ?IH2.
Qed.

(** With its four mandatory manifests read, the function calls [copyFile]
    only as the callback does for an entry of [routesToCopy]; the two optional
    manifests count as empty when they cannot be read. *)
Lemma copiedFiles_codegenPublicDirectory (env : PublicEnv.t) mw pm rm pages :
  PublicEnv.middlewareManifest env = Present mw ->
  PublicEnv.prerenderManifest env = Present pm ->
  PublicEnv.routesManifest env = Present rm ->
  PublicEnv.pagesManifest env = Present pages ->
  incl (copiedFiles (trace (codegenPublicDirectory env)))
       (flat_map (fun entry =>
                    copiedFiles
                      (copyRoute (closureOf env mw rm
                                    (orElse (optional (PublicEnv.appPathRoutesManifest env)) [])
                                    (orElse (optional (PublicEnv.serverReferenceManifest env))
                                            (ActionManifest.mk [] [] "")))
                                 entry))
                 (routesToCopy pm pages)).
Proof.
  intros Hmw Hpm Hrm Hpages.
  destruct (failureBeforeReads env) as [e |] eqn:E.
  - destruct (codegenPublicDirectory_unprepared env e E) as [_ Ht].
    rewrite (proj1 (no_copyFile_among _ Ht)). intros x [].
  - rewrite (codegenPublicDirectory_after_preparation env E).
    rewrite outcome_readManifests, Hmw, Hpm, Hrm, Hpages. cbn [optional trace fst].
    rewrite !copiedFiles_app, copiedFiles_prepareOutput, trace_readManifests. cbn [app].
    destruct (PublicEnv.rejects env PublicCall.GetAppMetadataFromMetaFiles);
      [intros x [] |].
    apply copiedFiles_copyRoutes_incl.
Qed.

(** When no call rejects, it makes all those calls. *)
Lemma copiedFiles_codegenPublicDirectory_all (env : PublicEnv.t) mw pm rm pages :
  PublicEnv.middlewareManifest env = Present mw ->
  PublicEnv.prerenderManifest env = Present pm ->
  PublicEnv.routesManifest env = Present rm ->
  PublicEnv.pagesManifest env = Present pages ->
  outcome (codegenPublicDirectory env) = Ok tt ->
  copiedFiles (trace (codegenPublicDirectory env)) =
  flat_map (fun entry =>
              copiedFiles
                (copyRoute (closureOf env mw rm
                              (orElse (optional (PublicEnv.appPathRoutesManifest env)) [])
                              (orElse (optional (PublicEnv.serverReferenceManifest env))
                                      (ActionManifest.mk [] [] "")))
                           entry))
           (routesToCopy pm pages).
Proof.
  intros Hmw Hpm Hrm Hpages Hok.
  destruct (failureBeforeReads env) as [e |] eqn:E.
  { destruct (codegenPublicDirectory_unprepared env e E) as [Hthrow _]. congruence. }
  rewrite (codegenPublicDirectory_after_preparation env E) in Hok |- *.
  rewrite outcome_readManifests, Hmw, Hpm, Hrm, Hpages in Hok |- *.
  cbn [optional trace outcome fst snd] in Hok |- *.
  rewrite !copiedFiles_app, copiedFiles_prepareOutput, trace_readManifests. cbn [app].
  destruct (PublicEnv.rejects env PublicCall.GetAppMetadataFromMetaFiles); [discriminate |].
  rewrite copyRoutes_ok by now apply outcome_copyRoutes.
  cbn [trace fst]. clear Hok.
  induction (routesToCopy pm pages) as [| entry entries IH]; simpl;
    [reflexivity | rewrite copiedFiles_app; f_equal; exact IH].
Qed.

End PublicFacts.

(** ** The claims about the static copy *)

Section CopyClaims.

Context {utils : NextUtils} {node : NodeLib}.

(** C3, as the code has it. For every entry of [dynamicRoutes] whose
    [fallback] is not [false], a run of [build] that returns has the reason
    ["use of fallback <pattern>"] in its set, hence [wantsBackend] true. The
    materializer takes no route from [dynamicRoutes]: the pattern is among the
    routes it copies only if it is also a key of [prerenderManifest.routes] or
    a pages-manifest entry that ends in [.html]. *)
Theorem fallback_route_needs_backend (env : BuildEnv.t) (locals : BuildLocals.t)
  (pm : PrerenderManifest.t) (dyn : Js.Obj Fallback) (pattern : string) (fallback : Fallback) :
  outcome (build env) = Ok locals ->
  BuildEnv.prerenderManifest env = Present pm ->
  PrerenderManifest.dynamicRoutes pm = Some dyn ->
  In (pattern, fallback) dyn ->
  fallbackIsNotFalse fallback = true ->
  In ("use of fallback " ++ pattern) (BuildLocals.reasonsForBackend locals) /\
  BuildResult.wantsBackend (BuildLocals.result locals) = true /\
  forall pagesManifest,
    ~ In pattern (Js.keys (PrerenderManifest.routes pm)) ->
    isHtmlPage pagesManifest pattern = false ->
    ~ In pattern (Js.keys (routesToCopy pm pagesManifest)).
Proof.
  intros H Hpm Hdyn Hin Hfb.
  assert (In ("use of fallback " ++ pattern) (BuildLocals.reasonsForBackend locals)) as Hr.
  { pose proof H as H'.
    apply reasons_of_run in H' as [pm' [pages [dyn' [rm H']]]].
    destruct H' as [Hpm' [_ [_ [_ [_ [Hreasons _]]]]]].
    rewrite Hpm in Hpm'. injection Hpm' as <-.
    apply Hreasons, In_candidateReasons. right; right; left.
    exists (pattern, fallback). split; [| reflexivity].
    unfold dynamicRoutesWithFallback. rewrite Hdyn. apply filter_In. now split. }
  split; [exact Hr |]. split; [exact (wantsBackend_of_reason _ _ _ _ H Hr) |].
  intros pagesManifest Hroutes Hpage Hcopy.
  apply keys_routesToCopy in Hcopy as [Hcopy | Hcopy]; [contradiction | congruence].
Qed.

(** C4, as the code has it. For every entry of [prerenderManifest.routes]
    whose [initialRevalidateSeconds] is truthy, a run of [build] that returns
    has the reason ["use of revalidate <srcRoute>"] in its set, hence
    [wantsBackend] true. Unless the pages manifest maps the same path to a
    file ending in [.html], the entry is among the routes the materializer
    goes through, and it is skipped there: nothing is copied for it. *)
Theorem revalidate_route_needs_backend (env : BuildEnv.t) (locals : BuildLocals.t)
  (pm : PrerenderManifest.t) (path : string) (route : PrerenderRoute.t) :
  outcome (build env) = Ok locals ->
  BuildEnv.prerenderManifest env = Present pm ->
  In (path, route) (PrerenderManifest.routes pm) ->
  revalidateTruthy (PrerenderRoute.initialRevalidateSeconds route) = true ->
  In ("use of revalidate " ++ Js.template (PrerenderRoute.srcRoute route))
     (BuildLocals.reasonsForBackend locals) /\
  BuildResult.wantsBackend (BuildLocals.result locals) = true /\
  forall pagesManifest c,
    isHtmlPage pagesManifest path = false ->
    In (path, route) (routesToCopy pm pagesManifest) /\
    routeOutcome c path route = SkipRevalidate /\
    copiedFiles (copyRoute c (path, route)) = [].
Proof.
  intros H Hpm Hin Hrev.
  assert (In ("use of revalidate " ++ Js.template (PrerenderRoute.srcRoute route))
             (BuildLocals.reasonsForBackend locals)) as Hr.
  { pose proof H as H'.
    apply reasons_of_run in H' as [pm' [pages [dyn' [rm H']]]].
    destruct H' as [Hpm' [_ [_ [_ [_ [Hreasons _]]]]]].
    rewrite Hpm in Hpm'. injection Hpm' as <-.
    apply Hreasons, In_candidateReasons. right; right; right; left.
    exists (path, route). split; [| reflexivity].
    unfold routesWithRevalidate. apply filter_In. now split. }
  split; [exact Hr |]. split; [exact (wantsBackend_of_reason _ _ _ _ H Hr) |].
  intros pagesManifest c Hpage. split; [| split].
  - unfold routesToCopy. apply In_spread_other; [| assumption].
    rewrite keys_pagesManifestLikePrerender. congruence.
  - now apply routeOutcome_revalidate.
  - unfold copyRoute. simpl fst; simpl snd.
    now rewrite copiedFiles_outcome, routeOutcome_revalidate.
Qed.

(** C5, as the code has it. When a domain mapping matches one of the
    domains of the deploy site, a route whose locale prefix is not the default
    locale of that mapping and is absent from the list of locales the mapping
    declares is never copied. Of the routes with a locale prefix that are
    copied, the page goes under the locale-root-prefixed path unless the
    mapping lists at most one locale, and goes to the output root exactly
    when the locale is the default locale of the mapping. *)
Theorem locale_placement (env : PublicEnv.t) (middlewareManifest : MiddlewareManifest)
  (routesManifest : RoutesManifest.t) (appPathRoutesManifest : AppPathRoutesManifest)
  (serverReferenceManifest : ActionManifest.t)
  (path : string) (route : PrerenderRoute.t) (matching : DomainLocale.t) (locale : string) :
  matchingI18nDomain (NextConfig.i18n (PublicEnv.config env))
                     (PublicEnv.getAllSiteDomains env) = Some matching ->
  localeOf (closureOf env middlewareManifest routesManifest appPathRoutesManifest
                      serverReferenceManifest) path = Some locale ->
  (locale <> DomainLocale.defaultLocale matching ->
   (exists locales,
       DomainLocale.locales matching = Some locales /\ includes locales locale = false) ->
   copiedFiles
     (copyRoute (closureOf env middlewareManifest routesManifest appPathRoutesManifest
                           serverReferenceManifest) (path, route)) = []) /\
  (forall src localized default data,
     routeOutcome (closureOf env middlewareManifest routesManifest appPathRoutesManifest
                             serverReferenceManifest) path route =
       CopyRoute src localized default data ->
     exists ext,
       (ext = ".html" \/ ext = "") /\
       localized =
         (if (List.length (orElse (DomainLocale.locales matching) []) <=? 1)%nat then None
          else Some (join ([PublicEnv.destDir env; I18N_ROOT; locale;
                            NextConfig.basePath (PublicEnv.config env)]
                           ++ orIndex (destPartsOf path (Some locale))) ++ ext)) /\
       default =
         (if String.eqb (DomainLocale.defaultLocale matching) locale
          then Some (join ([PublicEnv.destDir env; NextConfig.basePath (PublicEnv.config env)]
                           ++ orIndex (destPartsOf path (Some locale))) ++ ext)
          else None)).
Proof.
  set (c := closureOf env middlewareManifest routesManifest appPathRoutesManifest
                      serverReferenceManifest).
  intros Hm Hl.
  assert (Closure.matchingI18nDomain c = Some matching) as Hcm by exact Hm.
  assert (Closure.singleLocaleDomain c =
          (List.length (orElse (DomainLocale.locales matching) []) <=? 1)%nat) as Hsingle.
  { unfold c, closureOf; cbn [Closure.singleLocaleDomain]. rewrite Hm.
    destruct (NextConfig.i18n (PublicEnv.config env)); [reflexivity | discriminate]. }
  split.
  - intros Hne [locales [Hls Hout]].
    exact (routeOutcome_other_locale c path route matching locale locales Hcm Hl Hne Hls Hout).
  - intros src localized default data H.
    destruct (routeOutcome_placement c path route matching locale src localized default data
                Hcm Hl H) as [ext [Hext [Hloc Hdef]]].
    exists ext. rewrite Hsingle in Hloc. now split.
Qed.

(** C6, as the code has it. Every route the app metadata reports as using
    partial pre-rendering gives a run of [build] that returns the reason
    ["route with PPR <route>"], hence [wantsBackend] true. In the
    materializer such a route is skipped when its artifact is found by adding
    [.html] to the source path; what it copies for such a route, if anything,
    is the file at the exact source path or its [.body], never the [.html]
    artifact. *)
Theorem ppr_route_needs_backend (env : BuildEnv.t) (locals : BuildLocals.t)
  (appPathRoutesManifest : AppPathRoutesManifest) (route : string) :
  outcome (build env) = Ok locals ->
  BuildEnv.appPathRoutesManifest env = Present appPathRoutesManifest ->
  In route (AppMetadata.pprRoutes
              (BuildEnv.getAppMetadataFromMetaFiles env appPathRoutesManifest)) ->
  In ("route with PPR " ++ route) (BuildLocals.reasonsForBackend locals) /\
  BuildResult.wantsBackend (BuildLocals.result locals) = true /\
  forall c record,
    includes (Closure.pprRoutes c) route = true ->
    (Closure.fileExistsSync c (sourcePathOf c route record) = false ->
     Closure.fileExistsSync c (sourcePathOf c route record ++ ".html") = true ->
     copiedFiles (copyRoute c (route, record)) = []) /\
    (forall src localized default data,
       routeOutcome c route record = CopyRoute src localized default data ->
       src = sourcePathOf c route record \/ src = sourcePathOf c route record ++ ".body").
Proof.
  intros H Haprm Hin.
  assert (In ("route with PPR " ++ route) (BuildLocals.reasonsForBackend locals)) as Hr.
  { pose proof H as H'.
    apply reasons_of_run in H' as [pm [pages [dyn [rm H']]]].
    destruct H' as [_ [_ [_ [_ [_ [Hreasons _]]]]]].
    apply Hreasons, In_candidateReasons. do 6 right. left.
    apply In_appCandidates. exists appPathRoutesManifest. rewrite Haprm.
    split; [reflexivity |]. left. now exists route. }
  split; [exact Hr |]. split; [exact (wantsBackend_of_reason _ _ _ _ H Hr) |].
  intros c record Hppr. split.
  - intros Hexact Hhtml. unfold copyRoute. simpl fst; simpl snd.
    rewrite copiedFiles_outcome. unfold routeOutcome.
    destruct (revalidateTruthy _); [reflexivity |].
    destruct (existsb _ (Closure.pathsUsingsFeaturesNotSupportedByHosting c)); [reflexivity |].
    destruct (existsb _ (Closure.staticRoutesUsingServerActions c)); [reflexivity |].
    cbv zeta. destruct (negb (includeOnThisDomain c (localeOf c route))); [reflexivity |].
    now rewrite Hexact, Hhtml, Hppr.
  - intros src localized default data. unfold routeOutcome.
    destruct (revalidateTruthy _); [discriminate |].
    destruct (existsb _ (Closure.pathsUsingsFeaturesNotSupportedByHosting c)); [discriminate |].
    destruct (existsb _ (Closure.staticRoutesUsingServerActions c)); [discriminate |].
    cbv zeta. destruct (negb (includeOnThisDomain c (localeOf c route))); [discriminate |].
    rewrite Hppr.
    destruct (negb (Closure.fileExistsSync c (sourcePathOf c route record)) && _);
      [discriminate |].
    destruct (Js.truthyOpt (appPathRouteOf c record) && _ && _).
    + intros E. injection E as <- _ _ _. now right.
    + destruct (negb (Closure.pathExistsSync c (sourcePathOf c route record)));
        [discriminate |].
      intros E. injection E as <- _ _ _. now left.
Qed.


End CopyClaims.

(** ** The claims on the sample builds *)

Lemma build_wantsBackend_iff_reasons_witness :
  let locals :=
    localsOf Sample.busySite Sample.busyManifest
      [("/about", "pages/about.html"); ("/blog/[slug]", "pages/blog/[slug].js")]
      [("/blog/[slug]", FallbackTrue); ("/docs/[id]", FallbackNull);
       ("/shop/[sku]", FallbackFalse)]
      Sample.busyRules in
  outcome (build Sample.busySite) = Ok locals /\
  List.length (BuildLocals.reasonsForBackend locals) = 8 /\
  outcome (buildWith 2 Sample.busySite) = Ok locals /\
  (BuildResult.wantsBackend (BuildLocals.result locals) = true <->
   BuildLocals.reasonsForBackend locals <> []).
Proof.
  cbv zeta. split; [reflexivity |]. split; [reflexivity |].
  apply build_wantsBackend_iff_reasons. reflexivity.
Defined.

Lemma build_rule_category_reasons_witness :
  let locals :=
    localsOf Sample.busySite Sample.busyManifest
      [("/about", "pages/about.html"); ("/blog/[slug]", "pages/blog/[slug].js")]
      [("/blog/[slug]", FallbackTrue); ("/docs/[id]", FallbackNull);
       ("/shop/[sku]", FallbackFalse)]
      Sample.busyRules in
  outcome (build Sample.busySite) = Ok locals /\
  BuildEnv.routesManifest Sample.busySite = Present Sample.busyRules /\
  count_occ string_dec (BuildLocals.reasonsForBackend locals) "advanced headers" = 1 /\
  count_occ string_dec (BuildLocals.reasonsForBackend locals) "advanced redirects" = 0 /\
  count_occ string_dec (BuildLocals.reasonsForBackend locals) "advanced rewrites" = 1.
Proof.
  cbv zeta. split; [reflexivity |]. split; [reflexivity |].
  exact (build_rule_category_reasons Sample.busySite _ Sample.busyRules eq_refl eq_refl).
Defined.

(** C2 fails on object-form rewrites: the only rewrite rule is supported, and
    it sits in [afterFiles]; the run ends with the reason
    ["advanced rewrites"]. *)
Lemma afterFiles_reason_despite_supported_rules :
  RoutesManifest.rewrites Sample.afterFilesRules =
    Some (RewritesObject (Some []) (Some [Sample.plainRule "/a" "/b"]) None) /\
  isRewriteSupportedByHosting (Sample.plainRule "/a" "/b") = true /\
  reasonsOfRun (build Sample.afterFilesSite) = Some ["advanced rewrites"].
Proof. repeat split. Qed.

Lemma build_after_next_build_witness :
  (outcome (build Sample.spawnFailure) =
     Throw (FirebaseError
              "Unable to build your Next.js app: Error: spawn node_modules/.bin/next ENOENT") /\
   readsOf (build Sample.spawnFailure) = []) /\
  (outcome (build Sample.brokenConfig) = Throw (OtherError "Unable to load next.config.js.") /\
   readsOf (build Sample.brokenConfig) = []) /\
  In PRERENDER_MANIFEST (readsOf (build Sample.failedBuild)).
Proof.
  split; [exact (build_after_next_build Sample.spawnFailure) |].
  split; [exact (proj1 (build_after_next_build Sample.brokenConfig)) |].
  exact (proj1 (build_after_next_build Sample.failedBuild)).
Defined.

(** C7 fails on a non-zero exit code: the process exits with code 1, and
    [build] reads all six manifests and returns. *)
Lemma nonzero_exit_proceeds :
  BuildEnv.nextBuildEnd Sample.failedBuild = ProcessExit (Some 1%Z) /\
  readsOf (build Sample.failedBuild) =
    [PRERENDER_MANIFEST; PAGES_MANIFEST; ROUTES_MANIFEST; APP_PATHS_MANIFEST;
     APP_PATH_ROUTES_MANIFEST; SERVER_REFERENCE_MANIFEST] /\
  wantsBackendOfRun (build Sample.failedBuild) = Some false.
Proof. repeat split. Qed.

Lemma build_manifest_failures_witness :
  (isPresent (BuildEnv.prerenderManifest Sample.brokenRoutesManifest)
   && isPresent (BuildEnv.pagesManifest Sample.brokenRoutesManifest)
   && isPresent (BuildEnv.routesManifest Sample.brokenRoutesManifest) = false /\
   exists e, outcome (build Sample.brokenRoutesManifest) = Throw e) /\
  ((forall call, BuildEnv.rejects Sample.brokenAppPaths call = None) /\
   exists locals, outcome (build Sample.brokenAppPaths) = Ok locals).
Proof.
  split.
  - split; [reflexivity |].
    apply (proj1 (build_manifest_failures Sample.brokenRoutesManifest)). reflexivity.
  - split; [reflexivity |].
    apply (proj1 (proj2 (build_manifest_failures Sample.brokenAppPaths))
             (Some 0%Z) Sample.aboutOnly [("/about", "pages/about.html")] []
             Sample.noRules);
      reflexivity.
Defined.

(** C8 fails on a malformed optional manifest: the app-paths manifest cannot
    be parsed, and [build] returns, without a backend. *)
Lemma malformed_optional_manifest_ignored :
  BuildEnv.appPathsManifest Sample.brokenAppPaths = Malformed /\
  reasonsOfRun (build Sample.brokenAppPaths) = Some [] /\
  wantsBackendOfRun (build Sample.brokenAppPaths) = Some false.
Proof. repeat split. Qed.

(** ** The claims on the sample materializations *)

Lemma fallback_route_needs_backend_witness :
  let locals :=
    localsOf (Sample.fallbackSite Sample.blogAsScript) Sample.fallbackManifest
             Sample.blogAsScript [("/blog/[slug]", FallbackTrue)] Sample.noRules in
  outcome (build (Sample.fallbackSite Sample.blogAsScript)) = Ok locals /\
  In ("/blog/[slug]", FallbackTrue) [("/blog/[slug]", FallbackTrue)] /\
  In "use of fallback /blog/[slug]" (BuildLocals.reasonsForBackend locals) /\
  BuildResult.wantsBackend (BuildLocals.result locals) = true /\
  ~ In "/blog/[slug]" (Js.keys (routesToCopy Sample.fallbackManifest Sample.blogAsScript)).
Proof.
  cbv zeta.
  pose proof (fallback_route_needs_backend (Sample.fallbackSite Sample.blogAsScript) _
                Sample.fallbackManifest [("/blog/[slug]", FallbackTrue)]
                "/blog/[slug]" FallbackTrue eq_refl eq_refl eq_refl
                (or_introl eq_refl) eq_refl) as [Hreason [Hwants Hcopy]].
  split; [reflexivity |]. split; [now left |]. split; [exact Hreason |].
  split; [exact Hwants |].
  apply Hcopy; [simpl; tauto | reflexivity].
Defined.

(** C3 fails on a pattern that the pages manifest maps to an HTML file: the
    reason is in the set, and the materializer copies the pattern's page. *)
Lemma fallback_pattern_copied :
  PrerenderManifest.dynamicRoutes Sample.fallbackManifest =
    Some [("/blog/[slug]", FallbackTrue)] /\
  reasonsOfRun (build (Sample.fallbackSite Sample.blogAsHtml)) =
    Some ["use of fallback /blog/[slug]"] /\
  Js.keys (routesToCopy Sample.fallbackManifest Sample.blogAsHtml) = ["/blog/[slug]"] /\
  copiedFiles (trace (codegenPublicDirectory (Sample.fallbackOutput Sample.blogAsHtml))) =
    [("/app/.next/server/pages/blog/[slug].html", "/out/blog/[slug].html")].
Proof. repeat split. Qed.

Lemma revalidate_route_needs_backend_witness :
  let locals :=
    localsOf (Sample.newsSite Sample.newsAsScript) Sample.newsManifest
             Sample.newsAsScript [] Sample.noRules in
  let route :=
    Sample.route None (RevalidateSeconds 60) (Some "/_next/data/build/news.json") in
  let c := Sample.closure (Sample.newsOutput Sample.newsAsScript) in
  outcome (build (Sample.newsSite Sample.newsAsScript)) = Ok locals /\
  In ("/news", route) (PrerenderManifest.routes Sample.newsManifest) /\
  In "use of revalidate null" (BuildLocals.reasonsForBackend locals) /\
  BuildResult.wantsBackend (BuildLocals.result locals) = true /\
  In ("/news", route) (routesToCopy Sample.newsManifest Sample.newsAsScript) /\
  routeOutcome c "/news" route = SkipRevalidate /\
  copiedFiles (copyRoute c ("/news", route)) = [].
Proof.
  cbv zeta.
  pose proof (revalidate_route_needs_backend (Sample.newsSite Sample.newsAsScript) _
                Sample.newsManifest "/news"
                (Sample.route None (RevalidateSeconds 60) (Some "/_next/data/build/news.json"))
                eq_refl eq_refl (or_introl eq_refl) eq_refl) as [Hreason [Hwants Hcopy]].
  split; [reflexivity |]. split; [now left |]. split; [exact Hreason |].
  split; [exact Hwants |].
  exact (Hcopy Sample.newsAsScript
               (Sample.closure (Sample.newsOutput Sample.newsAsScript)) eq_refl).
Defined.

(** C4 fails on a revalidating route that the pages manifest maps to an HTML
    file: its prerender entry revalidates every 60 seconds, and its page is
    copied. *)
Lemma revalidate_route_copied :
  Js.get (PrerenderManifest.routes Sample.newsManifest) "/news" =
    Some (Sample.route None (RevalidateSeconds 60) (Some "/_next/data/build/news.json")) /\
  reasonsOfRun (build (Sample.newsSite Sample.newsAsHtml)) = Some ["use of revalidate null"] /\
  copiedFiles (trace (codegenPublicDirectory (Sample.newsOutput Sample.newsAsHtml))) =
    [("/app/.next/server/pages/news.html", "/out/news.html")].
Proof. repeat split. Qed.

Lemma locale_placement_witness :
  let env := Sample.localizedOutput ["en"; "fr"] in
  let c := Sample.closure env in
  let route := Sample.route None RevalidateFalse None in
  let matching :=
    {| DomainLocale.domain := "a.com"; DomainLocale.defaultLocale := "en";
       DomainLocale.locales := Some ["en"; "fr"] |} in
  matchingI18nDomain (NextConfig.i18n (PublicEnv.config env))
                     (PublicEnv.getAllSiteDomains env) = Some matching /\
  localeOf c "/de/about" = Some "de" /\
  copiedFiles (copyRoute c ("/de/about", route)) = [].
Proof.
  cbv zeta. split; [reflexivity |]. split; [reflexivity |].
  apply (proj1 (locale_placement (Sample.localizedOutput ["en"; "fr"])
                  [] Sample.noRules [] (ActionManifest.mk [] [] "")
                  "/de/about" (Sample.route None RevalidateFalse None)
                  {| DomainLocale.domain := "a.com"; DomainLocale.defaultLocale := "en";
                     DomainLocale.locales := Some ["en"; "fr"] |}
                  "de" eq_refl eq_refl)).
  - discriminate.
  - exists ["en"; "fr"]. split; reflexivity.
Defined.

(** C5 fails on the default locale of the domain: the mapping of [a.com]
    lists the locale [fr] only, its default locale is [en], and the page of
    [/en/about] is copied, to the output root. *)
Lemma default_locale_outside_subset_copied :
  matchingI18nDomain (Some (Sample.threeLocales ["fr"])) ["a.com"] =
    Some {| DomainLocale.domain := "a.com"; DomainLocale.defaultLocale := "en";
            DomainLocale.locales := Some ["fr"] |} /\
  localeOf (Sample.closure (Sample.localizedOutput ["fr"])) "/en/about" = Some "en" /\
  includes ["fr"] "en" = false /\
  copiedFiles (trace (codegenPublicDirectory (Sample.localizedOutput ["fr"]))) =
    [("/app/.next/server/pages/en/about.html", "/out/about.html")].
Proof. repeat split. Qed.

(** The locale scenario of the spec: on [a.com] with the locales [en] and
    [fr], [fr] goes under the locale root, [en] under the locale root and to
    the output root, and [de] nowhere. *)
Example spec_locale_scenario :
  copiedFiles (trace (codegenPublicDirectory (Sample.localizedOutput ["en"; "fr"]))) =
    [("/app/.next/server/pages/en/about.html", "/out/I18N_ROOT/en/about.html");
     ("/app/.next/server/pages/en/about.html", "/out/about.html");
     ("/app/.next/server/pages/fr/about.html", "/out/I18N_ROOT/fr/about.html")].
Proof. reflexivity. Qed.

Lemma ppr_route_needs_backend_witness :
  let locals := localsOf Sample.pprSite Sample.pprManifest [] [] Sample.noRules in
  let c := Sample.closure (Sample.pprOutput ["/app/.next/server/app/foo.html"]) in
  let record := Sample.route (Some "/foo") RevalidateFalse None in
  outcome (build Sample.pprSite) = Ok locals /\
  BuildEnv.appPathRoutesManifest Sample.pprSite = Present [("/foo/page", "/foo")] /\
  In "/foo" (AppMetadata.pprRoutes (Sample.pprMetadata [("/foo/page", "/foo")])) /\
  In "route with PPR /foo" (BuildLocals.reasonsForBackend locals) /\
  BuildResult.wantsBackend (BuildLocals.result locals) = true /\
  sourcePathOf c "/foo" record = "/app/.next/server/app/foo" /\
  copiedFiles (copyRoute c ("/foo", record)) = [].
Proof.
  cbv zeta.
  pose proof (ppr_route_needs_backend Sample.pprSite _ [("/foo/page", "/foo")] "/foo"
                eq_refl eq_refl (or_introl eq_refl)) as [Hreason [Hwants Hcopy]].
  split; [reflexivity |]. split; [reflexivity |]. split; [now left |].
  split; [exact Hreason |]. split; [exact Hwants |]. split; [reflexivity |].
  exact (proj1 (Hcopy (Sample.closure (Sample.pprOutput ["/app/.next/server/app/foo.html"]))
                      (Sample.route (Some "/foo") RevalidateFalse None) eq_refl)
               eq_refl eq_refl).
Defined.

(** C6 fails on a PPR route whose artifact is not found by adding [.html]:
    the route is reported as using partial pre-rendering, and the file at its
    exact source path, or the [.body] of its route handler, is copied. *)
Lemma ppr_route_copied :
  AppMetadata.pprRoutes (Sample.pprMetadata [("/foo/page", "/foo")]) = ["/foo"] /\
  reasonsOfRun (build Sample.pprSite) = Some ["route with PPR /foo"] /\
  copiedFiles (trace (codegenPublicDirectory (Sample.pprOutput ["/app/.next/server/app/foo"]))) =
    [("/app/.next/server/app/foo", "/out/foo")] /\
  copiedFiles (trace (codegenPublicDirectory Sample.pprHandlerOutput)) =
    [("/app/.next/server/app/foo.body", "/out/foo")].
Proof. repeat split. Qed.



(** The first end-to-end scenario of the spec: one static route with a data
    route, no backend; the page goes to the root and the data file to its
    declared place. *)
Example spec_static_scenario :
  wantsBackendOfRun (build Sample.staticSite) = Some false /\
  copiedFiles
    (trace (codegenPublicDirectory
              (Sample.publicEnv None [] Sample.aboutOnly [("/about", "pages/about.js")]
                 Missing Sample.noMetadata
                 ["/app/.next/server/pages/about.html"; "/app/.next/server/pages/about.json"]))) =
    [("/app/.next/server/pages/about.html", "/out/about.html");
     ("/app/.next/server/pages/about.json", "/out/_next/data/build/about.json")].
Proof. split; reflexivity. Qed.

(** * More about [build] *)

Section BuildMore.

Context {utils : NextUtils}.

Lemma addAll_nil_iff (xs : list string) : Js.addAll [] xs = [] <-> xs = [].
Proof.
  split; [| intros ->; reflexivity].
  destruct xs as [| x xs]; [reflexivity |]. intros H. exfalso.
  assert (In x (Js.addAll [] (x :: xs))) as Hin by (apply In_addAll; right; now left).
  rewrite H in Hin. destruct Hin.
Qed.

Lemma when_nil_iff (condition : bool) (x : string) : when condition x = [] <-> condition = false.
Proof. destruct condition; simpl; split; congruence. Qed.

Lemma app_eq_nil_iff {A} (l l' : list A) : (l ++ l')%list = [] <-> l = [] /\ l' = [].
Proof.
  split; [apply app_eq_nil | intros [-> ->]; reflexivity].
Qed.

Lemma map_nil_iff {A B} (f : A -> B) (l : list A) : map f l = [] <-> l = [].
Proof. destruct l; simpl; split; congruence. Qed.

Lemma appCandidates_nil_iff env prerenderedRoutes dynamicRoutes :
  appCandidates env prerenderedRoutes dynamicRoutes = [] <->
  match optional (BuildEnv.appPathRoutesManifest env) with
  | None => True
  | Some appPathRoutesManifest =>
      AppMetadata.pprRoutes
        (BuildEnv.getAppMetadataFromMetaFiles env appPathRoutesManifest) = [] /\
      match optional (BuildEnv.appPathsManifest env) with
      | None => True
      | Some appPathsManifest =>
          dropStaticNotFound env
            (getNonStaticServerComponents appPathsManifest appPathRoutesManifest
               prerenderedRoutes dynamicRoutes) = []
      end /\
      match optional (BuildEnv.serverReferenceManifest env) with
      | None => True
      | Some serverReferenceManifest =>
          getRoutesWithServerAction serverReferenceManifest appPathRoutesManifest = []
      end
  end.
Proof.
  unfold appCandidates.
  destruct (optional (BuildEnv.appPathRoutesManifest env)) as [aprm |]; [| tauto].
  rewrite !app_eq_nil_iff, map_nil_iff.
  destruct (optional (BuildEnv.appPathsManifest env)),
           (optional (BuildEnv.serverReferenceManifest env));
    rewrite ?map_nil_iff; tauto.
Qed.

(** X1. A run of [build] that returns asks for no backend exactly when none
    of its checks fires: no middleware, no image optimization, no dynamic route
    with a fallback, no revalidating route, no non-static page, every header,
    every non-internal redirect and every used rewrite supported, no
    [afterFiles] or [fallback] rewrites, and, when the app-path-routes manifest
    is read, no PPR route, no non-static server component and no route with a
    server action. *)
Theorem build_static_iff (env : BuildEnv.t) (locals : BuildLocals.t)
  (pm : PrerenderManifest.t) (pages : PagesManifest) (dyn : Js.Obj Fallback)
  (rm : RoutesManifest.t) :
  outcome (build env) = Ok locals ->
  BuildEnv.prerenderManifest env = Present pm ->
  BuildEnv.pagesManifest env = Present pages ->
  PrerenderManifest.dynamicRoutes pm = Some dyn ->
  BuildEnv.routesManifest env = Present rm ->
  (BuildResult.wantsBackend (BuildLocals.result locals) = false <->
   BuildEnv.isUsingMiddleware env = false /\
   BuildEnv.isUsingImageOptimization env = false /\
   dynamicRoutesWithFallback pm = [] /\
   routesWithRevalidate pm = [] /\
   getNonStaticRoutes pages (Js.keys (PrerenderManifest.routes pm)) (Js.keys dyn) = [] /\
   forallb isHeaderSupportedByHosting
           (map cleanI18n (orElse (RoutesManifest.headers rm) [])) = true /\
   match optional (BuildEnv.appPathRoutesManifest env) with
   | None => True
   | Some appPathRoutesManifest =>
       AppMetadata.pprRoutes
         (BuildEnv.getAppMetadataFromMetaFiles env appPathRoutesManifest) = [] /\
       match optional (BuildEnv.appPathsManifest env) with
       | None => True
       | Some appPathsManifest =>
           dropStaticNotFound env
             (getNonStaticServerComponents appPathsManifest appPathRoutesManifest
                (Js.keys (PrerenderManifest.routes pm)) (Js.keys dyn)) = []
       end /\
       match optional (BuildEnv.serverReferenceManifest env) with
       | None => True
       | Some serverReferenceManifest =>
           getRoutesWithServerAction serverReferenceManifest appPathRoutesManifest = []
       end
   end /\
   forallb isRedirectSupportedByHosting
           (filter (fun it => negb (Rule.internal it))
                   (orElse (RoutesManifest.redirects rm) [])) = true /\
   usesAfterFilesOrFallback (orElse (RoutesManifest.rewrites rm) (RewritesArray [])) = false /\
   forallb isRewriteSupportedByHosting
           (getNextjsRewritesToUse
              (orElse (RoutesManifest.rewrites rm) (RewritesArray []))) = true).
Proof.
  intros H Hpm Hpages Hdyn Hrm.
  apply buildWith_returns in H as [code [pm' [pages' [dyn' [rm' H]]]]].
  destruct H as [_ [Hpm' [Hpages' [Hdyn' [Hrm' ->]]]]].
  rewrite Hpm in Hpm'. injection Hpm' as <-.
  rewrite Hpages in Hpages'. injection Hpages' as <-.
  rewrite Hdyn in Hdyn'. injection Hdyn' as <-.
  rewrite Hrm in Hrm'. injection Hrm' as <-.
  simpl. rewrite reasonsOf_candidates.
  transitivity (candidateReasons env pm pages dyn rm = []).
  - rewrite <- addAll_nil_iff.
    destruct (Js.addAll [] (candidateReasons env pm pages dyn rm)); cbn; split; intros E;
      (reflexivity || discriminate E).
  - unfold candidateReasons; cbv zeta.
    rewrite !app_eq_nil_iff, !when_nil_iff, !map_nil_iff, !negb_false_iff,
      appCandidates_nil_iff.
    unfold isEveryHeaderSupported, isEveryRedirectSupported, isEveryRewriteSupported.
    tauto.
Qed.

End BuildMore.

Lemma append_inj (p a b : string) : p ++ a = p ++ b -> a = b.
Proof.
  induction p as [| c p IH]; simpl; [tauto |].
  intros H. injection H as H. now apply IH.
Qed.

Ltac reason_origin :=
  match goal with
  | H : _ /\ _ |- _ => destruct H
  | H : exists _, _ |- _ => destruct H
  | H : _ \/ _ |- _ => destruct H
  | H : In _ (appCandidates _ _ _) |- _ => apply In_appCandidates in H
  | H : (?p ++ _)%string = (?p ++ _)%string |- _ => apply append_inj in H; subst
  | H : @eq string _ _ |- _ => cbn in H; discriminate H
  end.

Section ReasonOrigins.

Context {utils : NextUtils}.

(** X2. In a run of [build] that returns, every reason has one origin only:
    ["middleware"] and ["Image Optimization"] are in the set exactly when the
    feature is in use; ["use of fallback k"] exactly when [k] is a dynamic
    route whose fallback is not false; ["use of revalidate s"] exactly when a
    revalidating route has the owner [s]; ["non-static route k"] exactly when
    [getNonStaticRoutes] lists [k]; and the three app-router reasons exactly
    when the manifests they need are read and list [k]. *)
Theorem build_reason_origin (env : BuildEnv.t) (locals : BuildLocals.t)
  (pm : PrerenderManifest.t) (pages : PagesManifest) (dyn : Js.Obj Fallback) (key : string) :
  outcome (build env) = Ok locals ->
  BuildEnv.prerenderManifest env = Present pm ->
  BuildEnv.pagesManifest env = Present pages ->
  PrerenderManifest.dynamicRoutes pm = Some dyn ->
  let reasons := BuildLocals.reasonsForBackend locals in
  let prerenderedRoutes := Js.keys (PrerenderManifest.routes pm) in
  (In "middleware" reasons <-> BuildEnv.isUsingMiddleware env = true) /\
  (In "Image Optimization" reasons <-> BuildEnv.isUsingImageOptimization env = true) /\
  (In ("use of fallback " ++ key) reasons <->
   exists fallback, In (key, fallback) dyn /\ fallbackIsNotFalse fallback = true) /\
  (In ("use of revalidate " ++ key) reasons <->
   exists path route,
     In (path, route) (PrerenderManifest.routes pm) /\
     revalidateTruthy (PrerenderRoute.initialRevalidateSeconds route) = true /\
     Js.template (PrerenderRoute.srcRoute route) = key) /\
  (In ("non-static route " ++ key) reasons <->
   In key (getNonStaticRoutes pages prerenderedRoutes (Js.keys dyn))) /\
  (In ("route with PPR " ++ key) reasons <->
   exists appPathRoutesManifest,
     BuildEnv.appPathRoutesManifest env = Present appPathRoutesManifest /\
     In key (AppMetadata.pprRoutes
               (BuildEnv.getAppMetadataFromMetaFiles env appPathRoutesManifest))) /\
  (In ("non-static component " ++ key) reasons <->
   exists appPathRoutesManifest appPathsManifest,
     BuildEnv.appPathRoutesManifest env = Present appPathRoutesManifest /\
     BuildEnv.appPathsManifest env = Present appPathsManifest /\
     In key (dropStaticNotFound env
               (getNonStaticServerComponents appPathsManifest appPathRoutesManifest
                  prerenderedRoutes (Js.keys dyn)))) /\
  (In ("route with server action " ++ key) reasons <->
   exists appPathRoutesManifest serverReferenceManifest,
     BuildEnv.appPathRoutesManifest env = Present appPathRoutesManifest /\
     BuildEnv.serverReferenceManifest env = Present serverReferenceManifest /\
     In key (getRoutesWithServerAction serverReferenceManifest appPathRoutesManifest)).
Proof.
  intros H Hpm Hpages Hdyn. cbv zeta.
  apply reasons_of_run in H as [pm' [pages' [dyn' [rm H]]]].
  destruct H as [Hpm' [Hpages' [Hdyn' [_ [_ [Hin _]]]]]].
  rewrite Hpm in Hpm'. injection Hpm' as <-.
  rewrite Hpages in Hpages'. injection Hpages' as <-.
  rewrite Hdyn in Hdyn'. injection Hdyn' as <-.
  assert (forall A (f : File A) (a : A), optional f = Some a <-> f = Present a) as Hopt.
  { intros A f a. destruct f; simpl; split; congruence. }
  repeat split; try (intros Hr; apply Hin, In_candidateReasons in Hr).
  - repeat reason_origin; assumption.
  - intros Hm. apply Hin, In_candidateReasons. tauto.
  - repeat reason_origin; assumption.
  - intros Hm. apply Hin, In_candidateReasons. tauto.
  - repeat reason_origin.
    match goal with
    | Hf : In ?it (dynamicRoutesWithFallback pm) |- _ =>
        unfold dynamicRoutesWithFallback in Hf; rewrite Hdyn in Hf;
        apply filter_In in Hf as [Hf1 Hf2]; destruct it as [k fb];
        exists fb; now split
    end.
  - intros [fallback [Hk Hfb]]. apply Hin, In_candidateReasons. right; right; left.
    exists (key, fallback). split; [| reflexivity].
    unfold dynamicRoutesWithFallback. rewrite Hdyn. apply filter_In. now split.
  - repeat reason_origin.
    match goal with
    | Hf : In ?it (routesWithRevalidate pm) |- _ =>
        unfold routesWithRevalidate in Hf;
        apply filter_In in Hf as [Hf1 Hf2]; destruct it as [path route];
        exists path, route; repeat split; assumption
    end.
  - intros [path [route [Hroute [Hrev <-]]]].
    apply Hin, In_candidateReasons. right; right; right; left.
    exists (path, route). split; [| reflexivity].
    unfold routesWithRevalidate. apply filter_In. now split.
  - repeat reason_origin; assumption.
  - intros Hk. apply Hin, In_candidateReasons. do 4 right. left. now exists key.
  - repeat reason_origin.
    match goal with
    | Ha : optional _ = Some ?a |- _ => exists a; apply Hopt in Ha; now split
    end.
  - intros [aprm [Ha Hk]]. apply Hin, In_candidateReasons. do 6 right. left.
    apply In_appCandidates. exists aprm. split; [now apply Hopt |].
    left. now exists key.
  - repeat reason_origin.
    match goal with
    | Ha : optional (BuildEnv.appPathRoutesManifest env) = Some ?a,
      Hb : optional (BuildEnv.appPathsManifest env) = Some ?b |- _ =>
        exists a, b; apply Hopt in Ha; apply Hopt in Hb; repeat split; assumption
    end.
  - intros [aprm [apm [Ha [Hb Hk]]]]. apply Hin, In_candidateReasons. do 6 right. left.
    apply In_appCandidates. exists aprm. split; [now apply Hopt |].
    right; left. exists apm, key. repeat split; [now apply Hopt | assumption].
  - repeat reason_origin.
    match goal with
    | Ha : optional (BuildEnv.appPathRoutesManifest env) = Some ?a,
      Hb : optional (BuildEnv.serverReferenceManifest env) = Some ?b |- _ =>
        exists a, b; apply Hopt in Ha; apply Hopt in Hb; repeat split; assumption
    end.
  - intros [aprm [srm [Ha [Hb Hk]]]]. apply Hin, In_candidateReasons. do 6 right. left.
    apply In_appCandidates. exists aprm. split; [now apply Hopt |].
    right; right. exists srm, key. repeat split; [now apply Hopt | assumption].
Qed.

End ReasonOrigins.

Ltac run_trace :=
  cbv beta iota zeta;
  rewrite ?trace_bind, ?outcome_bind, ?outcome_readJSON, ?outcome_readJSONOrUndefined,
    ?trace_readJSON, ?trace_readJSONOrUndefined, ?outcome_awaited, ?trace_awaited,
    ?outcome_awaitAppCalls, ?trace_awaitAppCalls;
  cbv beta iota zeta.

Section BuildTraces.

Context {utils : NextUtils}.

Lemma trace_logReasons limit debug reasons :
  trace (logReasons limit debug reasons) =
  (LogInfo "Building a Cloud Function to run this application. This is needed due to:"
   :: map (fun reason => LogInfo (" • " ++ reason)) (Js.sliceTo limit reasons)
   ++ map (fun reason => LogDebug (" • " ++ reason)) (Js.sliceFrom limit reasons)
   ++ (if (limit <? List.length reasons)%nat && negb debug
       then [LogInfo (" • and " ++ Js.ofNat (List.length reasons - limit)
                        ++ " other reasons, use --debug to see more")]
       else [])
   ++ [LogInfo ""])%list.
Proof.
  unfold logReasons.
  destruct ((limit <? List.length reasons)%nat && negb debug); simpl;
    rewrite ?app_nil_r; reflexivity.
Qed.

(** The effects of a run that reads its three mandatory manifests. *)
Lemma trace_buildWith limit env code pm pages dyn rm :
  BuildEnv.rejects env BeforeSpawn = None ->
  BuildEnv.nextBuildEnd env = ProcessExit code ->
  earlyRejection env = None ->
  BuildEnv.prerenderManifest env = Present pm ->
  BuildEnv.pagesManifest env = Present pages ->
  PrerenderManifest.dynamicRoutes pm = Some dyn ->
  BuildEnv.routesManifest env = Present rm ->
  trace (buildWith limit env) =
  (Spawn (BuildEnv.cli env) ["build"]
   :: map LogInfo (BuildEnv.nextBuildOutput env)
   ++ [ReadJSON PRERENDER_MANIFEST; ReadJSON PAGES_MANIFEST; ReadJSON ROUTES_MANIFEST;
       ReadJSON APP_PATHS_MANIFEST; ReadJSON APP_PATH_ROUTES_MANIFEST;
       ReadJSON SERVER_REFERENCE_MANIFEST]
   ++ match appRejection env (Js.keys (PrerenderManifest.routes pm)) (Js.keys dyn) with
      | Some _ => []
      | None =>
          if (0 <? List.length (reasonsOf env pm pages dyn rm))%nat
          then trace (logReasons limit (BuildEnv.DEBUG env) (reasonsOf env pm pages dyn rm))
          else []
      end)%list.
Proof.
  intros E0 He Hearly Hpm Hpages Hdyn Hrm.
  unfold earlyRejection in Hearly.
  destruct (BuildEnv.rejects env GetConfig) eqn:E1; [discriminate |].
  destruct (BuildEnv.rejects env IsUsingMiddleware) eqn:E2; [discriminate |].
  unfold buildWith. run_trace. rewrite E0. run_trace.
  assert (nextBuild env =
          ((Spawn (BuildEnv.cli env) ["build"] :: map LogInfo (BuildEnv.nextBuildOutput env))%list,
           Ok code)) as ->.
  { unfold nextBuild. rewrite He. simpl. now rewrite app_nil_r. }
  run_trace. simpl (outcome (_, _)). simpl (trace (_, _)). cbv beta iota zeta.
  rewrite E1. run_trace. rewrite E2. run_trace. rewrite Hearly. run_trace.
  rewrite Hpm. simpl (optional _). run_trace.
  rewrite Hpages. simpl (optional _). run_trace.
  rewrite Hdyn. simpl (outcome (ret _)). simpl (trace (ret _)). run_trace.
  rewrite Hrm. simpl (optional _). repeat run_trace.
  destruct (appRejection env _ _) as [e |].
  { cbn [app]. now rewrite ?app_nil_r. }
  repeat run_trace.
  simpl (outcome (ret _)). simpl (trace (ret _)).
  match goal with
  | |- context [outcome (if ?c then ?l else ret tt)] =>
      replace (outcome (if c then l else ret tt)) with (@Ok unit tt)
        by (destruct c; [now rewrite outcome_logReasons | reflexivity])
  end.
  match goal with
  | |- context [logReasons limit _ ?r] => change r with (reasonsOf env pm pages dyn rm)
  end.
  destruct (0 <? List.length (reasonsOf env pm pages dyn rm))%nat;
    simpl; rewrite ?app_nil_r; rewrite <- ?app_assoc; reflexivity.
Qed.

(** A run that returns met no rejection. *)
Lemma buildWith_no_rejection limit env locals pm dyn :
  outcome (buildWith limit env) = Ok locals ->
  BuildEnv.prerenderManifest env = Present pm ->
  PrerenderManifest.dynamicRoutes pm = Some dyn ->
  BuildEnv.rejects env BeforeSpawn = None /\
  earlyRejection env = None /\
  appRejection env (Js.keys (PrerenderManifest.routes pm)) (Js.keys dyn) = None.
Proof.
  rewrite outcome_buildWith. unfold earlyRejection. intros H Hpm Hdyn.
  destruct (BuildEnv.rejects env BeforeSpawn); [discriminate |].
  destruct (BuildEnv.nextBuildEnd env) as [err | code]; [discriminate |].
  destruct (BuildEnv.rejects env GetConfig); [discriminate |].
  destruct (BuildEnv.rejects env IsUsingMiddleware); [discriminate |].
  destruct (BuildEnv.rejects env IsUsingImageOptimization); [discriminate |].
  rewrite Hpm in H. simpl in H.
  destruct (optional (BuildEnv.pagesManifest env)); [| discriminate].
  rewrite Hdyn in H.
  destruct (optional (BuildEnv.routesManifest env)); [| discriminate].
  destruct (appRejection env _ _); [discriminate |]. repeat split.
Qed.

End BuildTraces.

Lemma build_after_next_build_error {utils : NextUtils} (env : BuildEnv.t) (err : string) :
  BuildEnv.nextBuildEnd env = ProcessError err -> readsOf (build env) = [].
Proof.
  intros E. unfold build, buildWith, nextBuild, readsOf.
  destruct (BuildEnv.rejects env BeforeSpawn); [reflexivity |].
  rewrite E. simpl. rewrite app_nil_r. apply reads_of_logs.
Qed.

Section BuildLogs.

Context {utils : NextUtils}.

Lemma infoMessages_app (xs ys : list Effect) :
  infoMessages (xs ++ ys) = (infoMessages xs ++ infoMessages ys)%list.
Proof. apply flat_map_app. Qed.

Lemma debugMessages_app (xs ys : list Effect) :
  debugMessages (xs ++ ys) = (debugMessages xs ++ debugMessages ys)%list.
Proof. apply flat_map_app. Qed.

Lemma infoMessages_info {A} (f : A -> string) (l : list A) :
  infoMessages (map (fun x => LogInfo (f x)) l) = map f l.
Proof. induction l as [| x l IH]; simpl; [reflexivity | now rewrite IH]. Qed.

Lemma infoMessages_debug {A} (f : A -> string) (l : list A) :
  infoMessages (map (fun x => LogDebug (f x)) l) = [].
Proof. induction l as [| x l IH]; simpl; [reflexivity | assumption]. Qed.

Lemma debugMessages_info {A} (f : A -> string) (l : list A) :
  debugMessages (map (fun x => LogInfo (f x)) l) = [].
Proof. induction l as [| x l IH]; simpl; [reflexivity | assumption]. Qed.

Lemma debugMessages_debug {A} (f : A -> string) (l : list A) :
  debugMessages (map (fun x => LogDebug (f x)) l) = map f l.
Proof. induction l as [| x l IH]; simpl; [reflexivity | now rewrite IH]. Qed.

(** X3. What a run of [build] that returns prints about its reasons: nothing
    when there is none; otherwise, at info level after the output of the
    process, the heading, the first five reasons in the order they were added,
    the count of the others when there are more than five and [DEBUG] is
    unset, and an empty line; at debug level the reasons after the fifth.
    Every reason is printed once. *)
Theorem build_prints_reasons (env : BuildEnv.t) (locals : BuildLocals.t) :
  outcome (build env) = Ok locals ->
  let reasons := BuildLocals.reasonsForBackend locals in
  infoMessages (trace (build env)) =
    (BuildEnv.nextBuildOutput env
     ++ match reasons with
        | [] => []
        | _ :: _ =>
            "Building a Cloud Function to run this application. This is needed due to:"
            :: map (fun reason => (" • " ++ reason)%string) (firstn 5 reasons)
            ++ (if (5 <? List.length reasons)%nat && negb (BuildEnv.DEBUG env)
                then [(" • and " ++ Js.ofNat (List.length reasons - 5)
                         ++ " other reasons, use --debug to see more")%string]
                else [])
            ++ [""]
        end)%list /\
  debugMessages (trace (build env)) = map (fun reason => " • " ++ reason) (skipn 5 reasons) /\
  (firstn 5 reasons ++ skipn 5 reasons)%list = reasons.
Proof.
  unfold build. intros H. cbv zeta. pose proof H as Hrun.
  apply buildWith_returns in H as [code [pm [pages [dyn [rm H]]]]].
  destruct H as [He [Hpm [Hpages [Hdyn [Hrm ->]]]]].
  destruct (buildWith_no_rejection _ _ _ pm dyn Hrun Hpm Hdyn) as [E0 [Hearly Happ]].
  rewrite (trace_buildWith _ env code pm pages dyn rm E0 He Hearly Hpm Hpages Hdyn Hrm), Happ.
  cbn [BuildLocals.reasonsForBackend localsOf].
  set (reasons := reasonsOf env pm pages dyn rm).
  change (Spawn (BuildEnv.cli env) ["build"] :: ?l)%list
    with ([Spawn (BuildEnv.cli env) ["build"]] ++ l)%list.
  rewrite !infoMessages_app, !debugMessages_app.
  rewrite (infoMessages_info (fun m => m)), (debugMessages_info (fun m => m)), map_id.
  clearbody reasons.
  split; [| split; [| apply firstn_skipn]].
  - simpl (infoMessages [_]). simpl (infoMessages [_; _; _; _; _; _]). cbn [app].
    f_equal.
    destruct reasons as [| r reasons']; [reflexivity |].
    replace (0 <? List.length (r :: reasons'))%nat with true by reflexivity.
    rewrite trace_logReasons. unfold DEFAULT_NUMBER_OF_REASONS_TO_LIST, Js.sliceTo, Js.sliceFrom.
    change (LogInfo ?h :: ?l)%list with ([LogInfo h] ++ l)%list.
    rewrite !infoMessages_app, infoMessages_info, infoMessages_debug.
    destruct ((5 <? List.length (r :: reasons'))%nat && negb (BuildEnv.DEBUG env));
      reflexivity.
  - simpl (debugMessages [_]). simpl (debugMessages [_; _; _; _; _; _]). cbn [app].
    destruct reasons as [| r reasons']; [reflexivity |].
    replace (0 <? List.length (r :: reasons'))%nat with true by reflexivity.
    rewrite trace_logReasons. unfold DEFAULT_NUMBER_OF_REASONS_TO_LIST, Js.sliceTo, Js.sliceFrom.
    change (LogInfo ?h :: ?l)%list with ([LogInfo h] ++ l)%list.
    rewrite !debugMessages_app, debugMessages_info, debugMessages_debug.
    destruct ((5 <? List.length (r :: reasons'))%nat && negb (BuildEnv.DEBUG env));
      cbn [debugMessages flat_map app]; now rewrite app_nil_r.
Qed.

Lemma readsOf_logs limit debug reasons :
  flat_map (fun e => match e with ReadJSON file => [file] | _ => [] end)
           (trace (logReasons limit debug reasons)) = [].
Proof.
  rewrite trace_logReasons.
  change (LogInfo ?h :: ?l)%list with ([LogInfo h] ++ l)%list.
  rewrite !flat_map_app.
  assert (forall (f : string -> Effect) (l : list string),
             (forall x, match f x with ReadJSON _ => False | _ => True end) ->
             flat_map (fun e => match e with ReadJSON file => [file] | _ => [] end)
                      (map f l) = []) as Hnone.
  { intros f l Hf. induction l as [| x l IH]; simpl; [reflexivity |].
    specialize (Hf x). destruct (f x); try contradiction; assumption. }
  rewrite !Hnone by (intros x; exact I).
  destruct ((limit <? List.length reasons)%nat && negb debug); reflexivity.
Qed.

(** X4. [build] reads the manifests in one order and stops at the first
    mandatory one it cannot use: nothing is read when a call before the spawn
    rejects, when the process emits an error, or when [getConfig],
    [isUsingMiddleware] or [isUsingImageOptimization] rejects; otherwise the pages manifest is read
    only after the prerender manifest, the routes manifest only after both
    (and only if the prerender manifest has its [dynamicRoutes]), and the
    three optional manifests only after the three mandatory ones. *)
Theorem build_reads_in_order (env : BuildEnv.t) :
  readsOf (build env) =
  match BuildEnv.rejects env BeforeSpawn, BuildEnv.nextBuildEnd env, earlyRejection env with
  | Some _, _, _ => []
  | None, ProcessError _, _ => []
  | None, ProcessExit _, Some _ => []
  | None, ProcessExit _, None =>
      match optional (BuildEnv.prerenderManifest env) with
      | None => [PRERENDER_MANIFEST]
      | Some pm =>
          match optional (BuildEnv.pagesManifest env), PrerenderManifest.dynamicRoutes pm with
          | Some _, Some _ =>
              match optional (BuildEnv.routesManifest env) with
              | None => [PRERENDER_MANIFEST; PAGES_MANIFEST; ROUTES_MANIFEST]
              | Some _ =>
                  [PRERENDER_MANIFEST; PAGES_MANIFEST; ROUTES_MANIFEST; APP_PATHS_MANIFEST;
                   APP_PATH_ROUTES_MANIFEST; SERVER_REFERENCE_MANIFEST]
              end
          | _, _ => [PRERENDER_MANIFEST; PAGES_MANIFEST]
          end
      end
  end.
Proof.
  destruct (BuildEnv.rejects env BeforeSpawn) as [e0 |] eqn:E0.
  { unfold build, buildWith, readsOf.
    now rewrite trace_bind, outcome_awaited, trace_awaited, E0. }
  destruct (BuildEnv.nextBuildEnd env) as [err | code] eqn:He.
  - pose proof (build_after_next_build_error env err He) as H. exact H.
  - assert (nextBuild env =
            ((Spawn (BuildEnv.cli env) ["build"]
              :: map LogInfo (BuildEnv.nextBuildOutput env))%list, Ok code)) as Hnext.
    { unfold nextBuild. rewrite He. simpl. now rewrite app_nil_r. }
    assert (flat_map (fun e => match e with ReadJSON file => [file] | _ => [] end)
                     (Spawn (BuildEnv.cli env) ["build"]
                      :: map LogInfo (BuildEnv.nextBuildOutput env)) = []) as Hhead.
    { simpl. apply reads_of_logs. }
    destruct (earlyRejection env) as [e |] eqn:Hearly.
    { unfold earlyRejection in Hearly.
      unfold build, buildWith, readsOf; run_trace; rewrite E0; run_trace;
      rewrite Hnext; run_trace;
        simpl (outcome (_, _)); simpl (trace (_, _)); cbv beta iota zeta.
      destruct (BuildEnv.rejects env GetConfig) eqn:E1;
        [cbn [app]; now rewrite app_nil_r |].
      run_trace.
      destruct (BuildEnv.rejects env IsUsingMiddleware) eqn:E2;
        [cbn [app]; now rewrite !app_nil_r |].
      run_trace. rewrite Hearly. cbn [app]. now rewrite !app_nil_r. }
    pose proof Hearly as Hcalls. unfold earlyRejection in Hcalls.
    destruct (BuildEnv.rejects env GetConfig) eqn:E1; [discriminate |].
    destruct (BuildEnv.rejects env IsUsingMiddleware) eqn:E2; [discriminate |].
    destruct (BuildEnv.prerenderManifest env) as [pm | |] eqn:Hpm; simpl (optional _).
    2, 3: unfold build, buildWith, readsOf; run_trace; rewrite E0; run_trace;
      rewrite Hnext; run_trace;
      simpl (outcome (_, _)); simpl (trace (_, _)); cbv beta iota zeta;
      rewrite E1; run_trace; rewrite E2; run_trace; rewrite Hcalls; run_trace;
      rewrite Hpm; simpl (optional _); run_trace;
      rewrite ?flat_map_app, Hhead; reflexivity.
    destruct (BuildEnv.pagesManifest env) as [pages | |] eqn:Hpages; simpl (optional _).
    2, 3: unfold build, buildWith, readsOf; run_trace; rewrite E0; run_trace;
      rewrite Hnext; run_trace;
      simpl (outcome (_, _)); simpl (trace (_, _)); cbv beta iota zeta;
      rewrite E1; run_trace; rewrite E2; run_trace; rewrite Hcalls; run_trace;
      rewrite Hpm; simpl (optional _); run_trace;
      rewrite Hpages; simpl (optional _); run_trace;
      rewrite ?flat_map_app, Hhead; reflexivity.
    destruct (PrerenderManifest.dynamicRoutes pm) as [dyn |] eqn:Hdyn.
    2: unfold build, buildWith, readsOf; run_trace; rewrite E0; run_trace;
      rewrite Hnext; run_trace;
      simpl (outcome (_, _)); simpl (trace (_, _)); cbv beta iota zeta;
      rewrite E1; run_trace; rewrite E2; run_trace; rewrite Hcalls; run_trace;
      rewrite Hpm; simpl (optional _); run_trace;
      rewrite Hpages; simpl (optional _); run_trace;
      rewrite Hdyn; simpl (outcome (throw _)); simpl (trace (throw _)); cbv beta iota zeta;
      rewrite ?flat_map_app, Hhead; reflexivity.
    destruct (BuildEnv.routesManifest env) as [rm | |] eqn:Hrm; simpl (optional _).
    2, 3: unfold build, buildWith, readsOf; run_trace; rewrite E0; run_trace;
      rewrite Hnext; run_trace;
      simpl (outcome (_, _)); simpl (trace (_, _)); cbv beta iota zeta;
      rewrite E1; run_trace; rewrite E2; run_trace; rewrite Hcalls; run_trace;
      rewrite Hpm; simpl (optional _); run_trace;
      rewrite Hpages; simpl (optional _); run_trace;
      rewrite Hdyn; simpl (outcome (ret _)); simpl (trace (ret _)); run_trace;
      rewrite Hrm; simpl (optional _); run_trace;
      rewrite ?flat_map_app, Hhead; reflexivity.
    unfold build, readsOf.
    rewrite (trace_buildWith _ env code pm pages dyn rm E0 He Hearly Hpm Hpages Hdyn Hrm).
    change (Spawn (BuildEnv.cli env) ["build"] :: ?l ++ ?r)%list
      with ((Spawn (BuildEnv.cli env) ["build"] :: l) ++ r)%list.
    rewrite !flat_map_app, Hhead.
    destruct (appRejection env _ _); [reflexivity |].
    destruct (0 <? _)%nat; [rewrite readsOf_logs |]; reflexivity.
Qed.

End BuildLogs.

Section BuildTranslation.

Context {utils : NextUtils}.

(** X5. When a run of [build] asks for no backend, no header rule and no
    used rewrite rule is lost: the returned [headers] are all the header rules
    of the manifest, cleaned, followed by the headers of the meta files, and
    the returned [rewrites] are all the rules [getNextjsRewritesToUse]
    chose, cleaned. *)
Theorem build_static_translates_all (env : BuildEnv.t) (locals : BuildLocals.t)
  (rm : RoutesManifest.t) :
  outcome (build env) = Ok locals ->
  BuildEnv.routesManifest env = Present rm ->
  BuildResult.wantsBackend (BuildLocals.result locals) = false ->
  BuildResult.headers (BuildLocals.result locals) =
    (map (fun it => HostingHeader.mk (cleanEscapedChars (Rule.source it)) (Rule.headers it))
         (map cleanI18n (orElse (RoutesManifest.headers rm) []))
     ++ match optional (BuildEnv.appPathRoutesManifest env) with
        | Some appPathRoutesManifest =>
            AppMetadata.headers
              (BuildEnv.getAppMetadataFromMetaFiles env appPathRoutesManifest)
        | None => []
        end)%list /\
  BuildResult.rewrites (BuildLocals.result locals) =
    map (fun it => HostingRewrite.mk (cleanEscapedChars (Rule.source it)) (Rule.destination it))
        (map cleanI18n
             (getNextjsRewritesToUse
                (orElse (RoutesManifest.rewrites rm) (RewritesArray [])))).
Proof.
  intros H Hrm Hstatic.
  apply buildWith_returns in H as [code [pm [pages [dyn [rm' H]]]]].
  destruct H as [_ [_ [_ [_ [Hrm' ->]]]]].
  rewrite Hrm in Hrm'. injection Hrm' as <-.
  simpl in Hstatic |- *.
  assert (candidateReasons env pm pages dyn rm = []) as Hnone.
  { apply addAll_nil_iff. rewrite <- reasonsOf_candidates.
    destruct (reasonsOf env pm pages dyn rm); [reflexivity | discriminate]. }
  unfold candidateReasons in Hnone; cbv zeta in Hnone.
  repeat (apply app_eq_nil in Hnone; destruct Hnone as [?H Hnone]).
  repeat match goal with
         | Hw : when _ _ = [] |- _ => apply when_nil_iff, negb_false_iff in Hw
         end.
  split.
  - unfold pushMetaHeaders, hostingHeaders.
    match goal with
    | Hh : isEveryHeaderSupported _ = true |- _ => rewrite (forallb_filter_id _ _ Hh)
    end.
    destruct (optional (BuildEnv.appPathRoutesManifest env)); [reflexivity |].
    now rewrite app_nil_r.
  - unfold hostingRewrites. now rewrite (forallb_filter_id _ _ Hnone).
Qed.

(** X6. Of the two keys of the synthetic not-found page, [build] drops from
    the non-static server components only the first one present, [/_not-found]
    before [/_not-found/page], and only when a static not-found component
    exists; every other key is reported. *)
Theorem dropStaticNotFound_keeps (env : BuildEnv.t) (components : list string) (key : string) :
  In key (dropStaticNotFound env components) <->
  In key components /\
  (BuildEnv.hasStaticAppNotFoundComponent env = false \/
   key <> (if Js.has components "/_not-found" then "/_not-found" else "/_not-found/page")).
Proof.
  unfold dropStaticNotFound. cbn [find].
  assert (forall x, In key (Js.delete components x) <-> In key components /\ key <> x) as Hdel.
  { intros x. unfold Js.delete. rewrite filter_In, negb_true_iff.
    split; intros [Hin Hx]; (split; [assumption |]).
    - intros ->. now rewrite String.eqb_refl in Hx.
    - destruct (String.eqb x key) eqn:E; [| reflexivity].
      apply String.eqb_eq in E. congruence. }
  destruct (Js.has components "/_not-found") eqn:Hnf; cbv beta iota.
  - change (Js.truthy "/_not-found") with true. cbn [andb].
    destruct (BuildEnv.hasStaticAppNotFoundComponent env).
    + rewrite Hdel. intuition discriminate.
    + tauto.
  - destruct (Js.has components "/_not-found/page") eqn:Hpage; cbv beta iota.
    + change (Js.truthy "/_not-found/page") with true. cbn [andb].
      destruct (BuildEnv.hasStaticAppNotFoundComponent env).
      * rewrite Hdel. intuition discriminate.
      * tauto.
    + split; [| tauto]. intros Hin. split; [assumption |]. right. intros ->.
      apply has_true in Hin. congruence.
Qed.

End BuildTranslation.

(** * More about the static copy *)

Section CopyMore.

Context {utils : NextUtils} {node : NodeLib}.

Lemma keepDest_extendDest (dest : option string) : keepDest dest = extendDest "" dest.
Proof.
  destruct dest as [p |]; simpl; [| reflexivity].
  destruct (Js.truthy p); [now rewrite append_empty | reflexivity].
Qed.

(** The destinations of a copied page: the two computed paths, with the
    extension of the source that was found. *)
Lemma routeOutcome_dests (c : Closure.t) (path : string) (route : PrerenderRoute.t)
  (src : string) (localized default : option string) (data : option (string * string)) :
  routeOutcome c path route = CopyRoute src localized default data ->
  exists ext,
    (ext = ".html" \/ ext = "") /\
    localized = extendDest ext (localizedDestPathOf c path) /\
    default = extendDest ext (defaultDestPathOf c path).
Proof.
  unfold routeOutcome.
  destruct (revalidateTruthy _); [discriminate |].
  destruct (existsb _ (Closure.pathsUsingsFeaturesNotSupportedByHosting c)); [discriminate |].
  destruct (existsb _ (Closure.staticRoutesUsingServerActions c)); [discriminate |].
  cbv zeta. destruct (negb (includeOnThisDomain c (localeOf c path))); [discriminate |].
  destruct (negb (Closure.fileExistsSync c (sourcePathOf c path route)) && _).
  - destruct (includes (Closure.pprRoutes c) path); [discriminate |].
    intros H. injection H as _ <- <- _. exists ".html". tauto.
  - destruct (Js.truthyOpt (appPathRouteOf c route) && _ && _).
    + intros H. injection H as _ <- <- _. exists "".
      rewrite !keepDest_extendDest. tauto.
    + destruct (negb (Closure.pathExistsSync c (sourcePathOf c path route))); [discriminate |].
      intros H. injection H as _ <- <- _. exists "".
      rewrite !keepDest_extendDest. tauto.
Qed.


(** X8. A route the backend has to serve is never copied: neither a route
    matched by a middleware matcher or by the pattern of an unsupported
    rewrite, redirect or header, nor a route bound to a server action. *)
Theorem backend_routes_never_copied (env : PublicEnv.t) (middlewareManifest : MiddlewareManifest)
  (routesManifest : RoutesManifest.t) (appPathRoutesManifest : AppPathRoutesManifest)
  (serverReferenceManifest : ActionManifest.t) (path : string) (route : PrerenderRoute.t) :
  (exists re,
      (In re (getMiddlewareMatcherRegexes middlewareManifest) \/
       In re (rewritesRegexesNotSupportedByHosting
                (orElse (RoutesManifest.rewrites routesManifest) (RewritesArray []))) \/
       In re (redirectsRegexesNotSupportedByHosting
                (orElse (RoutesManifest.redirects routesManifest) [])) \/
       In re (headersRegexesNotSupportedByHosting
                (orElse (RoutesManifest.headers routesManifest) []))) /\
      regexMatch re path = true) \/
  In path (getRoutesWithServerAction serverReferenceManifest appPathRoutesManifest) ->
  copiedFiles
    (copyRoute (closureOf env middlewareManifest routesManifest appPathRoutesManifest
                          serverReferenceManifest) (path, route)) = [].
Proof.
  intros H. unfold copyRoute. rewrite copiedFiles_outcome. simpl fst; simpl snd.
  unfold routeOutcome.
  destruct (revalidateTruthy _); [reflexivity |].
  cbn [Closure.pathsUsingsFeaturesNotSupportedByHosting
         Closure.staticRoutesUsingServerActions closureOf].
  destruct H as [[re [Hre Hmatch]] | Haction].
  - assert (existsb (fun it => regexMatch it path)
              (pathsUsingsFeaturesNotSupportedByHosting middlewareManifest routesManifest)
            = true) as ->; [| reflexivity].
    apply existsb_exists. exists re. split; [| assumption].
    unfold pathsUsingsFeaturesNotSupportedByHosting. rewrite !in_app_iff. tauto.
  - destruct (existsb _ (pathsUsingsFeaturesNotSupportedByHosting _ _)); [reflexivity |].
    assert (existsb (fun it => String.eqb path it)
              (getRoutesWithServerAction serverReferenceManifest appPathRoutesManifest)
            = true) as ->; [| reflexivity].
    apply existsb_exists. exists path. split; [assumption | apply String.eqb_refl].
Qed.


(** Where the callback puts a page with a locale prefix when no domain
    mapping matches. *)
Lemma routeOutcome_placement_top (c : Closure.t) (path : string)
  (route : PrerenderRoute.t) (i18n : I18n.t) (locale : string) :
  Closure.matchingI18nDomain c = None ->
  Closure.i18n c = Some i18n ->
  localeOf c path = Some locale ->
  routeOutcome c path route <> SkipLocale /\
  forall src localized default data,
    routeOutcome c path route = CopyRoute src localized default data ->
    exists ext,
      (ext = ".html" \/ ext = "") /\
      localized =
        (if Closure.singleLocaleDomain c then None
         else Some (join ([Closure.destDir c; I18N_ROOT; locale; Closure.basePath c]
                          ++ orIndex (destPartsOf path (Some locale))) ++ ext)) /\
      default =
        (if String.eqb (I18n.defaultLocale i18n) locale
         then Some (join ([Closure.destDir c; Closure.basePath c]
                          ++ orIndex (destPartsOf path (Some locale))) ++ ext)
         else None).
Proof.
  intros Hm Hi Hl. pose proof (localeOf_truthy c path locale Hl) as Ht. split.
  - unfold routeOutcome.
    destruct (revalidateTruthy _); [discriminate |].
    destruct (existsb _ (Closure.pathsUsingsFeaturesNotSupportedByHosting c)); [discriminate |].
    destruct (existsb _ (Closure.staticRoutesUsingServerActions c)); [discriminate |].
    cbv zeta.
    assert (includeOnThisDomain c (localeOf c path) = true) as ->.
    { rewrite Hl. unfold includeOnThisDomain. rewrite Hm. apply orb_true_r. }
    cbn [negb].
    destruct (negb (Closure.fileExistsSync c _) && _).
    + destruct (includes (Closure.pprRoutes c) path); discriminate.
    + destruct (Js.truthyOpt _ && _ && _); [discriminate |].
      destruct (negb (Closure.pathExistsSync c _)); discriminate.
  - intros src localized default data H.
    apply routeOutcome_dests in H as [ext [Hext [-> ->]]].
    exists ext. split; [assumption |].
    unfold localizedDestPathOf, defaultDestPathOf, isDefaultLocale. rewrite Hl, Hm, Hi, Ht.
    cbn [negb orb].
    destruct (Closure.singleLocaleDomain c), (String.eqb (I18n.defaultLocale i18n) locale);
      simpl; rewrite ?join_truthy; now split.
Qed.

(** X10. When the configuration has i18n and no domain mapping matches
    the deploy site, the top-level i18n configuration decides: no route is
    left out for its locale; a copied page with a locale prefix goes under the
    locale-root-prefixed path unless the configuration lists at most one
    locale, and to the output root exactly when its locale is the configured
    default locale. *)
Theorem locale_placement_without_domain (env : PublicEnv.t)
  (middlewareManifest : MiddlewareManifest) (routesManifest : RoutesManifest.t)
  (appPathRoutesManifest : AppPathRoutesManifest) (serverReferenceManifest : ActionManifest.t)
  (path : string) (route : PrerenderRoute.t) (i18n : I18n.t) (locale : string) :
  NextConfig.i18n (PublicEnv.config env) = Some i18n ->
  matchingI18nDomain (Some i18n) (PublicEnv.getAllSiteDomains env) = None ->
  localeOf (closureOf env middlewareManifest routesManifest appPathRoutesManifest
                      serverReferenceManifest) path = Some locale ->
  routeOutcome (closureOf env middlewareManifest routesManifest appPathRoutesManifest
                          serverReferenceManifest) path route <> SkipLocale /\
  forall src localized default data,
    routeOutcome (closureOf env middlewareManifest routesManifest appPathRoutesManifest
                            serverReferenceManifest) path route =
      CopyRoute src localized default data ->
    exists ext,
      (ext = ".html" \/ ext = "") /\
      localized =
        (if (List.length (I18n.locales i18n) <=? 1)%nat then None
         else Some (join ([PublicEnv.destDir env; I18N_ROOT; locale;
                           NextConfig.basePath (PublicEnv.config env)]
                          ++ orIndex (destPartsOf path (Some locale))) ++ ext)) /\
      default =
        (if String.eqb (I18n.defaultLocale i18n) locale
         then Some (join ([PublicEnv.destDir env; NextConfig.basePath (PublicEnv.config env)]
                          ++ orIndex (destPartsOf path (Some locale))) ++ ext)
         else None).
Proof.
  set (c := closureOf env middlewareManifest routesManifest appPathRoutesManifest
                      serverReferenceManifest).
  intros Hi Hm Hl.
  assert (Closure.matchingI18nDomain c = None) as Hcm.
  { unfold c, closureOf; cbn [Closure.matchingI18nDomain]. now rewrite Hi. }
  assert (Closure.i18n c = Some i18n) as Hci by exact Hi.
  assert (Closure.singleLocaleDomain c = (List.length (I18n.locales i18n) <=? 1)%nat)
    as Hsingle.
  { unfold c, closureOf; cbn [Closure.singleLocaleDomain]. now rewrite Hi, Hm. }
  destruct (routeOutcome_placement_top c path route i18n locale Hcm Hci Hl) as [Hskip Hplace].
  split; [exact Hskip |].
  intros src localized default data H.
  destruct (Hplace src localized default data H) as [ext [Hext [Hloc Hdef]]].
  exists ext. rewrite Hsingle in Hloc. now split.
Qed.

End CopyMore.

Section PublicRuns.

Context {utils : NextUtils} {node : NodeLib}.

Lemma catch_readJSON {A} (name : ManifestFile) (f : File A) (d : A) :
  catch (readJSON name f) d = ([ReadJSON name], Ok (orElse (optional f) d)).
Proof. now destruct f. Qed.

Lemma reads_of_copyRoute (c : Closure.t) (entries : list (string * PrerenderRoute.t)) :
  flat_map (fun e => match e with ReadJSON file => [file] | _ => [] end)
           (flat_map (copyRoute c) entries) = [].
Proof.
  induction entries as [| entry entries IH]; simpl; [reflexivity |].
  rewrite flat_map_app, IH, app_nil_r. unfold copyRoute.
  destruct (routeOutcome c (fst entry) (snd entry))
    as [| | | | | | src [l |] [d |] [[ds dd] |]]; reflexivity.
Qed.

(** X11. If [getConfig], [getAllSiteDomains], the [mkdir] of
    [_next/static] or one of the two [copy] calls before the reads rejects,
    the materializer rejects with that error, reads no manifest and calls
    [copyFile] for no route. Otherwise it issues all six manifest reads
    together, whatever is on disk, after filling [_next/static]; if the
    middleware, prerender, routes or pages manifest cannot be read it rejects
    and calls [copyFile] for no route, the output being left partly populated,
    while the other two manifests count as empty. With the four read, it
    returns exactly when [getAppMetadataFromMetaFiles] answers and no [mkdir]
    or [copyFile] of a route rejects. *)
Theorem codegenPublicDirectory_manifests (env : PublicEnv.t) :
  match failureBeforeReads env with
  | Some e =>
      outcome (codegenPublicDirectory env) = Throw e /\
      readsOf (codegenPublicDirectory env) = [] /\
      copiedFiles (trace (codegenPublicDirectory env)) = []
  | None =>
      readsOf (codegenPublicDirectory env) =
        [MIDDLEWARE_MANIFEST; PRERENDER_MANIFEST; ROUTES_MANIFEST; PAGES_MANIFEST;
         APP_PATH_ROUTES_MANIFEST; SERVER_REFERENCE_MANIFEST] /\
      In (Copy (join [PublicEnv.sourceDir env; NextConfig.distDir (PublicEnv.config env);
                      "static"])
               (join [PublicEnv.destDir env; NextConfig.basePath (PublicEnv.config env);
                      "_next"; "static"]))
         (trace (codegenPublicDirectory env)) /\
      (isPresent (PublicEnv.middlewareManifest env)
       && isPresent (PublicEnv.prerenderManifest env)
       && isPresent (PublicEnv.routesManifest env)
       && isPresent (PublicEnv.pagesManifest env) = false ->
       (exists e, outcome (codegenPublicDirectory env) = Throw e) /\
       copiedFiles (trace (codegenPublicDirectory env)) = []) /\
      (forall middlewareManifest prerenderManifest routesManifest pagesManifest,
         PublicEnv.middlewareManifest env = Present middlewareManifest ->
         PublicEnv.prerenderManifest env = Present prerenderManifest ->
         PublicEnv.routesManifest env = Present routesManifest ->
         PublicEnv.pagesManifest env = Present pagesManifest ->
         (outcome (codegenPublicDirectory env) = Ok tt <->
          PublicEnv.rejects env PublicCall.GetAppMetadataFromMetaFiles = None /\
          forall entry e,
            In entry (routesToCopy prerenderManifest pagesManifest) ->
            In e (copyRoute
                    (closureOf env middlewareManifest routesManifest
                       (orElse (optional (PublicEnv.appPathRoutesManifest env)) [])
                       (orElse (optional (PublicEnv.serverReferenceManifest env))
                               (ActionManifest.mk [] [] "")))
                    entry) ->
            failure (PublicEnv.fails env) e = None))
  end.
Proof.
  destruct (failureBeforeReads env) as [e |] eqn:E.
  - destruct (codegenPublicDirectory_unprepared env e E) as [Hthrow Ht].
    destruct (no_copyFile_among _ Ht) as [Hcopied Hreads].
    split; [exact Hthrow |]. split; [exact Hreads | exact Hcopied].
  - assert (outcome (prepareOutput env (PublicEnv.config env)) = Ok tt) as Hprepared.
    { rewrite <- outcome_prepareOutput in E.
      destruct (PublicEnv.rejects env PublicCall.GetConfig); [discriminate |].
      destruct (if hasDomains _ then _ else _); [discriminate |].
      now destruct (outcome (prepareOutput env (PublicEnv.config env))) as [[] |]. }
    unfold readsOf. rewrite (codegenPublicDirectory_after_preparation env E).
    cbn [trace outcome fst snd].
    split; [| split; [| split]].
    + rewrite !flat_map_app, reads_of_prepareOutput, trace_readManifests. cbn [app].
      destruct (outcome (readManifests env))
        as [[mw [pm [rm [pages [aprm srm]]]]] | e]; [| reflexivity].
      destruct (PublicEnv.rejects env PublicCall.GetAppMetadataFromMetaFiles); [reflexivity |].
      now rewrite reads_of_copyRoutes.
    + apply in_or_app. left. now apply prepareOutput_fills_static.
    + intros Hmissing. rewrite outcome_readManifests. unfold isPresent in Hmissing.
      rewrite !copiedFiles_app, copiedFiles_prepareOutput, trace_readManifests.
      destruct (optional (PublicEnv.middlewareManifest env)); [| split; [eauto | reflexivity]].
      destruct (optional (PublicEnv.prerenderManifest env)); [| split; [eauto | reflexivity]].
      destruct (optional (PublicEnv.routesManifest env)); [| split; [eauto | reflexivity]].
      destruct (optional (PublicEnv.pagesManifest env)); [discriminate |].
      split; [eauto | reflexivity].
    + intros mw pm rm pages Hmw Hpm Hrm Hpages.
      rewrite outcome_readManifests, Hmw, Hpm, Hrm, Hpages. cbn [optional].
      destruct (PublicEnv.rejects env PublicCall.GetAppMetadataFromMetaFiles).
      * split; [discriminate | intros [H _]; discriminate].
      * rewrite outcome_copyRoutes. split; [intros H; now split | intros [_ H]; exact H].
Qed.

(** X12. With its four mandatory manifests read, the materializer copies
    files for the entries of [routesToCopy] only: every copied file belongs to
    a path that is a key of [prerenderManifest.routes] or a pages-manifest
    entry ending in [.html], and is one of the files the callback copies for
    that entry. *)
Theorem codegenPublicDirectory_copies_listed_routes (env : PublicEnv.t)
  (middlewareManifest : MiddlewareManifest) (prerenderManifest : PrerenderManifest.t)
  (routesManifest : RoutesManifest.t) (pagesManifest : PagesManifest)
  (src dest : string) :
  PublicEnv.middlewareManifest env = Present middlewareManifest ->
  PublicEnv.prerenderManifest env = Present prerenderManifest ->
  PublicEnv.routesManifest env = Present routesManifest ->
  PublicEnv.pagesManifest env = Present pagesManifest ->
  In (src, dest) (copiedFiles (trace (codegenPublicDirectory env))) ->
  exists path route,
    In (path, route) (routesToCopy prerenderManifest pagesManifest) /\
    (In path (Js.keys (PrerenderManifest.routes prerenderManifest)) \/
     isHtmlPage pagesManifest path = true) /\
    In (src, dest)
       (copiedFiles
          (copyRoute
             (closureOf env middlewareManifest routesManifest
                (orElse (optional (PublicEnv.appPathRoutesManifest env)) [])
                (orElse (optional (PublicEnv.serverReferenceManifest env))
                        (ActionManifest.mk [] [] "")))
             (path, route))).
Proof.
  intros Hmw Hpm Hrm Hpages Hin.
  apply (copiedFiles_codegenPublicDirectory env _ _ _ _ Hmw Hpm Hrm Hpages) in Hin.
  apply in_flat_map in Hin as [[path route] [Hentry Hcopied]].
  exists path, route. split; [assumption |]. split; [| assumption].
  apply keys_routesToCopy. unfold Js.keys. apply in_map_iff. now exists (path, route).
Qed.

End PublicRuns.

(** * The environment of the build, [getConfig] and [discover] *)

Section SpreadLookup.

Context {V : Type}.

Lemma get_None_iff (o : Js.Obj V) (k : string) : Js.get o k = None <-> ~ In k (Js.keys o).
Proof.
  unfold Js.keys. induction o as [| [k0 v0] o IH]; simpl; [tauto |].
  destruct (String.eqb k0 k) eqn:E.
  - apply String.eqb_eq in E. split; [discriminate | tauto].
  - rewrite IH. split; [| tauto]. intros H [-> | Hin]; [| tauto].
    now rewrite String.eqb_refl in E.
Qed.

(** In [{...a, ...b}] a key of [b] has its value in [b], any other key its
    value in [a]. *)
Lemma get_spread (b a : Js.Obj V) (k : string) :
  NoDup (Js.keys b) ->
  Js.get (Js.spread a b) k =
  match Js.get b k with Some v => Some v | None => Js.get a k end.
Proof.
  revert a. induction b as [| [k0 v0] b IH]; intros a Hnd; [reflexivity |].
  unfold Js.keys in Hnd. simpl in Hnd. inversion Hnd as [| ? ? Hnot Hrest]; subst.
  change (Js.spread a ((k0, v0) :: b)) with (Js.spread (Js.set a k0 v0) b).
  rewrite IH by assumption. simpl.
  destruct (String.eqb k0 k) eqn:E.
  - apply String.eqb_eq in E. subst.
    assert (Js.get b k = None) as -> by now apply get_None_iff.
    apply get_set_same.
  - destruct (Js.get b k); [reflexivity |].
    apply get_set_other. intros ->. now rewrite String.eqb_refl in E.
Qed.

Lemma get_copy (b : Js.Obj V) (k : string) :
  NoDup (Js.keys b) -> Js.get (Js.spread [] b) k = Js.get b k.
Proof. intros H. rewrite get_spread by assumption. now destruct (Js.get b k). Qed.

End SpreadLookup.

Section SpawnEnvironmentFacts.

Context {node : NodeLib} {semver : Semver}.

Lemma NoDup_processEnvForBuild (inputs : SpawnInputs.t) :
  NoDup (Js.keys (SpawnInputs.processEnv inputs)) ->
  NoDup (Js.keys (processEnvForBuild inputs)).
Proof.
  intros H. unfold processEnvForBuild.
  destruct (whenTruthy _); [| assumption].
  destruct (gte _ _); [now apply NoDup_keys_set | assumption].
Qed.

(** X13. In the environment handed to the spawned [next build], a variable
    of the process environment keeps its process value, whatever the project's
    [.env.<projectId>] file says; only [VERCEL_URL] is replaced, by the
    deployment domain when there is one. React 18 and later put
    [__NEXT_REACT_ROOT] in the process environment first. *)
Theorem spawn_environment_priority (inputs : SpawnInputs.t) (env : Js.Obj string) :
  NoDup (Js.keys (SpawnInputs.processEnv inputs)) ->
  spawnEnvironment inputs = Ok env ->
  (forall k v,
      k <> "VERCEL_URL" \/ deploymentDomainOf inputs = None ->
      Js.get (processEnvForBuild inputs) k = Some v ->
      Js.get env k = Some v) /\
  (forall domain,
      deploymentDomainOf inputs = Some domain -> Js.get env "VERCEL_URL" = Some domain) /\
  (forall version,
      whenTruthy (SpawnInputs.reactVersion inputs) = Some version ->
      gte version "18.0.0" = true ->
      Js.get (processEnvForBuild inputs) "__NEXT_REACT_ROOT" = Some "true").
Proof.
  intros Hnd H.
  pose proof (NoDup_processEnvForBuild inputs Hnd) as Hnd'.
  assert (NoDup (Js.keys (Js.spread [] (processEnvForBuild inputs)))) as Hcopy.
  { apply NoDup_keys_spread. constructor. }
  assert (forall k, Js.get (Js.spread [] (processEnvForBuild inputs)) k =
                    Js.get (processEnvForBuild inputs) k) as Hget.
  { intros k. now apply get_copy. }
  unfold spawnEnvironment in H; cbv zeta in H.
  split; [| split].
  - intros k v Hk Hv.
    assert (forall merged,
               Js.get merged k = Some v ->
               match deploymentDomainOf inputs with
               | Some deploymentDomain => Ok (Js.set merged "VERCEL_URL" deploymentDomain)
               | None => Ok merged
               end = Ok env ->
               Js.get env k = Some v) as Hset.
    { intros merged Hm E. destruct (deploymentDomainOf inputs) as [d |].
      - injection E as <-. destruct Hk as [Hk | Hk]; [| discriminate].
        now rewrite get_set_other.
      - now injection E as <-. }
    destruct (projectIdOf inputs) as [projectId |].
    + destruct (SpawnInputs.readFile inputs _) as [text |].
      * destruct (SpawnInputs.parseStrict inputs text) as [vars | e]; [| discriminate].
        eapply Hset; [| exact H].
        rewrite get_spread by exact Hcopy. now rewrite Hget, Hv.
      * eapply Hset; [| exact H]. now rewrite Hget.
    + eapply Hset; [| exact H]. now rewrite Hget.
  - intros domain Hd. rewrite Hd in H.
    destruct (match projectIdOf inputs with Some _ => _ | None => _ end) as [merged | e];
      [| discriminate].
    injection H as <-. apply get_set_same.
  - intros version Hv Hgte. unfold processEnvForBuild. rewrite Hv, Hgte.
    apply get_set_same.
Qed.

(** X14. A variable that only the project's [.env.<projectId>] file defines
    reaches the spawned build with the value of the file; and when that file
    cannot be parsed, no environment is produced. *)
Theorem spawn_environment_project_file (inputs : SpawnInputs.t) (projectId text : string) :
  NoDup (Js.keys (SpawnInputs.processEnv inputs)) ->
  projectIdOf inputs = Some projectId ->
  SpawnInputs.readFile inputs (join [SpawnInputs.dir inputs; ".env." ++ projectId]) =
    Some text ->
  match SpawnInputs.parseStrict inputs text with
  | Throw e => spawnEnvironment inputs = Throw e
  | Ok projectEnvVars =>
      exists env,
        spawnEnvironment inputs = Ok env /\
        forall k,
          NoDup (Js.keys projectEnvVars) ->
          Js.get (processEnvForBuild inputs) k = None ->
          k <> "VERCEL_URL" \/ deploymentDomainOf inputs = None ->
          Js.get env k = Js.get projectEnvVars k
  end.
Proof.
  intros Hnd Hid Hfile.
  pose proof (NoDup_processEnvForBuild inputs Hnd) as Hnd'.
  assert (NoDup (Js.keys (Js.spread [] (processEnvForBuild inputs)))) as Hcopy.
  { apply NoDup_keys_spread. constructor. }
  unfold spawnEnvironment; cbv zeta. rewrite Hid, Hfile.
  destruct (SpawnInputs.parseStrict inputs text) as [vars | e]; [| reflexivity].
  assert (forall k,
             NoDup (Js.keys vars) ->
             Js.get (processEnvForBuild inputs) k = None ->
             Js.get (Js.spread (Js.spread [] vars) (Js.spread [] (processEnvForBuild inputs))) k
             = Js.get vars k) as Hmerged.
  { intros k Hv Hk. rewrite get_spread by assumption.
    rewrite get_copy by assumption. rewrite Hk. now apply get_copy. }
  destruct (deploymentDomainOf inputs) as [d |].
  - eexists. split; [reflexivity |]. intros k Hv Hk [Hne | Hnone]; [| discriminate].
    rewrite get_set_other by assumption. now apply Hmerged.
  - eexists. split; [reflexivity |]. intros k Hv Hk _. now apply Hmerged.
Qed.

End SpawnEnvironmentFacts.

Section GetConfigFacts.

Context {semver : Semver}.

(** X15. [getConfig] gives the defaults ([.next], no trailing slash, base
    path [/], no i18n) when there is no configuration file; it fails with
    "Unable to find the next dep" when there is a file and no version of next,
    without loading anything, and with "Unable to load <file>." when a version
    before 12 cannot import the file; and the locales of a configuration it
    returns have been accepted by [validateLocales]. *)
Theorem getConfig_defaults_and_errors (inputs : ConfigInputs.t) :
  (whenTruthy (ConfigInputs.whichNextConfigFile inputs) = None ->
   ConfigInputs.validateLocales inputs None = None ->
   getConfig inputs =
     Resolved {| NextConfig.distDir := ".next"; NextConfig.trailingSlash := false;
                 NextConfig.basePath := "/"; NextConfig.i18n := None |}) /\
  (forall configFile,
      whenTruthy (ConfigInputs.whichNextConfigFile inputs) = Some configFile ->
      whenTruthy (ConfigInputs.getNextVersion inputs) = None ->
      getConfig inputs =
        Rejected (PlainError "Unable to find the next dep, try NPM installing?")) /\
  (forall configFile version,
      whenTruthy (ConfigInputs.whichNextConfigFile inputs) = Some configFile ->
      whenTruthy (ConfigInputs.getNextVersion inputs) = Some version ->
      gte version "12.0.0" = false ->
      ConfigInputs.importConfig inputs = None ->
      getConfig inputs = Rejected (PlainError ("Unable to load " ++ configFile ++ "."))) /\
  (forall config,
      getConfig inputs = Resolved config ->
      ConfigInputs.validateLocales inputs (option_map I18n.locales (NextConfig.i18n config))
      = None).
Proof.
  unfold getConfig, loadNextConfig. repeat split.
  - intros Hfile Hvalid. rewrite Hfile. simpl. now rewrite Hvalid.
  - intros configFile Hfile Hversion. now rewrite Hfile, Hversion.
  - intros configFile version Hfile Hversion Hold Himport.
    now rewrite Hfile, Hversion, Hold, Himport.
  - intros config.
    destruct (whenTruthy (ConfigInputs.whichNextConfigFile inputs)) as [configFile |].
    + destruct (whenTruthy (ConfigInputs.getNextVersion inputs)) as [version |];
        [| discriminate].
      destruct (gte version "12.0.0").
      * destruct (ConfigInputs.loadConfig inputs) as [partial | e]; [| discriminate].
        destruct (ConfigInputs.validateLocales inputs _) eqn:Hv; [discriminate |].
        intros H. injection H as <-. exact Hv.
      * destruct (ConfigInputs.importConfig inputs) as [partial |]; [| discriminate].
        destruct (ConfigInputs.validateLocales inputs _) eqn:Hv; [discriminate |].
        intros H. injection H as <-. exact Hv.
    + destruct (ConfigInputs.validateLocales inputs _) eqn:Hv; [discriminate |].
      intros H. injection H as <-. exact Hv.
Qed.

End GetConfigFacts.

(** X16. [discover] answers exactly when [package.json] exists and a
    configuration file or a version of next is found; its answer always may
    want a backend, names [<dir>/public] as the public directory and carries
    the version found. *)
Theorem discover_answers {node : NodeLib} (pathExists : string -> bool)
  (getNextVersion whichNextConfigFile : option string) (dir : string) :
  (discover pathExists getNextVersion whichNextConfigFile dir = None <->
   pathExists (join [dir; "package.json"]) = false \/
   (Js.truthyOpt whichNextConfigFile = false /\ Js.truthyOpt getNextVersion = false)) /\
  (forall discovery,
      discover pathExists getNextVersion whichNextConfigFile dir = Some discovery ->
      Discovery.mayWantBackend discovery = true /\
      Discovery.publicDirectory discovery = join [dir; "public"] /\
      Discovery.version discovery = getNextVersion).
Proof.
  unfold discover.
  destruct (pathExists (join [dir; "package.json"])); cbn [negb].
  - destruct (Js.truthyOpt whichNextConfigFile), (Js.truthyOpt getNextVersion);
      cbn [negb andb]; split;
      try (split; [discriminate | intros [H | [H1 H2]]; discriminate]);
      try (split; [intros _; right; now split | reflexivity]);
      try (intros discovery H; injection H as <-; repeat split);
      try discriminate.
  - split; [split; [intros _; now left | reflexivity] | discriminate].
Qed.

(** * [ɵcodegenFunctionsDirectory] and [getDevModeHandle] *)

Lemma host_outcome_bind {A B} (m : Host.M A) (f : A -> Host.M B) :
  Host.outcome (Host.bind m f) =
  match Host.outcome m with
  | inl a => Host.outcome (f a)
  | inr e => inr e
  end.
Proof.
  destruct m as [t [a | e]]; simpl; [| reflexivity].
  now destruct (f a).
Qed.

Lemma host_trace_bind {A B} (m : Host.M A) (f : A -> Host.M B) :
  Host.trace (Host.bind m f) =
  match Host.outcome m with
  | inl a => (Host.trace m ++ Host.trace (f a))%list
  | inr e => Host.trace m
  end.
Proof.
  destruct m as [t [a | e]]; simpl; [| reflexivity].
  now destruct (f a).
Qed.

Lemma host_outcome_tryCatch {A} (m : Host.M A) (handler : Thrown -> Host.M A) :
  Host.outcome (Host.tryCatch m handler) =
  match Host.outcome m with
  | inl a => inl a
  | inr e => Host.outcome (handler e)
  end.
Proof.
  destruct m as [t [a | e]]; simpl; [reflexivity |].
  now destruct (handler e).
Qed.

Lemma host_trace_tryCatch {A} (m : Host.M A) (handler : Thrown -> Host.M A) :
  Host.trace (Host.tryCatch m handler) =
  match Host.outcome m with
  | inl a => Host.trace m
  | inr e => (Host.trace m ++ Host.trace (handler e))%list
  end.
Proof.
  destruct m as [t [a | e]]; simpl; [reflexivity |].
  now destruct (handler e).
Qed.

Ltac run_host :=
  cbv beta iota zeta;
  rewrite ?host_outcome_bind, ?host_trace_bind, ?host_outcome_tryCatch, ?host_trace_tryCatch;
  cbv beta iota zeta.

Lemma host_perform_ok (failing : Host.Action -> option Thrown) (a : Host.Action) :
  failing a = None -> Host.perform failing a = Host.act a.
Proof. unfold Host.perform. now intros ->. Qed.

Lemma host_outcome_perform (failing : Host.Action -> option Thrown) (a : Host.Action) :
  Host.outcome (Host.perform failing a) =
  match failing a with Some e => inr e | None => inl tt end.
Proof. unfold Host.perform. now destruct (failing a). Qed.

Lemma host_trace_perform (failing : Host.Action -> option Thrown) (a : Host.Action) :
  Host.trace (Host.perform failing a) = [a].
Proof. unfold Host.perform. now destruct (failing a). Qed.


Lemma host_bind_ret {A B} (a : A) (f : A -> Host.M B) : Host.bind (Host.ret a) f = f a.
Proof. unfold Host.bind, Host.ret. now destruct (f a). Qed.

Lemma host_outcome_awaited {A} (rejection : option Thrown) (value : A) :
  Host.outcome (Host.awaited rejection value) =
  match rejection with Some e => inr e | None => inl value end.
Proof. now destruct rejection. Qed.

Lemma host_trace_awaited {A} (rejection : option Thrown) (value : A) :
  Host.trace (Host.awaited rejection value) = [].
Proof. now destruct rejection. Qed.


Ltac run_calls :=
  cbv beta iota zeta;
  rewrite ?host_outcome_bind, ?host_trace_bind, ?host_outcome_tryCatch, ?host_trace_tryCatch,
    ?host_outcome_awaited, ?host_trace_awaited, ?host_outcome_perform, ?host_trace_perform;
  cbv beta iota zeta.

Section FunctionsFacts.

Context {node : NodeLib} {bundler : BundlerUtils}.


Lemma trace_copyRawConfig (env : FunctionsEnv) (configFile : string) (e : Thrown) :
  Host.trace (copyRawConfig env configFile e) =
  [Host.ConsoleWarn
     ("Unable to bundle " ++ configFile ++
      " for use in Cloud Functions, proceeding with deploy but problems may be encountered.");
   Host.ConsoleError (if Js.truthy (messageOf e) then inl (messageOf e) else inr e);
   Host.Copy (join [sourceDir env; configFile]) (join [destDir env; configFile])].
Proof.
  unfold copyRawConfig. rewrite !host_trace_bind. simpl (Host.outcome (Host.act _)).
  cbv iota. now rewrite host_trace_perform.
Qed.




(** A run that returns has read [package.json] and gone through the [sharp]
    step. *)
Lemma codegenFunctionsDirectory_returns (env : FunctionsEnv) (result : FunctionsResult.t) :
  Host.outcome (codegenFunctionsDirectory env) = inl result ->
  exists packageJson packageJson',
    packageJsonFile env = inl packageJson /\
    Host.outcome (addSharp env packageJson) = inl packageJson' /\
    result = {| FunctionsResult.packageJson := packageJson';
                FunctionsResult.frameworksEntry := "next.js";
                FunctionsResult.dotEnv := dotEnvOf env |}.
Proof.
  unfold codegenFunctionsDirectory. intros H.
  repeat (rewrite host_outcome_bind in H;
          match type of H with
          | match ?o with _ => _ end = _ => destruct o as [? | ?] eqn:?; [| discriminate H]
          end; cbv beta iota zeta in H).
  match goal with
  | Hpj : Host.outcome (Host.lift (packageJsonFile env)) = inl ?pj,
    Hsharp : Host.outcome (addSharp env ?pj) = inl ?pj' |- _ =>
      exists pj, pj'; split; [exact Hpj |]; split; [exact Hsharp |]
  end.
  simpl in H. now injection H as <-.
Qed.


End FunctionsFacts.


Lemma host_in_bind {A B} (m : Host.M A) (f : A -> Host.M B) (x : Host.Action) :
  In x (Host.trace (Host.bind m f)) ->
  In x (Host.trace m) \/ exists a, Host.outcome m = inl a /\ In x (Host.trace (f a)).
Proof.
  rewrite host_trace_bind. destruct (Host.outcome m) as [a | e]; [| tauto].
  intros H. apply in_app_or in H as [H | H]; eauto.
Qed.

Lemma host_in_tryCatch {A} (m : Host.M A) (handler : Thrown -> Host.M A) (x : Host.Action) :
  In x (Host.trace (Host.tryCatch m handler)) ->
  In x (Host.trace m) \/ exists e, Host.outcome m = inr e /\ In x (Host.trace (handler e)).
Proof.
  rewrite host_trace_tryCatch. destruct (Host.outcome m) as [a | e]; [tauto |].
  intros H. apply in_app_or in H as [H | H]; eauto.
Qed.

Section BundlingFacts.

Context {node : NodeLib} {bundler : BundlerUtils}.

(** The path [locateEsbuild] answers was found, before or after the
    installation, and exists. *)
Lemma outcome_locateEsbuild (env : FunctionsEnv) (esbuildPath : string) :
  Host.outcome (locateEsbuild env) = inl esbuildPath ->
  exists stage,
    whenTruthy (findEsbuildPath env stage) = Some esbuildPath /\
    pathExistsSync env stage esbuildPath = true.
Proof.
  assert (forall stage p,
             match whenTruthy (findEsbuildPath env stage) with
             | Some esbuildPath => negb (pathExistsSync env stage esbuildPath)
             | None => true
             end = false ->
             orElse (findEsbuildPath env stage) "" = p ->
             whenTruthy (findEsbuildPath env stage) = Some p /\
             pathExistsSync env stage p = true) as Hfound.
  { intros stage p. unfold whenTruthy.
    destruct (findEsbuildPath env stage) as [q |]; [| discriminate].
    destruct (Js.truthy q); [| discriminate].
    simpl. intros Hex <-. split; [reflexivity |].
    now destruct (pathExistsSync env stage q). }
  unfold locateEsbuild. cbv zeta.
  destruct (match whenTruthy (findEsbuildPath env BeforeInstall) with
            | Some p => negb (pathExistsSync env BeforeInstall p)
            | None => true
            end) eqn:Ebefore.
  - run_host. simpl (Host.outcome (Host.act _)). cbv iota.
    run_host. simpl (Host.outcome (Host.act _)). cbv iota.
    run_host. destruct (installEsbuild env) as [e |]; simpl (Host.outcome _); [discriminate |].
    cbv iota.
    destruct (match whenTruthy (findEsbuildPath env AfterInstall) with
              | Some p => negb (pathExistsSync env AfterInstall p)
              | None => true
              end) eqn:Eafter; simpl; [discriminate |].
    intros [= H]. exists AfterInstall. now apply Hfound.
  - simpl. intros [= H]. exists BeforeInstall. now apply Hfound.
Qed.

Lemma locateEsbuild_never_builds (env : FunctionsEnv) (options : CustomBuildOptions.t) :
  ~ In (Host.EsbuildBuild options) (Host.trace (locateEsbuild env)).
Proof.
  unfold locateEsbuild. cbv zeta.
  destruct (match whenTruthy (findEsbuildPath env BeforeInstall) with
            | Some p => negb (pathExistsSync env BeforeInstall p)
            | None => true
            end); [| simpl; tauto].
  destruct (installEsbuild env) as [e |].
  - simpl. intros [H | [H | []]]; discriminate H.
  - destruct (match whenTruthy (findEsbuildPath env AfterInstall) with
              | Some p => negb (pathExistsSync env AfterInstall p)
              | None => true
              end); simpl; intros [H | [H | []]]; discriminate H.
Qed.

(** esbuild is run at one place only: after it was located and loaded. *)
Lemma bundleConfig_build (env : FunctionsEnv) (configFile : string)
  (options : CustomBuildOptions.t) :
  In (Host.EsbuildBuild options) (Host.trace (bundleConfig env configFile)) ->
  options = esbuildArgs env configFile /\
  exists esbuildPath,
    Host.outcome (locateEsbuild env) = inl esbuildPath /\
    requireEsbuild env esbuildPath = inl true.
Proof.
  unfold bundleConfig. intros H.
  apply host_in_bind in H as [H | (esbuildPath & Hpath & H)];
    [now apply locateEsbuild_never_builds in H |].
  apply host_in_bind in H as [H | ([] & _ & H)];
    [simpl in H; destruct H as [H | []]; discriminate H |].
  apply host_in_bind in H as [H | (esbuild & Hesbuild & H)]; [contradiction H |].
  simpl in Hesbuild.
  apply host_in_bind in H as [H | ([] & Hloaded & H)];
    [destruct esbuild; contradiction H |].
  destruct esbuild; [| discriminate Hloaded].
  apply host_in_bind in H as [H | ([] & _ & H)];
    [simpl in H; destruct H as [H | []]; discriminate H |].
  apply host_in_bind in H as [H | ([] & _ & H)].
  - simpl in H. destruct H as [[= <-] | []]. eauto.
  - apply host_in_bind in H as [H | (bundle & _ & H)]; [contradiction H |].
    destruct bundle as [[| error errors] |]; contradiction H.
Qed.

(** X18. Whenever [ɵcodegenFunctionsDirectory] runs esbuild, a configuration
    file was found and esbuild was loaded from a path that was found and
    exists; the bundle goes from the configuration file in the source
    directory to the file of the same name in the destination; the output
    format is [esm] exactly for [next.config.mjs]; and the externals are the
    names of the production dependencies [npm ls] lists, with everything
    below them, each of them once. *)
Theorem esbuild_build_options (env : FunctionsEnv) (options : CustomBuildOptions.t) :
  In (Host.EsbuildBuild options) (Host.trace (codegenFunctionsDirectory env)) ->
  (exists configFile,
      whenTruthy (whichNextConfigFile env) = Some configFile /\
      CustomBuildOptions.entryPoints options = [join [sourceDir env; configFile]] /\
      CustomBuildOptions.outfile options = join [destDir env; configFile] /\
      (CustomBuildOptions.format options = Some "esm" <-> configFile = "next.config.mjs")) /\
  (exists esbuildPath stage,
      whenTruthy (findEsbuildPath env stage) = Some esbuildPath /\
      pathExistsSync env stage esbuildPath = true /\
      requireEsbuild env esbuildPath = inl true) /\
  NoDup (CustomBuildOptions.external options) /\
  forall name,
    In name (CustomBuildOptions.external options) <->
    exists entry,
      In entry (npmLs env) /\
      (name = fst entry \/ In name (allDependencyNames (snd entry))).
Proof.
  unfold codegenFunctionsDirectory. intros H.
  apply host_in_bind in H as [H | ([] & _ & H)];
    [rewrite host_trace_awaited in H; contradiction H |].
  apply host_in_bind in H as [H | ([] & _ & H)];
    [simpl in H; destruct H as [H | []]; discriminate H |].
  apply host_in_bind in H as [H | (packageJson & _ & H)]; [contradiction H |].
  apply host_in_bind in H as [H | (configFile' & Hwhich & H)];
    [rewrite host_trace_awaited in H; contradiction H |].
  rewrite host_outcome_awaited in Hwhich.
  destruct (rejects env FunctionsCall.WhichNextConfigFile); [discriminate Hwhich |].
  injection Hwhich as <-.
  apply host_in_bind in H as [H | ([] & _ & H)].
  - destruct (whenTruthy (whichNextConfigFile env)) as [configFile |] eqn:Hfile;
      [| contradiction H].
    apply host_in_tryCatch in H as [H | (e & _ & H)];
      [| rewrite trace_copyRawConfig in H; simpl in H;
         destruct H as [H | [H | [H | []]]]; discriminate H].
    apply bundleConfig_build in H as (-> & esbuildPath & Hpath & Hloaded).
    apply outcome_locateEsbuild in Hpath as (stage & Hfound & Hexists).
    split; [| split; [| split]].
    + exists configFile. simpl. repeat split; try reflexivity.
      * destruct (String.eqb_spec configFile "next.config.mjs"); [tauto | discriminate].
      * intros ->. reflexivity.
    + eauto.
    + apply NoDup_addAll. constructor.
    + intros name. simpl. unfold productionDeps. rewrite In_addAll, in_flat_map.
      simpl. split.
      * intros [[] | (entry & Hentry & [<- | Hname])]; eauto.
      * intros (entry & Hentry & [-> | Hname]); right; exists entry; simpl; tauto.
  - exfalso.
    apply host_in_bind in H as [H | ([] & _ & H)].
    { destruct (publicExists env); [| contradiction H].
      apply host_in_bind in H as [H | ([] & _ & H)];
        rewrite host_trace_perform in H; destruct H as [H | []]; discriminate H. }
    apply host_in_bind in H as [H | ([] & _ & H)];
      [rewrite host_trace_awaited in H; contradiction H |].
    apply host_in_bind in H as [H | (packageJson' & _ & H)].
    { unfold addSharp in H. destruct (isUsingImageOptimization env); [| contradiction H].
      destruct (PackageJson.dependencies packageJson); contradiction H. }
    apply host_in_bind in H as [H | ([] & _ & H)].
    { destruct (namesProjectAndSite env); [| contradiction H].
      rewrite host_trace_awaited in H. contradiction H. }
    cbv zeta in H.
    apply host_in_bind in H as [H | ([] & _ & H)];
      [rewrite host_trace_perform in H; destruct H as [H | []]; discriminate H |].
    apply host_in_bind in H as [H | (files & _ & H)];
      [rewrite host_trace_awaited in H; contradiction H |].
    apply host_in_bind in H as [H | ([] & _ & H)]; [| contradiction H].
    simpl in H. apply in_map_iff in H as (file & H & _). discriminate H.
Qed.

(** X19. What [ɵcodegenFunctionsDirectory] returns, when it returns: the
    entry [next.js]; the [package.json] of the source directory with
    [dependencies.sharp] set to the pinned version when the application uses
    image optimization, and unchanged otherwise; and a [dotEnv] whose only
    possible variable is [VERCEL_URL], present exactly when the context names
    a project and a site for which a deployment domain is known, and then
    equal to that domain. *)
Theorem functions_directory_result (env : FunctionsEnv) (result : FunctionsResult.t) :
  Host.outcome (codegenFunctionsDirectory env) = inl result ->
  FunctionsResult.frameworksEntry result = "next.js" /\
  (exists packageJson,
      packageJsonFile env = inl packageJson /\
      PackageJson.others (FunctionsResult.packageJson result) = PackageJson.others packageJson /\
      if isUsingImageOptimization env
      then exists dependencies dependencies',
          PackageJson.dependencies packageJson = Some dependencies /\
          PackageJson.dependencies (FunctionsResult.packageJson result) = Some dependencies' /\
          Js.get dependencies' "sharp" = Some SHARP_VERSION /\
          forall name, name <> "sharp" -> Js.get dependencies' name = Js.get dependencies name
      else FunctionsResult.packageJson result = packageJson) /\
  (forall name value,
      Js.get (FunctionsResult.dotEnv result) name = Some value <->
      name = "VERCEL_URL" /\
      exists frameworkContext projectId site,
        context env = Some frameworkContext /\
        whenTruthy (FrameworkContext.projectId frameworkContext) = Some projectId /\
        whenTruthy (FrameworkContext.site frameworkContext) = Some site /\
        whenTruthy (getDeploymentDomain env projectId site
                      (FrameworkContext.hostingChannel frameworkContext)) = Some value).
Proof.
  intros H.
  apply codegenFunctionsDirectory_returns in H
    as (packageJson & packageJson' & Hpj & Hsharp & ->).
  simpl.
  split; [reflexivity |]. split.
  - exists packageJson. split; [exact Hpj |].
    unfold addSharp in Hsharp. destruct (isUsingImageOptimization env).
    + destruct (PackageJson.dependencies packageJson) as [dependencies |] eqn:Hdeps;
        [| discriminate Hsharp].
      injection Hsharp as <-. simpl. split; [reflexivity |].
      exists dependencies, (Js.set dependencies "sharp" SHARP_VERSION).
      repeat split.
      * apply get_set_same.
      * intros name Hname. now apply get_set_other.
    + injection Hsharp as <-. split; reflexivity.
  - intros name value. unfold dotEnvOf.
    destruct (context env) as [frameworkContext |].
    2:{ simpl. split; [discriminate |]. intros (_ & ? & ? & ? & [=] & _). }
    destruct (whenTruthy (FrameworkContext.projectId frameworkContext))
      as [projectId |] eqn:Hproject.
    2:{ simpl. split; [discriminate |].
        intros (_ & ? & ? & ? & [= <-] & Hproject' & _). congruence. }
    destruct (whenTruthy (FrameworkContext.site frameworkContext)) as [site |] eqn:Hsite.
    2:{ simpl. split; [discriminate |].
        intros (_ & ? & ? & ? & [= <-] & _ & Hsite' & _). congruence. }
    destruct (whenTruthy (getDeploymentDomain env projectId site
                            (FrameworkContext.hostingChannel frameworkContext)))
      as [deploymentDomain |] eqn:Hdomain.
    + destruct (String.eqb_spec "VERCEL_URL" name) as [<- | Hne];
        [rewrite get_set_same | rewrite get_set_other by congruence; simpl].
      * split.
        -- intros [= <-]. split; [reflexivity |]. exists frameworkContext, projectId, site. tauto.
        -- intros (_ & ? & ? & ? & [= <-] & Hproject' & Hsite' & Hvalue).
           congruence.
      * split; [discriminate |]. intros [-> _]. now contradiction Hne.
    + simpl. split; [discriminate |].
      intros (_ & ? & ? & ? & [= <-] & Hproject' & Hsite' & Hvalue). congruence.
Qed.

(** X20. Called without the information of the hosting emulator,
    [getDevModeHandle] asks whether the application uses middleware and, if it
    does, rejects with the error that tells to use [firebase emulators:start],
    before Next.js is loaded. With the emulator information middleware is not
    looked at. The function returns exactly when the middleware check lets it
    through and loading Next.js, creating the application (on the host and
    port of the emulator) and preparing it all succeed, in that order. *)
Theorem getDevModeHandle_refuses_middleware (bold : string -> string)
  (failing : Host.Action -> option Thrown) (usesMiddleware : bool)
  (dir : string) (hostingEmulatorInfo : option (string * Z)) :
  let run := getDevModeHandle bold failing usesMiddleware dir hostingEmulatorInfo in
  let application :=
    Host.CreateNextApp dir (option_map fst hostingEmulatorInfo)
                       (option_map snd hostingEmulatorInfo) in
  (hostingEmulatorInfo = None ->
   failing (Host.IsUsingMiddleware dir true) = None ->
   usesMiddleware = true ->
   Host.outcome run =
     inr (ThrownFirebaseError
            (bold "firebase serve" ++ " does not support Next.js Middleware. Please use "
             ++ bold "firebase emulators:start" ++ " instead.")) /\
   Host.trace run = [Host.IsUsingMiddleware dir true]) /\
  (Host.outcome run = inl tt <->
   (hostingEmulatorInfo = None ->
    failing (Host.IsUsingMiddleware dir true) = None /\ usesMiddleware = false) /\
   failing (Host.RelativeRequire dir "next") = None /\
   failing application = None /\
   failing Host.Prepare = None) /\
  (In (Host.IsUsingMiddleware dir true) (Host.trace run) <-> hostingEmulatorInfo = None) /\
  (Host.outcome run = inl tt ->
   exists before,
     Host.trace run =
     (before ++ [Host.RelativeRequire dir "next"; application; Host.Prepare])%list).
Proof.
  cbv zeta. unfold getDevModeHandle.
  destruct hostingEmulatorInfo as [[host port] |].
  - rewrite host_bind_ret. cbn [option_map fst snd].
    assert (Host.outcome
              (Host.perform failing (Host.RelativeRequire dir "next") ;;;;
               Host.perform failing (Host.CreateNextApp dir (Some host) (Some port)) ;;;;
               Host.perform failing Host.Prepare) = inl tt <->
            (Some (host, port) = None ->
             failing (Host.IsUsingMiddleware dir true) = None /\ usesMiddleware = false) /\
            failing (Host.RelativeRequire dir "next") = None /\
            failing (Host.CreateNextApp dir (Some host) (Some port)) = None /\
            failing Host.Prepare = None) as Hiff.
    { run_calls.
      destruct (failing (Host.RelativeRequire dir "next"));
        [split; [discriminate | intros [_ [H _]]; discriminate] |].
      run_calls.
      destruct (failing (Host.CreateNextApp dir (Some host) (Some port)));
        [split; [discriminate | intros [_ [_ [H _]]]; discriminate] |].
      destruct (failing Host.Prepare);
        [split; [discriminate | intros [_ [_ [_ H]]]; discriminate] |].
      split; [intros _; split; [intros H; discriminate H | repeat split] | reflexivity]. }
    split; [intros H; discriminate H |].
    split; [exact Hiff |]. split.
    + split; [| discriminate]. intros H. exfalso.
      apply host_in_bind in H as [H | ([] & _ & H)];
        [rewrite host_trace_perform in H; destruct H as [H | []]; discriminate H |].
      apply host_in_bind in H as [H | ([] & _ & H)];
        rewrite host_trace_perform in H; destruct H as [H | []]; discriminate H.
    + intros Hok. apply Hiff in Hok as (_ & Hrequire & Hcreate & Hprepare).
      rewrite !host_perform_ok by assumption. now exists [].
  - cbn [option_map].
    assert (Host.outcome
              ((Host.perform failing (Host.IsUsingMiddleware dir true) ;;;;
                if usesMiddleware
                then Host.raise
                       (ThrownFirebaseError
                          (bold "firebase serve"
                           ++ " does not support Next.js Middleware. Please use "
                           ++ bold "firebase emulators:start" ++ " instead."))
                else Host.ret tt) ;;;;
               Host.perform failing (Host.RelativeRequire dir "next") ;;;;
               Host.perform failing (Host.CreateNextApp dir None None) ;;;;
               Host.perform failing Host.Prepare) = inl tt <->
            (@None (string * Z) = None ->
             failing (Host.IsUsingMiddleware dir true) = None /\ usesMiddleware = false) /\
            failing (Host.RelativeRequire dir "next") = None /\
            failing (Host.CreateNextApp dir None None) = None /\
            failing Host.Prepare = None) as Hiff.
    { run_calls.
      destruct (failing (Host.IsUsingMiddleware dir true));
        [split; [discriminate | intros [H _]; destruct (H eq_refl); discriminate] |].
      run_calls.
      destruct usesMiddleware; simpl (Host.outcome _) at 1;
        [split; [discriminate | intros [H _]; destruct (H eq_refl); discriminate] |].
      cbv iota. run_calls.
      destruct (failing (Host.RelativeRequire dir "next"));
        [split; [discriminate | intros [_ [H _]]; discriminate] |].
      run_calls.
      destruct (failing (Host.CreateNextApp dir None None));
        [split; [discriminate | intros [_ [_ [H _]]]; discriminate] |].
      destruct (failing Host.Prepare);
        [split; [discriminate | intros [_ [_ [_ H]]]; discriminate] |].
      split; [intros _; repeat split | reflexivity]. }
    split; [| split; [exact Hiff | split]].
    + intros _ Hcheck ->. rewrite (host_perform_ok _ _ Hcheck).
      cbn [Host.bind Host.act Host.raise Host.outcome Host.trace fst snd app].
      split; reflexivity.
    + split; [reflexivity |]. intros _.
      set (check := Host.bind (Host.perform failing (Host.IsUsingMiddleware dir true)) _).
      assert (In (Host.IsUsingMiddleware dir true) (Host.trace check)) as Hin.
      { unfold check. rewrite host_trace_bind, host_trace_perform.
        destruct (Host.outcome (Host.perform failing (Host.IsUsingMiddleware dir true)));
          now left. }
      rewrite host_trace_bind.
      destruct (Host.outcome check); [apply in_or_app; left |]; exact Hin.
    + intros Hok. apply Hiff in Hok as (Hcheck & Hrequire & Hcreate & Hprepare).
      destruct (Hcheck eq_refl) as [Hmiddleware ->].
      rewrite !host_perform_ok by assumption.
      now exists [Host.IsUsingMiddleware dir true].
Qed.

End BundlingFacts.


(** * [angular/utils.ts] *)

Lemma lastIndexOf_lower (c : ascii) (s : string) : (-1 <= JsString.lastIndexOf c s)%Z.
Proof.
  induction s as [| first rest IH]; simpl; [lia |].
  destruct (0 <=? JsString.lastIndexOf c rest)%Z eqn:E; [lia |].
  destruct (Ascii.eqb first c); lia.
Qed.

Lemma lastIndexOf_app (c : ascii) (p q : string) :
  JsString.lastIndexOf c (p ++ q) =
  if (0 <=? JsString.lastIndexOf c q)%Z
  then (Z.of_nat (String.length p) + JsString.lastIndexOf c q)%Z
  else JsString.lastIndexOf c p.
Proof.
  induction p as [| first rest IH].
  - simpl. pose proof (lastIndexOf_lower c q).
    destruct (0 <=? JsString.lastIndexOf c q)%Z eqn:E; lia.
  - cbn [append JsString.lastIndexOf String.length]. rewrite IH.
    destruct (0 <=? JsString.lastIndexOf c q)%Z eqn:E; [| reflexivity].
    apply Z.leb_le in E.
    replace (0 <=? Z.of_nat (String.length rest) + JsString.lastIndexOf c q)%Z with true
      by (symmetry; apply Z.leb_le; lia).
    lia.
Qed.

Lemma drop_app (p q : string) : JsString.drop (String.length p) (p ++ q) = q.
Proof. induction p as [| first rest IH]; simpl; [now destruct q | exact IH]. Qed.

(** A string with an occurrence of [c] is cut at the last one. *)
Lemma lastIndexOf_cut (c : ascii) (s : string) :
  (0 <= JsString.lastIndexOf c s)%Z ->
  exists prefix,
    s = prefix ++ String c (JsString.slice s (JsString.lastIndexOf c s + 1)).
Proof.
  unfold JsString.slice. induction s as [| first rest IH]; simpl; [lia |].
  destruct (0 <=? JsString.lastIndexOf c rest)%Z eqn:E.
  - intros _. destruct IH as [prefix IH]; [lia |].
    exists (String first prefix). simpl.
    replace (Z.to_nat (JsString.lastIndexOf c rest + 1 + 1))
      with (S (Z.to_nat (JsString.lastIndexOf c rest + 1))) by lia.
    simpl. now rewrite <- IH.
  - destruct (Ascii.eqb_spec first c) as [-> | Hne]; [| lia].
    intros _. exists "". reflexivity.
Qed.

Lemma length_append (p q : string) :
  String.length (p ++ q) = (String.length p + String.length q)%nat.
Proof. induction p as [| first rest IH]; simpl; [reflexivity | now rewrite IH]. Qed.

Lemma value_without_colon (t : Angular.BuilderType) :
  JsString.lastIndexOf ":" (Angular.value t) = (-1)%Z.
Proof. destruct t; reflexivity. Qed.

Lemma find_value (t : Angular.BuilderType) :
  find (fun t' => String.eqb (Angular.value t') (Angular.value t)) Angular.values = Some t.
Proof. destruct t; reflexivity. Qed.

Lemma getBuilderType_qualified (prefix : string) (t : Angular.BuilderType) :
  Angular.getBuilderType (prefix ++ ":" ++ Angular.value t) = Some t.
Proof.
  unfold Angular.getBuilderType.
  change (":" ++ Angular.value t) with (String ":" (Angular.value t)).
  rewrite lastIndexOf_app.
  cbn [JsString.lastIndexOf]. rewrite value_without_colon.
  change (0 <=? -1)%Z with false. cbv iota.
  change (Ascii.eqb ":" ":") with true. cbv iota.
  change (0 <=? 0)%Z with true. cbv iota.
  replace (0 <=? Z.of_nat (String.length prefix) + 0)%Z with true
    by (symmetry; apply Z.leb_le; lia).
  unfold JsString.slice.
  replace (Z.to_nat (Z.of_nat (String.length prefix) + 0 + 1))
    with (S (String.length prefix)) by lia.
  replace (JsString.drop (S (String.length prefix)) (prefix ++ String ":" (Angular.value t)))
    with (Angular.value t).
  2:{ change (S (String.length prefix)) with (1 + String.length prefix)%nat.
      replace (1 + String.length prefix)%nat with (String.length (prefix ++ ":")).
      - replace (prefix ++ String ":" (Angular.value t))
          with ((prefix ++ ":") ++ Angular.value t).
        + now rewrite drop_app.
        + induction prefix as [| first rest IH]; simpl; [reflexivity | now rewrite IH].
      - induction prefix as [| first rest IH]; simpl; [reflexivity |].
        rewrite IH. reflexivity. }
  replace (whenTruthy (Some (Angular.value t))) with (Some (Angular.value t))
    by (destruct t; reflexivity).
  apply find_value.
Qed.

Lemma getBuilderType_shape (builder : string) (t : Angular.BuilderType) :
  Angular.getBuilderType builder = Some t ->
  exists prefix, builder = prefix ++ ":" ++ Angular.value t.
Proof.
  unfold Angular.getBuilderType. cbv zeta.
  destruct (0 <=? JsString.lastIndexOf ":" builder)%Z eqn:E; [| discriminate].
  cbn [whenTruthy].
  destruct (Js.truthy (JsString.slice builder (JsString.lastIndexOf ":" builder + 1)));
    [| discriminate].
  intros H. apply find_some in H as [_ H]. apply String.eqb_eq in H. rewrite H.
  apply lastIndexOf_cut. lia.
Qed.

(** X21. [getBuilderType] answers a builder type exactly for the strings
    that end in a colon followed by the name of that type; what stands
    before the colon does not matter, colons included. It answers [null] for
    a string without colon and for one whose part after the last colon is
    empty. *)
Theorem getBuilderType_reads_suffix (builder : string) :
  (forall t,
      Angular.getBuilderType builder = Some t <->
      exists prefix, builder = prefix ++ ":" ++ Angular.value t) /\
  (JsString.lastIndexOf ":" builder = (-1)%Z -> Angular.getBuilderType builder = None) /\
  (forall prefix, builder = prefix ++ ":" -> Angular.getBuilderType builder = None).
Proof.
  split; [| split].
  - intros t. split.
    + apply getBuilderType_shape.
    + intros [prefix ->]. apply getBuilderType_qualified.
  - intros H. unfold Angular.getBuilderType. now rewrite H.
  - intros prefix ->.
    destruct (Angular.getBuilderType (prefix ++ ":")) as [t |] eqn:E; [| reflexivity].
    apply getBuilderType_shape in E as [prefix' E]. exfalso.
    assert (String.length (prefix ++ ":") = String.length (prefix' ++ ":" ++ Angular.value t))
      as Hlen by now rewrite E.
    assert (JsString.lastIndexOf ":" (prefix ++ ":") =
            JsString.lastIndexOf ":" (prefix' ++ ":" ++ Angular.value t)) as Hidx
      by now rewrite E.
    change (":" ++ Angular.value t) with (String ":" (Angular.value t)) in Hidx, Hlen.
    rewrite !lastIndexOf_app in Hidx. cbn [JsString.lastIndexOf] in Hidx.
    rewrite value_without_colon in Hidx.
    change (0 <=? -1)%Z with false in Hidx. cbv iota in Hidx.
    change (Ascii.eqb ":" ":") with true in Hidx. cbv iota in Hidx.
    change (0 <=? 0)%Z with true in Hidx. cbv iota in Hidx.
    rewrite !length_append in Hlen. cbn [String.length] in Hlen.
    assert (0 < String.length (Angular.value t))%nat by (destruct t; simpl; lia).
    lia.
Qed.

Section TargetFacts.

Context {architect : Angular.ArchitectLib}.

Lemma includes_valid (purpose : string) (t : Angular.BuilderType) :
  Angular.includes (Angular.getValidBuilderTypes purpose) t = true <->
  t <> Angular.SERVER /\
  (purpose = "deploy" -> t <> Angular.DEV_SERVER /\ t <> Angular.SSR_DEV_SERVER).
Proof.
  unfold Angular.getValidBuilderTypes.
  destruct (String.eqb_spec purpose "deploy") as [-> | Hne]; destruct t; cbn;
    (split; intros H;
     [ try discriminate H;
       (split; [discriminate | intros E; first [now contradiction Hne | split; discriminate]])
     | try reflexivity;
       destruct H as [H1 H2]; first [congruence | destruct (H2 eq_refl); congruence] ]).
Qed.

(** X22. [getAllTargets] lists the targets of the application projects of
    the workspace, leaving out those whose builder ends in [:server] and,
    when the purpose is ["deploy"], those of the two development servers; a
    builder of no known type is kept. Each target is listed with the
    configurations [production] and [development] and with those it
    defines. *)
Theorem getAllTargets_lists (purpose : string)
  (projects : list (string * Angular.ProjectDefinition.t)) (targetString : string) :
  In targetString (Angular.getAllTargets purpose projects) <->
  exists project projectDefinition target targetDefinition configuration,
    In (project, projectDefinition) projects /\
    Angular.ProjectDefinition.projectType projectDefinition = Some "application" /\
    In (target, targetDefinition) (Angular.ProjectDefinition.targets projectDefinition) /\
    (forall prefix t,
        Angular.TargetDefinition.builder targetDefinition = prefix ++ ":" ++ Angular.value t ->
        t <> Angular.SERVER /\
        (purpose = "deploy" -> t <> Angular.DEV_SERVER /\ t <> Angular.SSR_DEV_SERVER)) /\
    (configuration = "production" \/ configuration = "development" \/
     In configuration (orElse (Angular.TargetDefinition.configurations targetDefinition) [])) /\
    targetString =
      Angular.targetStringFromTarget
        {| Angular.Target.project := project; Angular.Target.target := target;
           Angular.Target.configuration := Some configuration |}.
Proof.
  assert (forall configurations configuration,
             In configuration
                (let configurations :=
                   if negb (Js.has configurations "production")
                   then (configurations ++ ["production"])%list else configurations in
                 if negb (Js.has configurations "development")
                 then (configurations ++ ["development"])%list else configurations) <->
             configuration = "production" \/ configuration = "development" \/
             In configuration configurations) as Hconfigurations.
  { intros configurations configuration. cbv zeta.
    assert (forall l x, Js.has l x = true -> In x l) as Hhas.
    { intros l x H. unfold Js.has in H. apply existsb_exists in H as (y & Hy & E).
      apply String.eqb_eq in E. now subst. }
    destruct (Js.has configurations "production") eqn:Ep; cbn [negb];
      match goal with
      | |- context [Js.has ?l "development"] => destruct (Js.has l "development") eqn:Ed
      end; cbn [negb]; rewrite ?in_app_iff; simpl;
      try apply Hhas in Ep; try apply Hhas in Ed; try apply in_app_or in Ed;
      simpl in *; intuition (subst; auto); discriminate. }
  unfold Angular.getAllTargets. cbv zeta. rewrite in_flat_map. split.
  - intros ([project projectDefinition] & Hproject & H).
    destruct (Angular.ProjectDefinition.projectType projectDefinition) as [projectType |] eqn:Etype;
      [| contradiction H].
    destruct (String.eqb_spec projectType "application") as [-> | Hne]; [| contradiction H].
    cbn [negb] in H. apply in_flat_map in H as ([target targetDefinition] & Htarget & H).
    destruct (Angular.getBuilderType (Angular.TargetDefinition.builder targetDefinition))
      as [builderType |] eqn:Ebuilder.
    + destruct (Angular.includes (Angular.getValidBuilderTypes purpose) builderType) eqn:Evalid;
        [| contradiction H].
      cbn [negb] in H. apply in_map_iff in H as (configuration & <- & H).
      apply Hconfigurations in H.
      exists project, projectDefinition, target, targetDefinition, configuration.
      split; [assumption |]. split; [assumption |]. split; [assumption |].
      split; [| split; [assumption | reflexivity]].
      intros prefix t E. rewrite E, getBuilderType_qualified in Ebuilder.
      injection Ebuilder as ->. now apply includes_valid in Evalid.
    + apply in_map_iff in H as (configuration & <- & H).
      apply Hconfigurations in H.
      exists project, projectDefinition, target, targetDefinition, configuration.
      split; [assumption |]. split; [assumption |]. split; [assumption |].
      split; [| split; [assumption | reflexivity]].
      intros prefix t E. rewrite E, getBuilderType_qualified in Ebuilder. discriminate.
  - intros (project & projectDefinition & target & targetDefinition & configuration
            & Hproject & Etype & Htarget & Hbuilder & Hconfiguration & ->).
    exists (project, projectDefinition). split; [assumption |].
    rewrite Etype, String.eqb_refl. cbn [negb]. apply in_flat_map.
    exists (target, targetDefinition). split; [assumption |].
    replace (match Angular.getBuilderType (Angular.TargetDefinition.builder targetDefinition) with
             | Some builderType =>
                 negb (Angular.includes (Angular.getValidBuilderTypes purpose) builderType)
             | None => false
             end) with false.
    + apply in_map_iff. exists configuration. split; [reflexivity |].
      now apply Hconfigurations.
    + destruct (Angular.getBuilderType (Angular.TargetDefinition.builder targetDefinition))
        as [builderType |] eqn:Ebuilder; [| reflexivity].
      apply getBuilderType_shape in Ebuilder as [prefix Ebuilder].
      apply Hbuilder in Ebuilder. apply includes_valid in Ebuilder. now rewrite Ebuilder.
Qed.

Lemma pushLocales_ok (entries : list (string * option string)) (locales result : list string) :
  Angular.pushLocales entries locales = inl result <->
  result = (locales ++ map fst entries)%list /\
  Forall (fun entry => snd entry = Some "") entries.
Proof.
  revert locales. induction entries as [| [locale baseHref] entries IH]; intros locales; simpl.
  - rewrite app_nil_r. split.
    + intros [= <-]. split; [reflexivity | constructor].
    + intros [-> _]. reflexivity.
  - destruct baseHref as [href |]; [destruct (String.eqb_spec href "") as [-> | Hne] |]; cbn [negb].
    + rewrite IH, <- app_assoc. simpl. split.
      * intros [-> H]. split; [reflexivity | now constructor].
      * intros [-> H]. split; [reflexivity | now inversion H].
    + split; [discriminate |]. intros [_ H]. inversion H; subst. simpl in *. congruence.
    + split; [discriminate |]. intros [_ H]. inversion H; subst. simpl in *. congruence.
Qed.

Lemma pushLocales_first_failure (before after : list (string * option string))
  (locale : string) (baseHref : option string) (locales : list string) :
  Forall (fun entry => snd entry = Some "") before ->
  baseHref <> Some "" ->
  Angular.pushLocales (before ++ (locale, baseHref) :: after) locales =
  inr (ThrownFirebaseError
         ("All your i18n locales must have a baseHref of "
          ++ JsString.doubleQuote ++ JsString.doubleQuote
          ++ " on Firebase, errored on " ++ locale ++ ".")).
Proof.
  intros Hbefore Hhref. revert locales.
  induction Hbefore as [| [l h] before Hl _ IH]; intros locales.
  - cbn [app Angular.pushLocales].
    destruct baseHref as [href |]; [| reflexivity].
    destruct (String.eqb_spec href "") as [-> | Hne]; [now contradiction Hhref | reflexivity].
  - simpl in Hl. subst h. cbn [app Angular.pushLocales]. cbn. apply IH.
Qed.

Lemma pushStrings_spec (items : list Json) (locales : list string) :
  exists rest,
    Angular.pushStrings items locales = (locales ++ rest)%list /\
    forall locale, In locale rest <-> In (JString locale) items.
Proof.
  revert locales. induction items as [| item items IH]; intros locales.
  - exists []. rewrite app_nil_r. split; [reflexivity | simpl; tauto].
  - destruct item as [| b | z | s | l | o]; cbn [Angular.pushStrings];
      try (destruct (IH locales) as (rest & -> & Hrest); exists rest; split; [reflexivity |];
           intros locale; rewrite Hrest; simpl; split; [tauto | intros [H | H]; [discriminate | tauto]]).
    destruct (IH (locales ++ [s])%list) as (rest & -> & Hrest).
    exists (s :: rest). rewrite <- app_assoc. split; [reflexivity |].
    intros locale. simpl. rewrite Hrest. split.
    + intros [-> | H]; tauto.
    + intros [[= ->] | H]; tauto.
Qed.

(** X23. What [localesForTarget] answers, when it answers: the options of
    the target were found and [validateLocales] accepted the locales. Without
    a truthy [localize] option there are neither locales nor a default
    locale. With one, the project has an i18n configuration whose
    [sourceLocale] is an object with an empty [baseHref], and its code is the
    default locale; for [localize: true] the locales are that code followed by
    the keys of [i18n.locales], all of which have an empty [baseHref]; for an
    array they are that code followed by the strings of the array; for any
    other value there are no locales. *)
Theorem localesForTarget_answers (inputs : Angular.LocaleInputs.t) (target : Angular.Target.t)
  (workspaceProject : Angular.ProjectDefinition.t)
  (locales : option (list string)) (defaultLocale : option string) :
  Angular.localesForTarget inputs target workspaceProject = inl (locales, defaultLocale) ->
  exists targetOptions,
    Angular.LocaleInputs.getOptionsForTarget inputs target = inl (Some targetOptions) /\
    Angular.LocaleInputs.validateLocales inputs locales = None /\
    let localize := JsonValue.field targetOptions "localize" in
    if JsonValue.truthy localize
    then exists i18n code,
        Angular.ProjectDefinition.i18n workspaceProject = Some i18n /\
        Angular.AngularI18nConfig.sourceLocale i18n = Angular.SourceLocaleObject code (Some "") /\
        defaultLocale = Some code /\
        match localize with
        | JBool true =>
            locales = Some (code :: map fst (Angular.AngularI18nConfig.locales i18n)) /\
            Forall (fun entry => snd entry = Some "") (Angular.AngularI18nConfig.locales i18n)
        | JArray items =>
            exists rest,
              locales = Some (code :: rest) /\
              forall locale, In locale rest <-> In (JString locale) items
        | _ => locales = None
        end
    else locales = None /\ defaultLocale = None.
Proof.
  unfold Angular.localesForTarget.
  destruct (Angular.LocaleInputs.getOptionsForTarget inputs target)
    as [[targetOptions |] | e]; try discriminate.
  destruct (Angular.localesOfOptions targetOptions workspaceProject)
    as [[locales' defaultLocale'] | e] eqn:E; [| discriminate].
  destruct (Angular.LocaleInputs.validateLocales inputs locales') eqn:Hvalid; [discriminate |].
  intros [= -> ->]. exists targetOptions. split; [reflexivity |]. split; [assumption |].
  cbv zeta. unfold Angular.localesOfOptions in E. cbv zeta in E.
  destruct (JsonValue.truthy (JsonValue.field targetOptions "localize")) eqn:Htruthy.
  2:{ injection E as <- <-. split; reflexivity. }
  destruct (Angular.ProjectDefinition.i18n workspaceProject) as [i18n |]; [| discriminate].
  destruct (Angular.AngularI18nConfig.sourceLocale i18n) as [code | code baseHref] eqn:Hsource;
    [discriminate |].
  destruct baseHref as [href |]; [| discriminate].
  destruct (String.eqb_spec href "") as [-> | Hne]; [| discriminate].
  cbn [negb] in E. exists i18n, code. split; [reflexivity |]. split; [assumption |].
  destruct (JsonValue.field targetOptions "localize") as [| [|] | z | s | items | fields];
    try (injection E as <- <-; split; reflexivity).
  - destruct (Angular.pushLocales (Angular.AngularI18nConfig.locales i18n) [code])
      as [result |] eqn:Hpush; [| discriminate].
    injection E as <- <-. apply pushLocales_ok in Hpush as [-> Hall].
    split; [reflexivity |]. split; [reflexivity | assumption].
  - injection E as <- <-. split; [reflexivity |].
    destruct (pushStrings_spec items [code]) as (rest & -> & Hrest).
    exists rest. split; [reflexivity | assumption].
Qed.

(** X24. With [localize: true] and a source locale that passes, the first
    locale of [i18n.locales] whose [baseHref] is not the empty string makes
    [localesForTarget] fail with a [FirebaseError] that names it, whatever
    [validateLocales] would say. *)
Theorem localesForTarget_rejects_base_href (inputs : Angular.LocaleInputs.t)
  (target : Angular.Target.t) (workspaceProject : Angular.ProjectDefinition.t)
  (targetOptions : Js.Obj Json) (i18n : Angular.AngularI18nConfig.t) (code : string)
  (before after : list (string * option string)) (locale : string) (baseHref : option string) :
  Angular.LocaleInputs.getOptionsForTarget inputs target = inl (Some targetOptions) ->
  JsonValue.field targetOptions "localize" = JBool true ->
  Angular.ProjectDefinition.i18n workspaceProject = Some i18n ->
  Angular.AngularI18nConfig.sourceLocale i18n = Angular.SourceLocaleObject code (Some "") ->
  Angular.AngularI18nConfig.locales i18n = (before ++ (locale, baseHref) :: after)%list ->
  Forall (fun entry => snd entry = Some "") before ->
  baseHref <> Some "" ->
  Angular.localesForTarget inputs target workspaceProject =
  inr (ThrownFirebaseError
         ("All your i18n locales must have a baseHref of "
          ++ JsString.doubleQuote ++ JsString.doubleQuote
          ++ " on Firebase, errored on " ++ locale ++ ".")).
Proof.
  intros Hoptions Hlocalize Hi18n Hsource Hlocales Hbefore Hhref.
  unfold Angular.localesForTarget, Angular.localesOfOptions.
  rewrite Hoptions. cbv zeta. rewrite Hlocalize. cbn [JsonValue.truthy].
  rewrite Hi18n, Hsource. cbn [negb String.eqb]. cbv iota.
  rewrite Hlocales, (pushLocales_first_failure before after locale baseHref [code] Hbefore Hhref).
  reflexivity.
Qed.

End TargetFacts.


Section ContextFacts.

Context {architect : Angular.ArchitectLib}.

Lemma checkTarget_ok (project : string) (workspaceProject : Angular.ProjectDefinition.t)
  (role : Angular.Role) (target : Angular.Target.t) :
  Host.outcome (Angular.checkTarget project workspaceProject role target) = inl tt ->
  Angular.Target.project target = project /\
  exists definition,
    Js.get (Angular.ProjectDefinition.targets workspaceProject) (Angular.Target.target target)
    = Some definition /\
    Angular.recognized role
      (Angular.getBuilderType (Angular.TargetDefinition.builder definition)) = true.
Proof.
  unfold Angular.checkTarget. cbv zeta.
  destruct (String.eqb_spec (Angular.Target.project target) project) as [E | Hne];
    [| discriminate].
  cbn [negb].
  destruct (Js.get (Angular.ProjectDefinition.targets workspaceProject)
                   (Angular.Target.target target)) as [definition |]; [| discriminate].
  destruct (Angular.recognized role _) eqn:Hrole; [| discriminate].
  intros _. split; [assumption |]. exists definition. split; [reflexivity | assumption].
Qed.

Lemma checkTargets_ok (project : string) (workspaceProject : Angular.ProjectDefinition.t)
  (targets : list (Angular.Role * option Angular.Target.t)) :
  Host.outcome (Angular.checkTargets project workspaceProject targets) = inl tt ->
  forall role target,
    In (role, Some target) targets ->
    Host.outcome (Angular.checkTarget project workspaceProject role target) = inl tt.
Proof.
  induction targets as [| [role' [target' |]] targets IH]; cbn [Angular.checkTargets].
  - intros _ role target [].
  - rewrite host_outcome_bind.
    destruct (Host.outcome (Angular.checkTarget project workspaceProject role' target'))
      as [[] | e] eqn:E; [| discriminate].
    intros H role target [[= -> ->] | Hin]; [assumption | now apply IH].
  - intros H role target [[=] | Hin]. now apply IH.
Qed.

(** What a run of [getContext] that returns went through. *)
Lemma getContext_inv (env : Angular.ContextEnv.t) (context : Angular.Context.t) :
  Host.outcome (Angular.getContext env) = inl context ->
  exists project slots,
    Host.outcome (Angular.selectTargets env)
    = inl (project, Angular.Context.workspaceProject context, slots) /\
    Host.outcome (Angular.checkTargets project (Angular.Context.workspaceProject context)
                    (Angular.targetsOf slots)) = inl tt /\
    Angular.Context.buildTarget context = Angular.Slots.buildTarget slots /\
    Angular.Context.browserTarget context = Angular.Slots.browserTarget slots /\
    Angular.Context.prerenderTarget context = Angular.Slots.prerenderTarget slots /\
    Angular.Context.serverTarget context = Angular.Slots.serverTarget slots /\
    Angular.Context.serveTarget context = Angular.Slots.serveTarget slots /\
    (Angular.Slots.buildTarget slots <> None \/ Angular.Slots.browserTarget slots <> None) /\
    (Angular.Slots.buildTarget slots = None ->
     Angular.Context.ssr context = isSome (Angular.Slots.serverTarget slots)).
Proof.
  unfold Angular.getContext. rewrite host_outcome_bind.
  destruct (Host.outcome (Angular.selectTargets env))
    as [[[project workspaceProject] slots] | e] eqn:Hselect; [| discriminate].
  rewrite host_outcome_bind.
  destruct (Host.outcome (Angular.checkTargets project workspaceProject (Angular.targetsOf slots)))
    as [[] | e] eqn:Hcheck; [| discriminate].
  destruct (match Angular.Slots.buildTarget slots with
            | Some target => Some target
            | None => Angular.Slots.browserTarget slots
            end) as [buildOrBrowserTarget |] eqn:Hbuild; [| discriminate].
  rewrite host_outcome_bind.
  destruct (Host.outcome (Angular.tryToGetOptionsForTarget env buildOrBrowserTarget))
    as [[browserTargetOptions |] | e]; try discriminate.
  cbv zeta. rewrite host_outcome_bind.
  destruct (Host.outcome
              match (if JsonValue.truthy (JsonValue.field browserTargetOptions "baseHref")
                     then JsonValue.field browserTargetOptions "baseHref" else JString "/") with
              | JString baseHref => Host.ret baseHref
              | _ => _
              end) as [baseHref | e]; [| discriminate].
  rewrite host_outcome_bind.
  destruct (Angular.Slots.buildTarget slots) as [buildTarget |] eqn:Hslot.
  - rewrite host_outcome_bind.
    destruct (Host.outcome (Angular.tryToGetOptionsForTarget env buildTarget))
      as [buildTargetOptions | e]; [| discriminate].
    cbn. intros [= <-]. cbn. exists project, slots.
    repeat (split; [first [assumption | reflexivity | congruence] |]).
    split; [left; congruence | intros Hnone; congruence].
  - cbn. intros [= <-]. cbn. exists project, slots.
    repeat (split; [first [assumption | reflexivity | congruence] |]).
    split; [right; congruence | reflexivity].
Qed.

(** What a run of [selectTargets] that returns went through. *)
Lemma selectTargets_inv (env : Angular.ContextEnv.t) (project : string)
  (workspaceProject : Angular.ProjectDefinition.t) (slots : Angular.Slots.t) :
  Host.outcome (Angular.selectTargets env) = inl (project, workspaceProject, slots) ->
  let overrideTarget := fst (fst (Angular.readOverride env)) in
  let configuration := snd (fst (Angular.readOverride env)) in
  Host.outcome (Angular.resolveProject env (snd (Angular.readOverride env))) = inl project /\
  Js.get (Angular.ContextEnv.projects env) project = Some workspaceProject /\
  exists initial chosen,
    Host.outcome (Angular.initialTargets project workspaceProject overrideTarget configuration)
    = inl initial /\
    Host.outcome
      match Angular.Slots.deployTarget initial, overrideTarget with
      | Some deployTarget, _ => Angular.deployTargets env workspaceProject initial deployTarget
      | None, None => Angular.namedTargets env project workspaceProject configuration initial
      | None, Some _ => Host.ret initial
      end = inl chosen /\
    slots = Angular.withServeTarget project workspaceProject configuration chosen.
Proof.
  unfold Angular.selectTargets.
  destruct (Angular.readOverride env) as [[overrideTarget configuration] given].
  cbn [fst snd]. rewrite host_outcome_bind.
  destruct (Host.outcome (Angular.resolveProject env given)) as [project' | e]; [| discriminate].
  destruct (Js.get (Angular.ContextEnv.projects env) project') as [workspaceProject' |] eqn:Hget;
    [| discriminate].
  rewrite host_outcome_bind.
  destruct (Host.outcome
              (Angular.initialTargets project' workspaceProject' overrideTarget configuration))
    as [initial | e] eqn:Hinitial; [| discriminate].
  rewrite host_outcome_bind.
  destruct (Host.outcome
              match Angular.Slots.deployTarget initial, overrideTarget with
              | Some deployTarget, _ =>
                  Angular.deployTargets env workspaceProject' initial deployTarget
              | None, None =>
                  Angular.namedTargets env project' workspaceProject' configuration initial
              | None, Some _ => Host.ret initial
              end) as [chosen | e] eqn:Hchosen; [| discriminate].
  cbn. intros [= <- <- <-]. cbv zeta. split; [reflexivity |]. split; [assumption |].
  exists initial, chosen. split; [assumption |]. split; [assumption | reflexivity].
Qed.

(** X25. The targets [getContext] returns are consistent with the
    workspace: there is a build target or a browser target; the project it
    returns is a project of the workspace; and every target returned belongs
    to that project, is defined in it, and has a builder whose type is one the
    loop accepts for the variable that holds it. A target with a builder of
    no known type is never returned. *)
Theorem getContext_targets_recognized (env : Angular.ContextEnv.t)
  (context : Angular.Context.t) :
  Host.outcome (Angular.getContext env) = inl context ->
  (Angular.Context.buildTarget context <> None \/
   Angular.Context.browserTarget context <> None) /\
  exists project,
    Js.get (Angular.ContextEnv.projects env) project
    = Some (Angular.Context.workspaceProject context) /\
    forall role target,
      In (role, Some target)
         [(Angular.BuildRole, Angular.Context.buildTarget context);
          (Angular.PrerenderRole, Angular.Context.prerenderTarget context);
          (Angular.ServerRole, Angular.Context.serverTarget context);
          (Angular.BrowserRole, Angular.Context.browserTarget context);
          (Angular.ServeRole, Angular.Context.serveTarget context)] ->
      Angular.Target.project target = project /\
      exists definition prefix builderType,
        Js.get (Angular.ProjectDefinition.targets (Angular.Context.workspaceProject context))
               (Angular.Target.target target) = Some definition /\
        Angular.TargetDefinition.builder definition
        = prefix ++ ":" ++ Angular.value builderType /\
        Angular.recognized role (Some builderType) = true.
Proof.
  intros H.
  apply getContext_inv in H
    as (project & slots & Hselect & Hcheck & -> & -> & -> & -> & -> & Hbuild & _).
  split; [exact Hbuild |].
  apply selectTargets_inv in Hselect as (_ & Hproject & _).
  exists project. split; [exact Hproject |].
  intros role target Hin.
  assert (In (role, Some target) (Angular.targetsOf slots)) as Hin'.
  { unfold Angular.targetsOf. simpl in Hin |- *. tauto. }
  apply (checkTargets_ok _ _ _ Hcheck) in Hin'.
  apply checkTarget_ok in Hin' as (Hp & definition & Hdefinition & Hrole).
  split; [exact Hp |].
  destruct (Angular.getBuilderType (Angular.TargetDefinition.builder definition))
    as [builderType |] eqn:Hbuilder; [| destruct role; discriminate Hrole].
  apply getBuilderType_shape in Hbuilder as [prefix Hbuilder].
  exists definition, prefix, builderType. repeat split; assumption.
Qed.

Lemma readOverride_target (env : Angular.ContextEnv.t) (targetString : string)
  (overrideTarget : Angular.Target.t) :
  whenTruthy (Angular.ContextEnv.targetOrConfiguration env) = Some targetString ->
  Angular.targetFromTargetString targetString = inl overrideTarget ->
  Angular.readOverride env
  = (Some overrideTarget, Angular.Target.configuration overrideTarget,
     Some (Angular.Target.project overrideTarget)).
Proof. intros H1 H2. unfold Angular.readOverride. now rewrite H1, H2. Qed.

(** X26. When the second argument of [getContext] names a target, the call
    returns only if that target is defined in the project and its builder is
    a deploy, application, browser or browser-esbuild builder. An application
    target is then the build target, a browser target the browser target,
    and in both cases it is used alone: no other build or browser target, no
    prerender target and no server target is taken from the workspace. A
    target of a prerender builder or of a development server always makes
    the call fail. *)
Theorem override_target_is_used_alone (env : Angular.ContextEnv.t) (targetString : string)
  (overrideTarget : Angular.Target.t) (context : Angular.Context.t) :
  whenTruthy (Angular.ContextEnv.targetOrConfiguration env) = Some targetString ->
  Angular.targetFromTargetString targetString = inl overrideTarget ->
  Host.outcome (Angular.getContext env) = inl context ->
  exists definition builderType,
    Js.get (Angular.ProjectDefinition.targets (Angular.Context.workspaceProject context))
           (Angular.Target.target overrideTarget) = Some definition /\
    Angular.getBuilderType (Angular.TargetDefinition.builder definition) = Some builderType /\
    match builderType with
    | Angular.DEPLOY => True
    | Angular.APPLICATION =>
        Angular.Context.buildTarget context = Some overrideTarget /\
        Angular.Context.browserTarget context = None /\
        Angular.Context.prerenderTarget context = None /\
        Angular.Context.serverTarget context = None
    | Angular.BROWSER | Angular.BROWSER_ESBUILD =>
        Angular.Context.browserTarget context = Some overrideTarget /\
        Angular.Context.buildTarget context = None /\
        Angular.Context.prerenderTarget context = None /\
        Angular.Context.serverTarget context = None /\
        Angular.Context.ssr context = false
    | _ => False
    end.
Proof.
  intros Hgiven Hparsed H.
  apply getContext_inv in H
    as (project & slots & Hselect & _ & -> & -> & -> & -> & _ & Hbuild & Hssr).
  apply selectTargets_inv in Hselect as (_ & _ & initial & chosen & Hinitial & Hchosen & ->).
  rewrite (readOverride_target env targetString overrideTarget Hgiven Hparsed) in *.
  cbn [fst snd] in *.
  unfold Angular.initialTargets in Hinitial. cbv zeta in Hinitial.
  destruct (Js.get (Angular.ProjectDefinition.targets (Angular.Context.workspaceProject context))
                   (Angular.Target.target overrideTarget)) as [definition |] eqn:Hdefinition;
    [| discriminate Hinitial].
  destruct (Angular.getBuilderType (Angular.TargetDefinition.builder definition))
    as [builderType |] eqn:Hbuilder; [| discriminate Hinitial].
  exists definition, builderType. split; [reflexivity |]. split; [assumption |].
  destruct builderType; try exact I; try discriminate Hinitial;
    injection Hinitial as <-; cbn in Hchosen; injection Hchosen as <-;
    unfold Angular.withServeTarget in *; cbn in *;
    repeat match goal with
           | H : context [match ?x with _ => _ end] |- _ => destruct x; cbn in H
           | |- context [match ?x with _ => _ end] => destruct x; cbn
           end;
    try (destruct Hbuild as [Hb | Hb]; now contradiction Hb);
    repeat split; try reflexivity; now apply Hssr.
Qed.

(** X27. The project [getContext] works on: the project of the target its
    second argument names, when there is one; otherwise the [defaultProject]
    of [angular.json]; otherwise the only application project of the
    workspace. [angular.json] is read only when the argument names no
    project, and a failure to read it is then fatal, also when the workspace
    has one application project only. *)
Theorem resolveProject_priority (env : Angular.ContextEnv.t) (given : option string)
  (project : string) :
  Host.outcome (Angular.resolveProject env given) = inl project <->
  Js.truthy project = true /\
  (given = Some project \/
   whenTruthy given = None /\
   exists defaultProject,
     Angular.ContextEnv.defaultProject env = inl defaultProject /\
     (defaultProject = Some project \/
      whenTruthy defaultProject = None /\
      exists workspaceProject,
        filter (fun entry =>
                  match Angular.ProjectDefinition.projectType (snd entry) with
                  | Some projectType => String.eqb projectType "application"
                  | None => false
                  end)
               (Angular.ContextEnv.projects env) = [(project, workspaceProject)])).
Proof.
  assert (forall o p, whenTruthy o = Some p <-> o = Some p /\ Js.truthy p = true) as Htruthy.
  { intros [s |] p; simpl; [| split; [discriminate | intros [[=] _]]].
    destruct (Js.truthy s) eqn:E; split.
    - intros [= <-]. tauto.
    - intros [[= <-] _]. reflexivity.
    - discriminate.
    - intros [[= <-] E']. congruence. }
  unfold Angular.resolveProject. rewrite host_outcome_bind.
  destruct (whenTruthy given) as [p |] eqn:Hgiven.
  - apply Htruthy in Hgiven as [-> Hp].
    pose proof (proj2 (Htruthy (Some p) p) (conj eq_refl Hp)) as Hsome.
    cbn [Host.outcome Host.ret snd]. cbv zeta. rewrite Hsome. cbv iota. rewrite Hsome.
    cbn [Host.outcome Host.ret snd]. split.
    + intros [= <-]. tauto.
    + intros [_ [[= <-] | [[=] _]]]. reflexivity.
  - cbn [Host.outcome Host.lift snd].
    destruct (Angular.ContextEnv.defaultProject env) as [defaultProject | e].
    2:{ split; [discriminate |].
        intros [Hp [-> | [_ (d & [=] & _)]]].
        simpl in Hgiven. rewrite Hp in Hgiven. discriminate. }
    cbv zeta. destruct (whenTruthy defaultProject) as [d |] eqn:Hdefault.
    + apply Htruthy in Hdefault as [-> Hd].
      pose proof (proj2 (Htruthy (Some d) d) (conj eq_refl Hd)) as Hsome.
      rewrite Hsome. cbn [Host.outcome Host.ret snd]. split.
      * intros [= <-]. split; [assumption |]. right. split; [reflexivity |].
        exists (Some d). tauto.
      * intros [Hp [-> | [_ (d' & [= <-] & [[= <-] | [Hnone _]])]]].
        -- simpl in Hgiven. rewrite Hp in Hgiven. discriminate.
        -- reflexivity.
        -- simpl in Hnone. rewrite Hd in Hnone. discriminate.
    + set (applications := filter _ (Angular.ContextEnv.projects env)).
      destruct applications as [| [app workspaceProject] [| other others]] eqn:Happs;
        cbn [map fst].
      * rewrite Hdefault. cbn. split; [discriminate |].
        intros [Hp [-> | [_ (d' & [= <-] & [-> | [_ (w & [=])]])]]].
        -- simpl in Hgiven. rewrite Hp in Hgiven. discriminate.
        -- simpl in Hdefault. rewrite Hp in Hdefault. discriminate.
      * destruct (whenTruthy (Some app)) as [app' |] eqn:Happ.
        -- apply Htruthy in Happ as [[= <-] Happ]. cbn. split.
           ++ intros [= <-]. split; [assumption |]. right. split; [reflexivity |].
              exists defaultProject. split; [reflexivity |]. right.
              split; [assumption |]. now exists workspaceProject.
           ++ intros [Hp [-> | [_ (d' & [= <-] & [-> | [_ (w & [= <- <-])]])]]].
              ** simpl in Hgiven. rewrite Hp in Hgiven. discriminate.
              ** simpl in Hdefault. rewrite Hp in Hdefault. discriminate.
              ** reflexivity.
        -- cbn. split; [discriminate |].
           intros [Hp [-> | [_ (d' & [= <-] & [-> | [_ (w & [= <- <-])]])]]].
           ++ simpl in Hgiven. rewrite Hp in Hgiven. discriminate.
           ++ simpl in Hdefault. rewrite Hp in Hdefault. discriminate.
           ++ simpl in Happ. rewrite Hp in Happ. discriminate.
      * rewrite Hdefault. cbn. split; [discriminate |].
        intros [Hp [-> | [_ (d' & [= <-] & [-> | [_ (w & [=])]])]]].
        -- simpl in Hgiven. rewrite Hp in Hgiven. discriminate.
        -- simpl in Hdefault. rewrite Hp in Hdefault. discriminate.
Qed.

End ContextFacts.


(** * The further properties on the sample inputs *)

Lemma build_static_iff_witness :
  let pages := [("/about", "pages/about.html")] in
  let locals := localsOf Sample.staticSite Sample.aboutOnly pages [] Sample.noRules in
  outcome (build Sample.staticSite) = Ok locals /\
  BuildResult.wantsBackend (BuildLocals.result locals) = false /\
  BuildEnv.isUsingMiddleware Sample.staticSite = false /\
  getNonStaticRoutes pages ["/about"] [] = [].
Proof.
  cbv zeta.
  pose proof (proj1 (build_static_iff Sample.staticSite _ Sample.aboutOnly
                       [("/about", "pages/about.html")] [] Sample.noRules
                       eq_refl eq_refl eq_refl eq_refl eq_refl) eq_refl)
    as (Hmiddleware & _ & _ & _ & Hroutes & _).
  split; [reflexivity |]. split; [reflexivity |]. split; [exact Hmiddleware | exact Hroutes].
Defined.

Lemma build_reason_origin_witness :
  let pages := [("/about", "pages/about.html"); ("/blog/[slug]", "pages/blog/[slug].js")] in
  let dyn :=
    [("/blog/[slug]", FallbackTrue); ("/docs/[id]", FallbackNull);
     ("/shop/[sku]", FallbackFalse)] in
  let locals := localsOf Sample.busySite Sample.busyManifest pages dyn Sample.busyRules in
  outcome (build Sample.busySite) = Ok locals /\
  In "use of fallback /docs/[id]" (BuildLocals.reasonsForBackend locals) /\
  ~ In "use of fallback /shop/[sku]" (BuildLocals.reasonsForBackend locals).
Proof.
  cbv zeta. split; [reflexivity |]. split.
  - pose proof (build_reason_origin Sample.busySite _ Sample.busyManifest
                  [("/about", "pages/about.html"); ("/blog/[slug]", "pages/blog/[slug].js")]
                  [("/blog/[slug]", FallbackTrue); ("/docs/[id]", FallbackNull);
                   ("/shop/[sku]", FallbackFalse)]
                  "/docs/[id]" eq_refl eq_refl eq_refl eq_refl) as (_ & _ & Hfallback & _).
    apply Hfallback. exists FallbackNull. split; [simpl; tauto | reflexivity].
  - pose proof (build_reason_origin Sample.busySite _ Sample.busyManifest
                  [("/about", "pages/about.html"); ("/blog/[slug]", "pages/blog/[slug].js")]
                  [("/blog/[slug]", FallbackTrue); ("/docs/[id]", FallbackNull);
                   ("/shop/[sku]", FallbackFalse)]
                  "/shop/[sku]" eq_refl eq_refl eq_refl eq_refl) as (_ & _ & Hfallback & _).
    intros Hin. apply Hfallback in Hin as (fallback & [Hin | [Hin | [Hin | []]]] & Hkind);
      injection Hin as <-; discriminate.
Defined.

Lemma build_prints_reasons_witness :
  let pages := [("/about", "pages/about.html"); ("/blog/[slug]", "pages/blog/[slug].js")] in
  let dyn :=
    [("/blog/[slug]", FallbackTrue); ("/docs/[id]", FallbackNull);
     ("/shop/[sku]", FallbackFalse)] in
  let locals := localsOf Sample.busySite Sample.busyManifest pages dyn Sample.busyRules in
  outcome (build Sample.busySite) = Ok locals /\
  debugMessages (trace (build Sample.busySite)) =
    map (fun reason => " • " ++ reason) (skipn 5 (BuildLocals.reasonsForBackend locals)) /\
  List.length (debugMessages (trace (build Sample.busySite))) = 3.
Proof.
  cbv zeta. split; [reflexivity |]. split; [| reflexivity].
  exact (proj1 (proj2 (build_prints_reasons Sample.busySite _ eq_refl))).
Defined.

Lemma build_static_translates_all_witness :
  let locals :=
    localsOf Sample.staticSite Sample.aboutOnly [("/about", "pages/about.html")] []
             Sample.noRules in
  outcome (build Sample.staticSite) = Ok locals /\
  BuildEnv.routesManifest Sample.staticSite = Present Sample.noRules /\
  BuildResult.wantsBackend (BuildLocals.result locals) = false /\
  BuildResult.rewrites (BuildLocals.result locals) = [].
Proof.
  cbv zeta. split; [reflexivity |]. split; [reflexivity |]. split; [reflexivity |].
  exact (proj2 (build_static_translates_all Sample.staticSite _ Sample.noRules
                  eq_refl eq_refl eq_refl)).
Defined.


Lemma backend_routes_never_copied_witness :
  let env := Sample.fallbackOutput Sample.blogAsHtml in
  let route := Sample.route None RevalidateFalse None in
  In "/blog" (getMiddlewareMatcherRegexes ["/blog"]) /\
  regexMatch "/blog" "/blog/[slug]" = true /\
  copiedFiles
    (copyRoute (closureOf env ["/blog"] Sample.noRules [] (ActionManifest.mk [] [] ""))
               ("/blog/[slug]", route)) = [].
Proof.
  cbv zeta. split; [now left |]. split; [reflexivity |].
  apply backend_routes_never_copied. left. exists "/blog".
  split; [left; now left | reflexivity].
Defined.


Lemma locale_placement_without_domain_witness :
  let env := MoreSamples.withoutDomain in
  let c := Sample.closure env in
  let route := Sample.route None RevalidateFalse None in
  NextConfig.i18n (PublicEnv.config env) = Some (Sample.threeLocales []) /\
  matchingI18nDomain (Some (Sample.threeLocales [])) (PublicEnv.getAllSiteDomains env) = None /\
  localeOf c "/fr/about" = Some "fr" /\
  routeOutcome c "/fr/about" route <> SkipLocale.
Proof.
  cbv zeta. split; [reflexivity |]. split; [reflexivity |]. split; [reflexivity |].
  exact (proj1 (locale_placement_without_domain
                  MoreSamples.withoutDomain [] Sample.noRules [] (ActionManifest.mk [] [] "")
                  "/fr/about" (Sample.route None RevalidateFalse None)
                  (Sample.threeLocales []) "fr" eq_refl eq_refl eq_refl)).
Defined.

Lemma codegenPublicDirectory_manifests_witness :
  (failureBeforeReads MoreSamples.withoutPagesManifest = None /\
   isPresent (PublicEnv.pagesManifest MoreSamples.withoutPagesManifest) = false /\
   (exists e, outcome (codegenPublicDirectory MoreSamples.withoutPagesManifest) = Throw e) /\
   copiedFiles (trace (codegenPublicDirectory MoreSamples.withoutPagesManifest)) = []) /\
  (failureBeforeReads MoreSamples.directoryAsPage = None /\
   PublicEnv.pathExistsSync MoreSamples.directoryAsPage "/app/.next/server/pages/about" = true /\
   PublicEnv.fails MoreSamples.directoryAsPage
     (CopyFile "/app/.next/server/pages/about" "/out/about") <> None /\
   outcome (codegenPublicDirectory MoreSamples.directoryAsPage) <> Ok tt) /\
  outcome (codegenPublicDirectory (Sample.newsOutput Sample.newsAsHtml)) = Ok tt.
Proof.
  split; [| split].
  - split; [reflexivity |]. split; [reflexivity |].
    pose proof (codegenPublicDirectory_manifests MoreSamples.withoutPagesManifest) as H.
    change (failureBeforeReads MoreSamples.withoutPagesManifest) with (@None Error) in H.
    cbv iota in H. apply H. reflexivity.
  - split; [reflexivity |]. split; [reflexivity |]. split; [discriminate |].
    pose proof (codegenPublicDirectory_manifests MoreSamples.directoryAsPage) as H.
    change (failureBeforeReads MoreSamples.directoryAsPage) with (@None Error) in H.
    cbv iota in H. destruct H as [_ [_ [_ H]]].
    specialize (H [] Sample.aboutOnly Sample.noRules [("/about", "pages/about.js")]
                  eq_refl eq_refl eq_refl eq_refl).
    intros Hok. apply H in Hok as [_ Hok].
    specialize (Hok ("/about", Sample.route None RevalidateFalse
                                 (Some "/_next/data/build/about.json"))
                    (CopyFile "/app/.next/server/pages/about" "/out/about")
                    (or_introl eq_refl)).
    assert (failure (PublicEnv.fails MoreSamples.directoryAsPage)
                    (CopyFile "/app/.next/server/pages/about" "/out/about") = None) as Hnone.
    { apply Hok. vm_compute. tauto. }
    discriminate Hnone.
  - pose proof (codegenPublicDirectory_manifests (Sample.newsOutput Sample.newsAsHtml)) as H.
    change (failureBeforeReads (Sample.newsOutput Sample.newsAsHtml)) with (@None Error) in H.
    cbv iota in H. destruct H as [_ [_ [_ H]]].
    apply (H [] Sample.newsManifest Sample.noRules Sample.newsAsHtml
             eq_refl eq_refl eq_refl eq_refl).
    split; [reflexivity |]. intros entry e [<- | []] He.
    vm_compute in He. destruct He as [<- | [<- | []]]; reflexivity.
Defined.

Lemma codegenPublicDirectory_copies_listed_routes_witness :
  let env := Sample.fallbackOutput Sample.blogAsHtml in
  In ("/app/.next/server/pages/blog/[slug].html", "/out/blog/[slug].html")
     (copiedFiles (trace (codegenPublicDirectory env))) /\
  exists path route,
    In (path, route) (routesToCopy Sample.fallbackManifest Sample.blogAsHtml) /\
    (In path (Js.keys (PrerenderManifest.routes Sample.fallbackManifest)) \/
     isHtmlPage Sample.blogAsHtml path = true) /\
    In ("/app/.next/server/pages/blog/[slug].html", "/out/blog/[slug].html")
       (copiedFiles (copyRoute (Sample.closure env) (path, route))).
Proof.
  cbv zeta. split; [simpl; tauto |].
  apply (codegenPublicDirectory_copies_listed_routes
           (Sample.fallbackOutput Sample.blogAsHtml) [] Sample.fallbackManifest Sample.noRules
           Sample.blogAsHtml _ _ eq_refl eq_refl eq_refl eq_refl).
  simpl. tauto.
Defined.

Lemma spawn_environment_priority_witness :
  let inputs := SpawnSample.inputs (Some "18.2.0") (Ok SpawnSample.projectFile) in
  let env :=
    [("API_URL", "http://localhost"); ("API_KEY", "secret"); ("PATH", "/usr/bin");
     ("__NEXT_REACT_ROOT", "true"); ("VERCEL_URL", "demo-site.web.app")] in
  spawnEnvironment inputs = Ok env /\
  Js.get (processEnvForBuild inputs) "API_URL" = Some "http://localhost" /\
  Js.get env "API_URL" = Some "http://localhost" /\
  Js.get env "VERCEL_URL" = Some "demo-site.web.app".
Proof.
  cbv zeta.
  assert (NoDup (Js.keys (SpawnInputs.processEnv
                            (SpawnSample.inputs (Some "18.2.0") (Ok SpawnSample.projectFile)))))
    as Hkeys.
  { repeat constructor; simpl; intuition discriminate. }
  pose proof (spawn_environment_priority
                (SpawnSample.inputs (Some "18.2.0") (Ok SpawnSample.projectFile)) _
                Hkeys eq_refl) as (Hprocess & Hdomain & _).
  split; [reflexivity |]. split; [reflexivity |]. split.
  - apply Hprocess; [left; discriminate | reflexivity].
  - apply Hdomain. reflexivity.
Defined.

Lemma spawn_environment_project_file_witness :
  let inputs := SpawnSample.inputs (Some "18.2.0") (Ok SpawnSample.projectFile) in
  projectIdOf inputs = Some "demo" /\
  exists env,
    spawnEnvironment inputs = Ok env /\
    Js.get env "API_KEY" = Some "secret".
Proof.
  cbv zeta. split; [reflexivity |].
  assert (NoDup (Js.keys (SpawnInputs.processEnv
                            (SpawnSample.inputs (Some "18.2.0") (Ok SpawnSample.projectFile)))))
    as Hkeys.
  { repeat constructor; simpl; intuition discriminate. }
  pose proof (spawn_environment_project_file
                (SpawnSample.inputs (Some "18.2.0") (Ok SpawnSample.projectFile))
                "demo" "API_URL=..." Hkeys eq_refl eq_refl) as H.
  cbn [SpawnSample.inputs SpawnInputs.parseStrict] in H.
  destruct H as (env & Henv & Hfile). exists env. split; [exact Henv |].
  rewrite Hfile; [reflexivity | | reflexivity | left; discriminate].
  repeat constructor; simpl; intuition discriminate.
Defined.

Lemma getConfig_defaults_and_errors_witness :
  getConfig MoreSamples.noConfigFile =
  Resolved {| NextConfig.distDir := ".next"; NextConfig.trailingSlash := false;
              NextConfig.basePath := "/"; NextConfig.i18n := None |}.
Proof.
  exact (proj1 (getConfig_defaults_and_errors MoreSamples.noConfigFile) eq_refl eq_refl).
Defined.

Lemma discover_answers_witness :
  discover (fun _ => true) (Some "14.0.0") None "/app" <> None /\
  forall discovery,
    discover (fun _ => true) (Some "14.0.0") None "/app" = Some discovery ->
    Discovery.publicDirectory discovery = "/app/public".
Proof.
  split; [discriminate |].
  intros discovery H.
  exact (proj1 (proj2 (proj2 (discover_answers (fun _ => true) (Some "14.0.0") None "/app")
                         discovery H))).
Defined.


Lemma esbuild_build_options_witness :
  let env := FunctionsSample.env (inl true) (inl None) true in
  let options := esbuildArgs env "next.config.js" in
  In (Host.EsbuildBuild options) (Host.trace (codegenFunctionsDirectory env)) /\
  CustomBuildOptions.external options = ["next"; "react"; "scheduler"] /\
  NoDup (CustomBuildOptions.external options).
Proof.
  cbv zeta.
  assert (In (Host.EsbuildBuild
                (esbuildArgs (FunctionsSample.env (inl true) (inl None) true) "next.config.js"))
             (Host.trace (codegenFunctionsDirectory
                            (FunctionsSample.env (inl true) (inl None) true)))) as Hin.
  { simpl. tauto. }
  split; [exact Hin |]. split; [reflexivity |].
  exact (proj1 (proj2 (proj2 (esbuild_build_options _ _ Hin)))).
Defined.

Lemma functions_directory_result_witness :
  let env := FunctionsSample.env (inl true) (inl None) true in
  exists result,
    Host.outcome (codegenFunctionsDirectory env) = inl result /\
    FunctionsResult.frameworksEntry result = "next.js" /\
    Js.get (FunctionsResult.dotEnv result) "VERCEL_URL" = Some "demo-site.web.app".
Proof.
  cbv zeta. eexists. split; [reflexivity |].
  pose proof (functions_directory_result
                (FunctionsSample.env (inl true) (inl None) true) _ eq_refl)
    as (Hentry & _ & HdotEnv).
  split; [exact Hentry |].
  apply HdotEnv. split; [reflexivity |].
  eexists _, "demo", "demo-site". repeat split.
Defined.

Lemma getDevModeHandle_refuses_middleware_witness :
  (Host.outcome (getDevModeHandle (fun text => text) (fun _ => None) true "/app" None) =
     inr (ThrownFirebaseError
            ("firebase serve does not support Next.js Middleware. "
             ++ "Please use firebase emulators:start instead.")) /\
   Host.trace (getDevModeHandle (fun text => text) (fun _ => None) true "/app" None) =
     [Host.IsUsingMiddleware "/app" true]) /\
  Host.outcome (getDevModeHandle (fun text => text) (fun _ => None) true "/app"
                                 (Some ("localhost", 5000%Z))) = inl tt /\
  Host.outcome (getDevModeHandle (fun text => text) FunctionsSample.nextNotInstalled false
                                 "/app" None) <> inl tt.
Proof.
  split; [| split].
  - exact (proj1 (getDevModeHandle_refuses_middleware (fun text => text) (fun _ => None)
                    true "/app" None)
                 eq_refl eq_refl eq_refl).
  - apply (proj1 (proj2 (getDevModeHandle_refuses_middleware
                           (fun text => text) (fun _ => None) true "/app"
                           (Some ("localhost", 5000%Z))))).
    split; [intros H; discriminate H | repeat split].
  - intros H.
    apply (proj1 (proj2 (getDevModeHandle_refuses_middleware
                           (fun text => text) FunctionsSample.nextNotInstalled false "/app"
                           None))) in H.
    destruct H as (_ & H & _). discriminate H.
Defined.

Lemma getBuilderType_reads_suffix_witness :
  Angular.getBuilderType "@angular-devkit/build-angular:browser-esbuild"
  = Some Angular.BROWSER_ESBUILD /\
  Angular.getBuilderType "ng-packagr" = None.
Proof.
  split.
  - exact (proj2 (proj1 (getBuilderType_reads_suffix
                           "@angular-devkit/build-angular:browser-esbuild")
                        Angular.BROWSER_ESBUILD)
                 (ex_intro _ "@angular-devkit/build-angular" eq_refl)).
  - exact (proj1 (proj2 (getBuilderType_reads_suffix "ng-packagr")) eq_refl).
Defined.

Lemma localesForTarget_answers_witness :
  let locales := [("fr", Some "")] in
  Angular.localesForTarget (AngularSample.localeInputs locales) AngularSample.buildTarget
                           (AngularSample.shop locales)
  = inl (Some ["en"; "fr"], Some "en") /\
  exists targetOptions,
    Angular.LocaleInputs.getOptionsForTarget (AngularSample.localeInputs locales)
                                             AngularSample.buildTarget
    = inl (Some targetOptions) /\
    Angular.LocaleInputs.validateLocales (AngularSample.localeInputs locales)
                                         (Some ["en"; "fr"]) = None.
Proof.
  cbv zeta. split; [reflexivity |].
  destruct (localesForTarget_answers (AngularSample.localeInputs [("fr", Some "")])
              AngularSample.buildTarget (AngularSample.shop [("fr", Some "")])
              (Some ["en"; "fr"]) (Some "en") eq_refl)
    as (targetOptions & Hoptions & Hvalid & _).
  exists targetOptions. split; [exact Hoptions | exact Hvalid].
Defined.

Lemma localesForTarget_rejects_base_href_witness :
  let locales := [("fr", Some ""); ("de", Some "/de/"); ("it", None)] in
  Forall (fun entry : string * option string => snd entry = Some "") [("fr", Some "")] /\
  Angular.localesForTarget (AngularSample.localeInputs locales) AngularSample.buildTarget
                           (AngularSample.shop locales)
  = inr (ThrownFirebaseError
           ("All your i18n locales must have a baseHref of "
            ++ JsString.doubleQuote ++ JsString.doubleQuote
            ++ " on Firebase, errored on de.")).
Proof.
  cbv zeta.
  assert (Forall (fun entry : string * option string => snd entry = Some "") [("fr", Some "")])
    as Hbefore by (repeat constructor).
  split; [exact Hbefore |].
  apply (localesForTarget_rejects_base_href
           (AngularSample.localeInputs [("fr", Some ""); ("de", Some "/de/"); ("it", None)])
           AngularSample.buildTarget
           (AngularSample.shop [("fr", Some ""); ("de", Some "/de/"); ("it", None)])
           [("localize", JBool true); ("ssr", JBool true)]
           (AngularSample.i18n [("fr", Some ""); ("de", Some "/de/"); ("it", None)])
           "en" [("fr", Some "")] [("it", None)] "de" (Some "/de/")
           eq_refl eq_refl eq_refl eq_refl eq_refl Hbefore).
  discriminate.
Defined.

Lemma getContext_targets_recognized_witness :
  let env := AngularSample.contextEnv (Some "shop:build:staging") in
  Host.outcome (Angular.getContext env) = inl MoreSamples.stagingContext /\
  exists project,
    Js.get (Angular.ContextEnv.projects env) project = Some (AngularSample.shop [("fr", Some "")]) /\
    forall role target,
      In (role, Some target)
         [(Angular.BuildRole, Angular.Context.buildTarget MoreSamples.stagingContext);
          (Angular.PrerenderRole, Angular.Context.prerenderTarget MoreSamples.stagingContext);
          (Angular.ServerRole, Angular.Context.serverTarget MoreSamples.stagingContext);
          (Angular.BrowserRole, Angular.Context.browserTarget MoreSamples.stagingContext);
          (Angular.ServeRole, Angular.Context.serveTarget MoreSamples.stagingContext)] ->
      Angular.Target.project target = project /\
      exists definition prefix builderType,
        Js.get (Angular.ProjectDefinition.targets (AngularSample.shop [("fr", Some "")]))
               (Angular.Target.target target) = Some definition /\
        Angular.TargetDefinition.builder definition
        = prefix ++ ":" ++ Angular.value builderType /\
        Angular.recognized role (Some builderType) = true.
Proof.
  cbv zeta. split; [reflexivity |].
  exact (proj2 (getContext_targets_recognized
                  (AngularSample.contextEnv (Some "shop:build:staging"))
                  MoreSamples.stagingContext eq_refl)).
Defined.

Lemma override_target_is_used_alone_witness :
  let env := AngularSample.contextEnv (Some "shop:build:staging") in
  let overrideTarget := Angular.Target.mk "shop" "build" (Some "staging") in
  Angular.targetFromTargetString "shop:build:staging" = inl overrideTarget /\
  Host.outcome (Angular.getContext env) = inl MoreSamples.stagingContext /\
  exists definition builderType,
    Js.get (Angular.ProjectDefinition.targets
              (Angular.Context.workspaceProject MoreSamples.stagingContext))
           (Angular.Target.target overrideTarget) = Some definition /\
    Angular.getBuilderType (Angular.TargetDefinition.builder definition) = Some builderType /\
    match builderType with
    | Angular.DEPLOY => True
    | Angular.APPLICATION =>
        Angular.Context.buildTarget MoreSamples.stagingContext = Some overrideTarget /\
        Angular.Context.browserTarget MoreSamples.stagingContext = None /\
        Angular.Context.prerenderTarget MoreSamples.stagingContext = None /\
        Angular.Context.serverTarget MoreSamples.stagingContext = None
    | Angular.BROWSER | Angular.BROWSER_ESBUILD =>
        Angular.Context.browserTarget MoreSamples.stagingContext = Some overrideTarget /\
        Angular.Context.buildTarget MoreSamples.stagingContext = None /\
        Angular.Context.prerenderTarget MoreSamples.stagingContext = None /\
        Angular.Context.serverTarget MoreSamples.stagingContext = None /\
        Angular.Context.ssr MoreSamples.stagingContext = false
    | _ => False
    end.
Proof.
  cbv zeta. split; [reflexivity |]. split; [reflexivity |].
  exact (override_target_is_used_alone
           (AngularSample.contextEnv (Some "shop:build:staging")) "shop:build:staging"
           (Angular.Target.mk "shop" "build" (Some "staging")) MoreSamples.stagingContext
           eq_refl eq_refl eq_refl).
Defined.


Section BuildConfigFacts.

Context {architect : Angular.ArchitectLib}.

(** X28. [getBuildConfig] answers only after [getContext] and
    [localesForTarget], called for the build target or else the browser
    target, have answered. The targets it lists are never empty: the build
    target alone; or else the prerender target alone; or else the browser
    target, which then exists, followed by the server target if there is
    one. *)
Theorem getBuildConfig_targets (env : Angular.ContextEnv.t)
  (validateLocales : option (list string) -> option Thrown)
  (config : Angular.BuildConfig.t) :
  Host.outcome (Angular.getBuildConfig env validateLocales) = inl config ->
  exists context target,
    Host.outcome (Angular.getContext env) = inl context /\
    match Angular.Context.buildTarget context with
    | Some buildTarget => target = buildTarget
    | None => Angular.Context.browserTarget context = Some target
    end /\
    Angular.localesForTarget
      {| Angular.LocaleInputs.getOptionsForTarget := Angular.ContextEnv.getOptionsForTarget env;
         Angular.LocaleInputs.validateLocales := validateLocales |}
      target (Angular.Context.workspaceProject context)
    = inl (Angular.BuildConfig.locales config) /\
    Angular.BuildConfig.targets config <> [] /\
    Angular.BuildConfig.targets config =
      match Angular.Context.buildTarget context, Angular.Context.prerenderTarget context with
      | Some buildTarget, _ => [Angular.targetStringFromTarget buildTarget]
      | None, Some prerenderTarget => [Angular.targetStringFromTarget prerenderTarget]
      | None, None =>
          Angular.targetStringFromTarget target
          :: match Angular.Context.serverTarget context with
             | Some serverTarget => [Angular.targetStringFromTarget serverTarget]
             | None => []
             end
      end.
Proof.
  unfold Angular.getBuildConfig. rewrite host_outcome_bind.
  destruct (Host.outcome (Angular.getContext env)) as [context | e] eqn:Hcontext;
    [| discriminate].
  cbv zeta.
  destruct (Angular.Context.buildTarget context) as [buildTarget |] eqn:Hbuild.
  - rewrite host_outcome_bind. cbn [Host.outcome Host.lift snd].
    destruct (Angular.localesForTarget _ buildTarget _) as [locales | e] eqn:Hlocales;
      [| discriminate].
    cbn. intros [= <-]. exists context, buildTarget. cbn. rewrite Hbuild.
    repeat split; [assumption | discriminate].
  - destruct (Angular.Context.browserTarget context) as [browserTarget |] eqn:Hbrowser;
      [| discriminate].
    rewrite host_outcome_bind. cbn [Host.outcome Host.lift snd].
    destruct (Angular.localesForTarget _ browserTarget _) as [locales | e] eqn:Hlocales;
      [| discriminate].
    cbn. intros [= <-]. exists context, browserTarget. cbn. rewrite Hbuild, Hbrowser.
    split; [reflexivity |]. split; [reflexivity |]. split; [assumption |].
    destruct (Angular.Context.prerenderTarget context);
      [split; [discriminate | reflexivity] |].
    destruct (Angular.Context.serverTarget context); split; (discriminate || reflexivity).
Qed.

End BuildConfigFacts.

Lemma getBuildConfig_targets_witness :
  let env := AngularSample.contextEnv (Some "shop:build:staging") in
  let config :=
    {| Angular.BuildConfig.targets := ["shop:build:staging"];
       Angular.BuildConfig.baseHref := "/";
       Angular.BuildConfig.locales := (Some ["en"; "fr"], Some "en");
       Angular.BuildConfig.serveOptimizedImages := false;
       Angular.BuildConfig.ssr := true |} in
  Host.outcome (Angular.getBuildConfig env (fun _ => None)) = inl config /\
  exists context target,
    Host.outcome (Angular.getContext env) = inl context /\
    Angular.Context.buildTarget context = Some target /\
    Angular.BuildConfig.targets config = [Angular.targetStringFromTarget target].
Proof.
  cbv zeta.
  assert (Host.outcome (Angular.getBuildConfig
                          (AngularSample.contextEnv (Some "shop:build:staging"))
                          (fun _ => None))
          = inl {| Angular.BuildConfig.targets := ["shop:build:staging"];
                   Angular.BuildConfig.baseHref := "/";
                   Angular.BuildConfig.locales := (Some ["en"; "fr"], Some "en");
                   Angular.BuildConfig.serveOptimizedImages := false;
                   Angular.BuildConfig.ssr := true |}) as H
    by (vm_compute; reflexivity).
  split; [exact H |].
  destruct (getBuildConfig_targets _ _ _ H)
    as (context & target & Hcontext & Htarget & _ & _ & Htargets).
  exists context, target. split; [exact Hcontext |].
  destruct (Angular.Context.buildTarget context) as [buildTarget |] eqn:Hbuild.
  - subst target. split; [reflexivity | exact Htargets].
  - exfalso. vm_compute in Hcontext. injection Hcontext as <-. discriminate Hbuild.
Defined.


Section ServerConfigFacts.

Context {architect : Angular.ArchitectLib} {node : NodeLib}.

(** The locales [localesForTarget] answers start with the default locale. *)
Lemma localesForTarget_default_first (inputs : Angular.LocaleInputs.t)
  (target : Angular.Target.t) (workspaceProject : Angular.ProjectDefinition.t)
  (locales : list string) (defaultLocale : option string) :
  Angular.localesForTarget inputs target workspaceProject = inl (Some locales, defaultLocale) ->
  exists code rest, defaultLocale = Some code /\ locales = code :: rest.
Proof.
  unfold Angular.localesForTarget.
  destruct (Angular.LocaleInputs.getOptionsForTarget inputs target)
    as [[targetOptions |] | e]; try discriminate.
  destruct (Angular.localesOfOptions targetOptions workspaceProject)
    as [[locales' defaultLocale'] | e] eqn:E; [| discriminate].
  destruct (Angular.LocaleInputs.validateLocales inputs locales'); [discriminate |].
  intros [= -> ->]. unfold Angular.localesOfOptions in E. cbv zeta in E.
  destruct (JsonValue.truthy (JsonValue.field targetOptions "localize")); [| discriminate E].
  destruct (Angular.ProjectDefinition.i18n workspaceProject) as [i18n |]; [| discriminate].
  destruct (Angular.AngularI18nConfig.sourceLocale i18n) as [code | code baseHref];
    [discriminate |].
  destruct (negb _); [discriminate |].
  destruct (JsonValue.field targetOptions "localize") as [| [|] | z | s | items | fields];
    try discriminate E.
  - destruct (Angular.pushLocales (Angular.AngularI18nConfig.locales i18n) [code])
      as [result |] eqn:Hpush; [| discriminate].
    injection E as <- <-. apply pushLocales_ok in Hpush as [-> _].
    exists code, (map fst (Angular.AngularI18nConfig.locales i18n)). split; reflexivity.
  - injection E as <- <-. destruct (pushStrings_spec items [code]) as (rest & -> & _).
    exists code, rest. split; reflexivity.
Qed.

(** X29. What [getServerConfig] answers, when it answers. Without server-side
    rendering: no server output path, no server entry, no locales but the
    empty list of server locales, no bundling and no external dependencies.
    With it: a build target or a server target exists; the server entry is
    [server.mjs] for a build target and
    [main.js] for a server target; there is a server output path; and when
    there are server locales they start with the default locale, which is not
    empty. *)
Theorem getServerConfig_answers (env : Angular.ContextEnv.t)
  (validateLocales : option (list string) -> option Thrown) (sep : ascii)
  (packageJson : Json + Thrown) (config : Angular.ServerConfig.t) :
  Host.outcome (Angular.getServerConfig env validateLocales sep packageJson) = inl config ->
  exists context,
    Host.outcome (Angular.getContext env) = inl context /\
    if Angular.Context.ssr context
    then
      (Angular.Context.buildTarget context <> None \/
       Angular.Context.serverTarget context <> None) /\
      Angular.ServerConfig.serverEntry config
      = Some (if isSome (Angular.Context.buildTarget context) then "server.mjs" else "main.js") /\
      Angular.ServerConfig.serverOutputPath config <> None /\
      forall locales,
        Angular.ServerConfig.serverLocales config = Some locales ->
        exists code rest,
          Angular.ServerConfig.defaultLocale config = Some code /\
          Js.truthy code = true /\
          locales = code :: rest
    else
      Angular.ServerConfig.serverOutputPath config = None /\
      Angular.ServerConfig.serverEntry config = None /\
      Angular.ServerConfig.serverLocales config = Some [] /\
      Angular.ServerConfig.browserLocales config = None /\
      Angular.ServerConfig.defaultLocale config = None /\
      Angular.ServerConfig.bundleDependencies config = JBool false /\
      Angular.ServerConfig.externalDependencies config = JArray [].
Proof.
  unfold Angular.getServerConfig. cbv zeta. rewrite host_outcome_bind.
  destruct (Host.outcome (Angular.getContext env)) as [context | e] eqn:Hcontext;
    [| discriminate].
  destruct (match Angular.Context.buildTarget context with
            | Some target => Some target
            | None => Angular.Context.browserTarget context
            end) as [buildOrBrowserTarget |]; [| discriminate].
  rewrite host_outcome_bind. cbn [Host.outcome Host.lift snd].
  destruct (Angular.ContextEnv.getOptionsForTarget env buildOrBrowserTarget)
    as [browserTargetOptions | e]; [| discriminate].
  rewrite host_outcome_bind. cbn [Host.outcome Host.lift snd].
  destruct packageJson as [packageJson | e]; [| discriminate].
  destruct (Angular.Context.ssr context) eqn:Hssr; cbn [negb].
  2:{ cbn. intros [= <-]. exists context. rewrite Hssr. cbn. repeat split. }
  destruct (match Angular.Context.buildTarget context with
            | Some target => Some target
            | None => Angular.Context.serverTarget context
            end) as [buildOrServerTarget |] eqn:Htarget; [| discriminate].
  rewrite host_outcome_bind. cbn [Host.outcome Host.lift snd].
  destruct (Angular.localesForTarget _ buildOrServerTarget _)
    as [[serverLocales defaultLocale] | e] eqn:Hserver; [| discriminate].
  rewrite host_outcome_bind. cbn [Host.outcome Host.lift snd].
  destruct (Angular.ContextEnv.getOptionsForTarget env buildOrServerTarget)
    as [[serverTargetOptions |] | e]; try discriminate.
  destruct (isSome serverLocales && negb (Js.truthyOpt defaultLocale)) eqn:Hlocales;
    [discriminate |].
  rewrite host_outcome_bind. cbn [Host.outcome Host.lift snd].
  destruct (Angular.localesForTarget _ buildOrBrowserTarget _) as [browser | e];
    [| discriminate].
  cbn. intros [= <-]. exists context. rewrite Hssr. cbn.
  split; [reflexivity |]. split; [| split; [| split; [discriminate |]]].
  - destruct (Angular.Context.buildTarget context); [left; discriminate |].
    right. congruence.
  - destruct (Angular.Context.buildTarget context); [reflexivity |].
    now rewrite Htarget.
  - intros locales ->.
    apply localesForTarget_default_first in Hserver as (code & rest & -> & ->).
    exists code, rest. split; [reflexivity |]. split; [| reflexivity].
    simpl in Hlocales. now destruct (Js.truthy code).
Qed.

End ServerConfigFacts.


Lemma getServerConfig_answers_witness :
  let env := AngularSample.contextEnv (Some "shop:build:staging") in
  let config :=
    {| Angular.ServerConfig.packageJson := JObject [("name", JString "shop")];
       Angular.ServerConfig.browserOutputPath := "dist/shop/browser";
       Angular.ServerConfig.serverOutputPath := Some "dist/shop/server";
       Angular.ServerConfig.baseHref := "/";
       Angular.ServerConfig.bundleDependencies := JBool true;
       Angular.ServerConfig.externalDependencies := JArray [];
       Angular.ServerConfig.serverLocales := Some ["en"; "fr"];
       Angular.ServerConfig.browserLocales := Some ["en"; "fr"];
       Angular.ServerConfig.defaultLocale := Some "en";
       Angular.ServerConfig.serveOptimizedImages := false;
       Angular.ServerConfig.serverEntry := Some "server.mjs" |} in
  Host.outcome (Angular.getServerConfig env (fun _ => None) "/"
                  (inl (JObject [("name", JString "shop")]))) = inl config /\
  exists context,
    Host.outcome (Angular.getContext env) = inl context /\
    Angular.Context.ssr context = true /\
    Angular.ServerConfig.serverEntry config
    = Some (if isSome (Angular.Context.buildTarget context) then "server.mjs" else "main.js").
Proof.
  cbv zeta.
  assert (Host.outcome
            (Angular.getServerConfig (AngularSample.contextEnv (Some "shop:build:staging"))
               (fun _ => None) "/" (inl (JObject [("name", JString "shop")])))
          = inl {| Angular.ServerConfig.packageJson := JObject [("name", JString "shop")];
                   Angular.ServerConfig.browserOutputPath := "dist/shop/browser";
                   Angular.ServerConfig.serverOutputPath := Some "dist/shop/server";
                   Angular.ServerConfig.baseHref := "/";
                   Angular.ServerConfig.bundleDependencies := JBool true;
                   Angular.ServerConfig.externalDependencies := JArray [];
                   Angular.ServerConfig.serverLocales := Some ["en"; "fr"];
                   Angular.ServerConfig.browserLocales := Some ["en"; "fr"];
                   Angular.ServerConfig.defaultLocale := Some "en";
                   Angular.ServerConfig.serveOptimizedImages := false;
                   Angular.ServerConfig.serverEntry := Some "server.mjs" |}) as H
    by (vm_compute; reflexivity).
  split; [exact H |].
  destruct (getServerConfig_answers _ _ _ _ _ H) as (context & Hcontext & Hanswer).
  exists context. split; [exact Hcontext |].
  destruct (Angular.Context.ssr context).
  - split; [reflexivity |]. exact (proj1 (proj2 Hanswer)).
  - exfalso. destruct Hanswer as (Hpath & _). discriminate Hpath.
Defined.


Section ConfigFailures.

Context {architect : Angular.ArchitectLib} {node : NodeLib}.

Lemma getContext_has_targets (env : Angular.ContextEnv.t) (context : Angular.Context.t) :
  Host.outcome (Angular.getContext env) = inl context ->
  (Angular.Context.buildTarget context <> None \/
   Angular.Context.browserTarget context <> None) /\
  (Angular.Context.ssr context = true ->
   Angular.Context.buildTarget context <> None \/
   Angular.Context.serverTarget context <> None).
Proof.
  intros H.
  apply getContext_inv in H
    as (project & slots & _ & _ & Hbuild & Hbrowser & _ & Hserver & _ & Hsome & Hssr).
  rewrite Hbuild, Hbrowser, Hserver. split; [exact Hsome |].
  intros Htrue. destruct (Angular.Slots.buildTarget slots); [left; discriminate |].
  right. rewrite (Hssr eq_refl) in Htrue.
  destruct (Angular.Slots.serverTarget slots); [discriminate | discriminate Htrue].
Qed.

Lemma localesForTarget_options (inputs : Angular.LocaleInputs.t) (target : Angular.Target.t)
  (workspaceProject : Angular.ProjectDefinition.t)
  (answer : option (list string) * option string) :
  Angular.localesForTarget inputs target workspaceProject = inl answer ->
  exists targetOptions,
    Angular.LocaleInputs.getOptionsForTarget inputs target = inl (Some targetOptions).
Proof.
  unfold Angular.localesForTarget.
  destruct (Angular.LocaleInputs.getOptionsForTarget inputs target)
    as [[targetOptions |] | e]; try discriminate.
  intros _. now exists targetOptions.
Qed.

(** X30. The assertions of [getBuildConfig] and [getServerConfig] are dead
    code: whenever one of the two functions fails, the error is the one
    [getContext] failed with, or the one reading [package.json] failed with,
    or the one the architect host or [localesForTarget] failed with on a
    target [getContext] returned, or the error about the source locale. *)
Theorem config_assertions_unreachable (env : Angular.ContextEnv.t)
  (validateLocales : option (list string) -> option Thrown) :
  let inputs :=
    {| Angular.LocaleInputs.getOptionsForTarget := Angular.ContextEnv.getOptionsForTarget env;
       Angular.LocaleInputs.validateLocales := validateLocales |} in
  (forall e,
      Host.outcome (Angular.getBuildConfig env validateLocales) = inr e ->
      Host.outcome (Angular.getContext env) = inr e \/
      exists context target,
        Host.outcome (Angular.getContext env) = inl context /\
        In (Some target)
           [Angular.Context.buildTarget context; Angular.Context.browserTarget context] /\
        Angular.localesForTarget inputs target (Angular.Context.workspaceProject context)
        = inr e) /\
  (forall sep packageJson e,
      Host.outcome (Angular.getServerConfig env validateLocales sep packageJson) = inr e ->
      Host.outcome (Angular.getContext env) = inr e \/
      packageJson = inr e \/
      e = ThrownFirebaseError
            "It's required that your source locale to be one of the localize options" \/
      exists context target,
        Host.outcome (Angular.getContext env) = inl context /\
        In (Some target)
           [Angular.Context.buildTarget context; Angular.Context.browserTarget context;
            Angular.Context.serverTarget context] /\
        (Angular.ContextEnv.getOptionsForTarget env target = inr e \/
         Angular.localesForTarget inputs target (Angular.Context.workspaceProject context)
         = inr e)).
Proof.
  cbv zeta. split.
  - intros e. unfold Angular.getBuildConfig. rewrite host_outcome_bind.
    destruct (Host.outcome (Angular.getContext env)) as [context | e'] eqn:Hcontext;
      [| intros [= <-]; now left].
    destruct (getContext_has_targets env context Hcontext) as [Hsome _].
    cbv zeta.
    destruct (Angular.Context.buildTarget context) as [buildTarget |] eqn:Hbuild.
    + rewrite host_outcome_bind. cbn [Host.outcome Host.lift snd].
      destruct (Angular.localesForTarget _ buildTarget _) as [locales | e'] eqn:Hlocales;
        [discriminate |].
      intros [= <-]. right. exists context, buildTarget.
      rewrite Hbuild. split; [reflexivity |]. split; [now left | assumption].
    + destruct (Angular.Context.browserTarget context) as [browserTarget |] eqn:Hbrowser.
      2:{ destruct Hsome as [Hsome | Hsome]; now contradiction Hsome. }
      rewrite host_outcome_bind. cbn [Host.outcome Host.lift snd].
      destruct (Angular.localesForTarget _ browserTarget _) as [locales | e'] eqn:Hlocales;
        [discriminate |].
      intros [= <-]. right. exists context, browserTarget.
      rewrite Hbuild, Hbrowser. split; [reflexivity |]. split; [right; now left | assumption].
  - intros sep packageJson e. unfold Angular.getServerConfig. cbv zeta.
    rewrite host_outcome_bind.
    destruct (Host.outcome (Angular.getContext env)) as [context | e'] eqn:Hcontext;
      [| intros [= <-]; now left].
    destruct (getContext_has_targets env context Hcontext) as [Hsome Hssr].
    assert (exists buildOrBrowserTarget,
               match Angular.Context.buildTarget context with
               | Some target => Some target
               | None => Angular.Context.browserTarget context
               end = Some buildOrBrowserTarget /\
               In (Some buildOrBrowserTarget)
                  [Angular.Context.buildTarget context; Angular.Context.browserTarget context;
                   Angular.Context.serverTarget context])
      as (buildOrBrowserTarget & -> & Hin).
    { destruct (Angular.Context.buildTarget context) as [target |];
        [exists target; split; [reflexivity | now left] |].
      destruct (Angular.Context.browserTarget context) as [target |];
        [exists target; split; [reflexivity | right; now left] |].
      destruct Hsome as [Hsome | Hsome]; now contradiction Hsome. }
    rewrite host_outcome_bind. cbn [Host.outcome Host.lift snd].
    destruct (Angular.ContextEnv.getOptionsForTarget env buildOrBrowserTarget)
      as [browserTargetOptions | e'] eqn:Hoptions.
    2:{ intros [= <-]. do 3 right. exists context, buildOrBrowserTarget.
        split; [reflexivity |]. split; [assumption | now left]. }
    rewrite host_outcome_bind. cbn [Host.outcome Host.lift snd].
    destruct packageJson as [packageJson | e']; [| intros [= <-]; right; now left].
    destruct (Angular.Context.ssr context) eqn:Hrendering; cbn [negb]; [| discriminate].
    assert (exists buildOrServerTarget,
               match Angular.Context.buildTarget context with
               | Some target => Some target
               | None => Angular.Context.serverTarget context
               end = Some buildOrServerTarget /\
               In (Some buildOrServerTarget)
                  [Angular.Context.buildTarget context; Angular.Context.browserTarget context;
                   Angular.Context.serverTarget context])
      as (buildOrServerTarget & -> & Hin').
    { destruct (Angular.Context.buildTarget context) as [target |];
        [exists target; split; [reflexivity | now left] |].
      destruct (Angular.Context.serverTarget context) as [target |];
        [exists target; split; [reflexivity | right; right; now left] |].
      destruct (Hssr eq_refl) as [Hnone | Hnone]; now contradiction Hnone. }
    rewrite host_outcome_bind. cbn [Host.outcome Host.lift snd].
    destruct (Angular.localesForTarget _ buildOrServerTarget _)
      as [[serverLocales defaultLocale] | e'] eqn:Hserver.
    2:{ intros [= <-]. do 3 right. exists context, buildOrServerTarget.
        split; [reflexivity |]. split; [assumption | now right]. }
    apply localesForTarget_options in Hserver as [serverTargetOptions Hserver].
    cbn [Angular.LocaleInputs.getOptionsForTarget] in Hserver.
    rewrite host_outcome_bind, Hserver. cbn [Host.outcome Host.lift snd].
    destruct (isSome serverLocales && negb (Js.truthyOpt defaultLocale));
      [intros [= <-]; right; right; now left |].
    rewrite host_outcome_bind. cbn [Host.outcome Host.lift snd].
    destruct (Angular.localesForTarget _ buildOrBrowserTarget _) as [browser | e'] eqn:Hbrowser;
      [discriminate |].
    intros [= <-]. do 3 right. exists context, buildOrBrowserTarget.
    split; [reflexivity |]. split; [assumption | now right].
Qed.

End ConfigFailures.

Lemma config_assertions_unreachable_witness :
  let env := AngularSample.contextEnv None in
  Host.outcome (Angular.getBuildConfig env (fun _ => None))
  = inr (ThrownError "expected a string") /\
  (Host.outcome (Angular.getContext env) = inr (ThrownError "expected a string") \/
   exists context target,
     Host.outcome (Angular.getContext env) = inl context /\
     In (Some target)
        [Angular.Context.buildTarget context; Angular.Context.browserTarget context] /\
     Angular.localesForTarget
       {| Angular.LocaleInputs.getOptionsForTarget := Angular.ContextEnv.getOptionsForTarget env;
          Angular.LocaleInputs.validateLocales := fun _ => None |}
       target (Angular.Context.workspaceProject context)
     = inr (ThrownError "expected a string")).
Proof.
  cbv zeta.
  assert (Host.outcome (Angular.getBuildConfig (AngularSample.contextEnv None) (fun _ => None))
          = inr (ThrownError "expected a string")) as H by (vm_compute; reflexivity).
  split; [exact H |].
  exact (proj1 (config_assertions_unreachable (AngularSample.contextEnv None) (fun _ => None))
               _ H).
Defined.
